(** * The real-time collaboration engine of the retrospective service

    A shallow embedding of the Go back end (packages [vstore] and [api]):
    the in-memory stores, the voting service, the status transitions of the
    retrospective service, the presence operations of the realtime service
    and the event broadcaster, followed by the properties of these
    operations.

    Representation choices:
    - [int32] values are integers of [Z]; arithmetic that can overflow is
      wrapped explicitly with [int32];
    - a Go [map[string]*T] is a [gmap string T]: every slot owns its record,
      and a write through a pointer obtained from a slot is written back to
      that slot;
    - everything the Go runtime leaves open (the wall clock, the iteration
      order of [range] over a map, the order in which the unstable
      [sort.Slice] leaves equal elements) is read from a [GoRuntime], so that
      every statement below holds for every behaviour of the runtime;
    - channels live in a heap of channel states and are identified by their
      allocation index; the operations that panic in Go ([close] of a closed
      channel, send on a closed channel) return [Panic]. *)

From stdpp Require Import gmap strings list fin_maps pretty sorting.

(** ** Machine integers *)

Definition int32 (z : Z) : Z :=
  ((z + 2147483648) `mod` 4294967296 - 2147483648)%Z.

Definition MaxInt32 : Z := 2147483647.

(** ** Package time *)

Module time.
Inductive Time : Type :=
  | Zero
  | At (unixNano : Z).

Definition UnixNano (t : Time) : Z :=
    match t with
    | At n => n
    | Zero => (-6795364578871345152)%Z
    end.
End time.

(** ** Package context *)

Module context.
Inductive Context : Type :=
  | Background
  | WithValue (parent : Context) (key val : string).
End context.

(** ** Package vstore: models.go *)

Module vstore.

Inductive RetrospectiveStatus : Type :=
  | RetrospectiveStatusUnspecified
  | RetrospectiveStatusDraft
  | RetrospectiveStatusActive
  | RetrospectiveStatusVoting
  | RetrospectiveStatusDiscussing
  | RetrospectiveStatusCompleted.


#[global] Instance RetrospectiveStatus_eq_dec : EqDecision RetrospectiveStatus.
Proof. solve_decision. Defined.

Inductive TemplateType : Type :=
  | TemplateTypeUnspecified
  | TemplateTypeWentWellToImprove
  | TemplateTypeStartStopContinue
  | TemplateTypeFourLs
  | TemplateTypeMadSadGlad
  | TemplateTypeCustom.

#[global] Instance TemplateType_eq_dec : EqDecision TemplateType.
Proof. solve_decision. Defined.

Inductive ActionItemStatus : Type :=
  | ActionItemStatusUnspecified
  | ActionItemStatusNotStarted
  | ActionItemStatusInProgress
  | ActionItemStatusDone
  | ActionItemStatusWontDo.

#[global] Instance ActionItemStatus_eq_dec : EqDecision ActionItemStatus.
Proof. solve_decision. Defined.

Inductive ActionItemPriority : Type :=
  | ActionItemPriorityUnspecified
  | ActionItemPriorityLow
  | ActionItemPriorityMedium
  | ActionItemPriorityHigh
  | ActionItemPriorityCritical.

#[global] Instance ActionItemPriority_eq_dec : EqDecision ActionItemPriority.
Proof. solve_decision. Defined.

Inductive ParticipantRole : Type :=
  | ParticipantRoleUnspecified
  | ParticipantRoleMember
  | ParticipantRoleFacilitator
  | ParticipantRoleObserver.

Module TemplateColumn.
Record t : Type := mk {
      ColumnID : string;
      Name : string;
      Description : string;
      Icon : string;
      SortOrder : Z;
      Color : string
    }.
End TemplateColumn.

Module VotingConfig.
Record t : Type := mk {
      MaxVotesPerUser : Z;
      AllowMultipleVotesPerItem : bool;
      AnonymousVoting : bool
    }.
End VotingConfig.

Module Retrospective.
Record t : Type := mk {
      RetrospectiveID : string;
      TeamID : string;
      TeamName : string;
      SprintName : string;
      Description : string;
      TemplateType : vstore.TemplateType;
      TemplateColumns : list TemplateColumn.t;
      Status : RetrospectiveStatus;
      VotingConfig : VotingConfig.t;
      CreatedBy : string;
      FacilitatorID : string;
      ItemCount : Z;
      ActionItemCount : Z;
      ParticipantCount : Z;
      StartedAt : time.Time;
      CompletedAt : time.Time;
      Created : time.Time;
      Updated : time.Time;
      Deleted : time.Time
    }.

Definition withSprintName (n : string) (r : t) : t :=
      mk (RetrospectiveID r) (TeamID r) (TeamName r) n
         (Description r) (TemplateType r) (TemplateColumns r) (Status r)
         (VotingConfig r) (CreatedBy r) (FacilitatorID r) (ItemCount r)
         (ActionItemCount r) (ParticipantCount r) (StartedAt r)
         (CompletedAt r) (Created r) (Updated r) (Deleted r).

Definition withDescription (d : string) (r : t) : t :=
      mk (RetrospectiveID r) (TeamID r) (TeamName r) (SprintName r)
         d (TemplateType r) (TemplateColumns r) (Status r)
         (VotingConfig r) (CreatedBy r) (FacilitatorID r) (ItemCount r)
         (ActionItemCount r) (ParticipantCount r) (StartedAt r)
         (CompletedAt r) (Created r) (Updated r) (Deleted r).

Definition withFacilitatorID (f : string) (r : t) : t :=
      mk (RetrospectiveID r) (TeamID r) (TeamName r) (SprintName r)
         (Description r) (TemplateType r) (TemplateColumns r) (Status r)
         (VotingConfig r) (CreatedBy r) f (ItemCount r)
         (ActionItemCount r) (ParticipantCount r) (StartedAt r)
         (CompletedAt r) (Created r) (Updated r) (Deleted r).

Definition withStatus (s : RetrospectiveStatus) (r : t) : t :=
      mk (RetrospectiveID r) (TeamID r) (TeamName r) (SprintName r)
         (Description r) (TemplateType r) (TemplateColumns r) s
         (VotingConfig r) (CreatedBy r) (FacilitatorID r) (ItemCount r)
         (ActionItemCount r) (ParticipantCount r) (StartedAt r)
         (CompletedAt r) (Created r) (Updated r) (Deleted r).

Definition withParticipantCount (n : Z) (r : t) : t :=
      mk (RetrospectiveID r) (TeamID r) (TeamName r) (SprintName r)
         (Description r) (TemplateType r) (TemplateColumns r) (Status r)
         (VotingConfig r) (CreatedBy r) (FacilitatorID r) (ItemCount r)
         (ActionItemCount r) n (StartedAt r)
         (CompletedAt r) (Created r) (Updated r) (Deleted r).

Definition withCompletedAt (c : time.Time) (r : t) : t :=
      mk (RetrospectiveID r) (TeamID r) (TeamName r) (SprintName r)
         (Description r) (TemplateType r) (TemplateColumns r) (Status r)
         (VotingConfig r) (CreatedBy r) (FacilitatorID r) (ItemCount r)
         (ActionItemCount r) (ParticipantCount r) (StartedAt r)
         c (Created r) (Updated r) (Deleted r).

Definition withItemCount (n : Z) (r : t) : t :=
      mk (RetrospectiveID r) (TeamID r) (TeamName r) (SprintName r)
         (Description r) (TemplateType r) (TemplateColumns r) (Status r)
         (VotingConfig r) (CreatedBy r) (FacilitatorID r) n
         (ActionItemCount r) (ParticipantCount r) (StartedAt r)
         (CompletedAt r) (Created r) (Updated r) (Deleted r).

Definition withActionItemCount (n : Z) (r : t) : t :=
      mk (RetrospectiveID r) (TeamID r) (TeamName r) (SprintName r)
         (Description r) (TemplateType r) (TemplateColumns r) (Status r)
         (VotingConfig r) (CreatedBy r) (FacilitatorID r) (ItemCount r)
         n (ParticipantCount r) (StartedAt r)
         (CompletedAt r) (Created r) (Updated r) (Deleted r).

Definition withCreated (c : time.Time) (r : t) : t :=
      mk (RetrospectiveID r) (TeamID r) (TeamName r) (SprintName r)
         (Description r) (TemplateType r) (TemplateColumns r) (Status r)
         (VotingConfig r) (CreatedBy r) (FacilitatorID r) (ItemCount r)
         (ActionItemCount r) (ParticipantCount r) (StartedAt r)
         (CompletedAt r) c (Updated r) (Deleted r).

Definition withUpdated (u : time.Time) (r : t) : t :=
      mk (RetrospectiveID r) (TeamID r) (TeamName r) (SprintName r)
         (Description r) (TemplateType r) (TemplateColumns r) (Status r)
         (VotingConfig r) (CreatedBy r) (FacilitatorID r) (ItemCount r)
         (ActionItemCount r) (ParticipantCount r) (StartedAt r)
         (CompletedAt r) (Created r) u (Deleted r).
End Retrospective.

Module RetrospectiveItem.
Record t : Type := mk {
      ItemID : string;
      RetrospectiveID : string;
      ColumnID : string;
      Content : string;
      CreatedBy : string;
      CreatedByName : string;
      VoteCount : Z;
      IsAnonymous : bool;
      Position : Z;
      HasActionItem : bool;
      Created : time.Time;
      Updated : time.Time;
      Deleted : time.Time
    }.

Definition withVoteCount (n : Z) (i : t) : t :=
      mk (ItemID i) (RetrospectiveID i) (ColumnID i) (Content i)
         (CreatedBy i) (CreatedByName i) n (IsAnonymous i) (Position i)
         (HasActionItem i) (Created i) (Updated i) (Deleted i).

Definition withColumnID (c : string) (i : t) : t :=
      mk (ItemID i) (RetrospectiveID i) c (Content i)
         (CreatedBy i) (CreatedByName i) (VoteCount i) (IsAnonymous i)
         (Position i) (HasActionItem i) (Created i) (Updated i) (Deleted i).

Definition withContent (c : string) (i : t) : t :=
      mk (ItemID i) (RetrospectiveID i) (ColumnID i) c
         (CreatedBy i) (CreatedByName i) (VoteCount i) (IsAnonymous i)
         (Position i) (HasActionItem i) (Created i) (Updated i) (Deleted i).

Definition withPosition (p : Z) (i : t) : t :=
      mk (ItemID i) (RetrospectiveID i) (ColumnID i) (Content i)
         (CreatedBy i) (CreatedByName i) (VoteCount i) (IsAnonymous i)
         p (HasActionItem i) (Created i) (Updated i) (Deleted i).

Definition withCreated (c : time.Time) (i : t) : t :=
      mk (ItemID i) (RetrospectiveID i) (ColumnID i) (Content i)
         (CreatedBy i) (CreatedByName i) (VoteCount i) (IsAnonymous i)
         (Position i) (HasActionItem i) c (Updated i) (Deleted i).

Definition withUpdated (u : time.Time) (i : t) : t :=
      mk (ItemID i) (RetrospectiveID i) (ColumnID i) (Content i)
         (CreatedBy i) (CreatedByName i) (VoteCount i) (IsAnonymous i)
         (Position i) (HasActionItem i) (Created i) u (Deleted i).
End RetrospectiveItem.

Module Vote.
Record t : Type := mk {
      VoteID : string;
      RetrospectiveID : string;
      ItemID : string;
      UserID : string;
      Created : time.Time
    }.

Definition withCreated (c : time.Time) (v : t) : t :=
      mk (VoteID v) (RetrospectiveID v) (ItemID v) (UserID v) c.
End Vote.

Module Participant.
Record t : Type := mk {
      ParticipantID : string;
      RetrospectiveID : string;
      UserID : string;
      DisplayName : string;
      AvatarURL : string;
      Role : ParticipantRole;
      IsOnline : bool;
      JoinedAt : time.Time;
      LastActive : time.Time
    }.

Definition withIsOnline (b : bool) (p : t) : t :=
      mk (ParticipantID p) (RetrospectiveID p) (UserID p) (DisplayName p)
         (AvatarURL p) (Role p) b (JoinedAt p) (LastActive p).

Definition withJoinedAt (j : time.Time) (p : t) : t :=
      mk (ParticipantID p) (RetrospectiveID p) (UserID p) (DisplayName p)
         (AvatarURL p) (Role p) (IsOnline p) j (LastActive p).

Definition withLastActive (a : time.Time) (p : t) : t :=
      mk (ParticipantID p) (RetrospectiveID p) (UserID p) (DisplayName p)
         (AvatarURL p) (Role p) (IsOnline p) (JoinedAt p) a.
End Participant.

Module ActionItem.
Record t : Type := mk {
      ActionItemID : string;
      RetrospectiveID : string;
      SourceItemID : string;
      TeamID : string;
      Description : string;
      AssigneeID : string;
      AssigneeName : string;
      Status : ActionItemStatus;
      Priority : ActionItemPriority;
      DueDate : time.Time;
      CreatedBy : string;
      SourceSprintName : string;
      Notes : string;
      Created : time.Time;
      Updated : time.Time;
      Deleted : time.Time
    }.

Definition withDescription (d : string) (a : t) : t :=
      mk (ActionItemID a) (RetrospectiveID a) (SourceItemID a) (TeamID a) d
         (AssigneeID a) (AssigneeName a) (Status a) (Priority a) (DueDate a)
         (CreatedBy a) (SourceSprintName a) (Notes a) (Created a) (Updated a) (Deleted a).

Definition withAssignee (id name : string) (a : t) : t :=
      mk (ActionItemID a) (RetrospectiveID a) (SourceItemID a) (TeamID a) (Description a)
         id name (Status a) (Priority a) (DueDate a)
         (CreatedBy a) (SourceSprintName a) (Notes a) (Created a) (Updated a) (Deleted a).

Definition withStatus (s : ActionItemStatus) (a : t) : t :=
      mk (ActionItemID a) (RetrospectiveID a) (SourceItemID a) (TeamID a) (Description a)
         (AssigneeID a) (AssigneeName a) s (Priority a) (DueDate a)
         (CreatedBy a) (SourceSprintName a) (Notes a) (Created a) (Updated a) (Deleted a).

Definition withPriority (p : ActionItemPriority) (a : t) : t :=
      mk (ActionItemID a) (RetrospectiveID a) (SourceItemID a) (TeamID a) (Description a)
         (AssigneeID a) (AssigneeName a) (Status a) p (DueDate a)
         (CreatedBy a) (SourceSprintName a) (Notes a) (Created a) (Updated a) (Deleted a).

Definition withDueDate (d : time.Time) (a : t) : t :=
      mk (ActionItemID a) (RetrospectiveID a) (SourceItemID a) (TeamID a) (Description a)
         (AssigneeID a) (AssigneeName a) (Status a) (Priority a) d
         (CreatedBy a) (SourceSprintName a) (Notes a) (Created a) (Updated a) (Deleted a).

Definition withSourceSprintName (n : string) (a : t) : t :=
      mk (ActionItemID a) (RetrospectiveID a) (SourceItemID a) (TeamID a) (Description a)
         (AssigneeID a) (AssigneeName a) (Status a) (Priority a) (DueDate a)
         (CreatedBy a) n (Notes a) (Created a) (Updated a) (Deleted a).

Definition withNotes (n : string) (a : t) : t :=
      mk (ActionItemID a) (RetrospectiveID a) (SourceItemID a) (TeamID a) (Description a)
         (AssigneeID a) (AssigneeName a) (Status a) (Priority a) (DueDate a)
         (CreatedBy a) (SourceSprintName a) n (Created a) (Updated a) (Deleted a).

Definition withCreated (c : time.Time) (a : t) : t :=
      mk (ActionItemID a) (RetrospectiveID a) (SourceItemID a) (TeamID a) (Description a)
         (AssigneeID a) (AssigneeName a) (Status a) (Priority a) (DueDate a)
         (CreatedBy a) (SourceSprintName a) (Notes a) c (Updated a) (Deleted a).

Definition withUpdated (u : time.Time) (a : t) : t :=
      mk (ActionItemID a) (RetrospectiveID a) (SourceItemID a) (TeamID a) (Description a)
         (AssigneeID a) (AssigneeName a) (Status a) (Priority a) (DueDate a)
         (CreatedBy a) (SourceSprintName a) (Notes a) (Created a) u (Deleted a).
End ActionItem.

End vstore.

(** ** Package pb: the generated protocol messages

    The generated package is a dependency of the repository; the messages
    are plain records whose fields are the ones the services read and
    write.  The enumerations of [pb] have the numeric values of the ones
    of [vstore], so the casts between them are the identity. *)

Module pb.

Module Participant.
Record t : Type := mk {
      UserId : string;
      DisplayName : string;
      AvatarUrl : string;
      JoinedAt : time.Time;
      Role : vstore.ParticipantRole;
      LastActive : time.Time;
      IsOnline : bool
    }.
End Participant.

Module PresenceInfo.
Record t : Type := mk {
      ParticipantCount : Z;
      Participants : list Participant.t
    }.
End PresenceInfo.

  (** The payloads of [RetrospectiveEvent] for which the back end has a
      constructor site. *)
Inductive Event : Type :=
  | ItemDeleted (ItemId ColumnId : string)
  | VoteCast (ItemId : string) (NewVoteCount : Z) (UserId : string)
  | ParticipantJoined (Participant : Participant.t) (ParticipantCount : Z)
  | ParticipantLeft (UserId : string) (ParticipantCount : Z)
  | StatusChanged (PreviousStatus NewStatus : vstore.RetrospectiveStatus)
                  (ChangedBy : string).

Module RetrospectiveEvent.
Record t : Type := mk {
      RetrospectiveId : string;
      Timestamp : time.Time;
      Event : pb.Event
    }.
End RetrospectiveEvent.

Module CastVoteRequest.
Record t : Type := mk { RetrospectiveId : string; ItemId : string }.
End CastVoteRequest.

Module RemoveVoteRequest.
Record t : Type := mk { RetrospectiveId : string; ItemId : string }.
End RemoveVoteRequest.

Module GetVoteSummaryRequest.
Record t : Type := mk { RetrospectiveId : string }.
End GetVoteSummaryRequest.

Module VoteSummary.
Record t : Type := mk {
      ItemId : string;
      VoteCount : Z;
      Rank : Z;
      CurrentUserVoted : bool
    }.
End VoteSummary.

Module GetVoteSummaryResponse.
Record t : Type := mk {
      Summaries : list VoteSummary.t;
      TotalVotes : Z
    }.
End GetVoteSummaryResponse.

Module GetUserVotesRequest.
Record t : Type := mk { RetrospectiveId : string; UserId : string }.
End GetUserVotesRequest.

Module UserVoteSummary.
Record t : Type := mk {
      UserId : string;
      VotesCast : Z;
      VotesRemaining : Z;
      VotedItemIds : list string
    }.
End UserVoteSummary.

Module GetUserVotesResponse.
Record t : Type := mk { Summary : UserVoteSummary.t }.
End GetUserVotesResponse.

Module Retrospective.
Record t : Type := mk {
      RetrospectiveId : string;
      SprintName : string;
      Description : string;
      Status : vstore.RetrospectiveStatus;
      FacilitatorId : string
    }.
End Retrospective.

Module UpdateRetrospectiveRequest.
Record t : Type := mk { Retrospective : option pb.Retrospective.t }.
End UpdateRetrospectiveRequest.

Module StartVotingRequest.
Record t : Type := mk { RetrospectiveId : string }.
End StartVotingRequest.

Module StartDiscussionRequest.
Record t : Type := mk { RetrospectiveId : string }.
End StartDiscussionRequest.

Module CompleteRetrospectiveRequest.
Record t : Type := mk { RetrospectiveId : string }.
End CompleteRetrospectiveRequest.

Module JoinRetrospectiveRequest.
Record t : Type := mk {
      RetrospectiveId : string;
      DisplayName : string;
      AvatarUrl : string
    }.
End JoinRetrospectiveRequest.

Module JoinRetrospectiveResponse.
Record t : Type := mk {
      Presence : PresenceInfo.t;
      CurrentParticipant : Participant.t
    }.
End JoinRetrospectiveResponse.

Module LeaveRetrospectiveRequest.
Record t : Type := mk { RetrospectiveId : string }.
End LeaveRetrospectiveRequest.

Module HeartbeatRequest.
Record t : Type := mk { RetrospectiveId : string }.
End HeartbeatRequest.

Module TemplateColumn.
Record t : Type := mk {
      ColumnId : string;
      Name : string;
      Description : string;
      Icon : string;
      SortOrder : Z;
      Color : string
    }.
End TemplateColumn.

Module RetrospectiveTemplate.
Record t : Type := mk {
      Type_ : vstore.TemplateType;
      Columns : list TemplateColumn.t
    }.
End RetrospectiveTemplate.

Module VotingConfig.
Record t : Type := mk {
      MaxVotesPerUser : Z;
      AllowMultipleVotesPerItem : bool;
      AnonymousVoting : bool
    }.
End VotingConfig.

Module CreateRetrospectiveRequest.
Record t : Type := mk {
      TeamId : string;
      SprintName : string;
      Description : string;
      TemplateType : vstore.TemplateType;
      CustomTemplate : option RetrospectiveTemplate.t;
      VotingConfig : option pb.VotingConfig.t;
      FacilitatorId : string
    }.
End CreateRetrospectiveRequest.

Module CreateRetrospectiveResponse.
Record t : Type := mk {
      RetrospectiveId : string;
      Retrospective : pb.Retrospective.t
    }.
End CreateRetrospectiveResponse.

Module DeleteRetrospectiveRequest.
Record t : Type := mk { RetrospectiveId : string }.
End DeleteRetrospectiveRequest.

Module GetMultiRetrospectivesRequest.
Record t : Type := mk { RetrospectiveIds : list string }.
End GetMultiRetrospectivesRequest.

  (** A [RetrospectiveContainer] holds a retrospective or nothing. *)
Module GetMultiRetrospectivesResponse.
Record t : Type := mk { Retrospectives : list (option pb.Retrospective.t) }.
End GetMultiRetrospectivesResponse.

Module ListRetrospectivesFilters.
Record t : Type := mk {
      TeamId : string;
      Statuses : list vstore.RetrospectiveStatus
    }.
End ListRetrospectivesFilters.

Module PagingOptions.
Record t : Type := mk {
      Cursor : string;
      PageSize : Z
    }.
End PagingOptions.

Module ListRetrospectivesRequest.
Record t : Type := mk {
      Filters : option ListRetrospectivesFilters.t;
      PagingOptions : option pb.PagingOptions.t
    }.
End ListRetrospectivesRequest.

Module PagingMetadata.
Record t : Type := mk {
      NextCursor : string;
      HasMore : bool
    }.
End PagingMetadata.

Module ListRetrospectivesResponse.
Record t : Type := mk {
      Retrospectives : list pb.Retrospective.t;
      PagingMetadata : pb.PagingMetadata.t
    }.
End ListRetrospectivesResponse.

Module RetrospectiveItem.
Record t : Type := mk {
      ItemId : string;
      RetrospectiveId : string;
      ColumnId : string;
      Content : string;
      CreatedBy : string;
      CreatedByName : string;
      VoteCount : Z;
      Created : time.Time;
      Updated : time.Time;
      IsAnonymous : bool;
      Position : Z;
      HasActionItem : bool
    }.
End RetrospectiveItem.

Module CreateItemRequest.
Record t : Type := mk {
      RetrospectiveId : string;
      ColumnId : string;
      Content : string;
      IsAnonymous : bool
    }.
End CreateItemRequest.

Module CreateItemResponse.
Record t : Type := mk { Item : RetrospectiveItem.t }.
End CreateItemResponse.

Module UpdateItemRequest.
Record t : Type := mk { Item : option RetrospectiveItem.t }.
End UpdateItemRequest.

Module DeleteItemRequest.
Record t : Type := mk {
      ItemId : string;
      RetrospectiveId : string
    }.
End DeleteItemRequest.

Module ListItemsRequest.
Record t : Type := mk {
      RetrospectiveId : string;
      ColumnId : string;
      SortByVotes : bool
    }.
End ListItemsRequest.

Module ListItemsResponse.
Record t : Type := mk { Items : list RetrospectiveItem.t }.
End ListItemsResponse.

Module MoveItemToColumnRequest.
Record t : Type := mk {
      ItemId : string;
      RetrospectiveId : string;
      TargetColumnId : string;
      Position : Z
    }.
End MoveItemToColumnRequest.

Module GetParticipantsRequest.
Record t : Type := mk { RetrospectiveId : string }.
End GetParticipantsRequest.

Module GetParticipantsResponse.
Record t : Type := mk { Presence : PresenceInfo.t }.
End GetParticipantsResponse.

Module GetDefaultTemplateRequest.
Record t : Type := mk { Type_ : vstore.TemplateType }.
End GetDefaultTemplateRequest.

Module GetDefaultTemplateResponse.
Record t : Type := mk { Template : RetrospectiveTemplate.t }.
End GetDefaultTemplateResponse.

Module ActionItem.
Record t : Type := mk {
      ActionItemId : string;
      RetrospectiveId : string;
      SourceItemId : string;
      TeamId : string;
      Description : string;
      AssigneeId : string;
      AssigneeName : string;
      Status : vstore.ActionItemStatus;
      Priority : vstore.ActionItemPriority;
      DueDate : option time.Time;
      Created : time.Time;
      Updated : time.Time;
      CreatedBy : string;
      SourceSprintName : string;
      Notes : string
    }.
End ActionItem.

Module CreateActionItemRequest.
Record t : Type := mk {
      RetrospectiveId : string;
      SourceItemId : string;
      TeamId : string;
      Description : string;
      AssigneeId : string;
      Priority : vstore.ActionItemPriority;
      DueDate : option time.Time
    }.
End CreateActionItemRequest.

Module CreateActionItemResponse.
Record t : Type := mk { ActionItem : pb.ActionItem.t }.
End CreateActionItemResponse.

Module UpdateActionItemRequest.
Record t : Type := mk { ActionItem : option pb.ActionItem.t }.
End UpdateActionItemRequest.

Module UpdateActionItemStatusRequest.
Record t : Type := mk {
      ActionItemId : string;
      Status : vstore.ActionItemStatus;
      Notes : string
    }.
End UpdateActionItemStatusRequest.

Module DeleteActionItemRequest.
Record t : Type := mk { ActionItemId : string }.
End DeleteActionItemRequest.

Module ListActionItemsFilters.
Record t : Type := mk {
      RetrospectiveId : string;
      TeamId : string;
      AssigneeId : string;
      Statuses : list vstore.ActionItemStatus;
      Priorities : list vstore.ActionItemPriority
    }.
End ListActionItemsFilters.

Module ListActionItemsRequest.
Record t : Type := mk { Filters : option ListActionItemsFilters.t }.
End ListActionItemsRequest.

Module ListActionItemsResponse_PagingMetadata.
Record t : Type := mk { HasMore : bool }.
End ListActionItemsResponse_PagingMetadata.

Module ListActionItemsResponse.
Record t : Type := mk {
      ActionItems : list pb.ActionItem.t;
      PagingMetadata : ListActionItemsResponse_PagingMetadata.t
    }.
End ListActionItemsResponse.

Module ListActionItemsByTeamRequest.
Record t : Type := mk {
      TeamId : string;
      IncludeCompleted : bool
    }.
End ListActionItemsByTeamRequest.

Module GetRetrospectiveRequest.
Record t : Type := mk {
      RetrospectiveId : string;
      IncludeItems : bool;
      IncludeActionItems : bool
    }.
End GetRetrospectiveRequest.

Module RetrospectiveWithDetails.
Record t : Type := mk {
      Retrospective : pb.Retrospective.t;
      Items : list pb.RetrospectiveItem.t;
      ActionItems : list pb.ActionItem.t
    }.
End RetrospectiveWithDetails.

Module GetRetrospectiveResponse.
Record t : Type := mk { Retrospective : RetrospectiveWithDetails.t }.
End GetRetrospectiveResponse.

End pb.


(** ** errors.go: sentinel errors and their translation to gRPC statuses *)

Inductive Sentinel : Type :=
| ErrNotFound
| ErrAlreadyExists
| ErrInvalidArgument
| ErrPermissionDenied
| ErrVoteLimitExceeded
| ErrInvalidStatus.

#[global] Instance Sentinel_eq_dec : EqDecision Sentinel.
Proof. solve_decision. Defined.

Module codes.
Inductive Code : Type :=
| NotFound
| AlreadyExists
| InvalidArgument
| PermissionDenied
| FailedPrecondition
| Internal.

Definition String (c : Code) : string :=
  match c with
  | NotFound => "NotFound"
  | AlreadyExists => "AlreadyExists"
  | InvalidArgument => "InvalidArgument"
  | PermissionDenied => "PermissionDenied"
  | FailedPrecondition => "FailedPrecondition"
  | Internal => "Internal"
  end.
End codes.

(** A Go [error] value: one of the sentinels, a sentinel wrapped by
    [fmt.Errorf("%w: detail", sentinel)], or a gRPC status error. *)
Inductive error : Type :=
| errSentinel (s : Sentinel)
| errWrap (s : Sentinel) (detail : string)
| errStatus (c : codes.Code) (msg : string).

Definition Sentinel_text (s : Sentinel) : string :=
  match s with
  | ErrNotFound => "not found"
  | ErrAlreadyExists => "already exists"
  | ErrInvalidArgument => "invalid argument"
  | ErrPermissionDenied => "permission denied"
  | ErrVoteLimitExceeded => "vote limit exceeded"
  | ErrInvalidStatus => "invalid status transition"
  end.

(** [err.Error()] *)
Definition error_Error (e : error) : string :=
  match e with
  | errSentinel s => Sentinel_text s
  | errWrap s detail => Sentinel_text s +:+ ": " +:+ detail
  | errStatus c msg =>
      "rpc error: code = " +:+ codes.String c +:+ " desc = " +:+ msg
  end.

(** [errors.Is(err, target)] for a sentinel target *)
Definition errors_Is (e : error) (target : Sentinel) : bool :=
  match e with
  | errSentinel s | errWrap s _ => bool_decide (s = target)
  | errStatus _ _ => false
  end.

Definition ToGRPCError (err : error) : error :=
  if errors_Is err ErrNotFound then
    errStatus codes.NotFound (error_Error err)
  else if errors_Is err ErrAlreadyExists then
    errStatus codes.AlreadyExists (error_Error err)
  else if errors_Is err ErrInvalidArgument then
    errStatus codes.InvalidArgument (error_Error err)
  else if errors_Is err ErrPermissionDenied then
    errStatus codes.PermissionDenied (error_Error err)
  else if errors_Is err ErrVoteLimitExceeded then
    errStatus codes.FailedPrecondition (error_Error err)
  else if errors_Is err ErrInvalidStatus then
    errStatus codes.FailedPrecondition (error_Error err)
  else
    errStatus codes.Internal (error_Error err).

(** ** The Go runtime

    [wallClock n] is the [UnixNano] of the [n]-th reading of [time.Now];
    [rangeOrder n m] is the order in which the [n]-th [range] loop over a
    map visits the map [m]; [sortSlice less l] is the result of
    [sort.Slice] on [l].  The laws are the ones Go documents: a [range]
    visits every entry once, and [sort.Slice] permutes its argument into an
    order in which no element is [less] than one before it (for a
    comparison that is a strict weak order). *)

Definition notBefore {A : Type} (less : A → A → bool) : relation A :=
  λ a b, less b a = false.

#[global] Instance notBefore_dec {A : Type} (less : A → A → bool) (a b : A) :
  Decision (notBefore less a b).
Proof. unfold notBefore. apply _. Defined.

Class GoRuntime : Type := {
  wallClock : nat → Z;
  rangeOrder : ∀ V : Type, nat → gmap string V → list (string * V);
  rangeOrder_perm : ∀ (V : Type) (n : nat) (m : gmap string V),
    rangeOrder V n m ≡ₚ map_to_list m;
  sortSlice : ∀ A : Type, (A → A → bool) → list A → list A;
  sortSlice_perm : ∀ (A : Type) (less : A → A → bool) (l : list A),
    sortSlice A less l ≡ₚ l;
  sortSlice_sorted : ∀ (A : Type) (less : A → A → bool) (l : list A),
    (∀ a b, less a b = true → less b a = false) →
    (∀ a b c, less b a = false → less c b = false → less c a = false) →
    StronglySorted (notBefore less) (sortSlice A less l)
}.

Arguments rangeOrder {_ _} _ _.
Arguments sortSlice {_ _} _ _.

(** A runtime for running the model: the clock advances by one nanosecond
    per reading, maps are visited in key order of the representation and
    slices are sorted by a stable merge sort. *)
Program Definition simRuntime (epoch : Z) : GoRuntime := {|
  wallClock n := (epoch + Z.of_nat n)%Z;
  rangeOrder V n m := map_to_list m;
  sortSlice A less l := merge_sort (notBefore less) l
|}.
Next Obligation. reflexivity. Qed.
Next Obligation. intros. apply merge_sort_Permutation. Qed.
Next Obligation.
  intros _ A less l Hasym Htrans.
  apply StronglySorted_merge_sort.
  - intros a b c Hab Hbc. unfold notBefore in *. eapply Htrans; eassumption.
  - intros a b. unfold notBefore.
    destruct (less b a) eqn:E; [right; by apply Hasym | by left].
Qed.

(** ** The process state *)

(** A buffered channel of events. *)
Record Chan : Type := mkChan {
  chanBuf : list pb.RetrospectiveEvent.t;
  chanCap : nat;
  chanClosed : bool
}.

Record World : Type := mkWorld {
  (** [InMemoryRetrospectiveStore.retros] *)
  retros : gmap string vstore.Retrospective.t;
  (** [InMemoryItemStore.items] *)
  items : gmap string vstore.RetrospectiveItem.t;
  (** [InMemoryVoteStore.votes] *)
  votes : gmap string vstore.Vote.t;
  (** [InMemoryParticipantStore.participants] *)
  participants : gmap string vstore.Participant.t;
  (** [broadcaster.subscribers] *)
  subscribers : gmap string (list nat);
  (** the channels allocated so far, by allocation index *)
  channels : list Chan;
  (** the number of readings of the wall clock so far *)
  clockReads : nat;
  (** the number of [range] loops over maps so far *)
  mapRanges : nat
}.

Definition setRetros (x : gmap string vstore.Retrospective.t) (w : World) : World :=
  mkWorld x (items w) (votes w) (participants w) (subscribers w)
          (channels w) (clockReads w) (mapRanges w).

Definition setItems (x : gmap string vstore.RetrospectiveItem.t) (w : World) : World :=
  mkWorld (retros w) x (votes w) (participants w) (subscribers w)
          (channels w) (clockReads w) (mapRanges w).

Definition setVotes (x : gmap string vstore.Vote.t) (w : World) : World :=
  mkWorld (retros w) (items w) x (participants w) (subscribers w)
          (channels w) (clockReads w) (mapRanges w).

Definition setParticipants (x : gmap string vstore.Participant.t) (w : World) : World :=
  mkWorld (retros w) (items w) (votes w) x (subscribers w)
          (channels w) (clockReads w) (mapRanges w).

Definition setSubscribers (x : gmap string (list nat)) (w : World) : World :=
  mkWorld (retros w) (items w) (votes w) (participants w) x
          (channels w) (clockReads w) (mapRanges w).

Definition setChannels (x : list Chan) (w : World) : World :=
  mkWorld (retros w) (items w) (votes w) (participants w) (subscribers w)
          x (clockReads w) (mapRanges w).

Definition setClockReads (x : nat) (w : World) : World :=
  mkWorld (retros w) (items w) (votes w) (participants w) (subscribers w)
          (channels w) x (mapRanges w).

Definition setMapRanges (x : nat) (w : World) : World :=
  mkWorld (retros w) (items w) (votes w) (participants w) (subscribers w)
          (channels w) (clockReads w) x.

(** The state of a freshly started server: [NewInMemory...Store] for every
    store and [NewEventBroadcaster]. *)
Definition newWorld : World :=
  mkWorld ∅ ∅ ∅ ∅ ∅ [] 0 0.

(** ** The monad of the operations: state, Go errors and panics *)

Inductive result (A : Type) : Type :=
| Ok (a : A)
| Err (e : error)
| Panic (msg : string).

Arguments Ok {_} _.
Arguments Err {_} _.
Arguments Panic {_} _.

Definition M (A : Type) : Type := World → result A * World.

#[global] Instance M_ret : MRet M := λ A a w, (Ok a, w).

#[global] Instance M_bind : MBind M := λ A B f m w,
  match m w with
  | (Ok a, w') => f a w'
  | (Err e, w') => (Err e, w')
  | (Panic msg, w') => (Panic msg, w')
  end.

(** [return nil, err] *)
Definition failWith {A : Type} (e : error) : M A := λ w, (Err e, w).

Definition panic {A : Type} (msg : string) : M A := λ w, (Panic msg, w).

(** [if err := call(); err != nil { handler }] *)
Definition catch {A : Type} (m : M A) (handler : error → M A) : M A := λ w,
  match m w with
  | (Err e, w') => handler e w'
  | r => r
  end.

(** [if err != nil { return nil, f(err) }] around a call *)
Definition onErr {A : Type} (f : error → error) (m : M A) : M A := λ w,
  match m w with
  | (Err e, w') => (Err (f e), w')
  | r => r
  end.

(** a call whose error is discarded: [x, _ := call()] *)
Definition ignoreErr {A : Type} (m : M A) : M (option A) := λ w,
  match m w with
  | (Ok a, w') => (Ok (Some a), w')
  | (Err _, w') => (Ok None, w')
  | (Panic msg, w') => (Panic msg, w')
  end.

Definition gets {A : Type} (f : World → A) : M A := λ w, (Ok (f w), w).

Definition modify (f : World → World) : M unit := λ w, (Ok (), f w).

Section Runtime.
Context {RT : GoRuntime}.

(** [time.Now()] *)
Definition time_Now : M time.Time := λ w,
  (Ok (time.At (wallClock (clockReads w))), setClockReads (S (clockReads w)) w).

(** the entries of a map in the order a [range] loop visits them *)
Definition rangeMap {V : Type} (sel : World → gmap string V) : M (list (string * V)) := λ w,
  (Ok (rangeOrder (mapRanges w) (sel w)), setMapRanges (S (mapRanges w)) w).

End Runtime.

(** ** The process state with the action item store

    The action item service and [RetrospectiveService.Get] work on the
    stores of [World] and on one more store, the action items. *)

Record Server : Type := mkServer {
  world : World;
  (** [InMemoryActionItemStore.actionItems] *)
  actionItems : gmap string vstore.ActionItem.t
}.

Definition setWorld (x : World) (s : Server) : Server := mkServer x (actionItems s).

Definition setActionItems (x : gmap string vstore.ActionItem.t) (s : Server) : Server :=
  mkServer (world s) x.

(** [NewInMemoryActionItemStore] beside the other fresh stores *)
Definition newServer : Server := mkServer newWorld ∅.

Definition MS (A : Type) : Type := Server → result A * Server.

#[global] Instance MS_ret : MRet MS := λ A a s, (Ok a, s).

#[global] Instance MS_bind : MBind MS := λ A B f m s,
  match m s with
  | (Ok a, s') => f a s'
  | (Err e, s') => (Err e, s')
  | (Panic msg, s') => (Panic msg, s')
  end.

(** an operation on the other stores *)
Definition inWorld {A : Type} (m : M A) : MS A := λ s,
  ((m (world s)).1, setWorld (m (world s)).2 s).

Definition failWithS {A : Type} (e : error) : MS A := λ s, (Err e, s).

Definition onErrS {A : Type} (f : error → error) (m : MS A) : MS A := λ s,
  match m s with
  | (Err e, s') => (Err (f e), s')
  | r => r
  end.

Definition ignoreErrS {A : Type} (m : MS A) : MS (option A) := λ s,
  match m s with
  | (Ok a, s') => (Ok (Some a), s')
  | (Err _, s') => (Ok None, s')
  | (Panic msg, s') => (Panic msg, s')
  end.

Definition modifyActionItems
    (f : gmap string vstore.ActionItem.t → gmap string vstore.ActionItem.t) : MS unit :=
  λ s, (Ok (), setActionItems (f (actionItems s)) s).

(** the action items in the order a [range] loop visits them *)
Definition rangeActionItems `{!GoRuntime} : MS (list (string * vstore.ActionItem.t)) := λ s,
  (Ok (rangeOrder (mapRanges (world s)) (actionItems s)),
   setWorld (setMapRanges (S (mapRanges (world s))) (world s)) s).

(** ** item_service.go (second part): the in-memory stores *)

Module InMemoryRetrospectiveStore.

Definition Create `{!GoRuntime} (retro : vstore.Retrospective.t) : M unit :=
  created ← time_Now;
  updated ← time_Now;
  let retro := vstore.Retrospective.withUpdated updated
                 (vstore.Retrospective.withCreated created retro) in
  modify (λ w, setRetros (<[vstore.Retrospective.RetrospectiveID retro := retro]> (retros w)) w).

Definition Get (id : string) : M vstore.Retrospective.t := λ w,
  match retros w !! id with
  | Some retro => (Ok retro, w)
  | None => (Err (errSentinel ErrNotFound), w)
  end.

Definition Update `{!GoRuntime} (retro : vstore.Retrospective.t) : M unit :=
  updated ← time_Now;
  let retro := vstore.Retrospective.withUpdated updated retro in
  modify (λ w, setRetros (<[vstore.Retrospective.RetrospectiveID retro := retro]> (retros w)) w).

Definition Delete (id : string) : M unit :=
  modify (λ w, setRetros (delete id (retros w)) w).

(** the loop of [List] keeps a retrospective that passes both filters *)
Definition listed (teamID : string) (statuses : list vstore.RetrospectiveStatus)
    (retro : vstore.Retrospective.t) : Prop :=
  (teamID = "" ∨ vstore.Retrospective.TeamID retro = teamID) ∧
  (statuses = [] ∨ vstore.Retrospective.Status retro ∈ statuses).

#[global] Instance listed_dec teamID statuses retro :
  Decision (listed teamID statuses retro).
Proof. unfold listed. apply _. Defined.

(** [List] returns the page, the next cursor and [hasMore] *)
Definition List `{!GoRuntime} (teamID : string)
    (statuses : list vstore.RetrospectiveStatus) (cursor : string) (pageSize : Z)
  : M (list vstore.Retrospective.t * string * bool) :=
  entries ← rangeMap retros;
  let results := filter (listed teamID statuses) (entries.*2) in
  let pageSize := if bool_decide (pageSize ≤ 0)%Z then 20%Z else pageSize in
  let hasMore := bool_decide (pageSize < Z.of_nat (length results))%Z in
  let results := if hasMore then take (Z.to_nat pageSize) results else results in
  mret (results, "", hasMore).

(** A field assignment through the pointer that [Get id] returned: the
    store holds the same pointer, so the slot [id] sees the write. *)
Definition assign (id : string) (retro : vstore.Retrospective.t) : M unit :=
  modify (λ w, setRetros (<[id := retro]> (retros w)) w).

End InMemoryRetrospectiveStore.

Module InMemoryItemStore.

Definition Get (id : string) : M vstore.RetrospectiveItem.t := λ w,
  match items w !! id with
  | Some item => (Ok item, w)
  | None => (Err (errSentinel ErrNotFound), w)
  end.

Definition Create `{!GoRuntime} (item : vstore.RetrospectiveItem.t) : M unit :=
  created ← time_Now;
  updated ← time_Now;
  let item := vstore.RetrospectiveItem.withUpdated updated
                (vstore.RetrospectiveItem.withCreated created item) in
  modify (λ w, setItems (<[vstore.RetrospectiveItem.ItemID item := item]> (items w)) w).

Definition Update `{!GoRuntime} (item : vstore.RetrospectiveItem.t) : M unit :=
  updated ← time_Now;
  let item := vstore.RetrospectiveItem.withUpdated updated item in
  modify (λ w, setItems (<[vstore.RetrospectiveItem.ItemID item := item]> (items w)) w).

(** A field assignment through the pointer that [Get id] returned. *)
Definition assign (id : string) (item : vstore.RetrospectiveItem.t) : M unit :=
  modify (λ w, setItems (<[id := item]> (items w)) w).

Definition Delete (id : string) : M unit :=
  modify (λ w, setItems (delete id (items w)) w).

(** the inner loop of the bubble sort: [k] adjacent compare-and-swap steps
    from the front of the slice *)
Fixpoint bubbleInner (k : nat) (results : list vstore.RetrospectiveItem.t)
  : list vstore.RetrospectiveItem.t :=
  match k, results with
  | S k', a :: b :: rest =>
      if (vstore.RetrospectiveItem.VoteCount a <? vstore.RetrospectiveItem.VoteCount b)%Z
      then b :: bubbleInner k' (a :: rest)
      else a :: bubbleInner k' (b :: rest)
  | _, _ => results
  end.

(** the outer loop: [for i := 0; i < len(results)-1; i++], with [passes]
    iterations left *)
Fixpoint bubbleOuter (passes i : nat) (results : list vstore.RetrospectiveItem.t)
  : list vstore.RetrospectiveItem.t :=
  match passes with
  | 0 => results
  | S passes' =>
      bubbleOuter passes' (S i) (bubbleInner (length results - i - 1) results)
  end.

Definition ListByRetrospective `{!GoRuntime}
    (retroID columnID : string) (sortByVotes : bool)
  : M (list vstore.RetrospectiveItem.t) :=
  entries ← rangeMap items;
  let results :=
    filter (λ item,
              vstore.RetrospectiveItem.RetrospectiveID item = retroID ∧
              (columnID = "" ∨ vstore.RetrospectiveItem.ColumnID item = columnID))
           (entries.*2) in
  mret (if sortByVotes
        then bubbleOuter (length results - 1) 0 results
        else results).

Definition IncrementVoteCount `{!GoRuntime} (itemID : string) : M unit := λ w,
  match items w !! itemID with
  | Some item =>
      (updated ← time_Now;
       let item := vstore.RetrospectiveItem.withUpdated updated
         (vstore.RetrospectiveItem.withVoteCount
            (int32 (vstore.RetrospectiveItem.VoteCount item + 1)) item) in
       modify (λ w, setItems (<[itemID := item]> (items w)) w)) w
  | None => (Err (errSentinel ErrNotFound), w)
  end.

Definition DecrementVoteCount `{!GoRuntime} (itemID : string) : M unit := λ w,
  match items w !! itemID with
  | Some item =>
      (let item :=
         if (0 <? vstore.RetrospectiveItem.VoteCount item)%Z
         then vstore.RetrospectiveItem.withVoteCount
                (int32 (vstore.RetrospectiveItem.VoteCount item - 1)) item
         else item in
       updated ← time_Now;
       let item := vstore.RetrospectiveItem.withUpdated updated item in
       modify (λ w, setItems (<[itemID := item]> (items w)) w)) w
  | None => (Err (errSentinel ErrNotFound), w)
  end.

End InMemoryItemStore.

Module InMemoryVoteStore.

Definition Create `{!GoRuntime} (vote : vstore.Vote.t) : M unit :=
  created ← time_Now;
  let vote := vstore.Vote.withCreated created vote in
  modify (λ w, setVotes (<[vstore.Vote.VoteID vote := vote]> (votes w)) w).

Definition Delete (voteID : string) : M unit :=
  modify (λ w, setVotes (delete voteID (votes w)) w).

(** the condition of the loops over the votes of a user on an item *)
Definition byUserAndItem (retroID itemID userID : string) (vote : vstore.Vote.t) : Prop :=
  vstore.Vote.RetrospectiveID vote = retroID ∧
  vstore.Vote.ItemID vote = itemID ∧
  vstore.Vote.UserID vote = userID.

#[global] Instance byUserAndItem_dec retroID itemID userID vote :
  Decision (byUserAndItem retroID itemID userID vote).
Proof. unfold byUserAndItem. apply _. Defined.

(** the condition of the loops over the votes of a user *)
Definition byUser (retroID userID : string) (vote : vstore.Vote.t) : Prop :=
  vstore.Vote.RetrospectiveID vote = retroID ∧
  vstore.Vote.UserID vote = userID.

#[global] Instance byUser_dec retroID userID vote :
  Decision (byUser retroID userID vote).
Proof. unfold byUser. apply _. Defined.

Definition byItem (retroID itemID : string) (vote : vstore.Vote.t) : Prop :=
  vstore.Vote.RetrospectiveID vote = retroID ∧
  vstore.Vote.ItemID vote = itemID.

#[global] Instance byItem_dec retroID itemID vote :
  Decision (byItem retroID itemID vote).
Proof. unfold byItem. apply _. Defined.

Definition GetByUserAndItem `{!GoRuntime} (retroID itemID userID : string)
  : M vstore.Vote.t :=
  entries ← rangeMap votes;
  match head (filter (byUserAndItem retroID itemID userID) (entries.*2)) with
  | Some vote => mret vote
  | None => failWith (errSentinel ErrNotFound)
  end.

Definition CountByUser `{!GoRuntime} (retroID userID : string) : M nat :=
  entries ← rangeMap votes;
  mret (length (filter (byUser retroID userID) (entries.*2))).

Definition ListByUser `{!GoRuntime} (retroID userID : string)
  : M (list vstore.Vote.t) :=
  entries ← rangeMap votes;
  mret (filter (byUser retroID userID) (entries.*2)).

Definition ListByItem `{!GoRuntime} (retroID itemID : string)
  : M (list vstore.Vote.t) :=
  entries ← rangeMap votes;
  mret (filter (byItem retroID itemID) (entries.*2)).

End InMemoryVoteStore.

Module InMemoryActionItemStore.

(** [Create] fills in the record it is given and stores it; the caller
    keeps the pointer, so the filled-in record is returned to it. *)
Definition Create `{!GoRuntime} (item : vstore.ActionItem.t) : MS vstore.ActionItem.t :=
  created ← inWorld time_Now;
  updated ← inWorld time_Now;
  let item := vstore.ActionItem.withUpdated updated
                (vstore.ActionItem.withCreated created item) in
  _ ← modifyActionItems (λ m, <[vstore.ActionItem.ActionItemID item := item]> m);
  mret item.

Definition Get (id : string) : MS vstore.ActionItem.t := λ s,
  match actionItems s !! id with
  | Some item => (Ok item, s)
  | None => (Err (errSentinel ErrNotFound), s)
  end.

Definition Update `{!GoRuntime} (item : vstore.ActionItem.t) : MS unit :=
  updated ← inWorld time_Now;
  let item := vstore.ActionItem.withUpdated updated item in
  modifyActionItems (λ m, <[vstore.ActionItem.ActionItemID item := item]> m).

(** A field assignment through the pointer that [Get id] returned. *)
Definition assign (id : string) (item : vstore.ActionItem.t) : MS unit :=
  modifyActionItems (λ m, <[id := item]> m).

Definition Delete (id : string) : MS unit :=
  modifyActionItems (λ m, delete id m).

Definition ListByRetrospective `{!GoRuntime} (retroID : string)
  : MS (list vstore.ActionItem.t) :=
  entries ← rangeActionItems;
  mret (filter (λ item, vstore.ActionItem.RetrospectiveID item = retroID) (entries.*2)).

(** the condition of the loop of [ListByTeam] *)
Definition ofTeam (teamID : string) (includeCompleted : bool) (item : vstore.ActionItem.t)
  : Prop :=
  ¬ (vstore.ActionItem.TeamID item ≠ teamID) ∧
  ¬ (includeCompleted = false ∧
     (vstore.ActionItem.Status item = vstore.ActionItemStatusDone ∨
      vstore.ActionItem.Status item = vstore.ActionItemStatusWontDo)).

#[global] Instance ofTeam_dec teamID includeCompleted item :
  Decision (ofTeam teamID includeCompleted item).
Proof. unfold ofTeam. apply _. Defined.

Definition ListByTeam `{!GoRuntime} (teamID : string) (includeCompleted : bool)
  : MS (list vstore.ActionItem.t) :=
  entries ← rangeActionItems;
  mret (filter (ofTeam teamID includeCompleted) (entries.*2)).

End InMemoryActionItemStore.

Module InMemoryParticipantStore.

Definition key (retroID userID : string) : string :=
  retroID +:+ ":" +:+ userID.

(** [Join] fills in the record it is given and stores it; the caller keeps
    the pointer, so the filled-in record is returned to it. *)
Definition Join `{!GoRuntime} (participant : vstore.Participant.t)
  : M vstore.Participant.t :=
  joinedAt ← time_Now;
  lastActive ← time_Now;
  let participant :=
    vstore.Participant.withIsOnline true
      (vstore.Participant.withLastActive lastActive
         (vstore.Participant.withJoinedAt joinedAt participant)) in
  let key := key (vstore.Participant.RetrospectiveID participant)
                 (vstore.Participant.UserID participant) in
  _ ← modify (λ w, setParticipants (<[key := participant]> (participants w)) w);
  mret participant.

Definition Leave `{!GoRuntime} (retroID userID : string) : M unit := λ w,
  match participants w !! key retroID userID with
  | Some p =>
      (lastActive ← time_Now;
       let p := vstore.Participant.withLastActive lastActive
                  (vstore.Participant.withIsOnline false p) in
       modify (λ w, setParticipants (<[key retroID userID := p]> (participants w)) w)) w
  | None => (Ok (), w)
  end.

Definition Heartbeat `{!GoRuntime} (retroID userID : string) : M unit := λ w,
  match participants w !! key retroID userID with
  | Some p =>
      (lastActive ← time_Now;
       let p := vstore.Participant.withIsOnline true
                  (vstore.Participant.withLastActive lastActive p) in
       modify (λ w, setParticipants (<[key retroID userID := p]> (participants w)) w)) w
  | None => (Ok (), w)
  end.

Definition Get (retroID userID : string) : M vstore.Participant.t := λ w,
  match participants w !! key retroID userID with
  | Some p => (Ok p, w)
  | None => (Err (errSentinel ErrNotFound), w)
  end.

(** the condition of the loop of [ListByRetrospective] *)
Definition onlineIn (retroID : string) (p : vstore.Participant.t) : Prop :=
  vstore.Participant.RetrospectiveID p = retroID ∧
  vstore.Participant.IsOnline p = true.

#[global] Instance onlineIn_dec retroID p : Decision (onlineIn retroID p).
Proof. unfold onlineIn. apply _. Defined.

Definition ListByRetrospective `{!GoRuntime} (retroID : string)
  : M (list vstore.Participant.t) :=
  entries ← rangeMap participants;
  mret (filter (onlineIn retroID) (entries.*2)).

End InMemoryParticipantStore.

(** ** realtime_service.go: the event broadcaster *)

Module EventBroadcaster.

(** capacity of the queue of a subscriber *)
Definition queueCapacity : nat := 100.

Definition Subscribe (retroID : string) : M nat := λ w,
  let ch := length (channels w) in
  let w := setChannels (channels w ++ [mkChan [] queueCapacity false]) w in
  let subs := default [] (subscribers w !! retroID) in
  (Ok ch, setSubscribers (<[retroID := subs ++ [ch]]> (subscribers w)) w).

(** [close(ch)] *)
Definition close (ch : nat) : M unit := λ w,
  match channels w !! ch with
  | None => (Panic "close of nil channel", w)
  | Some c =>
      if chanClosed c then (Panic "close of closed channel", w)
      else (Ok (), setChannels (<[ch := mkChan (chanBuf c) (chanCap c) true]> (channels w)) w)
  end.

Definition Unsubscribe (retroID : string) (ch : nat) : M unit := λ w,
  let subs := default [] (subscribers w !! retroID) in
  match list_find (λ sub, sub = ch) subs with
  | Some (i, _) =>
      (_ ← modify (λ w, setSubscribers
                          (<[retroID := take i subs ++ drop (S i) subs]> (subscribers w)) w);
       close ch) w
  | None => (Ok (), w)
  end.

(** [select { case ch <- event: default: }] *)
Definition trySend (ch : nat) (event : pb.RetrospectiveEvent.t) : M unit := λ w,
  match channels w !! ch with
  | None => (Ok (), w)
  | Some c =>
      if chanClosed c then (Panic "send on closed channel", w)
      else if bool_decide (length (chanBuf c) < chanCap c)
      then (Ok (), setChannels (<[ch := mkChan (chanBuf c ++ [event]) (chanCap c) false]> (channels w)) w)
      else (Ok (), w)
  end.

Fixpoint sendAll (subs : list nat) (event : pb.RetrospectiveEvent.t) : M unit :=
  match subs with
  | [] => mret ()
  | ch :: subs => _ ← trySend ch event; sendAll subs event
  end.

Definition Broadcast (retroID : string) (event : pb.RetrospectiveEvent.t) : M unit := λ w,
  sendAll (default [] (subscribers w !! retroID)) event w.

End EventBroadcaster.

(** ** Helpers of the services *)

Definition getUserIDFromContext (ctx : context.Context) : string :=
  "mock-user-id".

Definition getUserNameFromContext (ctx : context.Context) : string :=
  "Mock User".

(** [fmt.Errorf("%w: detail", sentinel)] *)
Definition Errorf (s : Sentinel) (detail : string) : error := errWrap s detail.

Definition convertVstoreParticipantToPb (p : vstore.Participant.t) : pb.Participant.t :=
  pb.Participant.mk
    (vstore.Participant.UserID p)
    (vstore.Participant.DisplayName p)
    (vstore.Participant.AvatarURL p)
    (vstore.Participant.JoinedAt p)
    (vstore.Participant.Role p)
    (vstore.Participant.LastActive p)
    (vstore.Participant.IsOnline p).

Definition convertPresenceInfo (participants : list vstore.Participant.t) : pb.PresenceInfo.t :=
  pb.PresenceInfo.mk
    (int32 (Z.of_nat (length participants)))
    (convertVstoreParticipantToPb <$> participants).

(** [for _, col := range columns { if col.ColumnID == columnID { ... break } }] *)
Definition columnValid (columns : list vstore.TemplateColumn.t) (columnID : string) : bool :=
  existsb (λ col, bool_decide (vstore.TemplateColumn.ColumnID col = columnID)) columns.

Definition getDefaultTemplateColumns (templateType : vstore.TemplateType)
  : list vstore.TemplateColumn.t :=
  let wentWellToImprove :=
      [ vstore.TemplateColumn.mk "went_well" "What Went Well" "Things that worked well this sprint" "üëç" 1 "#22c55e";
        vstore.TemplateColumn.mk "to_improve" "What To Improve" "Things that could be better" "üîß" 2 "#f59e0b";
        vstore.TemplateColumn.mk "action_items" "Action Items" "Specific actions to take" "‚úÖ" 3 "#3b82f6" ] in
  match templateType with
  | vstore.TemplateTypeWentWellToImprove => wentWellToImprove
  | vstore.TemplateTypeStartStopContinue =>
        [ vstore.TemplateColumn.mk "start" "Start" "Things we should start doing" "üöÄ" 1 "#22c55e";
          vstore.TemplateColumn.mk "stop" "Stop" "Things we should stop doing" "üõë" 2 "#ef4444";
          vstore.TemplateColumn.mk "continue" "Continue" "Things we should keep doing" "‚û°Ô∏è" 3 "#3b82f6" ]
  | vstore.TemplateTypeFourLs =>
        [ vstore.TemplateColumn.mk "liked" "Liked" "What we liked" "‚ù§Ô∏è" 1 "#ec4899";
          vstore.TemplateColumn.mk "learned" "Learned" "What we learned" "üìö" 2 "#8b5cf6";
          vstore.TemplateColumn.mk "lacked" "Lacked" "What was lacking" "ü§î" 3 "#f59e0b";
          vstore.TemplateColumn.mk "longed_for" "Longed For" "What we wish we had" "‚ú®" 4 "#06b6d4" ]
  | vstore.TemplateTypeMadSadGlad =>
        [ vstore.TemplateColumn.mk "mad" "Mad" "Things that frustrated us" "üò†" 1 "#ef4444";
          vstore.TemplateColumn.mk "sad" "Sad" "Things that disappointed us" "üò¢" 2 "#6366f1";
          vstore.TemplateColumn.mk "glad" "Glad" "Things that made us happy" "üòä" 3 "#22c55e" ]
  | _ => wentWellToImprove
  end.

Definition convertPbColumnsToVstore (cols : list pb.TemplateColumn.t)
  : list vstore.TemplateColumn.t :=
  (λ col, vstore.TemplateColumn.mk
            (pb.TemplateColumn.ColumnId col) (pb.TemplateColumn.Name col)
            (pb.TemplateColumn.Description col) (pb.TemplateColumn.Icon col)
            (pb.TemplateColumn.SortOrder col) (pb.TemplateColumn.Color col)) <$> cols.

(** The fields of [pb.Retrospective] that are modelled, copied from the
    stored record. *)
Definition convertVstoreRetroToPb (retro : vstore.Retrospective.t) : pb.Retrospective.t :=
  pb.Retrospective.mk
    (vstore.Retrospective.RetrospectiveID retro)
    (vstore.Retrospective.SprintName retro)
    (vstore.Retrospective.Description retro)
    (vstore.Retrospective.Status retro)
    (vstore.Retrospective.FacilitatorID retro).

Definition convertVstoreItemToPb (item : vstore.RetrospectiveItem.t)
  : pb.RetrospectiveItem.t :=
  pb.RetrospectiveItem.mk
    (vstore.RetrospectiveItem.ItemID item)
    (vstore.RetrospectiveItem.RetrospectiveID item)
    (vstore.RetrospectiveItem.ColumnID item)
    (vstore.RetrospectiveItem.Content item)
    (vstore.RetrospectiveItem.CreatedBy item)
    (vstore.RetrospectiveItem.CreatedByName item)
    (vstore.RetrospectiveItem.VoteCount item)
    (vstore.RetrospectiveItem.Created item)
    (vstore.RetrospectiveItem.Updated item)
    (vstore.RetrospectiveItem.IsAnonymous item)
    (vstore.RetrospectiveItem.Position item)
    (vstore.RetrospectiveItem.HasActionItem item).

Definition getAssigneeName (assigneeID : string) : string :=
  if bool_decide (assigneeID = "") then "" else "Team Member".

Definition convertVstoreActionItemToPb (ai : vstore.ActionItem.t) : pb.ActionItem.t :=
  pb.ActionItem.mk
    (vstore.ActionItem.ActionItemID ai)
    (vstore.ActionItem.RetrospectiveID ai)
    (vstore.ActionItem.SourceItemID ai)
    (vstore.ActionItem.TeamID ai)
    (vstore.ActionItem.Description ai)
    (vstore.ActionItem.AssigneeID ai)
    (vstore.ActionItem.AssigneeName ai)
    (vstore.ActionItem.Status ai)
    (vstore.ActionItem.Priority ai)
    (Some (vstore.ActionItem.DueDate ai))
    (vstore.ActionItem.Created ai)
    (vstore.ActionItem.Updated ai)
    (vstore.ActionItem.CreatedBy ai)
    (vstore.ActionItem.SourceSprintName ai)
    (vstore.ActionItem.Notes ai).

Definition BroadcastItemDeleted `{!GoRuntime} (retroID itemID columnID : string) : M unit :=
  timestamp ← time_Now;
  EventBroadcaster.Broadcast retroID
    (pb.RetrospectiveEvent.mk retroID timestamp (pb.ItemDeleted itemID columnID)).

Definition BroadcastVoteCast `{!GoRuntime}
    (retroID itemID : string) (newVoteCount : Z) (userID : string) : M unit :=
  timestamp ← time_Now;
  EventBroadcaster.Broadcast retroID
    (pb.RetrospectiveEvent.mk retroID timestamp (pb.VoteCast itemID newVoteCount userID)).

Definition BroadcastStatusChanged `{!GoRuntime}
    (retroID : string) (prevStatus newStatus : vstore.RetrospectiveStatus)
    (changedBy : string) : M unit :=
  timestamp ← time_Now;
  EventBroadcaster.Broadcast retroID
    (pb.RetrospectiveEvent.mk retroID timestamp
       (pb.StatusChanged prevStatus newStatus changedBy)).

(** ** voting_service.go *)

Module VotingService.

Definition CastVote `{!GoRuntime} (ctx : context.Context) (req : pb.CastVoteRequest.t)
  : M unit :=
  if bool_decide (pb.CastVoteRequest.RetrospectiveId req = "") then
    failWith (ToGRPCError (Errorf ErrInvalidArgument "retrospective_id is required"))
  else if bool_decide (pb.CastVoteRequest.ItemId req = "") then
    failWith (ToGRPCError (Errorf ErrInvalidArgument "item_id is required"))
  else
    retro ← onErr ToGRPCError
              (InMemoryRetrospectiveStore.Get (pb.CastVoteRequest.RetrospectiveId req));
    if bool_decide (vstore.Retrospective.Status retro ≠ vstore.RetrospectiveStatusVoting ∧
                    vstore.Retrospective.Status retro ≠ vstore.RetrospectiveStatusActive) then
      failWith (ToGRPCError (Errorf ErrInvalidStatus "voting is not currently allowed"))
    else
      item ← onErr ToGRPCError (InMemoryItemStore.Get (pb.CastVoteRequest.ItemId req));
      if bool_decide (vstore.RetrospectiveItem.RetrospectiveID item
                      ≠ pb.CastVoteRequest.RetrospectiveId req) then
        failWith (ToGRPCError
                    (Errorf ErrInvalidArgument "item does not belong to this retrospective"))
      else
        let userID := getUserIDFromContext ctx in
        existingVote ← ignoreErr
          (InMemoryVoteStore.GetByUserAndItem
             (pb.CastVoteRequest.RetrospectiveId req) (pb.CastVoteRequest.ItemId req) userID);
        if bool_decide (is_Some existingVote) &&
           negb (vstore.VotingConfig.AllowMultipleVotesPerItem
                   (vstore.Retrospective.VotingConfig retro)) then
          failWith (ToGRPCError (Errorf ErrAlreadyExists "you have already voted for this item"))
        else
          currentVotes ← ignoreErr
            (InMemoryVoteStore.CountByUser (pb.CastVoteRequest.RetrospectiveId req) userID);
          let currentVotes := default 0 currentVotes in
          let maxVotes := vstore.VotingConfig.MaxVotesPerUser
                            (vstore.Retrospective.VotingConfig retro) in
          if bool_decide (maxVotes ≤ int32 (Z.of_nat currentVotes))%Z then
            failWith (ToGRPCError
                        (Errorf ErrVoteLimitExceeded
                           ("you have used all " +:+ pretty maxVotes +:+ " votes")))
          else
            now ← time_Now;
            let voteID := "VOTE-" +:+ pretty (time.UnixNano now) in
            let vote := vstore.Vote.mk voteID
                          (pb.CastVoteRequest.RetrospectiveId req)
                          (pb.CastVoteRequest.ItemId req)
                          userID time.Zero in
            _ ← onErr ToGRPCError (InMemoryVoteStore.Create vote);
            catch (InMemoryItemStore.IncrementVoteCount (pb.CastVoteRequest.ItemId req))
                  (λ err,
                     _ ← ignoreErr (InMemoryVoteStore.Delete voteID);
                     failWith (ToGRPCError err)).

Definition RemoveVote `{!GoRuntime} (ctx : context.Context) (req : pb.RemoveVoteRequest.t)
  : M unit :=
  if bool_decide (pb.RemoveVoteRequest.RetrospectiveId req = "") then
    failWith (ToGRPCError (Errorf ErrInvalidArgument "retrospective_id is required"))
  else if bool_decide (pb.RemoveVoteRequest.ItemId req = "") then
    failWith (ToGRPCError (Errorf ErrInvalidArgument "item_id is required"))
  else
    let userID := getUserIDFromContext ctx in
    vote ← onErr (λ _, ToGRPCError (Errorf ErrNotFound "you have not voted for this item"))
             (InMemoryVoteStore.GetByUserAndItem
                (pb.RemoveVoteRequest.RetrospectiveId req)
                (pb.RemoveVoteRequest.ItemId req) userID);
    _ ← onErr ToGRPCError (InMemoryVoteStore.Delete (vstore.Vote.VoteID vote));
    _ ← ignoreErr (InMemoryItemStore.DecrementVoteCount (pb.RemoveVoteRequest.ItemId req));
    mret ().

(** the local type [itemVote] of [GetVoteSummary] *)
Record itemVote : Type := mkItemVote {
  itemID : string;
  voteCount : Z
}.

(** the comparison handed to [sort.Slice]: by vote count, descending *)
Definition byVoteCountDesc (a b : itemVote) : bool :=
  (voteCount b <? voteCount a)%Z.

(** the loop that fills the rank map, from index [i] on *)
Fixpoint rankLoop (i : nat) (itemVotes : list itemVote)
    (currentRank lastVoteCount : Z) (rankMap : gmap string Z) : gmap string Z :=
  match itemVotes with
  | [] => rankMap
  | iv :: rest =>
      let changed := bool_decide (voteCount iv ≠ lastVoteCount) in
      let currentRank := if changed then int32 (Z.of_nat i + 1) else currentRank in
      let lastVoteCount := if changed then voteCount iv else lastVoteCount in
      rankLoop (S i) rest currentRank lastVoteCount (<[itemID iv := currentRank]> rankMap)
  end.

Definition GetVoteSummary `{!GoRuntime}
    (ctx : context.Context) (req : pb.GetVoteSummaryRequest.t)
  : M pb.GetVoteSummaryResponse.t :=
  if bool_decide (pb.GetVoteSummaryRequest.RetrospectiveId req = "") then
    failWith (ToGRPCError (Errorf ErrInvalidArgument "retrospective_id is required"))
  else
    let userID := getUserIDFromContext ctx in
    items ← onErr ToGRPCError
              (InMemoryItemStore.ListByRetrospective
                 (pb.GetVoteSummaryRequest.RetrospectiveId req) "" false);
    userVotes ← ignoreErr
      (InMemoryVoteStore.ListByUser (pb.GetVoteSummaryRequest.RetrospectiveId req) userID);
    let userVotes := default [] userVotes in
    let userVotedItems : gmap string bool :=
      foldl (λ m vote, <[vstore.Vote.ItemID vote := true]> m) ∅ userVotes in
    let itemVotes :=
      (λ item, mkItemVote (vstore.RetrospectiveItem.ItemID item)
                          (vstore.RetrospectiveItem.VoteCount item)) <$> items in
    let itemVotes := sortSlice byVoteCountDesc itemVotes in
    let rankMap := rankLoop 0 itemVotes 1 (-1) ∅ in
    let summaries :=
      (λ item, pb.VoteSummary.mk
                 (vstore.RetrospectiveItem.ItemID item)
                 (vstore.RetrospectiveItem.VoteCount item)
                 (default 0%Z (rankMap !! vstore.RetrospectiveItem.ItemID item))
                 (default false (userVotedItems !! vstore.RetrospectiveItem.ItemID item)))
      <$> items in
    let totalVotes :=
      foldl (λ total item, int32 (total + vstore.RetrospectiveItem.VoteCount item)) 0%Z items in
    mret (pb.GetVoteSummaryResponse.mk summaries totalVotes).

Definition GetUserVotes `{!GoRuntime}
    (ctx : context.Context) (req : pb.GetUserVotesRequest.t)
  : M pb.GetUserVotesResponse.t :=
  if bool_decide (pb.GetUserVotesRequest.RetrospectiveId req = "") then
    failWith (ToGRPCError (Errorf ErrInvalidArgument "retrospective_id is required"))
  else
    let userID :=
      if bool_decide (pb.GetUserVotesRequest.UserId req = "")
      then getUserIDFromContext ctx
      else pb.GetUserVotesRequest.UserId req in
    retro ← onErr ToGRPCError
              (InMemoryRetrospectiveStore.Get (pb.GetUserVotesRequest.RetrospectiveId req));
    votes ← onErr ToGRPCError
              (InMemoryVoteStore.ListByUser (pb.GetUserVotesRequest.RetrospectiveId req) userID);
    let votedItemIDs := vstore.Vote.ItemID <$> votes in
    let votesCast := int32 (Z.of_nat (length votes)) in
    let votesRemaining :=
      int32 (vstore.VotingConfig.MaxVotesPerUser (vstore.Retrospective.VotingConfig retro)
             - votesCast) in
    let votesRemaining := if (votesRemaining <? 0)%Z then 0%Z else votesRemaining in
    mret (pb.GetUserVotesResponse.mk
            (pb.UserVoteSummary.mk userID votesCast votesRemaining votedItemIDs)).

End VotingService.

(** ** retrospective_service.go *)

Module RetrospectiveService.

(** [existing] is the pointer that the store holds, so each field
    assignment is seen by the slot of the requested id. *)
Definition Update `{!GoRuntime}
    (ctx : context.Context) (req : pb.UpdateRetrospectiveRequest.t) : M unit :=
  match pb.UpdateRetrospectiveRequest.Retrospective req with
  | None =>
      failWith (ToGRPCError (Errorf ErrInvalidArgument "retrospective is required"))
  | Some retrospective =>
      if bool_decide (pb.Retrospective.RetrospectiveId retrospective = "") then
        failWith (ToGRPCError (Errorf ErrInvalidArgument "retrospective is required"))
      else
        existing ← onErr ToGRPCError
                     (InMemoryRetrospectiveStore.Get
                        (pb.Retrospective.RetrospectiveId retrospective));
        let existing :=
          if bool_decide (pb.Retrospective.SprintName retrospective ≠ "")
          then vstore.Retrospective.withSprintName
                 (pb.Retrospective.SprintName retrospective) existing
          else existing in
        let existing :=
          if bool_decide (pb.Retrospective.Description retrospective ≠ "")
          then vstore.Retrospective.withDescription
                 (pb.Retrospective.Description retrospective) existing
          else existing in
        let existing :=
          if bool_decide (pb.Retrospective.FacilitatorId retrospective ≠ "")
          then vstore.Retrospective.withFacilitatorID
                 (pb.Retrospective.FacilitatorId retrospective) existing
          else existing in
        _ ← InMemoryRetrospectiveStore.assign
              (pb.Retrospective.RetrospectiveId retrospective) existing;
        onErr ToGRPCError (InMemoryRetrospectiveStore.Update existing)
  end.

Definition StartVoting `{!GoRuntime}
    (ctx : context.Context) (req : pb.StartVotingRequest.t) : M unit :=
  retro ← onErr ToGRPCError
            (InMemoryRetrospectiveStore.Get (pb.StartVotingRequest.RetrospectiveId req));
  if bool_decide (vstore.Retrospective.Status retro ≠ vstore.RetrospectiveStatusActive ∧
                  vstore.Retrospective.Status retro ≠ vstore.RetrospectiveStatusDraft) then
    failWith (ToGRPCError
                (Errorf ErrInvalidStatus "can only start voting from DRAFT or ACTIVE status"))
  else
    let retro := vstore.Retrospective.withStatus vstore.RetrospectiveStatusVoting retro in
    _ ← InMemoryRetrospectiveStore.assign (pb.StartVotingRequest.RetrospectiveId req) retro;
    onErr ToGRPCError (InMemoryRetrospectiveStore.Update retro).

Definition StartDiscussion `{!GoRuntime}
    (ctx : context.Context) (req : pb.StartDiscussionRequest.t) : M unit :=
  retro ← onErr ToGRPCError
            (InMemoryRetrospectiveStore.Get (pb.StartDiscussionRequest.RetrospectiveId req));
  if bool_decide (vstore.Retrospective.Status retro ≠ vstore.RetrospectiveStatusVoting) then
    failWith (ToGRPCError
                (Errorf ErrInvalidStatus "can only start discussion from VOTING status"))
  else
    let retro := vstore.Retrospective.withStatus vstore.RetrospectiveStatusDiscussing retro in
    _ ← InMemoryRetrospectiveStore.assign (pb.StartDiscussionRequest.RetrospectiveId req) retro;
    onErr ToGRPCError (InMemoryRetrospectiveStore.Update retro).

Definition Complete `{!GoRuntime}
    (ctx : context.Context) (req : pb.CompleteRetrospectiveRequest.t) : M unit :=
  retro ← onErr ToGRPCError
            (InMemoryRetrospectiveStore.Get (pb.CompleteRetrospectiveRequest.RetrospectiveId req));
  let retro := vstore.Retrospective.withStatus vstore.RetrospectiveStatusCompleted retro in
  completedAt ← time_Now;
  let retro := vstore.Retrospective.withCompletedAt completedAt retro in
  _ ← InMemoryRetrospectiveStore.assign (pb.CompleteRetrospectiveRequest.RetrospectiveId req) retro;
  onErr ToGRPCError (InMemoryRetrospectiveStore.Update retro).

Definition Create `{!GoRuntime}
    (ctx : context.Context) (req : pb.CreateRetrospectiveRequest.t)
  : M pb.CreateRetrospectiveResponse.t :=
  if bool_decide (pb.CreateRetrospectiveRequest.TeamId req = "") then
    failWith (ToGRPCError (Errorf ErrInvalidArgument "team_id is required"))
  else if bool_decide (pb.CreateRetrospectiveRequest.SprintName req = "") then
    failWith (ToGRPCError (Errorf ErrInvalidArgument "sprint_name is required"))
  else
    now ← time_Now;
    let retroID := "RETRO-" +:+ pretty (time.UnixNano now) in
    let templateType :=
      if bool_decide (pb.CreateRetrospectiveRequest.TemplateType req
                      = vstore.TemplateTypeUnspecified)
      then vstore.TemplateTypeWentWellToImprove
      else pb.CreateRetrospectiveRequest.TemplateType req in
    let columns := getDefaultTemplateColumns templateType in
    let columns :=
      match pb.CreateRetrospectiveRequest.CustomTemplate req with
      | Some template =>
          if bool_decide (0 < length (pb.RetrospectiveTemplate.Columns template))
          then convertPbColumnsToVstore (pb.RetrospectiveTemplate.Columns template)
          else columns
      | None => columns
      end in
    let votingConfig := vstore.VotingConfig.mk 5 false false in
    let votingConfig :=
      match pb.CreateRetrospectiveRequest.VotingConfig req with
      | Some config =>
          vstore.VotingConfig.mk
            (if bool_decide (0 < pb.VotingConfig.MaxVotesPerUser config)%Z
             then pb.VotingConfig.MaxVotesPerUser config
             else vstore.VotingConfig.MaxVotesPerUser votingConfig)
            (pb.VotingConfig.AllowMultipleVotesPerItem config)
            (pb.VotingConfig.AnonymousVoting config)
      | None => votingConfig
      end in
    let retro := vstore.Retrospective.mk
      retroID
      (pb.CreateRetrospectiveRequest.TeamId req)
      ""
      (pb.CreateRetrospectiveRequest.SprintName req)
      (pb.CreateRetrospectiveRequest.Description req)
      templateType columns
      vstore.RetrospectiveStatusDraft
      votingConfig
      (getUserIDFromContext ctx)
      (pb.CreateRetrospectiveRequest.FacilitatorId req)
      0 0 0 time.Zero time.Zero time.Zero time.Zero time.Zero in
    let retro :=
      if bool_decide (vstore.Retrospective.FacilitatorID retro = "")
      then vstore.Retrospective.withFacilitatorID (vstore.Retrospective.CreatedBy retro) retro
      else retro in
    _ ← onErr ToGRPCError (InMemoryRetrospectiveStore.Create retro);
    (** [retro] points to the record that the store has stamped *)
    retro ← gets (λ w, default retro (retros w !! retroID));
    mret (pb.CreateRetrospectiveResponse.mk retroID (convertVstoreRetroToPb retro)).

(** the loop of [GetMulti]: one container per requested id *)
Fixpoint getContainers (ids : list string) : M (list (option pb.Retrospective.t)) :=
  match ids with
  | [] => mret []
  | id :: ids =>
      retro ← ignoreErr (InMemoryRetrospectiveStore.Get id);
      containers ← getContainers ids;
      mret ((convertVstoreRetroToPb <$> retro) :: containers)
  end.

Definition GetMulti (ctx : context.Context) (req : pb.GetMultiRetrospectivesRequest.t)
  : M pb.GetMultiRetrospectivesResponse.t :=
  containers ← getContainers (pb.GetMultiRetrospectivesRequest.RetrospectiveIds req);
  mret (pb.GetMultiRetrospectivesResponse.mk containers).

Definition List `{!GoRuntime}
    (ctx : context.Context) (req : pb.ListRetrospectivesRequest.t)
  : M pb.ListRetrospectivesResponse.t :=
  let teamID :=
    match pb.ListRetrospectivesRequest.Filters req with
    | Some filters => pb.ListRetrospectivesFilters.TeamId filters
    | None => ""
    end in
  let statuses :=
    match pb.ListRetrospectivesRequest.Filters req with
    | Some filters => pb.ListRetrospectivesFilters.Statuses filters
    | None => []
    end in
  let cursor :=
    match pb.ListRetrospectivesRequest.PagingOptions req with
    | Some options => pb.PagingOptions.Cursor options
    | None => ""
    end in
  let pageSize :=
    match pb.ListRetrospectivesRequest.PagingOptions req with
    | Some options =>
        if bool_decide (0 < pb.PagingOptions.PageSize options)%Z
        then pb.PagingOptions.PageSize options
        else 20%Z
    | None => 20%Z
    end in
  page ← onErr ToGRPCError (InMemoryRetrospectiveStore.List teamID statuses cursor pageSize);
  let '(retros, nextCursor, hasMore) := page in
  mret (pb.ListRetrospectivesResponse.mk
          (convertVstoreRetroToPb <$> retros)
          (pb.PagingMetadata.mk nextCursor hasMore)).

Definition Delete (ctx : context.Context) (req : pb.DeleteRetrospectiveRequest.t) : M unit :=
  if bool_decide (pb.DeleteRetrospectiveRequest.RetrospectiveId req = "") then
    failWith (ToGRPCError (Errorf ErrInvalidArgument "retrospective_id is required"))
  else
    onErr ToGRPCError
      (InMemoryRetrospectiveStore.Delete (pb.DeleteRetrospectiveRequest.RetrospectiveId req)).

Definition Get `{!GoRuntime}
    (ctx : context.Context) (req : pb.GetRetrospectiveRequest.t)
  : MS pb.GetRetrospectiveResponse.t :=
  if bool_decide (pb.GetRetrospectiveRequest.RetrospectiveId req = "") then
    failWithS (ToGRPCError (Errorf ErrInvalidArgument "retrospective_id is required"))
  else
    retro ← inWorld (onErr ToGRPCError
               (InMemoryRetrospectiveStore.Get (pb.GetRetrospectiveRequest.RetrospectiveId req)));
    let retrospective := convertVstoreRetroToPb retro in
    items ←
      (if pb.GetRetrospectiveRequest.IncludeItems req then
         items ← inWorld (ignoreErr
                   (InMemoryItemStore.ListByRetrospective
                      (pb.GetRetrospectiveRequest.RetrospectiveId req) "" false));
         mret (match items with
               | Some items => convertVstoreItemToPb <$> items
               | None => []
               end)
       else mret []);
    actionItems ←
      (if pb.GetRetrospectiveRequest.IncludeActionItems req then
         actionItems ← ignoreErrS
                         (InMemoryActionItemStore.ListByRetrospective
                            (pb.GetRetrospectiveRequest.RetrospectiveId req));
         mret (match actionItems with
               | Some actionItems => convertVstoreActionItemToPb <$> actionItems
               | None => []
               end)
       else mret []);
    mret (pb.GetRetrospectiveResponse.mk
            (pb.RetrospectiveWithDetails.mk retrospective items actionItems)).

End RetrospectiveService.

(** ** action item service (part_004) *)

Module ActionItemService.

Definition Create `{!GoRuntime}
    (ctx : context.Context) (req : pb.CreateActionItemRequest.t)
  : MS pb.CreateActionItemResponse.t :=
  if bool_decide (pb.CreateActionItemRequest.Description req = "") then
    failWithS (ToGRPCError (Errorf ErrInvalidArgument "description is required"))
  else
    retro ←
      (if bool_decide (pb.CreateActionItemRequest.RetrospectiveId req ≠ "") then
         retro ← inWorld (onErr ToGRPCError
                    (InMemoryRetrospectiveStore.Get
                       (pb.CreateActionItemRequest.RetrospectiveId req)));
         mret (Some retro)
       else mret None);
    let teamID :=
      match retro with
      | Some retro =>
          if bool_decide (pb.CreateActionItemRequest.TeamId req = "")
          then vstore.Retrospective.TeamID retro
          else pb.CreateActionItemRequest.TeamId req
      | None => pb.CreateActionItemRequest.TeamId req
      end in
    if bool_decide (teamID = "") then
      failWithS (ToGRPCError (Errorf ErrInvalidArgument "team_id is required"))
    else
      now ← inWorld time_Now;
      let actionItemID := "ACTION-" +:+ pretty (time.UnixNano now) in
      let actionItem := vstore.ActionItem.mk
        actionItemID
        (pb.CreateActionItemRequest.RetrospectiveId req)
        (pb.CreateActionItemRequest.SourceItemId req)
        teamID
        (pb.CreateActionItemRequest.Description req)
        (pb.CreateActionItemRequest.AssigneeId req)
        (getAssigneeName (pb.CreateActionItemRequest.AssigneeId req))
        vstore.ActionItemStatusNotStarted
        (pb.CreateActionItemRequest.Priority req)
        time.Zero
        (getUserIDFromContext ctx)
        "" "" time.Zero time.Zero time.Zero in
      let actionItem :=
        match pb.CreateActionItemRequest.DueDate req with
        | Some dueDate => vstore.ActionItem.withDueDate dueDate actionItem
        | None => actionItem
        end in
      let actionItem :=
        match retro with
        | Some retro =>
            vstore.ActionItem.withSourceSprintName
              (vstore.Retrospective.SprintName retro) actionItem
        | None => actionItem
        end in
      let actionItem :=
        if bool_decide (vstore.ActionItem.Priority actionItem
                        = vstore.ActionItemPriorityUnspecified)
        then vstore.ActionItem.withPriority vstore.ActionItemPriorityMedium actionItem
        else actionItem in
      actionItem ← onErrS ToGRPCError (InMemoryActionItemStore.Create actionItem);
      _ ← match retro with
          | Some retro =>
              let retro := vstore.Retrospective.withActionItemCount
                             (int32 (vstore.Retrospective.ActionItemCount retro + 1)) retro in
              _ ← inWorld (InMemoryRetrospectiveStore.assign
                             (pb.CreateActionItemRequest.RetrospectiveId req) retro);
              _ ← inWorld (ignoreErr (InMemoryRetrospectiveStore.Update retro));
              mret ()
          | None => mret ()
          end;
      mret (pb.CreateActionItemResponse.mk (convertVstoreActionItemToPb actionItem)).

(** [existing] is the pointer that the store holds, so each field
    assignment is seen by the slot of the requested id. *)
Definition Update `{!GoRuntime}
    (ctx : context.Context) (req : pb.UpdateActionItemRequest.t) : MS unit :=
  match pb.UpdateActionItemRequest.ActionItem req with
  | None =>
      failWithS (ToGRPCError (Errorf ErrInvalidArgument "action_item is required"))
  | Some actionItem =>
      if bool_decide (pb.ActionItem.ActionItemId actionItem = "") then
        failWithS (ToGRPCError (Errorf ErrInvalidArgument "action_item is required"))
      else
        existing ← onErrS ToGRPCError
                     (InMemoryActionItemStore.Get (pb.ActionItem.ActionItemId actionItem));
        let existing :=
          if bool_decide (pb.ActionItem.Description actionItem ≠ "")
          then vstore.ActionItem.withDescription (pb.ActionItem.Description actionItem) existing
          else existing in
        let existing :=
          if bool_decide (pb.ActionItem.AssigneeId actionItem ≠ "")
          then vstore.ActionItem.withAssignee
                 (pb.ActionItem.AssigneeId actionItem)
                 (getAssigneeName (pb.ActionItem.AssigneeId actionItem)) existing
          else existing in
        let existing :=
          if bool_decide (pb.ActionItem.Status actionItem ≠ vstore.ActionItemStatusUnspecified)
          then vstore.ActionItem.withStatus (pb.ActionItem.Status actionItem) existing
          else existing in
        let existing :=
          if bool_decide (pb.ActionItem.Priority actionItem
                          ≠ vstore.ActionItemPriorityUnspecified)
          then vstore.ActionItem.withPriority (pb.ActionItem.Priority actionItem) existing
          else existing in
        let existing :=
          match pb.ActionItem.DueDate actionItem with
          | Some dueDate => vstore.ActionItem.withDueDate dueDate existing
          | None => existing
          end in
        let existing :=
          if bool_decide (pb.ActionItem.Notes actionItem ≠ "")
          then vstore.ActionItem.withNotes (pb.ActionItem.Notes actionItem) existing
          else existing in
        _ ← InMemoryActionItemStore.assign (pb.ActionItem.ActionItemId actionItem) existing;
        onErrS ToGRPCError (InMemoryActionItemStore.Update existing)
  end.

Definition UpdateStatus `{!GoRuntime}
    (ctx : context.Context) (req : pb.UpdateActionItemStatusRequest.t) : MS unit :=
  if bool_decide (pb.UpdateActionItemStatusRequest.ActionItemId req = "") then
    failWithS (ToGRPCError (Errorf ErrInvalidArgument "action_item_id is required"))
  else
    existing ← onErrS ToGRPCError
                 (InMemoryActionItemStore.Get
                    (pb.UpdateActionItemStatusRequest.ActionItemId req));
    let existing := vstore.ActionItem.withStatus
                      (pb.UpdateActionItemStatusRequest.Status req) existing in
    let existing :=
      if bool_decide (pb.UpdateActionItemStatusRequest.Notes req ≠ "")
      then vstore.ActionItem.withNotes (pb.UpdateActionItemStatusRequest.Notes req) existing
      else existing in
    _ ← InMemoryActionItemStore.assign
          (pb.UpdateActionItemStatusRequest.ActionItemId req) existing;
    onErrS ToGRPCError (InMemoryActionItemStore.Update existing).

Definition Delete `{!GoRuntime}
    (ctx : context.Context) (req : pb.DeleteActionItemRequest.t) : MS unit :=
  if bool_decide (pb.DeleteActionItemRequest.ActionItemId req = "") then
    failWithS (ToGRPCError (Errorf ErrInvalidArgument "action_item_id is required"))
  else
    actionItem ← onErrS ToGRPCError
                   (InMemoryActionItemStore.Get (pb.DeleteActionItemRequest.ActionItemId req));
    _ ← onErrS ToGRPCError
          (InMemoryActionItemStore.Delete (pb.DeleteActionItemRequest.ActionItemId req));
    if bool_decide (vstore.ActionItem.RetrospectiveID actionItem ≠ "") then
      retro ← inWorld (ignoreErr
                (InMemoryRetrospectiveStore.Get (vstore.ActionItem.RetrospectiveID actionItem)));
      match retro with
      | Some retro =>
          let retro := vstore.Retrospective.withActionItemCount
                         (int32 (vstore.Retrospective.ActionItemCount retro - 1)) retro in
          _ ← inWorld (InMemoryRetrospectiveStore.assign
                         (vstore.ActionItem.RetrospectiveID actionItem) retro);
          _ ← inWorld (ignoreErr (InMemoryRetrospectiveStore.Update retro));
          mret ()
      | None => mret ()
      end
    else mret ().

(** the body of the filter loop of [List]: [false] where it says
    [continue]; the inner loops look for the status and the priority *)
Definition keeps (filters : option pb.ListActionItemsFilters.t) (ai : vstore.ActionItem.t)
  : bool :=
  match filters with
  | None => true
  | Some filters =>
      if bool_decide (pb.ListActionItemsFilters.AssigneeId filters ≠ "" ∧
                      vstore.ActionItem.AssigneeID ai
                      ≠ pb.ListActionItemsFilters.AssigneeId filters) then false
      else if bool_decide (0 < length (pb.ListActionItemsFilters.Statuses filters)) &&
              negb (existsb (λ status, bool_decide (vstore.ActionItem.Status ai = status))
                      (pb.ListActionItemsFilters.Statuses filters)) then false
      else if bool_decide (0 < length (pb.ListActionItemsFilters.Priorities filters)) &&
              negb (existsb (λ priority, bool_decide (vstore.ActionItem.Priority ai = priority))
                      (pb.ListActionItemsFilters.Priorities filters)) then false
      else true
  end.

Definition List `{!GoRuntime}
    (ctx : context.Context) (req : pb.ListActionItemsRequest.t)
  : MS pb.ListActionItemsResponse.t :=
  actionItems ←
    match pb.ListActionItemsRequest.Filters req with
    | Some filters =>
        if bool_decide (pb.ListActionItemsFilters.RetrospectiveId filters ≠ "") then
          onErrS ToGRPCError
            (InMemoryActionItemStore.ListByRetrospective
               (pb.ListActionItemsFilters.RetrospectiveId filters))
        else if bool_decide (pb.ListActionItemsFilters.TeamId filters ≠ "") then
          onErrS ToGRPCError
            (InMemoryActionItemStore.ListByTeam
               (pb.ListActionItemsFilters.TeamId filters) true)
        else
          failWithS (ToGRPCError
                       (Errorf ErrInvalidArgument
                          "either retrospective_id or team_id filter is required"))
    | None =>
        failWithS (ToGRPCError
                     (Errorf ErrInvalidArgument
                        "either retrospective_id or team_id filter is required"))
    end;
  let filtered := List.filter (keeps (pb.ListActionItemsRequest.Filters req)) actionItems in
  mret (pb.ListActionItemsResponse.mk
          (convertVstoreActionItemToPb <$> filtered)
          (pb.ListActionItemsResponse_PagingMetadata.mk false)).

Definition ListByTeam `{!GoRuntime}
    (ctx : context.Context) (req : pb.ListActionItemsByTeamRequest.t)
  : MS pb.ListActionItemsResponse.t :=
  if bool_decide (pb.ListActionItemsByTeamRequest.TeamId req = "") then
    failWithS (ToGRPCError (Errorf ErrInvalidArgument "team_id is required"))
  else
    actionItems ← onErrS ToGRPCError
                    (InMemoryActionItemStore.ListByTeam
                       (pb.ListActionItemsByTeamRequest.TeamId req)
                       (pb.ListActionItemsByTeamRequest.IncludeCompleted req));
    mret (pb.ListActionItemsResponse.mk
            (convertVstoreActionItemToPb <$> actionItems)
            (pb.ListActionItemsResponse_PagingMetadata.mk false)).

End ActionItemService.

(** ** realtime_service.go: presence *)

Module RealtimeService.

Definition JoinRetrospective `{!GoRuntime}
    (ctx : context.Context) (req : pb.JoinRetrospectiveRequest.t)
  : M pb.JoinRetrospectiveResponse.t :=
  if bool_decide (pb.JoinRetrospectiveRequest.RetrospectiveId req = "") then
    failWith (ToGRPCError (Errorf ErrInvalidArgument "retrospective_id is required"))
  else
    retro ← onErr ToGRPCError
              (InMemoryRetrospectiveStore.Get (pb.JoinRetrospectiveRequest.RetrospectiveId req));
    let userID := getUserIDFromContext ctx in
    let displayName :=
      if bool_decide (pb.JoinRetrospectiveRequest.DisplayName req = "")
      then getUserNameFromContext ctx
      else pb.JoinRetrospectiveRequest.DisplayName req in
    let role :=
      if bool_decide (vstore.Retrospective.FacilitatorID retro = userID)
      then vstore.ParticipantRoleFacilitator
      else vstore.ParticipantRoleMember in
    let participant := vstore.Participant.mk
      (pb.JoinRetrospectiveRequest.RetrospectiveId req +:+ ":" +:+ userID)
      (pb.JoinRetrospectiveRequest.RetrospectiveId req)
      userID displayName
      (pb.JoinRetrospectiveRequest.AvatarUrl req)
      role false time.Zero time.Zero in
    participant ← onErr ToGRPCError (InMemoryParticipantStore.Join participant);
    participants ← ignoreErr
      (InMemoryParticipantStore.ListByRetrospective
         (pb.JoinRetrospectiveRequest.RetrospectiveId req));
    let participants := default [] participants in
    timestamp ← time_Now;
    _ ← EventBroadcaster.Broadcast (pb.JoinRetrospectiveRequest.RetrospectiveId req)
          (pb.RetrospectiveEvent.mk
             (pb.JoinRetrospectiveRequest.RetrospectiveId req) timestamp
             (pb.ParticipantJoined (convertVstoreParticipantToPb participant)
                                   (int32 (Z.of_nat (length participants)))));
    let retro := vstore.Retrospective.withParticipantCount
                   (int32 (Z.of_nat (length participants))) retro in
    _ ← InMemoryRetrospectiveStore.assign
          (pb.JoinRetrospectiveRequest.RetrospectiveId req) retro;
    _ ← ignoreErr (InMemoryRetrospectiveStore.Update retro);
    mret (pb.JoinRetrospectiveResponse.mk
            (convertPresenceInfo participants)
            (convertVstoreParticipantToPb participant)).

Definition LeaveRetrospective `{!GoRuntime}
    (ctx : context.Context) (req : pb.LeaveRetrospectiveRequest.t) : M unit :=
  if bool_decide (pb.LeaveRetrospectiveRequest.RetrospectiveId req = "") then
    failWith (ToGRPCError (Errorf ErrInvalidArgument "retrospective_id is required"))
  else
    let userID := getUserIDFromContext ctx in
    _ ← onErr ToGRPCError
          (InMemoryParticipantStore.Leave
             (pb.LeaveRetrospectiveRequest.RetrospectiveId req) userID);
    participants ← ignoreErr
      (InMemoryParticipantStore.ListByRetrospective
         (pb.LeaveRetrospectiveRequest.RetrospectiveId req));
    let participants := default [] participants in
    timestamp ← time_Now;
    _ ← EventBroadcaster.Broadcast (pb.LeaveRetrospectiveRequest.RetrospectiveId req)
          (pb.RetrospectiveEvent.mk
             (pb.LeaveRetrospectiveRequest.RetrospectiveId req) timestamp
             (pb.ParticipantLeft userID (int32 (Z.of_nat (length participants)))));
    retro ← ignoreErr
      (InMemoryRetrospectiveStore.Get (pb.LeaveRetrospectiveRequest.RetrospectiveId req));
    match retro with
    | Some retro =>
        let retro := vstore.Retrospective.withParticipantCount
                       (int32 (Z.of_nat (length participants))) retro in
        _ ← InMemoryRetrospectiveStore.assign
              (pb.LeaveRetrospectiveRequest.RetrospectiveId req) retro;
        _ ← ignoreErr (InMemoryRetrospectiveStore.Update retro);
        mret ()
    | None => mret ()
    end.

Definition Heartbeat `{!GoRuntime}
    (ctx : context.Context) (req : pb.HeartbeatRequest.t) : M unit :=
  if bool_decide (pb.HeartbeatRequest.RetrospectiveId req = "") then
    failWith (ToGRPCError (Errorf ErrInvalidArgument "retrospective_id is required"))
  else
    let userID := getUserIDFromContext ctx in
    onErr ToGRPCError
      (InMemoryParticipantStore.Heartbeat (pb.HeartbeatRequest.RetrospectiveId req) userID).

Definition GetParticipants `{!GoRuntime}
    (ctx : context.Context) (req : pb.GetParticipantsRequest.t)
  : M pb.GetParticipantsResponse.t :=
  if bool_decide (pb.GetParticipantsRequest.RetrospectiveId req = "") then
    failWith (ToGRPCError (Errorf ErrInvalidArgument "retrospective_id is required"))
  else
    participants ← onErr ToGRPCError
      (InMemoryParticipantStore.ListByRetrospective
         (pb.GetParticipantsRequest.RetrospectiveId req));
    mret (pb.GetParticipantsResponse.mk (convertPresenceInfo participants)).

End RealtimeService.

(** ** item_service.go (first part): the item service *)

Module RetrospectiveItemService.

Definition Create `{!GoRuntime} (ctx : context.Context) (req : pb.CreateItemRequest.t)
  : M pb.CreateItemResponse.t :=
  if bool_decide (pb.CreateItemRequest.RetrospectiveId req = "") then
    failWith (ToGRPCError (Errorf ErrInvalidArgument "retrospective_id is required"))
  else if bool_decide (pb.CreateItemRequest.ColumnId req = "") then
    failWith (ToGRPCError (Errorf ErrInvalidArgument "column_id is required"))
  else if bool_decide (pb.CreateItemRequest.Content req = "") then
    failWith (ToGRPCError (Errorf ErrInvalidArgument "content is required"))
  else
    retro ← onErr ToGRPCError
              (InMemoryRetrospectiveStore.Get (pb.CreateItemRequest.RetrospectiveId req));
    if negb (columnValid (vstore.Retrospective.TemplateColumns retro)
                         (pb.CreateItemRequest.ColumnId req)) then
      failWith (ToGRPCError (Errorf ErrInvalidArgument "invalid column_id"))
    else
      existingItems ← ignoreErr
        (InMemoryItemStore.ListByRetrospective
           (pb.CreateItemRequest.RetrospectiveId req)
           (pb.CreateItemRequest.ColumnId req) false);
      let existingItems := default [] existingItems in
      let position := int32 (Z.of_nat (length existingItems)) in
      let userID := getUserIDFromContext ctx in
      let userName :=
        if pb.CreateItemRequest.IsAnonymous req
        then "Anonymous"
        else getUserNameFromContext ctx in
      now ← time_Now;
      let itemID := "ITEM-" +:+ pretty (time.UnixNano now) in
      let item := vstore.RetrospectiveItem.mk
        itemID
        (pb.CreateItemRequest.RetrospectiveId req)
        (pb.CreateItemRequest.ColumnId req)
        (pb.CreateItemRequest.Content req)
        userID userName 0
        (pb.CreateItemRequest.IsAnonymous req)
        position false time.Zero time.Zero time.Zero in
      _ ← onErr ToGRPCError (InMemoryItemStore.Create item);
      (** [item] points to the record that the store has stamped *)
      item ← gets (λ w, default item (items w !! itemID));
      let retro := vstore.Retrospective.withItemCount
                     (int32 (vstore.Retrospective.ItemCount retro + 1)) retro in
      _ ← InMemoryRetrospectiveStore.assign (pb.CreateItemRequest.RetrospectiveId req) retro;
      _ ← ignoreErr (InMemoryRetrospectiveStore.Update retro);
      mret (pb.CreateItemResponse.mk (convertVstoreItemToPb item)).

Definition Update `{!GoRuntime} (ctx : context.Context) (req : pb.UpdateItemRequest.t)
  : M unit :=
  match pb.UpdateItemRequest.Item req with
  | None => failWith (ToGRPCError (Errorf ErrInvalidArgument "item is required"))
  | Some item =>
      if bool_decide (pb.RetrospectiveItem.ItemId item = "") then
        failWith (ToGRPCError (Errorf ErrInvalidArgument "item is required"))
      else
        existing ← onErr ToGRPCError
                     (InMemoryItemStore.Get (pb.RetrospectiveItem.ItemId item));
        let existing :=
          if bool_decide (pb.RetrospectiveItem.Content item ≠ "")
          then vstore.RetrospectiveItem.withContent (pb.RetrospectiveItem.Content item) existing
          else existing in
        _ ← InMemoryItemStore.assign (pb.RetrospectiveItem.ItemId item) existing;
        onErr ToGRPCError (InMemoryItemStore.Update existing)
  end.

Definition Delete `{!GoRuntime} (ctx : context.Context) (req : pb.DeleteItemRequest.t)
  : M unit :=
  if bool_decide (pb.DeleteItemRequest.ItemId req = "") then
    failWith (ToGRPCError (Errorf ErrInvalidArgument "item_id is required"))
  else
    item ← onErr ToGRPCError (InMemoryItemStore.Get (pb.DeleteItemRequest.ItemId req));
    if bool_decide (pb.DeleteItemRequest.RetrospectiveId req ≠ "" ∧
                    vstore.RetrospectiveItem.RetrospectiveID item
                    ≠ pb.DeleteItemRequest.RetrospectiveId req) then
      failWith (ToGRPCError
                  (Errorf ErrInvalidArgument "item does not belong to this retrospective"))
    else
      _ ← onErr ToGRPCError (InMemoryItemStore.Delete (pb.DeleteItemRequest.ItemId req));
      retro ← ignoreErr
        (InMemoryRetrospectiveStore.Get (vstore.RetrospectiveItem.RetrospectiveID item));
      match retro with
      | Some retro =>
          let retro := vstore.Retrospective.withItemCount
                         (int32 (vstore.Retrospective.ItemCount retro - 1)) retro in
          _ ← InMemoryRetrospectiveStore.assign
                (vstore.RetrospectiveItem.RetrospectiveID item) retro;
          _ ← ignoreErr (InMemoryRetrospectiveStore.Update retro);
          mret ()
      | None => mret ()
      end.

Definition List `{!GoRuntime} (ctx : context.Context) (req : pb.ListItemsRequest.t)
  : M pb.ListItemsResponse.t :=
  if bool_decide (pb.ListItemsRequest.RetrospectiveId req = "") then
    failWith (ToGRPCError (Errorf ErrInvalidArgument "retrospective_id is required"))
  else
    items ← onErr ToGRPCError
              (InMemoryItemStore.ListByRetrospective
                 (pb.ListItemsRequest.RetrospectiveId req)
                 (pb.ListItemsRequest.ColumnId req)
                 (pb.ListItemsRequest.SortByVotes req));
    mret (pb.ListItemsResponse.mk (convertVstoreItemToPb <$> items)).

Definition MoveToColumn `{!GoRuntime}
    (ctx : context.Context) (req : pb.MoveItemToColumnRequest.t) : M unit :=
  if bool_decide (pb.MoveItemToColumnRequest.ItemId req = "") then
    failWith (ToGRPCError (Errorf ErrInvalidArgument "item_id is required"))
  else if bool_decide (pb.MoveItemToColumnRequest.TargetColumnId req = "") then
    failWith (ToGRPCError (Errorf ErrInvalidArgument "target_column_id is required"))
  else
    item ← onErr ToGRPCError (InMemoryItemStore.Get (pb.MoveItemToColumnRequest.ItemId req));
    if bool_decide (pb.MoveItemToColumnRequest.RetrospectiveId req ≠ "" ∧
                    vstore.RetrospectiveItem.RetrospectiveID item
                    ≠ pb.MoveItemToColumnRequest.RetrospectiveId req) then
      failWith (ToGRPCError
                  (Errorf ErrInvalidArgument "item does not belong to this retrospective"))
    else
      retro ← onErr ToGRPCError
                (InMemoryRetrospectiveStore.Get
                   (vstore.RetrospectiveItem.RetrospectiveID item));
      if negb (columnValid (vstore.Retrospective.TemplateColumns retro)
                           (pb.MoveItemToColumnRequest.TargetColumnId req)) then
        failWith (ToGRPCError (Errorf ErrInvalidArgument "invalid target_column_id"))
      else
        let item := vstore.RetrospectiveItem.withPosition
                      (pb.MoveItemToColumnRequest.Position req)
                      (vstore.RetrospectiveItem.withColumnID
                         (pb.MoveItemToColumnRequest.TargetColumnId req) item) in
        _ ← InMemoryItemStore.assign (pb.MoveItemToColumnRequest.ItemId req) item;
        onErr ToGRPCError (InMemoryItemStore.Update item).

End RetrospectiveItemService.

(** ** template_service.go *)

Definition getDefaultPbTemplateColumns (templateType : vstore.TemplateType)
  : list pb.TemplateColumn.t :=
  let wentWellToImprove :=
      [ pb.TemplateColumn.mk "went_well" "What Went Well" "Things that worked well this sprint" "👍" 1 "#22c55e";
        pb.TemplateColumn.mk "to_improve" "What To Improve" "Things that could be better" "🔧" 2 "#f59e0b";
        pb.TemplateColumn.mk "action_items" "Action Items" "Specific actions to take" "✅" 3 "#3b82f6" ] in
  match templateType with
  | vstore.TemplateTypeWentWellToImprove => wentWellToImprove
  | vstore.TemplateTypeStartStopContinue =>
        [ pb.TemplateColumn.mk "start" "Start" "Things we should start doing" "🚀" 1 "#22c55e";
          pb.TemplateColumn.mk "stop" "Stop" "Things we should stop doing" "🛑" 2 "#ef4444";
          pb.TemplateColumn.mk "continue" "Continue" "Things we should keep doing" "➡️" 3 "#3b82f6" ]
  | vstore.TemplateTypeFourLs =>
        [ pb.TemplateColumn.mk "liked" "Liked" "What we liked" "❤️" 1 "#ec4899";
          pb.TemplateColumn.mk "learned" "Learned" "What we learned" "📚" 2 "#8b5cf6";
          pb.TemplateColumn.mk "lacked" "Lacked" "What was lacking" "🤔" 3 "#f59e0b";
          pb.TemplateColumn.mk "longed_for" "Longed For" "What we wish we had" "✨" 4 "#06b6d4" ]
  | vstore.TemplateTypeMadSadGlad =>
        [ pb.TemplateColumn.mk "mad" "Mad" "Things that frustrated us" "😠" 1 "#ef4444";
          pb.TemplateColumn.mk "sad" "Sad" "Things that disappointed us" "😢" 2 "#6366f1";
          pb.TemplateColumn.mk "glad" "Glad" "Things that made us happy" "😊" 3 "#22c55e" ]
  | _ => wentWellToImprove
  end.

Module TemplateService.

Definition GetDefaultTemplate (ctx : context.Context) (req : pb.GetDefaultTemplateRequest.t)
  : M pb.GetDefaultTemplateResponse.t :=
  let templateType :=
    if bool_decide (pb.GetDefaultTemplateRequest.Type_ req = vstore.TemplateTypeUnspecified)
    then vstore.TemplateTypeWentWellToImprove
    else pb.GetDefaultTemplateRequest.Type_ req in
  let columns := getDefaultPbTemplateColumns templateType in
  mret (pb.GetDefaultTemplateResponse.mk (pb.RetrospectiveTemplate.mk templateType columns)).

End TemplateService.

(** * The vocabulary of the properties *)

Import vstore.

Definition statusAt (id : string) (w : World) : option RetrospectiveStatus :=
  Retrospective.Status <$> retros w !! id.

Definition completedAtAt (id : string) (w : World) : option time.Time :=
  Retrospective.CompletedAt <$> retros w !! id.

(** A retrospective in the given phase, and a server state that holds it
    under the id ["R"]. *)
Definition sampleRetro (status : RetrospectiveStatus) (completedAt : time.Time)
  : Retrospective.t :=
  Retrospective.mk "R" "team" "Team" "Sprint 1" "" TemplateTypeWentWellToImprove []
    status (VotingConfig.mk 2 false false) "mock-user-id" "mock-user-id"
    0 0 0 time.Zero completedAt time.Zero time.Zero time.Zero.

Definition sampleWorld (status : RetrospectiveStatus) (completedAt : time.Time) : World :=
  setRetros {["R" := sampleRetro status completedAt]} newWorld.

Definition preserves {A : Type} (R : relation World) (m : M A) : Prop :=
  ∀ w, R w (m w).2.

(** the relation between two states that agree on the component [sel] *)
Definition same {X : Type} (sel : World → X) : relation World :=
  λ w w', sel w' = sel w.

#[global] Instance same_preorder {X : Type} (sel : World → X) : PreOrder (same sel).
Proof.
  split.
  - intros w. reflexivity.
  - intros w1 w2 w3 H12 H23. unfold same in *. congruence.
Qed.

Definition hubOf (w : World) : gmap string (list nat) * list Chan :=
  (subscribers w, channels w).

(** A server state with a DRAFT retrospective ["R"], one item on its board
    and one subscriber of its events. *)
Definition sampleItem (id : string) (count : Z) : RetrospectiveItem.t :=
  RetrospectiveItem.mk id "R" "went_well" "card" "mock-user-id" "Mock User"
    count false 0 false time.Zero time.Zero time.Zero.

Definition watchedWorld (status : RetrospectiveStatus) : World :=
  (EventBroadcaster.Subscribe "R"
     (setItems {["A" := sampleItem "A" 0]} (sampleWorld status time.Zero))).2.

(** the number of stored votes that satisfy [P] *)
Definition countVotes (P : Vote.t → Prop) `{!∀ v, Decision (P v)}
    (m : gmap string Vote.t) : nat :=
  length (filter P (map_to_list m).*2).

(** the votes of [userID] in the retrospective [retroID] *)
Definition votesOfUser (retroID userID : string) (w : World) : nat :=
  countVotes (InMemoryVoteStore.byUser retroID userID) (votes w).

(** the votes of [userID] for the item [itemID] of [retroID] *)
Definition votesOfUserOnItem (retroID itemID userID : string) (w : World) : nat :=
  countVotes (InMemoryVoteStore.byUserAndItem retroID itemID userID) (votes w).

Definition voteCountAt (itemID : string) (w : World) : option Z :=
  RetrospectiveItem.VoteCount <$> items w !! itemID.

(** every vote is filed under its own id, as [Create] does *)
Definition votes_wf (w : World) : Prop :=
  map_Forall (λ k v, Vote.VoteID v = k) (votes w).

#[global] Instance votes_wf_dec (w : World) : Decision (votes_wf w).
Proof. unfold votes_wf. apply _. Defined.

(** the state after a successful [CastVote] *)
Definition castVoteWorld `{!GoRuntime} (retroID itemID userID : string)
    (item : RetrospectiveItem.t) (w : World) : World :=
  let voteID := "VOTE-" +:+ pretty (wallClock (clockReads w)) in
  let vote := Vote.mk voteID retroID itemID userID
                (time.At (wallClock (S (clockReads w)))) in
  let item := RetrospectiveItem.withUpdated
                (time.At (wallClock (S (S (clockReads w)))))
                (RetrospectiveItem.withVoteCount
                   (int32 (RetrospectiveItem.VoteCount item + 1)) item) in
  mkWorld (retros w) (<[itemID := item]> (items w)) (<[voteID := vote]> (votes w))
          (participants w) (subscribers w) (channels w)
          (S (S (S (clockReads w)))) (S (S (mapRanges w))).

(** [CastVote] as a decision list over the state: the runtime has no
    influence on the outcome *)
Definition castVoteOutcome `{!GoRuntime} (ctx : context.Context)
    (req : pb.CastVoteRequest.t) (w : World) : result unit * World :=
  let retroID := pb.CastVoteRequest.RetrospectiveId req in
  let itemID := pb.CastVoteRequest.ItemId req in
  let userID := getUserIDFromContext ctx in
  if decide (retroID = "") then
    (Err (ToGRPCError (Errorf ErrInvalidArgument "retrospective_id is required")), w)
  else if decide (itemID = "") then
    (Err (ToGRPCError (Errorf ErrInvalidArgument "item_id is required")), w)
  else match retros w !! retroID with
  | None => (Err (ToGRPCError (errSentinel ErrNotFound)), w)
  | Some retro =>
    if decide (Retrospective.Status retro ≠ RetrospectiveStatusVoting ∧
               Retrospective.Status retro ≠ RetrospectiveStatusActive) then
      (Err (ToGRPCError (Errorf ErrInvalidStatus "voting is not currently allowed")), w)
    else match items w !! itemID with
    | None => (Err (ToGRPCError (errSentinel ErrNotFound)), w)
    | Some item =>
      if decide (RetrospectiveItem.RetrospectiveID item ≠ retroID) then
        (Err (ToGRPCError
                (Errorf ErrInvalidArgument "item does not belong to this retrospective")), w)
      else if decide (votesOfUserOnItem retroID itemID userID w ≠ 0 ∧
                      VotingConfig.AllowMultipleVotesPerItem
                        (Retrospective.VotingConfig retro) = false) then
        (Err (ToGRPCError (Errorf ErrAlreadyExists "you have already voted for this item")),
         setMapRanges (S (mapRanges w)) w)
      else if decide (VotingConfig.MaxVotesPerUser (Retrospective.VotingConfig retro)
                      ≤ int32 (Z.of_nat (votesOfUser retroID userID w)))%Z then
        (Err (ToGRPCError
                (Errorf ErrVoteLimitExceeded
                   ("you have used all " +:+
                    pretty (VotingConfig.MaxVotesPerUser (Retrospective.VotingConfig retro))
                    +:+ " votes"))),
         setMapRanges (S (S (mapRanges w))) w)
      else (Ok (), castVoteWorld retroID itemID userID item w)
    end
  end.

(** A server state with a retrospective ["R"] in the VOTING phase (two votes
    per user, one vote per item) and three items on its board, and the state
    after the user of the context has voted for the items ["A"] and ["B"]. *)
Definition votingWorld : World :=
  setItems (<["A" := sampleItem "A" 0]>
             (<["B" := sampleItem "B" 0]> {["C" := sampleItem "C" 0]}))
           (sampleWorld RetrospectiveStatusVoting time.Zero).


(** the state after a successful [RemoveVote] that found the vote [vote] *)
Definition removeVoteWorld `{!GoRuntime} (itemID : string) (vote : Vote.t) (w : World)
  : World :=
  let votes' := delete (Vote.VoteID vote) (votes w) in
  match items w !! itemID with
  | Some item =>
      let item :=
        if (0 <? RetrospectiveItem.VoteCount item)%Z
        then RetrospectiveItem.withVoteCount
               (int32 (RetrospectiveItem.VoteCount item - 1)) item
        else item in
      let item := RetrospectiveItem.withUpdated
                    (time.At (wallClock (clockReads w))) item in
      mkWorld (retros w) (<[itemID := item]> (items w)) votes'
              (participants w) (subscribers w) (channels w)
              (S (clockReads w)) (S (mapRanges w))
  | None =>
      mkWorld (retros w) (items w) votes'
              (participants w) (subscribers w) (channels w)
              (clockReads w) (S (mapRanges w))
  end.

(** the state after the user of the context has voted for the item ["A"] *)
Definition votedOnceWorld : World :=
  (VotingService.CastVote (H := simRuntime 1000) context.Background
     (pb.CastVoteRequest.mk "R" "A") votingWorld).2.

(** the same state on a server whose clock gives at its next reading the
    time 1000 again, from which the id of the stored vote was made *)
Definition reusedIdWorld : World := setClockReads 0 votedOnceWorld.

(** the items on the board of a retrospective *)
Definition itemsOf (retroID : string) (w : World) : list RetrospectiveItem.t :=
  filter (λ item, RetrospectiveItem.RetrospectiveID item = retroID)
         (map_to_list (items w)).*2.

(** the sum of their vote counts *)
Definition totalVoteCount (retroID : string) (w : World) : Z :=
  foldr Z.add 0%Z (RetrospectiveItem.VoteCount <$> itemsOf retroID w).

(** every item is filed under its own id, as [Create] does *)
Definition items_wf (w : World) : Prop :=
  map_Forall (λ k item, RetrospectiveItem.ItemID item = k) (items w).

#[global] Instance items_wf_dec (w : World) : Decision (items_wf w).
Proof. unfold items_wf. apply _. Defined.

(** the position (from 0) of the first entry of a slice that has [count]
    votes: the start of the tie group of [count] *)
Fixpoint tieGroupStart (count : Z) (itemVotes : list VotingService.itemVote) : nat :=
  match itemVotes with
  | [] => 0
  | iv :: rest =>
      if decide (VotingService.voteCount iv = count) then 0
      else S (tieGroupStart count rest)
  end.

(** sorted by vote count, descending *)
Definition descending : relation VotingService.itemVote :=
  λ a b, (VotingService.voteCount b ≤ VotingService.voteCount a)%Z.

(** the number of entries with more than [count] votes *)
Definition moreVotes (count : Z) (itemVotes : list VotingService.itemVote) : nat :=
  length (filter (λ iv, (count < VotingService.voteCount iv)%Z) itemVotes).

(** the state of the ranking loop after the entries [done] *)
Definition rankState (done : list VotingService.itemVote) (currentRank lastVoteCount : Z)
  : Prop :=
  match last done with
  | None => currentRank = 1%Z ∧ lastVoteCount = (-1)%Z
  | Some iv =>
      lastVoteCount = VotingService.voteCount iv ∧
      currentRank = int32 (Z.of_nat (tieGroupStart (VotingService.voteCount iv) done) + 1)
  end.

(** the entry of the slice [itemVotes] for an item *)
Definition toItemVote (item : RetrospectiveItem.t) : VotingService.itemVote :=
  VotingService.mkItemVote (RetrospectiveItem.ItemID item)
                           (RetrospectiveItem.VoteCount item).

(** the number of items of a retrospective with more than [count] votes *)
Definition itemsWithMoreVotes (retroID : string) (count : Z) (w : World) : nat :=
  length (filter (λ item, (count < RetrospectiveItem.VoteCount item)%Z)
                 (itemsOf retroID w)).

(** what [GetVoteSummary] has to return for the retrospective [retroID] *)
Definition voteSummarySpec (retroID : string) (w : World)
    (outcome : result pb.GetVoteSummaryResponse.t) : Prop :=
  ∃ resp its sorted,
    outcome = Ok resp ∧
    (** the items of the retrospective, in the order of the summaries, and
        the slice they were sorted into *)
    its ≡ₚ itemsOf retroID w ∧
    sorted ≡ₚ toItemVote <$> its ∧
    StronglySorted descending sorted ∧
    Forall2 (λ item s,
               pb.VoteSummary.ItemId s = RetrospectiveItem.ItemID item ∧
               pb.VoteSummary.VoteCount s = RetrospectiveItem.VoteCount item ∧
               pb.VoteSummary.Rank s
               = (Z.of_nat (tieGroupStart (RetrospectiveItem.VoteCount item) sorted) + 1)%Z ∧
               pb.VoteSummary.Rank s
               = (Z.of_nat (itemsWithMoreVotes retroID
                              (RetrospectiveItem.VoteCount item) w) + 1)%Z)
            its (pb.GetVoteSummaryResponse.Summaries resp) ∧
    (∀ s1 s2,
       s1 ∈ pb.GetVoteSummaryResponse.Summaries resp →
       s2 ∈ pb.GetVoteSummaryResponse.Summaries resp →
       pb.VoteSummary.VoteCount s1 = pb.VoteSummary.VoteCount s2 →
       pb.VoteSummary.Rank s1 = pb.VoteSummary.Rank s2) ∧
    pb.GetVoteSummaryResponse.TotalVotes resp = totalVoteCount retroID w.

(** a board with the vote counts 5, 5, 3 and 1 *)
Definition rankedWorld : World :=
  setItems (<["A" := sampleItem "A" 5]>
             (<["B" := sampleItem "B" 5]>
                (<["C" := sampleItem "C" 3]> {["D" := sampleItem "D" 1]})))
           (sampleWorld RetrospectiveStatusVoting time.Zero).

(** the item id, vote count and rank of a summary *)
Definition summaryRow (s : pb.VoteSummary.t) : string * Z * Z :=
  (pb.VoteSummary.ItemId s, pb.VoteSummary.VoteCount s, pb.VoteSummary.Rank s).

(** the queues registered under a retrospective *)
Definition subscribersOf (retroID : string) (w : World) : list nat :=
  default [] (subscribers w !! retroID).

(** the registry of a broadcaster built by [Subscribe] and [Unsubscribe]:
    a registered queue is an allocated, open channel, it is registered
    once, and under one retrospective only *)
Definition hub_wf (w : World) : Prop :=
  map_Forall (λ retroID subs,
    NoDup subs ∧
    Forall (λ ch, chanClosed <$> channels w !! ch = Some false) subs ∧
    map_Forall (λ other subs',
      other = retroID ∨ Forall (λ ch, ch ∉ subs') subs) (subscribers w))
  (subscribers w).

#[global] Instance hub_wf_dec (w : World) : Decision (hub_wf w).
Proof. unfold hub_wf. apply _. Defined.

(** the queue [c] after a non-blocking send of [event] *)
Definition offered (event : pb.RetrospectiveEvent.t) (c : Chan) : Chan :=
  if decide (length (chanBuf c) < chanCap c)
  then mkChan (chanBuf c ++ [event]) (chanCap c) false
  else c.

(** the state after [Unsubscribe] has found [ch] at position [i] *)
Definition unsubscribedWorld (retroID : string) (ch i : nat) (c : Chan) (w : World)
  : World :=
  setChannels (<[ch := mkChan (chanBuf c) (chanCap c) true]> (channels w))
    (setSubscribers
       (<[retroID := take i (subscribersOf retroID w)
                     ++ drop (S i) (subscribersOf retroID w)]> (subscribers w)) w).

(** a hub with three subscribers of ["R"] (the channels 0, 1 and 2) and one
    of ["S"] (the channel 3), and an event to publish *)
Definition fanOutWorld : World :=
  (EventBroadcaster.Subscribe "S"
     (EventBroadcaster.Subscribe "R"
        (EventBroadcaster.Subscribe "R"
           (EventBroadcaster.Subscribe "R" newWorld).2).2).2).2.

Definition sampleEvent (n : Z) : pb.RetrospectiveEvent.t :=
  pb.RetrospectiveEvent.mk "R" (time.At n) (pb.ItemDeleted "A" "went_well").

(** the number of online participants of a retrospective *)
Definition onlineCount (retroID : string) (w : World) : nat :=
  length (filter (InMemoryParticipantStore.onlineIn retroID)
                 (map_to_list (participants w)).*2).

Definition participantAt (retroID userID : string) (w : World)
  : option Participant.t :=
  participants w !! InMemoryParticipantStore.key retroID userID.

(** the record that [JoinRetrospective] stores *)
Definition joinedParticipant `{!GoRuntime} (ctx : context.Context)
    (req : pb.JoinRetrospectiveRequest.t) (retro : Retrospective.t) (w : World)
  : Participant.t :=
  let retroID := pb.JoinRetrospectiveRequest.RetrospectiveId req in
  let userID := getUserIDFromContext ctx in
  Participant.mk
    (retroID +:+ ":" +:+ userID) retroID userID
    (if bool_decide (pb.JoinRetrospectiveRequest.DisplayName req = "")
     then getUserNameFromContext ctx
     else pb.JoinRetrospectiveRequest.DisplayName req)
    (pb.JoinRetrospectiveRequest.AvatarUrl req)
    (if bool_decide (Retrospective.FacilitatorID retro = userID)
     then ParticipantRoleFacilitator
     else ParticipantRoleMember)
    true
    (time.At (wallClock (clockReads w)))
    (time.At (wallClock (S (clockReads w)))).

(** the event that [JoinRetrospective] publishes *)
Definition joinedEvent `{!GoRuntime} (ctx : context.Context)
    (req : pb.JoinRetrospectiveRequest.t) (retro : Retrospective.t) (w : World)
    (count : Z) : pb.RetrospectiveEvent.t :=
  pb.RetrospectiveEvent.mk
    (pb.JoinRetrospectiveRequest.RetrospectiveId req)
    (time.At (wallClock (S (S (clockReads w)))))
    (pb.ParticipantJoined
       (convertVstoreParticipantToPb (joinedParticipant ctx req retro w)) count).

(** a server state in which the user of the context is already present in
    the retrospective ["R"], having joined at time 5 *)
Definition presentWorld : World :=
  setParticipants
    {[InMemoryParticipantStore.key "R" "mock-user-id" :=
        Participant.mk "R:mock-user-id" "R" "mock-user-id" "Mock User" ""
          ParticipantRoleFacilitator true (time.At 5) (time.At 6)]}
    (sampleWorld RetrospectiveStatusActive time.Zero).

(** every retrospective is filed under its own id, as [Create] does *)
Definition retros_wf (w : World) : Prop :=
  map_Forall (λ k retro, Retrospective.RetrospectiveID retro = k) (retros w).

#[global] Instance retros_wf_dec (w : World) : Decision (retros_wf w).
Proof. unfold retros_wf. apply _. Defined.

(** ** The board, the retrospectives and the runs of the server *)

(** the cards in a column of the board of a retrospective (all its cards
    for the column [""]) *)
Definition itemsInColumn (retroID columnID : string) (w : World)
  : list RetrospectiveItem.t :=
  filter (λ item, RetrospectiveItem.RetrospectiveID item = retroID ∧
                  (columnID = "" ∨ RetrospectiveItem.ColumnID item = columnID))
         (map_to_list (items w)).*2.

(** the card that [RetrospectiveItemService.Create] puts on the board *)
Definition createdItem `{!GoRuntime} (ctx : context.Context)
    (req : pb.CreateItemRequest.t) (w : World) : RetrospectiveItem.t :=
  RetrospectiveItem.mk
    ("ITEM-" +:+ pretty (wallClock (clockReads w)))
    (pb.CreateItemRequest.RetrospectiveId req)
    (pb.CreateItemRequest.ColumnId req)
    (pb.CreateItemRequest.Content req)
    (getUserIDFromContext ctx)
    (if pb.CreateItemRequest.IsAnonymous req then "Anonymous" else getUserNameFromContext ctx)
    0
    (pb.CreateItemRequest.IsAnonymous req)
    (int32 (Z.of_nat (length (itemsInColumn (pb.CreateItemRequest.RetrospectiveId req)
                                            (pb.CreateItemRequest.ColumnId req) w))))
    false
    (time.At (wallClock (S (clockReads w))))
    (time.At (wallClock (S (S (clockReads w)))))
    time.Zero.

(** the retrospective that [RetrospectiveService.Create] stores *)
Definition createdRetro `{!GoRuntime} (ctx : context.Context)
    (req : pb.CreateRetrospectiveRequest.t) (w : World) : Retrospective.t :=
  let templateType :=
    if bool_decide (pb.CreateRetrospectiveRequest.TemplateType req = TemplateTypeUnspecified)
    then TemplateTypeWentWellToImprove
    else pb.CreateRetrospectiveRequest.TemplateType req in
  Retrospective.mk
    ("RETRO-" +:+ pretty (wallClock (clockReads w)))
    (pb.CreateRetrospectiveRequest.TeamId req)
    ""
    (pb.CreateRetrospectiveRequest.SprintName req)
    (pb.CreateRetrospectiveRequest.Description req)
    templateType
    (match pb.CreateRetrospectiveRequest.CustomTemplate req with
     | Some template =>
         if bool_decide (0 < length (pb.RetrospectiveTemplate.Columns template))
         then convertPbColumnsToVstore (pb.RetrospectiveTemplate.Columns template)
         else getDefaultTemplateColumns templateType
     | None => getDefaultTemplateColumns templateType
     end)
    RetrospectiveStatusDraft
    (match pb.CreateRetrospectiveRequest.VotingConfig req with
     | Some config =>
         VotingConfig.mk
           (if bool_decide (0 < pb.VotingConfig.MaxVotesPerUser config)%Z
            then pb.VotingConfig.MaxVotesPerUser config else 5%Z)
           (pb.VotingConfig.AllowMultipleVotesPerItem config)
           (pb.VotingConfig.AnonymousVoting config)
     | None => VotingConfig.mk 5 false false
     end)
    (getUserIDFromContext ctx)
    (if bool_decide (pb.CreateRetrospectiveRequest.FacilitatorId req = "")
     then getUserIDFromContext ctx
     else pb.CreateRetrospectiveRequest.FacilitatorId req)
    0 0 0 time.Zero time.Zero
    (time.At (wallClock (S (clockReads w))))
    (time.At (wallClock (S (S (clockReads w)))))
    time.Zero.

(** a request for a retrospective of team ["team"] with the default
    template and voting rules, and the fresh server that has served it *)
Definition sampleCreate : pb.CreateRetrospectiveRequest.t :=
  pb.CreateRetrospectiveRequest.mk "team" "Sprint 1" "" TemplateTypeUnspecified None None "".

Definition boardWorld : World :=
  (RetrospectiveService.Create (H := simRuntime 1000) context.Background
     sampleCreate newWorld).2.

(** the fields of a card that no edit may change *)
Definition cardCore (item : RetrospectiveItem.t) : string * string * string * Z :=
  (RetrospectiveItem.ItemID item, RetrospectiveItem.RetrospectiveID item,
   RetrospectiveItem.CreatedBy item, RetrospectiveItem.VoteCount item).

(** a retrospective ["R"] in the VOTING phase with the columns of the
    default template, where an item may get several votes of a user, and a
    server state with the cards ["A"] and ["B"] on its board *)
Definition boardRetro : Retrospective.t :=
  Retrospective.mk "R" "team" "" "Sprint 1" "" TemplateTypeWentWellToImprove
    (getDefaultTemplateColumns TemplateTypeWentWellToImprove)
    RetrospectiveStatusVoting (VotingConfig.mk 3 true false) "mock-user-id" "mock-user-id"
    2 0 0 time.Zero time.Zero time.Zero time.Zero time.Zero.

Definition cardsWorld : World :=
  setItems (<["A" := sampleItem "A" 0]> {["B" := sampleItem "B" 0]})
    (setRetros {["R" := boardRetro]} newWorld).

(** cards in the order of their vote counts, highest first *)
Definition mostVotedFirst : relation RetrospectiveItem.t :=
  λ a b, (RetrospectiveItem.VoteCount b ≤ RetrospectiveItem.VoteCount a)%Z.

(** the stored retrospectives that pass the filters of a listing, and the
    page size that the listing uses *)
Definition listFilters (req : pb.ListRetrospectivesRequest.t)
  : string * list RetrospectiveStatus :=
  match pb.ListRetrospectivesRequest.Filters req with
  | Some filters => (pb.ListRetrospectivesFilters.TeamId filters,
                     pb.ListRetrospectivesFilters.Statuses filters)
  | None => ("", [])
  end.

Definition matching (req : pb.ListRetrospectivesRequest.t) (w : World)
  : list Retrospective.t :=
  filter (InMemoryRetrospectiveStore.listed (listFilters req).1 (listFilters req).2)
         (map_to_list (retros w)).*2.

Definition pageSizeOf (req : pb.ListRetrospectivesRequest.t) : Z :=
  match pb.ListRetrospectivesRequest.PagingOptions req with
  | Some options =>
      if decide (0 < pb.PagingOptions.PageSize options)%Z
      then pb.PagingOptions.PageSize options else 20%Z
  | None => 20%Z
  end.

(** three retrospectives of the team ["team"], created one after the other *)
Definition threeRetros : World :=
  (RetrospectiveService.Create (H := simRuntime 1000) context.Background sampleCreate
     (RetrospectiveService.Create (H := simRuntime 1000) context.Background sampleCreate
        boardWorld).2).2.

(** the calls that the clients of the server can make, with the two
    operations on the broadcaster that a [Subscribe] stream performs when
    it starts and when it ends *)
Inductive Op : Type :=
| OpCreate (ctx : context.Context) (req : pb.CreateRetrospectiveRequest.t)
| OpGetMulti (ctx : context.Context) (req : pb.GetMultiRetrospectivesRequest.t)
| OpList (ctx : context.Context) (req : pb.ListRetrospectivesRequest.t)
| OpUpdate (ctx : context.Context) (req : pb.UpdateRetrospectiveRequest.t)
| OpDelete (ctx : context.Context) (req : pb.DeleteRetrospectiveRequest.t)
| OpStartVoting (ctx : context.Context) (req : pb.StartVotingRequest.t)
| OpStartDiscussion (ctx : context.Context) (req : pb.StartDiscussionRequest.t)
| OpComplete (ctx : context.Context) (req : pb.CompleteRetrospectiveRequest.t)
| OpItemCreate (ctx : context.Context) (req : pb.CreateItemRequest.t)
| OpItemUpdate (ctx : context.Context) (req : pb.UpdateItemRequest.t)
| OpItemDelete (ctx : context.Context) (req : pb.DeleteItemRequest.t)
| OpItemList (ctx : context.Context) (req : pb.ListItemsRequest.t)
| OpItemMove (ctx : context.Context) (req : pb.MoveItemToColumnRequest.t)
| OpCastVote (ctx : context.Context) (req : pb.CastVoteRequest.t)
| OpRemoveVote (ctx : context.Context) (req : pb.RemoveVoteRequest.t)
| OpGetVoteSummary (ctx : context.Context) (req : pb.GetVoteSummaryRequest.t)
| OpGetUserVotes (ctx : context.Context) (req : pb.GetUserVotesRequest.t)
| OpJoin (ctx : context.Context) (req : pb.JoinRetrospectiveRequest.t)
| OpLeave (ctx : context.Context) (req : pb.LeaveRetrospectiveRequest.t)
| OpGetParticipants (ctx : context.Context) (req : pb.GetParticipantsRequest.t)
| OpHeartbeat (ctx : context.Context) (req : pb.HeartbeatRequest.t)
| OpSubscribe (retroID : string)
| OpUnsubscribe (retroID : string) (ch : nat).

(** the outcome of a call without its response *)
Definition void {A : Type} (r : result A * World) : result unit * World :=
  (match r.1 with
   | Ok _ => Ok ()
   | Err e => Err e
   | Panic msg => Panic msg
   end, r.2).

Definition run `{!GoRuntime} (op : Op) (w : World) : result unit * World :=
  match op with
  | OpCreate ctx req => void (RetrospectiveService.Create ctx req w)
  | OpGetMulti ctx req => void (RetrospectiveService.GetMulti ctx req w)
  | OpList ctx req => void (RetrospectiveService.List ctx req w)
  | OpUpdate ctx req => void (RetrospectiveService.Update ctx req w)
  | OpDelete ctx req => void (RetrospectiveService.Delete ctx req w)
  | OpStartVoting ctx req => void (RetrospectiveService.StartVoting ctx req w)
  | OpStartDiscussion ctx req => void (RetrospectiveService.StartDiscussion ctx req w)
  | OpComplete ctx req => void (RetrospectiveService.Complete ctx req w)
  | OpItemCreate ctx req => void (RetrospectiveItemService.Create ctx req w)
  | OpItemUpdate ctx req => void (RetrospectiveItemService.Update ctx req w)
  | OpItemDelete ctx req => void (RetrospectiveItemService.Delete ctx req w)
  | OpItemList ctx req => void (RetrospectiveItemService.List ctx req w)
  | OpItemMove ctx req => void (RetrospectiveItemService.MoveToColumn ctx req w)
  | OpCastVote ctx req => void (VotingService.CastVote ctx req w)
  | OpRemoveVote ctx req => void (VotingService.RemoveVote ctx req w)
  | OpGetVoteSummary ctx req => void (VotingService.GetVoteSummary ctx req w)
  | OpGetUserVotes ctx req => void (VotingService.GetUserVotes ctx req w)
  | OpJoin ctx req => void (RealtimeService.JoinRetrospective ctx req w)
  | OpLeave ctx req => void (RealtimeService.LeaveRetrospective ctx req w)
  | OpGetParticipants ctx req => void (RealtimeService.GetParticipants ctx req w)
  | OpHeartbeat ctx req => void (RealtimeService.Heartbeat ctx req w)
  | OpSubscribe retroID => void (EventBroadcaster.Subscribe retroID w)
  | OpUnsubscribe retroID ch => void (EventBroadcaster.Unsubscribe retroID ch w)
  end.

(** the state after a sequence of calls *)
Definition runAll `{!GoRuntime} (ops : list Op) (w : World) : World :=
  foldl (λ w op, (run op w).2) w ops.

(** the stores and the broadcaster, without the counters of the runtime *)
Definition storesOf (w : World)
  : gmap string Retrospective.t * gmap string RetrospectiveItem.t * gmap string Vote.t
    * gmap string Participant.t * gmap string (list nat) * list Chan :=
  (retros w, items w, votes w, participants w, subscribers w, channels w).

(** what [RetrospectiveService.Create] guarantees of a retrospective and no
    operation takes away: a phase that is DRAFT, VOTING, DISCUSSING or
    COMPLETED, a positive vote limit and at least one column *)
Definition retroOk (retro : Retrospective.t) : Prop :=
  Retrospective.Status retro ∈ [RetrospectiveStatusDraft; RetrospectiveStatusVoting;
                                RetrospectiveStatusDiscussing;
                                RetrospectiveStatusCompleted] ∧
  (0 < VotingConfig.MaxVotesPerUser (Retrospective.VotingConfig retro))%Z ∧
  Retrospective.TemplateColumns retro ≠ [].

(** every presence record is filed under the key of its retrospective and
    user, as [Join] does *)
Definition participants_wf (w : World) : Prop :=
  map_Forall (λ k p, InMemoryParticipantStore.key (Participant.RetrospectiveID p)
                       (Participant.UserID p) = k) (participants w).

(** the well-formed states of the server *)
Definition sound (w : World) : Prop :=
  (retros_wf w ∧ map_Forall (λ _ retro, retroOk retro) (retros w)) ∧
  items_wf w ∧ votes_wf w ∧ participants_wf w ∧ hub_wf w.

(** an operation that does not panic *)
Definition neverPanics {A : Type} (m : M A) : Prop :=
  ∀ w msg, (m w).1 ≠ Panic msg.

(** an operation that reports no error, and one whose errors leave the
    stores as they were *)
Definition neverFails {A : Type} (m : M A) : Prop :=
  ∀ w e, (m w).1 ≠ Err e.

Definition atomic {A : Type} (m : M A) : Prop :=
  ∀ w e, (m w).1 = Err e → storesOf (m w).2 = storesOf w.

(** the number of votes stored for the card [itemID] *)
Definition votesOnItem (itemID : string) (w : World) : nat :=
  countVotes (λ vote, Vote.ItemID vote = itemID) (votes w).

(** the vote count of every card is the number of votes stored for it *)
Definition tally_ok (w : World) : Prop :=
  map_Forall (λ k item,
    RetrospectiveItem.VoteCount item = Z.of_nat (votesOnItem k w)) (items w).

#[global] Instance tally_ok_dec (w : World) : Decision (tally_ok w).
Proof. unfold tally_ok. apply _. Defined.

(** no user holds more votes in a retrospective than its limit allows *)
Definition limits_ok (w : World) : Prop :=
  ∀ id retro userID, retros w !! id = Some retro →
    (Z.of_nat (votesOfUser id userID w)
     ≤ VotingConfig.MaxVotesPerUser (Retrospective.VotingConfig retro))%Z.

(** the presence records after the user has left: the record of the user,
    if there is one, is offline and was last active at the time of the call *)
Definition leftParticipants `{!GoRuntime} (retroID userID : string) (w : World)
  : gmap string Participant.t :=
  match participantAt retroID userID w with
  | Some p =>
      <[InMemoryParticipantStore.key retroID userID :=
          Participant.withLastActive (time.At (wallClock (clockReads w)))
            (Participant.withIsOnline false p)]> (participants w)
  | None => participants w
  end.

(** 1 if the user is online in the retrospective, 0 otherwise *)
Definition onlineAs (retroID userID : string) (w : World) : nat :=
  match participantAt retroID userID w with
  | Some p => if decide (InMemoryParticipantStore.onlineIn retroID p) then 1 else 0
  | None => 0
  end.

(** the event that [LeaveRetrospective] publishes *)
Definition leftEvent (retroID userID : string) (timestamp : time.Time) (count : Z)
  : pb.RetrospectiveEvent.t :=
  pb.RetrospectiveEvent.mk retroID timestamp (pb.ParticipantLeft userID count).

(** a server state in which the user of the context has left the
    retrospective ["R"], whose participant count is 0 *)
Definition leftWorld : World :=
  setParticipants
    {[InMemoryParticipantStore.key "R" "mock-user-id" :=
        Participant.mk "R:mock-user-id" "R" "mock-user-id" "Mock User" ""
          ParticipantRoleFacilitator false (time.At 5) (time.At 9)]}
    (sampleWorld RetrospectiveStatusActive time.Zero).

(** the state after the events [events] have been published, one after the
    other, to the subscribers of a retrospective *)
Definition broadcastAll (retroID : string) (events : list pb.RetrospectiveEvent.t)
    (w : World) : World :=
  foldl (λ w event, (EventBroadcaster.Broadcast retroID event w).2) w events.

(** ** The books of the votes *)

(** an id made of [prefix] and of one of the readings [lo], ..., [hi - 1]
    of the clock *)
Definition issued `{!GoRuntime} (prefix : string) (lo hi : nat) (id : string) : Prop :=
  ∃ n, lo ≤ n < hi ∧ id = prefix +:+ pretty (wallClock n).

(** from [w] to [w'] every card has kept its vote count, or is a new card
    without votes whose id was made in between; every retrospective has
    kept its voting rules, or is a new one whose id was made in between *)
Definition items_evolve `{!GoRuntime} (w w' : World) : Prop :=
  map_Forall (λ k item',
    (∃ item, items w !! k = Some item ∧
             RetrospectiveItem.VoteCount item' = RetrospectiveItem.VoteCount item) ∨
    (RetrospectiveItem.VoteCount item' = 0%Z ∧
     issued "ITEM-" (clockReads w) (clockReads w') k)) (items w').

Definition retros_evolve `{!GoRuntime} (w w' : World) : Prop :=
  map_Forall (λ k retro',
    (∃ retro, retros w !! k = Some retro ∧
              Retrospective.VotingConfig retro' = Retrospective.VotingConfig retro) ∨
    ((0 ≤ VotingConfig.MaxVotesPerUser (Retrospective.VotingConfig retro'))%Z ∧
     issued "RETRO-" (clockReads w) (clockReads w') k)) (retros w').

(** a step of the server that casts and removes no vote *)
Definition evolves `{!GoRuntime} (w w' : World) : Prop :=
  votes w' = votes w ∧ clockReads w ≤ clockReads w' ∧
  items_evolve w w' ∧ retros_evolve w w'.

(** the ids in the stores were made from earlier readings of the clock *)
Definition ledger `{!GoRuntime} (w : World) : Prop :=
  map_Forall (λ k _, issued "RETRO-" 0 (clockReads w) k) (retros w) ∧
  map_Forall (λ k _, issued "ITEM-" 0 (clockReads w) k) (items w) ∧
  map_Forall (λ k vote, issued "VOTE-" 0 (clockReads w) k ∧
                        issued "RETRO-" 0 (clockReads w) (Vote.RetrospectiveID vote) ∧
                        issued "ITEM-" 0 (clockReads w) (Vote.ItemID vote)) (votes w).

(** the states in which the votes are counted right, with at most [n]
    votes *)
Definition counted `{!GoRuntime} (n : nat) (w : World) : Prop :=
  sound w ∧ ledger w ∧ tally_ok w ∧ limits_ok w ∧ size (votes w) ≤ n.

(** the stores of the boards and the clock *)
Definition booksOf (w : World)
  : gmap string Retrospective.t * gmap string RetrospectiveItem.t * gmap string Vote.t
    * nat :=
  (retros w, items w, votes w, clockReads w).

(** a session on a fresh server whose clock starts at 1000: a
    retrospective is created and opened for voting, a card is put on its
    board, the user votes for it, votes again (which is refused), takes the
    vote back and votes once more *)
Definition sampleSession : list Op :=
  [ OpCreate context.Background sampleCreate;
    OpStartVoting context.Background (pb.StartVotingRequest.mk "RETRO-1000");
    OpItemCreate context.Background
      (pb.CreateItemRequest.mk "RETRO-1000" "went_well" "demo went well" false);
    OpCastVote context.Background (pb.CastVoteRequest.mk "RETRO-1000" "ITEM-1004");
    OpCastVote context.Background (pb.CastVoteRequest.mk "RETRO-1000" "ITEM-1004");
    OpRemoveVote context.Background (pb.RemoveVoteRequest.mk "RETRO-1000" "ITEM-1004");
    OpCastVote context.Background (pb.CastVoteRequest.mk "RETRO-1000" "ITEM-1004") ].

(** a column of a template without its icon *)
Definition columnFields (col : TemplateColumn.t) : string * string * string * Z * string :=
  (TemplateColumn.ColumnID col, TemplateColumn.Name col, TemplateColumn.Description col,
   TemplateColumn.SortOrder col, TemplateColumn.Color col).

(** ** The action items *)

(** every action item is filed under its own id, as [Create] does *)
Definition actions_wf (s : Server) : Prop :=
  map_Forall (λ k item, ActionItem.ActionItemID item = k) (actionItems s).

#[global] Instance actions_wf_dec (s : Server) : Decision (actions_wf s).
Proof. unfold actions_wf. apply _. Defined.

(** the action items of a retrospective *)
Definition actionItemsOf (retroID : string) (s : Server) : list ActionItem.t :=
  filter (λ item, ActionItem.RetrospectiveID item = retroID)
         (map_to_list (actionItems s)).*2.

(** the action item count of every retrospective is the number of its
    action items *)
Definition actionCounts_ok (s : Server) : Prop :=
  map_Forall (λ id retro,
    Retrospective.ActionItemCount retro = Z.of_nat (length (actionItemsOf id s)))
    (retros (world s)).

#[global] Instance actionCounts_ok_dec (s : Server) : Decision (actionCounts_ok s).
Proof. unfold actionCounts_ok. apply _. Defined.

(** the retrospective that [ActionItemService.Create] takes the context of
    the new action item from *)
Definition contextRetro (req : pb.CreateActionItemRequest.t) (s : Server)
  : option Retrospective.t :=
  if decide (pb.CreateActionItemRequest.RetrospectiveId req = "") then None
  else retros (world s) !! pb.CreateActionItemRequest.RetrospectiveId req.

(** the team of the new action item: the one of the request, else the one
    of the retrospective *)
Definition teamFor (req : pb.CreateActionItemRequest.t) (retro : option Retrospective.t)
  : string :=
  if decide (pb.CreateActionItemRequest.TeamId req = "")
  then from_option Retrospective.TeamID "" retro
  else pb.CreateActionItemRequest.TeamId req.

(** the record that [ActionItemService.Create] stores, and the
    retrospectives after it has counted the new action item *)
Definition createdAction `{!GoRuntime} (ctx : context.Context)
    (req : pb.CreateActionItemRequest.t) (s : Server) : ActionItem.t :=
  let retro := contextRetro req s in
  ActionItem.mk
    ("ACTION-" +:+ pretty (wallClock (clockReads (world s))))
    (pb.CreateActionItemRequest.RetrospectiveId req)
    (pb.CreateActionItemRequest.SourceItemId req)
    (teamFor req retro)
    (pb.CreateActionItemRequest.Description req)
    (pb.CreateActionItemRequest.AssigneeId req)
    (getAssigneeName (pb.CreateActionItemRequest.AssigneeId req))
    ActionItemStatusNotStarted
    (if decide (pb.CreateActionItemRequest.Priority req = ActionItemPriorityUnspecified)
     then ActionItemPriorityMedium
     else pb.CreateActionItemRequest.Priority req)
    (default time.Zero (pb.CreateActionItemRequest.DueDate req))
    (getUserIDFromContext ctx)
    (from_option Retrospective.SprintName "" retro)
    ""
    (time.At (wallClock (S (clockReads (world s)))))
    (time.At (wallClock (S (S (clockReads (world s))))))
    time.Zero.

Definition countedRetros `{!GoRuntime} (req : pb.CreateActionItemRequest.t) (s : Server)
  : gmap string Retrospective.t :=
  match contextRetro req s with
  | Some retro =>
      let retro := Retrospective.withActionItemCount
                     (int32 (Retrospective.ActionItemCount retro + 1)) retro in
      <[Retrospective.RetrospectiveID retro :=
          Retrospective.withUpdated (time.At (wallClock (S (S (S (clockReads (world s)))))))
            retro]>
        (<[pb.CreateActionItemRequest.RetrospectiveId req := retro]> (retros (world s)))
  | None => retros (world s)
  end.

(** the record after the field assignments of [ActionItemService.Update]
    and of [ActionItemService.UpdateStatus] *)
Definition editedAction (item : pb.ActionItem.t) (existing : ActionItem.t) : ActionItem.t :=
  let existing :=
    if bool_decide (pb.ActionItem.Description item ≠ "")
    then ActionItem.withDescription (pb.ActionItem.Description item) existing
    else existing in
  let existing :=
    if bool_decide (pb.ActionItem.AssigneeId item ≠ "")
    then ActionItem.withAssignee (pb.ActionItem.AssigneeId item)
           (getAssigneeName (pb.ActionItem.AssigneeId item)) existing
    else existing in
  let existing :=
    if bool_decide (pb.ActionItem.Status item ≠ ActionItemStatusUnspecified)
    then ActionItem.withStatus (pb.ActionItem.Status item) existing
    else existing in
  let existing :=
    if bool_decide (pb.ActionItem.Priority item ≠ ActionItemPriorityUnspecified)
    then ActionItem.withPriority (pb.ActionItem.Priority item) existing
    else existing in
  let existing :=
    match pb.ActionItem.DueDate item with
    | Some dueDate => ActionItem.withDueDate dueDate existing
    | None => existing
    end in
  if bool_decide (pb.ActionItem.Notes item ≠ "")
  then ActionItem.withNotes (pb.ActionItem.Notes item) existing
  else existing.

Definition statusSetAction (req : pb.UpdateActionItemStatusRequest.t)
    (existing : ActionItem.t) : ActionItem.t :=
  let existing := ActionItem.withStatus (pb.UpdateActionItemStatusRequest.Status req)
                    existing in
  if bool_decide (pb.UpdateActionItemStatusRequest.Notes req ≠ "")
  then ActionItem.withNotes (pb.UpdateActionItemStatusRequest.Notes req) existing
  else existing.

(** the state after an update has written the record [edited] through the
    pointer read from the slot [id] *)
Definition editedServer `{!GoRuntime} (id : string) (edited : ActionItem.t) (s : Server)
  : Server :=
  mkServer (setClockReads (S (clockReads (world s))) (world s))
    (<[ActionItem.ActionItemID edited :=
         ActionItem.withUpdated (time.At (wallClock (clockReads (world s)))) edited]>
       (<[id := edited]> (actionItems s))).

(** the fields of an action item that no update may change *)
Definition actionCore (item : ActionItem.t)
  : string * string * string * string * string * string * time.Time :=
  (ActionItem.ActionItemID item, ActionItem.RetrospectiveID item,
   ActionItem.SourceItemID item, ActionItem.TeamID item, ActionItem.CreatedBy item,
   ActionItem.SourceSprintName item, ActionItem.Created item).

(** what the filter loop of [ActionItemService.List] asks of an action
    item: the assignee, one of the statuses and one of the priorities of the
    filters, where the filters name any *)
Definition matchesFilters (filters : pb.ListActionItemsFilters.t) (item : ActionItem.t)
  : Prop :=
  (pb.ListActionItemsFilters.AssigneeId filters = "" ∨
   ActionItem.AssigneeID item = pb.ListActionItemsFilters.AssigneeId filters) ∧
  (pb.ListActionItemsFilters.Statuses filters = [] ∨
   ActionItem.Status item ∈ pb.ListActionItemsFilters.Statuses filters) ∧
  (pb.ListActionItemsFilters.Priorities filters = [] ∨
   ActionItem.Priority item ∈ pb.ListActionItemsFilters.Priorities filters).

#[global] Instance matchesFilters_dec filters item : Decision (matchesFilters filters item).
Proof. unfold matchesFilters. apply _. Defined.

(** the action items that a listing starts from: those of the
    retrospective of the filters if they name one (the team of the filters
    is then not looked at), else those of their team *)
Definition listedFirst (filters : pb.ListActionItemsFilters.t) (item : ActionItem.t)
  : Prop :=
  if decide (pb.ListActionItemsFilters.RetrospectiveId filters = "")
  then ActionItem.TeamID item = pb.ListActionItemsFilters.TeamId filters
  else ActionItem.RetrospectiveID item = pb.ListActionItemsFilters.RetrospectiveId filters.

#[global] Instance listedFirst_dec filters item : Decision (listedFirst filters item).
Proof. unfold listedFirst. case_decide; apply _. Defined.

(** the action items of a team, without the ones that are done or will not
    be done unless these are asked for *)
Definition openOfTeam (teamID : string) (includeCompleted : bool) (item : ActionItem.t)
  : Prop :=
  ActionItem.TeamID item = teamID ∧
  (includeCompleted = false →
   ActionItem.Status item ≠ ActionItemStatusDone ∧
   ActionItem.Status item ≠ ActionItemStatusWontDo).

#[global] Instance openOfTeam_dec teamID includeCompleted item :
  Decision (openOfTeam teamID includeCompleted item).
Proof. unfold openOfTeam. apply _. Defined.

(** all the stored action items *)
Definition allActionItems (s : Server) : list ActionItem.t :=
  (map_to_list (actionItems s)).*2.

(** the fields of a retrospective that [RetrospectiveService.Update] may
    not change *)
Definition retroCore (retro : Retrospective.t)
  : string * string * string * vstore.TemplateType * list TemplateColumn.t
    * RetrospectiveStatus * VotingConfig.t * string * Z * Z * Z
    * time.Time * time.Time * time.Time * time.Time :=
  (Retrospective.RetrospectiveID retro, Retrospective.TeamID retro,
   Retrospective.TeamName retro, Retrospective.TemplateType retro,
   Retrospective.TemplateColumns retro, Retrospective.Status retro,
   Retrospective.VotingConfig retro, Retrospective.CreatedBy retro,
   Retrospective.ItemCount retro, Retrospective.ActionItemCount retro,
   Retrospective.ParticipantCount retro, Retrospective.StartedAt retro,
   Retrospective.CompletedAt retro, Retrospective.Created retro,
   Retrospective.Deleted retro).

(** the books of the action items: every retrospective and every action
    item is filed under its own id, no retrospective has the empty id, and
    every retrospective counts its action items *)
Definition actionBooks (s : Server) : Prop :=
  retros_wf (world s) ∧ actions_wf s ∧ retros (world s) !! "" = None ∧
  actionCounts_ok s.

#[global] Instance actionBooks_dec (s : Server) : Decision (actionBooks s).
Proof. unfold actionBooks. apply _. Defined.

(** a server with the retrospective ["R"] of [cardsWorld], whose action item
    count is 1, and its action item ["ACTION-1"], assigned and in progress *)
Definition sampleAction : ActionItem.t :=
  ActionItem.mk "ACTION-1" "R" "A" "team" "write the runbook" "u1" "Team Member"
    ActionItemStatusInProgress ActionItemPriorityHigh time.Zero "mock-user-id"
    "Sprint 1" "" (time.At 7) (time.At 8) time.Zero.

Definition actionServer : Server :=
  mkServer
    (setRetros {["R" := Retrospective.withActionItemCount 1 boardRetro]} cardsWorld)
    {["ACTION-1" := sampleAction]}.

(** ** The calls of the whole server *)











(** * Properties *)

(** ** Machine integers *)

Lemma int32_id (z : Z) :
  (-2147483648 ≤ z < 2147483648)%Z → int32 z = z.
Proof.
  intros Hz. unfold int32.
  rewrite Z.mod_small by lia. lia.
Qed.

Lemma int32_range (z : Z) : (-2147483648 ≤ int32 z < 2147483648)%Z.
Proof.
  unfold int32.
  pose proof (Z.mod_pos_bound (z + 2147483648) 4294967296). lia.
Qed.

Lemma int32_add_l (a b : Z) : int32 (int32 a + b) = int32 (a + b).
Proof.
  unfold int32.
  replace (((a + 2147483648) `mod` 4294967296 - 2147483648 + b + 2147483648))%Z
    with (((a + 2147483648) `mod` 4294967296 + b))%Z by lia.
  replace (a + b + 2147483648)%Z with ((a + 2147483648) + b)%Z by lia.
  by rewrite Zplus_mod_idemp_l.
Qed.

(** ** The status state machine *)

Section StatusMachine.
Context {RT : GoRuntime}.

(** the slot [id] after a field assignment through the pointer read from
    it, followed by [Update], which stores the record under its own id *)
Lemma lookup_assign_update (id k : string) (r : Retrospective.t)
    (m : gmap string Retrospective.t) (u : time.Time) :
  ∃ r', <[k := Retrospective.withUpdated u r]> (<[id := r]> m) !! id = Some r' ∧
        Retrospective.Status r' = Retrospective.Status r ∧
        Retrospective.CompletedAt r' = Retrospective.CompletedAt r ∧
        Retrospective.ParticipantCount r' = Retrospective.ParticipantCount r.
Proof.
  destruct (decide (k = id)) as [->|Hne].
  - exists (Retrospective.withUpdated u r). by rewrite lookup_insert_eq.
  - exists r. rewrite lookup_insert_ne by done. by rewrite lookup_insert_eq.
Qed.

Lemma StartVoting_ok ctx id retro w :
  retros w !! id = Some retro →
  (Retrospective.Status retro = RetrospectiveStatusDraft ∨
   Retrospective.Status retro = RetrospectiveStatusActive) →
  ∃ w', RetrospectiveService.StartVoting ctx (pb.StartVotingRequest.mk id) w = (Ok (), w') ∧
        statusAt id w' = Some RetrospectiveStatusVoting ∧
        completedAtAt id w' = completedAtAt id w.
Proof.
  intros Hget Hst.
  unfold RetrospectiveService.StartVoting, mbind, M_bind, onErr,
    InMemoryRetrospectiveStore.Get. simpl. rewrite Hget.
  rewrite bool_decide_eq_false_2 by (destruct Hst as [-> | ->]; intros [? ?]; done).
  eexists. split; [reflexivity|].
  unfold statusAt, completedAtAt. simpl. rewrite Hget. simpl.
  edestruct (lookup_assign_update id (Retrospective.RetrospectiveID retro)
    (Retrospective.withStatus RetrospectiveStatusVoting retro) (retros w)
    (time.At (wallClock (clockReads w)))) as (r' & -> & Hs & Hc & _).
  simpl. by rewrite Hs, Hc.
Qed.

Lemma StartVoting_invalid ctx id retro w :
  retros w !! id = Some retro →
  Retrospective.Status retro ≠ RetrospectiveStatusDraft →
  Retrospective.Status retro ≠ RetrospectiveStatusActive →
  RetrospectiveService.StartVoting ctx (pb.StartVotingRequest.mk id) w =
    (Err (ToGRPCError (Errorf ErrInvalidStatus
                         "can only start voting from DRAFT or ACTIVE status")), w).
Proof.
  intros Hget Hd Ha.
  unfold RetrospectiveService.StartVoting, mbind, M_bind, onErr,
    InMemoryRetrospectiveStore.Get. simpl. rewrite Hget.
  by rewrite bool_decide_eq_true_2.
Qed.

Lemma StartDiscussion_ok ctx id retro w :
  retros w !! id = Some retro →
  Retrospective.Status retro = RetrospectiveStatusVoting →
  ∃ w', RetrospectiveService.StartDiscussion ctx (pb.StartDiscussionRequest.mk id) w
          = (Ok (), w') ∧
        statusAt id w' = Some RetrospectiveStatusDiscussing ∧
        completedAtAt id w' = completedAtAt id w.
Proof.
  intros Hget Hst.
  unfold RetrospectiveService.StartDiscussion, mbind, M_bind, onErr,
    InMemoryRetrospectiveStore.Get. simpl. rewrite Hget.
  rewrite bool_decide_eq_false_2 by (rewrite Hst; intros ?; done).
  eexists. split; [reflexivity|].
  unfold statusAt, completedAtAt. simpl. rewrite Hget. simpl.
  edestruct (lookup_assign_update id (Retrospective.RetrospectiveID retro)
    (Retrospective.withStatus RetrospectiveStatusDiscussing retro) (retros w)
    (time.At (wallClock (clockReads w)))) as (r' & -> & Hs & Hc & _).
  simpl. by rewrite Hs, Hc.
Qed.

Lemma StartDiscussion_invalid ctx id retro w :
  retros w !! id = Some retro →
  Retrospective.Status retro ≠ RetrospectiveStatusVoting →
  RetrospectiveService.StartDiscussion ctx (pb.StartDiscussionRequest.mk id) w =
    (Err (ToGRPCError (Errorf ErrInvalidStatus
                         "can only start discussion from VOTING status")), w).
Proof.
  intros Hget Hv.
  unfold RetrospectiveService.StartDiscussion, mbind, M_bind, onErr,
    InMemoryRetrospectiveStore.Get. simpl. rewrite Hget.
  by rewrite bool_decide_eq_true_2.
Qed.

Lemma Complete_ok ctx id retro w :
  retros w !! id = Some retro →
  ∃ w', RetrospectiveService.Complete ctx (pb.CompleteRetrospectiveRequest.mk id) w
          = (Ok (), w') ∧
        statusAt id w' = Some RetrospectiveStatusCompleted ∧
        completedAtAt id w' = Some (time.At (wallClock (clockReads w))).
Proof.
  intros Hget.
  unfold RetrospectiveService.Complete, mbind, M_bind, onErr,
    InMemoryRetrospectiveStore.Get. simpl. rewrite Hget.
  eexists. split; [reflexivity|].
  unfold statusAt, completedAtAt. simpl.
  edestruct (lookup_assign_update id (Retrospective.RetrospectiveID retro)
    (Retrospective.withCompletedAt (time.At (wallClock (clockReads w)))
       (Retrospective.withStatus RetrospectiveStatusCompleted retro)) (retros w)
    (time.At (wallClock (S (clockReads w))))) as (r' & -> & Hs & Hc & _).
  simpl. by rewrite Hs, Hc.
Qed.

End StatusMachine.

(** C4: for a stored retrospective, StartVoting succeeds exactly when the
    status is DRAFT or ACTIVE and then sets the status to VOTING, and
    otherwise fails with InvalidStatus and leaves the state unchanged;
    StartDiscussion succeeds exactly when the status is VOTING and then sets
    the status to DISCUSSING, and otherwise fails with InvalidStatus and
    leaves the state unchanged; Complete succeeds from every status, sets the
    status to COMPLETED and records the current time as completion time. *)
Theorem C4_status_transitions `{!GoRuntime} (ctx : context.Context) (id : string)
    (retro : Retrospective.t) (w : World) :
  retros w !! id = Some retro →
  let sv := RetrospectiveService.StartVoting ctx (pb.StartVotingRequest.mk id) w in
  let sd := RetrospectiveService.StartDiscussion ctx (pb.StartDiscussionRequest.mk id) w in
  let co := RetrospectiveService.Complete ctx (pb.CompleteRetrospectiveRequest.mk id) w in
  (sv.1 = Ok () ↔ Retrospective.Status retro = RetrospectiveStatusDraft ∨
                   Retrospective.Status retro = RetrospectiveStatusActive) ∧
  (sv.1 = Ok () → statusAt id sv.2 = Some RetrospectiveStatusVoting) ∧
  (sv.1 ≠ Ok () →
     sv = (Err (ToGRPCError (Errorf ErrInvalidStatus
                   "can only start voting from DRAFT or ACTIVE status")), w)) ∧
  (sd.1 = Ok () ↔ Retrospective.Status retro = RetrospectiveStatusVoting) ∧
  (sd.1 = Ok () → statusAt id sd.2 = Some RetrospectiveStatusDiscussing) ∧
  (sd.1 ≠ Ok () →
     sd = (Err (ToGRPCError (Errorf ErrInvalidStatus
                   "can only start discussion from VOTING status")), w)) ∧
  co.1 = Ok () ∧
  statusAt id co.2 = Some RetrospectiveStatusCompleted ∧
  completedAtAt id co.2 = Some (time.At (wallClock (clockReads w))).
Proof.
  intros Hget sv sd co.
  assert (Hsv : (Retrospective.Status retro = RetrospectiveStatusDraft ∨
                 Retrospective.Status retro = RetrospectiveStatusActive) ∧
                sv.1 = Ok () ∧ statusAt id sv.2 = Some RetrospectiveStatusVoting
                ∨ ¬ (Retrospective.Status retro = RetrospectiveStatusDraft ∨
                     Retrospective.Status retro = RetrospectiveStatusActive) ∧
                  sv = (Err (ToGRPCError (Errorf ErrInvalidStatus
                          "can only start voting from DRAFT or ACTIVE status")), w)).
  { destruct (decide (Retrospective.Status retro = RetrospectiveStatusDraft ∨
                      Retrospective.Status retro = RetrospectiveStatusActive)) as [Hs|Hs].
    - left. destruct (StartVoting_ok ctx id retro w Hget Hs) as (w' & Hrun & Hst & _).
      subst sv. rewrite Hrun. auto.
    - right. split; [done|]. apply StartVoting_invalid with retro; [done|tauto|tauto]. }
  assert (Hsd : Retrospective.Status retro = RetrospectiveStatusVoting ∧
                sd.1 = Ok () ∧ statusAt id sd.2 = Some RetrospectiveStatusDiscussing
                ∨ Retrospective.Status retro ≠ RetrospectiveStatusVoting ∧
                  sd = (Err (ToGRPCError (Errorf ErrInvalidStatus
                          "can only start discussion from VOTING status")), w)).
  { destruct (decide (Retrospective.Status retro = RetrospectiveStatusVoting)) as [Hs|Hs].
    - left. destruct (StartDiscussion_ok ctx id retro w Hget Hs) as (w' & Hrun & Hst & _).
      subst sd. rewrite Hrun. auto.
    - right. split; [done|]. by apply StartDiscussion_invalid with retro. }
  destruct (Complete_ok ctx id retro w Hget) as (w' & Hrun & Hst & Hc).
  repeat split.
  - intros Hok. destruct Hsv as [(? & _)|(_ & Heq)]; [done|]. by rewrite Heq in Hok.
  - intros Hs. destruct Hsv as [(_ & ? & _)|(? & _)]; done.
  - intros Hok. destruct Hsv as [(_ & _ & ?)|(_ & Heq)]; [done|]. by rewrite Heq in Hok.
  - intros Hne. destruct Hsv as [(_ & ? & _)|(_ & ?)]; done.
  - intros Hok. destruct Hsd as [(? & _)|(_ & Heq)]; [done|]. by rewrite Heq in Hok.
  - intros Hs. destruct Hsd as [(_ & ? & _)|(? & _)]; done.
  - intros Hok. destruct Hsd as [(_ & _ & ?)|(_ & Heq)]; [done|]. by rewrite Heq in Hok.
  - intros Hne. destruct Hsd as [(_ & ? & _)|(_ & ?)]; done.
  - subst co. by rewrite Hrun.
  - subst co. by rewrite Hrun.
  - subst co. by rewrite Hrun.
Qed.

Lemma C4_status_transitions_witness :
  retros (sampleWorld RetrospectiveStatusDraft time.Zero) !! "R"
    = Some (sampleRetro RetrospectiveStatusDraft time.Zero) ∧
  statusAt "R"
    (RetrospectiveService.StartVoting (H := simRuntime 1000) context.Background
       (pb.StartVotingRequest.mk "R")
       (sampleWorld RetrospectiveStatusDraft time.Zero)).2
    = Some RetrospectiveStatusVoting.
Proof.
  assert (Hget : retros (sampleWorld RetrospectiveStatusDraft time.Zero) !! "R"
                 = Some (sampleRetro RetrospectiveStatusDraft time.Zero))
    by reflexivity.
  split; [exact Hget|].
  destruct (C4_status_transitions (H := simRuntime 1000) context.Background "R"
              (sampleRetro RetrospectiveStatusDraft time.Zero)
              (sampleWorld RetrospectiveStatusDraft time.Zero) Hget)
    as (Hiff & Hvoting & _).
  apply Hvoting, Hiff. left. reflexivity.
Defined.

(** ** Frame reasoning: parts of the state an operation leaves alone *)

Section Frame.
Context {RT : GoRuntime}.
Context (R : relation World) `{!PreOrder R}.

Lemma preserves_ret {A : Type} (a : A) : preserves R (mret a).
Proof. intros w. reflexivity. Qed.

Lemma preserves_failWith {A : Type} (e : error) : preserves R (failWith (A := A) e).
Proof. intros w. reflexivity. Qed.

Lemma preserves_bind {A B : Type} (m : M A) (f : A → M B) :
  preserves R m → (∀ a, preserves R (f a)) → preserves R (m ≫= f).
Proof.
  intros Hm Hf w. unfold mbind, M_bind.
  specialize (Hm w). destruct (m w) as [[a | e | msg] w1]; simpl in *; try done.
  etrans; [exact Hm | apply Hf].
Qed.

Lemma preserves_catch {A : Type} (m : M A) (h : error → M A) :
  preserves R m → (∀ e, preserves R (h e)) → preserves R (catch m h).
Proof.
  intros Hm Hh w. unfold catch.
  specialize (Hm w). destruct (m w) as [[a | e | msg] w1]; simpl in *; try done.
  etrans; [exact Hm | apply Hh].
Qed.

Lemma preserves_onErr {A : Type} (f : error → error) (m : M A) :
  preserves R m → preserves R (onErr f m).
Proof.
  intros Hm w. unfold onErr.
  specialize (Hm w). by destruct (m w) as [[a | e | msg] w1].
Qed.

Lemma preserves_ignoreErr {A : Type} (m : M A) :
  preserves R m → preserves R (ignoreErr m).
Proof.
  intros Hm w. unfold ignoreErr.
  specialize (Hm w). by destruct (m w) as [[a | e | msg] w1].
Qed.

Lemma preserves_modify (f : World → World) :
  (∀ w, R w (f w)) → preserves R (modify f).
Proof. intros Hf w. apply Hf. Qed.

Lemma preserves_time_Now :
  (∀ n w, R w (setClockReads n w)) → preserves R time_Now.
Proof. intros Hf w. apply Hf. Qed.

Lemma preserves_rangeMap {V : Type} (sel : World → gmap string V) :
  (∀ n w, R w (setMapRanges n w)) → preserves R (rangeMap sel).
Proof. intros Hf w. apply Hf. Qed.

End Frame.

(** one step through the code of an operation *)
Ltac preserves_step :=
  lazymatch goal with
  | |- preserves _ (mret _) => apply preserves_ret; try apply _
  | |- preserves _ (failWith _) => apply preserves_failWith; try apply _
  | |- preserves _ (_ ≫= _) => apply preserves_bind; [apply _ | | intros ?]
  | |- preserves _ (catch _ _) => apply preserves_catch; [apply _ | | intros ?]
  | |- preserves _ (onErr _ _) => apply preserves_onErr
  | |- preserves _ (ignoreErr _) => apply preserves_ignoreErr
  | |- preserves _ (modify _) => apply preserves_modify; intros ?; reflexivity
  | |- preserves _ time_Now => apply preserves_time_Now; intros ? ?; reflexivity
  | |- preserves _ (rangeMap _) => apply preserves_rangeMap; intros ? ?; reflexivity
  | |- preserves _ (if ?b then _ else _) => destruct b
  | |- preserves _ (match ?x with _ => _ end) => destruct x
  | |- preserves _ (let _ := _ in _) => cbv zeta
  end.

(** operations given by a case distinction on the state *)
Ltac preserves_cases :=
  let w := fresh "w" in
  intros w; cbv beta delta [same]; simpl;
  repeat (case_match; simpl; try reflexivity).

Section FrameStores.
Context {RT : GoRuntime}.

(** *** Operations that leave the broadcaster alone *)

Lemma RetroStore_Get_hub id : preserves (same hubOf) (InMemoryRetrospectiveStore.Get id).
Proof. unfold InMemoryRetrospectiveStore.Get. preserves_cases. Qed.

Lemma RetroStore_Update_hub r : preserves (same hubOf) (InMemoryRetrospectiveStore.Update r).
Proof. unfold InMemoryRetrospectiveStore.Update. repeat preserves_step. Qed.

Lemma RetroStore_assign_hub id r :
  preserves (same hubOf) (InMemoryRetrospectiveStore.assign id r).
Proof. unfold InMemoryRetrospectiveStore.assign. repeat preserves_step. Qed.

Lemma ItemStore_Get_hub id : preserves (same hubOf) (InMemoryItemStore.Get id).
Proof. unfold InMemoryItemStore.Get. preserves_cases. Qed.

Lemma ItemStore_IncrementVoteCount_hub id :
  preserves (same hubOf) (InMemoryItemStore.IncrementVoteCount id).
Proof. unfold InMemoryItemStore.IncrementVoteCount. preserves_cases. Qed.

Lemma ItemStore_DecrementVoteCount_hub id :
  preserves (same hubOf) (InMemoryItemStore.DecrementVoteCount id).
Proof. unfold InMemoryItemStore.DecrementVoteCount. preserves_cases. Qed.

Lemma VoteStore_Create_hub v : preserves (same hubOf) (InMemoryVoteStore.Create v).
Proof. unfold InMemoryVoteStore.Create. repeat preserves_step. Qed.

Lemma VoteStore_Delete_hub id : preserves (same hubOf) (InMemoryVoteStore.Delete id).
Proof. unfold InMemoryVoteStore.Delete. repeat preserves_step. Qed.

Lemma VoteStore_GetByUserAndItem_hub r i u :
  preserves (same hubOf) (InMemoryVoteStore.GetByUserAndItem r i u).
Proof. unfold InMemoryVoteStore.GetByUserAndItem. repeat preserves_step. Qed.

Lemma VoteStore_CountByUser_hub r u :
  preserves (same hubOf) (InMemoryVoteStore.CountByUser r u).
Proof. unfold InMemoryVoteStore.CountByUser. repeat preserves_step. Qed.

End FrameStores.

Create HintDb frame_hub.
#[global] Hint Resolve RetroStore_Get_hub RetroStore_Update_hub RetroStore_assign_hub
  ItemStore_Get_hub ItemStore_IncrementVoteCount_hub ItemStore_DecrementVoteCount_hub
  VoteStore_Create_hub VoteStore_Delete_hub VoteStore_GetByUserAndItem_hub
  VoteStore_CountByUser_hub : frame_hub.

Section FrameServicesHub.
Context {RT : GoRuntime}.

Lemma StartVoting_hub ctx req :
  preserves (same hubOf) (RetrospectiveService.StartVoting ctx req).
Proof.
  unfold RetrospectiveService.StartVoting.
  repeat (preserves_step || solve [eauto with frame_hub]).
Qed.

Lemma StartDiscussion_hub ctx req :
  preserves (same hubOf) (RetrospectiveService.StartDiscussion ctx req).
Proof.
  unfold RetrospectiveService.StartDiscussion.
  repeat (preserves_step || solve [eauto with frame_hub]).
Qed.

Lemma Complete_hub ctx req :
  preserves (same hubOf) (RetrospectiveService.Complete ctx req).
Proof.
  unfold RetrospectiveService.Complete.
  repeat (preserves_step || solve [eauto with frame_hub]).
Qed.

Lemma CastVote_hub ctx req :
  preserves (same hubOf) (VotingService.CastVote ctx req).
Proof.
  unfold VotingService.CastVote.
  repeat (preserves_step || solve [eauto with frame_hub]).
Qed.

End FrameServicesHub.

(** ** The vote store *)

Section VoteStore.
Context {RT : GoRuntime}.

Lemma range_values_perm {V : Type} (n : nat) (m : gmap string V) :
  (rangeOrder n m).*2 ≡ₚ (map_to_list m).*2.
Proof. by rewrite rangeOrder_perm. Qed.

Lemma range_filter_length {V : Type} (P : V → Prop) `{!∀ v, Decision (P v)}
    (n : nat) (m : gmap string V) :
  length (filter P (rangeOrder n m).*2) = length (filter P (map_to_list m).*2).
Proof. by rewrite range_values_perm. Qed.

Lemma elem_of_range_values {V : Type} (n : nat) (m : gmap string V) (v : V) :
  v ∈ (rangeOrder n m).*2 ↔ ∃ k, m !! k = Some v.
Proof.
  rewrite range_values_perm, list_elem_of_fmap. split.
  - intros ([k v'] & -> & Hin). exists k. by apply elem_of_map_to_list in Hin.
  - intros (k & Hk). exists (k, v). split; [done|]. by apply elem_of_map_to_list.
Qed.

Lemma countVotes_insert_fresh (P : Vote.t → Prop) `{!∀ v, Decision (P v)}
    (m : gmap string Vote.t) (k : string) (v : Vote.t) :
  m !! k = None →
  countVotes P (<[k := v]> m) = (if decide (P v) then 1 else 0) + countVotes P m.
Proof.
  intros Hk. unfold countVotes.
  rewrite (map_to_list_insert m k v Hk). simpl.
  rewrite filter_cons. by destruct (decide (P v)).
Qed.

Lemma countVotes_delete (P : Vote.t → Prop) `{!∀ v, Decision (P v)}
    (m : gmap string Vote.t) (k : string) (v : Vote.t) :
  m !! k = Some v →
  countVotes P m = (if decide (P v) then 1 else 0) + countVotes P (delete k m).
Proof.
  intros Hk. unfold countVotes.
  rewrite <- (map_to_list_delete m k v Hk). simpl.
  rewrite filter_cons. by destruct (decide (P v)).
Qed.

Lemma countVotes_insert (P : Vote.t → Prop) `{!∀ v, Decision (P v)}
    (m : gmap string Vote.t) (k : string) (v : Vote.t) :
  countVotes P (<[k := v]> m) =
    (if decide (P v) then 1 else 0) + countVotes P (delete k m).
Proof.
  rewrite <- insert_delete_eq.
  apply countVotes_insert_fresh, lookup_delete_eq.
Qed.

Lemma countVotes_zero (P : Vote.t → Prop) `{!∀ v, Decision (P v)}
    (m : gmap string Vote.t) :
  countVotes P m = 0 ↔ ∀ k v, m !! k = Some v → ¬ P v.
Proof.
  unfold countVotes. rewrite length_zero_iff_nil. split.
  - intros Hnil k v Hk HP.
    assert (v ∈ filter P (map_to_list m).*2) as Hin.
    { apply list_elem_of_filter. split; [done|].
      apply list_elem_of_fmap. exists (k, v). split; [done|].
      by apply elem_of_map_to_list. }
    rewrite Hnil in Hin. by apply not_elem_of_nil in Hin.
  - intros Hnone. apply elem_of_nil_inv. intros v Hin.
    apply list_elem_of_filter in Hin as [HP Hin].
    apply list_elem_of_fmap in Hin as ([k v'] & -> & Hin).
    apply elem_of_map_to_list in Hin. by eapply Hnone.
Qed.

(** [GetByUserAndItem] finds a vote exactly when one is stored *)
Lemma GetByUserAndItem_run retroID itemID userID w :
  ∃ res,
    InMemoryVoteStore.GetByUserAndItem retroID itemID userID w
      = (res, setMapRanges (S (mapRanges w)) w) ∧
    ((∃ k vote, res = Ok vote ∧ votes w !! k = Some vote ∧
                InMemoryVoteStore.byUserAndItem retroID itemID userID vote) ∨
     (res = Err (errSentinel ErrNotFound) ∧
      votesOfUserOnItem retroID itemID userID w = 0)).
Proof.
  unfold InMemoryVoteStore.GetByUserAndItem, mbind, M_bind, rangeMap. simpl.
  destruct (filter _ (rangeOrder (mapRanges w) (votes w)).*2) as [|vote rest] eqn:Hf; simpl.
  - eexists. split; [reflexivity|]. right. split; [done|].
    unfold votesOfUserOnItem, countVotes.
    by rewrite <- (range_filter_length _ (mapRanges w)), Hf.
  - eexists. split; [reflexivity|]. left.
    assert (vote ∈ filter (InMemoryVoteStore.byUserAndItem retroID itemID userID)
                     (rangeOrder (mapRanges w) (votes w)).*2) as Hin
      by (rewrite Hf; left).
    apply list_elem_of_filter in Hin as [HP Hin].
    apply elem_of_range_values in Hin as [k Hk]. eauto.
Qed.

Lemma CountByUser_run retroID userID w :
  InMemoryVoteStore.CountByUser retroID userID w
    = (Ok (votesOfUser retroID userID w), setMapRanges (S (mapRanges w)) w).
Proof.
  unfold InMemoryVoteStore.CountByUser, mbind, M_bind, rangeMap. simpl.
  unfold votesOfUser, countVotes. by rewrite range_filter_length.
Qed.

Lemma ListByUser_run retroID userID w :
  ∃ l, InMemoryVoteStore.ListByUser retroID userID w
         = (Ok l, setMapRanges (S (mapRanges w)) w) ∧
       length l = votesOfUser retroID userID w.
Proof.
  unfold InMemoryVoteStore.ListByUser, mbind, M_bind, rangeMap. simpl.
  eexists. split; [reflexivity|].
  unfold votesOfUser, countVotes. by rewrite range_filter_length.
Qed.

End VoteStore.

(** ** The voting engine *)

(** the test of the code and the test of the decision list agree: close the
    branch in which both hold and continue in the one in which neither does *)
Ltac same_branch :=
  case_bool_decide;
  [ rewrite decide_True by first [assumption | tauto | congruence]; reflexivity
  | rewrite decide_False by first [assumption | tauto | congruence] ].

Section Voting.
Context {RT : GoRuntime}.

Lemma countVotes_pos (P : Vote.t → Prop) `{!∀ v, Decision (P v)}
    (m : gmap string Vote.t) (k : string) (v : Vote.t) :
  m !! k = Some v → P v → countVotes P m ≠ 0.
Proof. intros Hk HP Hz. by eapply (proj1 (countVotes_zero P m)). Qed.

Lemma CastVote_run ctx req w :
  VotingService.CastVote ctx req w = castVoteOutcome ctx req w.
Proof.
  unfold VotingService.CastVote, castVoteOutcome.
  destruct req as [retroID itemID]. simpl.
  same_branch.
  same_branch.
  unfold mbind, M_bind, onErr, ignoreErr, catch,
    InMemoryRetrospectiveStore.Get, InMemoryItemStore.Get.
  destruct (retros w !! retroID) as [retro|]; [|reflexivity].
  same_branch.
  destruct (items w !! itemID) as [item|] eqn:Hitem; [|reflexivity].
  same_branch.
  destruct (GetByUserAndItem_run retroID itemID (getUserIDFromContext ctx) w)
    as (res & -> & [(k & vote & -> & Hk & HP) | (-> & Hzero)]).
  - assert (votesOfUserOnItem retroID itemID (getUserIDFromContext ctx) w ≠ 0) as Hpos
      by (by eapply countVotes_pos).
    rewrite bool_decide_eq_true_2 by eauto. simpl.
    destruct (VotingConfig.AllowMultipleVotesPerItem (Retrospective.VotingConfig retro))
      eqn:Hallow; simpl.
    + rewrite decide_False by (intros [_ ?]; done).
      rewrite range_filter_length.
      fold (countVotes (InMemoryVoteStore.byUser retroID (getUserIDFromContext ctx)) (votes w)).
      fold (votesOfUser retroID (getUserIDFromContext ctx) w).
      same_branch.
      unfold InMemoryItemStore.IncrementVoteCount. simpl. rewrite Hitem. reflexivity.
    + by rewrite decide_True.
  - rewrite bool_decide_eq_false_2 by (intros [? ?]; done). simpl.
    rewrite decide_False by (intros [? _]; done).
    rewrite range_filter_length.
    fold (countVotes (InMemoryVoteStore.byUser retroID (getUserIDFromContext ctx)) (votes w)).
    fold (votesOfUser retroID (getUserIDFromContext ctx) w).
    same_branch.
    unfold InMemoryItemStore.IncrementVoteCount. simpl. rewrite Hitem. reflexivity.
Qed.

Lemma CastVote_Ok_inv ctx req w w1 :
  VotingService.CastVote ctx req w = (Ok (), w1) →
  ∃ retro item,
    pb.CastVoteRequest.RetrospectiveId req ≠ "" ∧
    pb.CastVoteRequest.ItemId req ≠ "" ∧
    retros w !! pb.CastVoteRequest.RetrospectiveId req = Some retro ∧
    (Retrospective.Status retro = RetrospectiveStatusVoting ∨
     Retrospective.Status retro = RetrospectiveStatusActive) ∧
    items w !! pb.CastVoteRequest.ItemId req = Some item ∧
    RetrospectiveItem.RetrospectiveID item = pb.CastVoteRequest.RetrospectiveId req ∧
    (votesOfUserOnItem (pb.CastVoteRequest.RetrospectiveId req)
       (pb.CastVoteRequest.ItemId req) (getUserIDFromContext ctx) w = 0 ∨
     VotingConfig.AllowMultipleVotesPerItem (Retrospective.VotingConfig retro) = true) ∧
    (int32 (Z.of_nat (votesOfUser (pb.CastVoteRequest.RetrospectiveId req)
                        (getUserIDFromContext ctx) w))
     < VotingConfig.MaxVotesPerUser (Retrospective.VotingConfig retro))%Z ∧
    w1 = castVoteWorld (pb.CastVoteRequest.RetrospectiveId req)
           (pb.CastVoteRequest.ItemId req) (getUserIDFromContext ctx) item w.
Proof.
  rewrite CastVote_run. unfold castVoteOutcome.
  destruct (decide (pb.CastVoteRequest.RetrospectiveId req = "")); [intros [=]|].
  destruct (decide (pb.CastVoteRequest.ItemId req = "")); [intros [=]|].
  destruct (retros w !! _) as [retro|]; [|intros [=]].
  destruct (decide (_ ∧ _)); [intros [=]|].
  destruct (items w !! _) as [item|]; [|intros [=]].
  destruct (decide (_ ≠ _)); [intros [=]|].
  destruct (decide (_ ∧ _)); [intros [=]|].
  destruct (decide (_ ≤ _)%Z); [intros [=]|].
  intros [= <-]. exists retro, item.
  repeat split; try done.
  - destruct (decide (Retrospective.Status retro = RetrospectiveStatusVoting)); [by left|].
    destruct (decide (Retrospective.Status retro = RetrospectiveStatusActive)); [by right|].
    tauto.
  - by destruct (decide (RetrospectiveItem.RetrospectiveID item
                         = pb.CastVoteRequest.RetrospectiveId req)).
  - destruct (VotingConfig.AllowMultipleVotesPerItem (Retrospective.VotingConfig retro));
      [by right|left].
    destruct (decide (votesOfUserOnItem (pb.CastVoteRequest.RetrospectiveId req)
                        (pb.CastVoteRequest.ItemId req) (getUserIDFromContext ctx) w = 0));
      [done|tauto].
  - lia.
Qed.


Lemma CastVote_duplicate ctx req w retro item :
  pb.CastVoteRequest.RetrospectiveId req ≠ "" →
  pb.CastVoteRequest.ItemId req ≠ "" →
  retros w !! pb.CastVoteRequest.RetrospectiveId req = Some retro →
  (Retrospective.Status retro = RetrospectiveStatusVoting ∨
   Retrospective.Status retro = RetrospectiveStatusActive) →
  items w !! pb.CastVoteRequest.ItemId req = Some item →
  RetrospectiveItem.RetrospectiveID item = pb.CastVoteRequest.RetrospectiveId req →
  votesOfUserOnItem (pb.CastVoteRequest.RetrospectiveId req)
    (pb.CastVoteRequest.ItemId req) (getUserIDFromContext ctx) w ≠ 0 →
  VotingConfig.AllowMultipleVotesPerItem (Retrospective.VotingConfig retro) = false →
  VotingService.CastVote ctx req w =
    (Err (ToGRPCError (Errorf ErrAlreadyExists "you have already voted for this item")),
     setMapRanges (S (mapRanges w)) w).
Proof.
  intros Hr Hi Hretro Hst Hitem Hbelongs Hdup Hallow.
  rewrite CastVote_run. unfold castVoteOutcome.
  rewrite !decide_False by done. rewrite Hretro.
  rewrite decide_False by (destruct Hst as [-> | ->]; intros [? ?]; done).
  rewrite Hitem. rewrite decide_False by (intros ?; done).
  by rewrite decide_True.
Qed.

End Voting.



(** C2: in a retrospective with allowMultipleVotesPerItem = false, when a
    CastVote succeeds and the same user casts again for the same item with no
    RemoveVote in between, the second call fails with AlreadyExists, exactly
    one vote of the user for the item is stored, and the vote count of the
    item is one more than before the first call (for a count that is a
    non-negative int32 below the largest one). *)
Theorem C2_second_vote_rejected `{!GoRuntime} (ctx : context.Context)
    (req : pb.CastVoteRequest.t) (w w1 : World)
    (retro : Retrospective.t) (item : RetrospectiveItem.t) :
  let retroID := pb.CastVoteRequest.RetrospectiveId req in
  let itemID := pb.CastVoteRequest.ItemId req in
  let userID := getUserIDFromContext ctx in
  retros w !! retroID = Some retro →
  VotingConfig.AllowMultipleVotesPerItem (Retrospective.VotingConfig retro) = false →
  items w !! itemID = Some item →
  (0 ≤ RetrospectiveItem.VoteCount item < MaxInt32)%Z →
  VotingService.CastVote ctx req w = (Ok (), w1) →
  let r := VotingService.CastVote ctx req w1 in
  r.1 = Err (ToGRPCError (Errorf ErrAlreadyExists "you have already voted for this item")) ∧
  votes r.2 = votes w1 ∧
  votesOfUserOnItem retroID itemID userID r.2 = 1 ∧
  voteCountAt itemID w1 = Some (RetrospectiveItem.VoteCount item + 1)%Z ∧
  voteCountAt itemID r.2 = Some (RetrospectiveItem.VoteCount item + 1)%Z.
Proof.
  intros retroID itemID userID Hretro Hallow Hitem Hcount Hcast r.
  apply CastVote_Ok_inv in Hcast
    as (retro' & item' & Hr & Hi & Hretro' & Hst & Hitem' & Hbelongs & Hdup & _ & ->).
  fold retroID itemID userID in Hretro', Hitem', Hbelongs, Hdup |- *.
  rewrite Hretro in Hretro'. injection Hretro' as <-.
  rewrite Hitem in Hitem'. injection Hitem' as <-.
  destruct Hdup as [Hnone|Hmulti]; [|congruence].
  assert (Hone : votesOfUserOnItem retroID itemID userID
                   (castVoteWorld retroID itemID userID item w) = 1).
  { unfold votesOfUserOnItem, castVoteWorld. simpl.
    rewrite countVotes_insert. rewrite decide_True by done.
    assert (countVotes (InMemoryVoteStore.byUserAndItem retroID itemID userID)
              (delete ("VOTE-" +:+ pretty (wallClock (clockReads w))) (votes w)) = 0)
      as ->; [|done].
    apply countVotes_zero. intros k v Hk.
    apply lookup_delete_Some in Hk as [_ Hk].
    by apply (proj1 (countVotes_zero _ _) Hnone k v). }
  assert (Hvc : voteCountAt itemID (castVoteWorld retroID itemID userID item w)
                = Some (RetrospectiveItem.VoteCount item + 1)%Z).
  { unfold voteCountAt, castVoteWorld. simpl. rewrite lookup_insert_eq. simpl.
    rewrite int32_id; [done | unfold MaxInt32 in Hcount; lia]. }
  subst r.
  rewrite (CastVote_duplicate ctx req _ retro
             (RetrospectiveItem.withUpdated
                (time.At (wallClock (S (S (clockReads w)))))
                (RetrospectiveItem.withVoteCount
                   (int32 (RetrospectiveItem.VoteCount item + 1)) item))); try done.
  - unfold castVoteWorld. simpl. apply lookup_insert_eq.
  - unfold retroID, itemID, userID in Hone. by rewrite Hone.
Qed.

Lemma C2_second_vote_rejected_witness :
  let w1 := (VotingService.CastVote (H := simRuntime 1000) context.Background
               (pb.CastVoteRequest.mk "R" "A") votingWorld).2 in
  (VotingService.CastVote (H := simRuntime 1000) context.Background
     (pb.CastVoteRequest.mk "R" "A") w1).1
  = Err (errStatus codes.AlreadyExists
           "already exists: you have already voted for this item") ∧
  votesOfUserOnItem "R" "A" "mock-user-id" w1 = 1 ∧
  voteCountAt "A" w1 = Some 1%Z.
Proof.
  intros w1.
  destruct (C2_second_vote_rejected (H := simRuntime 1000) context.Background
              (pb.CastVoteRequest.mk "R" "A") votingWorld w1
              (sampleRetro RetrospectiveStatusVoting time.Zero) (sampleItem "A" 0))
    as (Herr & Hvotes & Hone & Hcount & _).
  - reflexivity.
  - reflexivity.
  - reflexivity.
  - vm_compute. split; [discriminate | reflexivity].
  - vm_compute. reflexivity.
  - split; [exact Herr|]. split; [|exact Hcount].
    rewrite <- Hone. unfold votesOfUserOnItem. by rewrite Hvotes.
Defined.

Section Removing.
Context {RT : GoRuntime}.

Lemma RemoveVote_cases ctx req w :
  pb.RemoveVoteRequest.RetrospectiveId req ≠ "" →
  pb.RemoveVoteRequest.ItemId req ≠ "" →
  (votesOfUserOnItem (pb.RemoveVoteRequest.RetrospectiveId req)
     (pb.RemoveVoteRequest.ItemId req) (getUserIDFromContext ctx) w = 0 ∧
   VotingService.RemoveVote ctx req w =
     (Err (ToGRPCError (Errorf ErrNotFound "you have not voted for this item")),
      setMapRanges (S (mapRanges w)) w)) ∨
  (∃ k vote,
     votes w !! k = Some vote ∧
     InMemoryVoteStore.byUserAndItem (pb.RemoveVoteRequest.RetrospectiveId req)
       (pb.RemoveVoteRequest.ItemId req) (getUserIDFromContext ctx) vote ∧
     VotingService.RemoveVote ctx req w =
       (Ok (), removeVoteWorld (pb.RemoveVoteRequest.ItemId req) vote w)).
Proof.
  intros Hr Hi. unfold VotingService.RemoveVote.
  rewrite !bool_decide_eq_false_2 by done.
  unfold mbind, M_bind, onErr, ignoreErr.
  destruct (GetByUserAndItem_run (pb.RemoveVoteRequest.RetrospectiveId req)
              (pb.RemoveVoteRequest.ItemId req) (getUserIDFromContext ctx) w)
    as (res & -> & [(k & vote & -> & Hk & HP) | (-> & Hzero)]).
  - right. exists k, vote. split; [done|]. split; [done|].
    unfold removeVoteWorld, InMemoryItemStore.DecrementVoteCount. simpl.
    destruct (items w !! pb.RemoveVoteRequest.ItemId req) as [item|]; reflexivity.
  - left. by split.
Qed.

Lemma RemoveVote_Ok_inv ctx req w w2 :
  VotingService.RemoveVote ctx req w = (Ok (), w2) →
  ∃ k vote,
    votes w !! k = Some vote ∧
    InMemoryVoteStore.byUserAndItem (pb.RemoveVoteRequest.RetrospectiveId req)
      (pb.RemoveVoteRequest.ItemId req) (getUserIDFromContext ctx) vote ∧
    w2 = removeVoteWorld (pb.RemoveVoteRequest.ItemId req) vote w.
Proof.
  intros Hrun.
  destruct (decide (pb.RemoveVoteRequest.RetrospectiveId req = "")) as [Hr|Hr].
  { unfold VotingService.RemoveVote in Hrun.
    rewrite bool_decide_eq_true_2 in Hrun by done. discriminate. }
  destruct (decide (pb.RemoveVoteRequest.ItemId req = "")) as [Hi|Hi].
  { unfold VotingService.RemoveVote in Hrun.
    rewrite bool_decide_eq_false_2 in Hrun by done.
    rewrite bool_decide_eq_true_2 in Hrun by done. discriminate. }
  destruct (RemoveVote_cases ctx req w Hr Hi) as [(_ & Heq) | (k & vote & Hk & HP & Heq)].
  - rewrite Heq in Hrun. discriminate.
  - rewrite Heq in Hrun. injection Hrun as <-. eauto.
Qed.

(** [GetUserVotes] depends on the state only through the retrospective and
    the number of stored votes of the user *)
Lemma GetUserVotes_run ctx req w retro :
  pb.GetUserVotesRequest.RetrospectiveId req ≠ "" →
  retros w !! pb.GetUserVotesRequest.RetrospectiveId req = Some retro →
  let userID := if bool_decide (pb.GetUserVotesRequest.UserId req = "")
                then getUserIDFromContext ctx
                else pb.GetUserVotesRequest.UserId req in
  let votesCast :=
    int32 (Z.of_nat (votesOfUser (pb.GetUserVotesRequest.RetrospectiveId req) userID w)) in
  let remaining :=
    int32 (VotingConfig.MaxVotesPerUser (Retrospective.VotingConfig retro) - votesCast) in
  ∃ ids,
    (VotingService.GetUserVotes ctx req w).1 =
      Ok (pb.GetUserVotesResponse.mk
            (pb.UserVoteSummary.mk userID votesCast
               (if (remaining <? 0)%Z then 0%Z else remaining) ids)).
Proof.
  intros Hr Hretro userID votesCast remaining.
  unfold VotingService.GetUserVotes.
  rewrite bool_decide_eq_false_2 by done.
  unfold mbind, M_bind, onErr, InMemoryRetrospectiveStore.Get. rewrite Hretro.
  destruct (ListByUser_run (pb.GetUserVotesRequest.RetrospectiveId req) userID w)
    as (l & Hl & Hlen).
  fold userID. rewrite Hl. simpl. rewrite Hlen. eauto.
Qed.

End Removing.

Section Pairing.
Context {RT : GoRuntime}.

Lemma byUserAndItem_byUser retroID itemID userID vote :
  InMemoryVoteStore.byUserAndItem retroID itemID userID vote →
  InMemoryVoteStore.byUser retroID userID vote.
Proof. intros (? & ? & ?). by split. Qed.

(** the votes of the user are the same in number after a cast under a fresh
    id and the removal of one of the user's votes *)
Lemma votesOfUser_cast_remove retroID itemID userID item vote k w :
  votes_wf w →
  votes w !! ("VOTE-" +:+ pretty (wallClock (clockReads w))) = None →
  votes (castVoteWorld retroID itemID userID item w) !! k = Some vote →
  InMemoryVoteStore.byUser retroID userID vote →
  votesOfUser retroID userID
    (removeVoteWorld itemID vote (castVoteWorld retroID itemID userID item w))
  = votesOfUser retroID userID w.
Proof.
  intros Hwf Hfresh Hk HP.
  assert (Vote.VoteID vote = k) as Hid.
  { unfold castVoteWorld in Hk. simpl in Hk.
    apply lookup_insert_Some in Hk as [[<- <-] | [_ Hk]]; [done | by apply Hwf]. }
  assert (votes (removeVoteWorld itemID vote (castVoteWorld retroID itemID userID item w))
          = delete k (votes (castVoteWorld retroID itemID userID item w))) as Hvotes.
  { unfold removeVoteWorld. rewrite Hid. by case_match. }
  unfold votesOfUser. rewrite Hvotes.
  pose proof (countVotes_delete (InMemoryVoteStore.byUser retroID userID) _ k vote Hk) as Hdel.
  rewrite decide_True in Hdel by done.
  unfold castVoteWorld in Hdel at 1. simpl in Hdel.
  rewrite countVotes_insert_fresh in Hdel by done.
  rewrite decide_True in Hdel by done.
  unfold castVoteWorld. simpl. lia.
Qed.

Lemma voteCount_cast_remove retroID itemID userID item vote w :
  items w !! itemID = Some item →
  (0 ≤ RetrospectiveItem.VoteCount item < MaxInt32)%Z →
  voteCountAt itemID
    (removeVoteWorld itemID vote (castVoteWorld retroID itemID userID item w))
  = voteCountAt itemID w.
Proof.
  intros Hitem Hcount. unfold MaxInt32 in Hcount.
  unfold voteCountAt, removeVoteWorld. simpl.
  rewrite lookup_insert_eq. simpl. rewrite lookup_insert_eq, Hitem. simpl.
  rewrite (int32_id (RetrospectiveItem.VoteCount item + 1)) by lia.
  destruct (0 <? RetrospectiveItem.VoteCount item + 1)%Z eqn:Hpos; simpl.
  - f_equal. rewrite int32_id by lia. lia.
  - apply Z.ltb_ge in Hpos. lia.
Qed.

Lemma retros_castVoteWorld retroID itemID userID item w :
  retros (castVoteWorld retroID itemID userID item w) = retros w.
Proof. reflexivity. Qed.

Lemma retros_removeVoteWorld itemID vote w :
  retros (removeVoteWorld itemID vote w) = retros w.
Proof. unfold removeVoteWorld. by destruct (items w !! itemID). Qed.

End Pairing.

(** C6 as stated fails: the vote store files the new vote under
    VOTE-<now> and overwrites what is stored there.  Here the user holds one
    vote, for the card A, stored under VOTE-1000, and the clock reads 1000
    again: the CastVote for the card B succeeds and replaces that vote, the
    RemoveVote for B succeeds and removes it, and GetUserVotes reports one
    vote cast and one remaining before the pair, but none cast and two
    remaining after it. *)
Lemma C6_reused_vote_id_loses_a_vote :
  let ctx := context.Background in
  let get := pb.GetUserVotesRequest.mk "R" "" in
  let c := VotingService.CastVote (H := simRuntime 1000) ctx
             (pb.CastVoteRequest.mk "R" "B") reusedIdWorld in
  let r := VotingService.RemoveVote (H := simRuntime 1000) ctx
             (pb.RemoveVoteRequest.mk "R" "B") c.2 in
  Vote.ItemID <$> votes reusedIdWorld !! "VOTE-1000" = Some "A" ∧
  c.1 = Ok () ∧ r.1 = Ok () ∧
  (VotingService.GetUserVotes (H := simRuntime 1000) ctx get reusedIdWorld).1
    = Ok (pb.GetUserVotesResponse.mk (pb.UserVoteSummary.mk "mock-user-id" 1 1 ["A"])) ∧
  (VotingService.GetUserVotes (H := simRuntime 1000) ctx get r.2).1
    = Ok (pb.GetUserVotesResponse.mk (pb.UserVoteSummary.mk "mock-user-id" 0 2 [])) ∧
  votes r.2 = ∅ ∧ voteCountAt "A" r.2 = Some 1%Z.
Proof.
  intros ctx get c r.
  split; [vm_compute; reflexivity|]. split; [vm_compute; reflexivity|].
  split; [vm_compute; reflexivity|]. split; [vm_compute; reflexivity|].
  split; [vm_compute; reflexivity|]. split; vm_compute; reflexivity.
Qed.

(** C6 (amended): a successful CastVote followed at once by a successful
    RemoveVote of the same user for the same item brings the vote count of
    the item back to its value before the pair, and GetUserVotes reports
    the same votesCast and votesRemaining after the pair as before it,
    provided that the id VOTE-<now> generated for the new vote is not in
    use.  The vote store files every vote under its own id, and the vote
    count of the item is a non-negative int32 below the largest one. *)
Theorem C6_cast_then_remove `{!GoRuntime} (ctx : context.Context)
    (cast : pb.CastVoteRequest.t) (remove : pb.RemoveVoteRequest.t)
    (get : pb.GetUserVotesRequest.t) (w w1 w2 : World) (item : RetrospectiveItem.t) :
  let retroID := pb.CastVoteRequest.RetrospectiveId cast in
  let itemID := pb.CastVoteRequest.ItemId cast in
  let userID := getUserIDFromContext ctx in
  pb.RemoveVoteRequest.RetrospectiveId remove = retroID →
  pb.RemoveVoteRequest.ItemId remove = itemID →
  pb.GetUserVotesRequest.RetrospectiveId get = retroID →
  (pb.GetUserVotesRequest.UserId get = "" ∨ pb.GetUserVotesRequest.UserId get = userID) →
  votes_wf w →
  votes w !! ("VOTE-" +:+ pretty (wallClock (clockReads w))) = None →
  items w !! itemID = Some item →
  (0 ≤ RetrospectiveItem.VoteCount item < MaxInt32)%Z →
  VotingService.CastVote ctx cast w = (Ok (), w1) →
  VotingService.RemoveVote ctx remove w1 = (Ok (), w2) →
  voteCountAt itemID w2 = voteCountAt itemID w ∧
  ∃ before after,
    (VotingService.GetUserVotes ctx get w).1 = Ok (pb.GetUserVotesResponse.mk before) ∧
    (VotingService.GetUserVotes ctx get w2).1 = Ok (pb.GetUserVotesResponse.mk after) ∧
    pb.UserVoteSummary.VotesCast after = pb.UserVoteSummary.VotesCast before ∧
    pb.UserVoteSummary.VotesRemaining after = pb.UserVoteSummary.VotesRemaining before.
Proof.
  cbv zeta. intros Hrr Hri Hgr Hgu Hwf Hfresh Hitem Hcount Hcast Hremove.
  apply CastVote_Ok_inv in Hcast
    as (retro & item' & Hr & Hi & Hretro & _ & Hitem' & _ & _ & _ & ->).
  rewrite Hitem in Hitem'. injection Hitem' as <-.
  apply RemoveVote_Ok_inv in Hremove as (k & vote & Hk & HP & ->).
  rewrite Hrr, Hri in *.
  split; [by apply voteCount_cast_remove|].
  assert (Huser : (if bool_decide (pb.GetUserVotesRequest.UserId get = "")
                   then getUserIDFromContext ctx
                   else pb.GetUserVotesRequest.UserId get) = getUserIDFromContext ctx).
  { case_bool_decide; [done|]. by destruct Hgu. }
  destruct (GetUserVotes_run ctx get w retro) as (ids & Hbefore);
    [by rewrite Hgr | by rewrite Hgr |].
  destruct (GetUserVotes_run ctx get
              (removeVoteWorld (pb.CastVoteRequest.ItemId cast) vote
                 (castVoteWorld (pb.CastVoteRequest.RetrospectiveId cast)
                    (pb.CastVoteRequest.ItemId cast) (getUserIDFromContext ctx) item w))
              retro) as (ids' & Hafter); [by rewrite Hgr | |].
  { by rewrite Hgr, retros_removeVoteWorld, retros_castVoteWorld. }
  rewrite Huser, Hgr in Hbefore, Hafter.
  rewrite (votesOfUser_cast_remove _ _ _ item vote k w) in Hafter;
    [| done | done | done | by eapply byUserAndItem_byUser].
  eexists _, _. split; [exact Hbefore|]. split; [exact Hafter|]. done.
Qed.

Lemma C6_cast_then_remove_witness :
  let w1 := (VotingService.CastVote (H := simRuntime 1000) context.Background
               (pb.CastVoteRequest.mk "R" "B") votedOnceWorld).2 in
  let w2 := (VotingService.RemoveVote (H := simRuntime 1000) context.Background
               (pb.RemoveVoteRequest.mk "R" "B") w1).2 in
  voteCountAt "B" w1 = Some 1%Z ∧
  voteCountAt "B" w2 = voteCountAt "B" votedOnceWorld.
Proof.
  intros w1 w2.
  destruct (C6_cast_then_remove (H := simRuntime 1000) context.Background
              (pb.CastVoteRequest.mk "R" "B") (pb.RemoveVoteRequest.mk "R" "B")
              (pb.GetUserVotesRequest.mk "R" "") votedOnceWorld w1 w2 (sampleItem "B" 0))
    as (Hcount & _).
  - reflexivity.
  - reflexivity.
  - reflexivity.
  - left. reflexivity.
  - apply (bool_decide_unpack (votes_wf votedOnceWorld)). vm_compute. exact I.
  - vm_compute. reflexivity.
  - vm_compute. reflexivity.
  - vm_compute. split; [discriminate | reflexivity].
  - vm_compute. reflexivity.
  - vm_compute. reflexivity.
  - split; [vm_compute; reflexivity | exact Hcount].
Defined.

(** ** The vote summary *)

Section Ranking.

Lemma tieGroupStart_app_l count l1 l2 :
  (∃ iv, iv ∈ l1 ∧ VotingService.voteCount iv = count) →
  tieGroupStart count (l1 ++ l2) = tieGroupStart count l1.
Proof.
  induction l1 as [|a l1 IH]; intros (iv & Hin & Hc).
  - by apply elem_of_nil in Hin.
  - simpl. case_decide; [done|]. f_equal. apply IH.
    apply elem_of_cons in Hin as [-> | Hin]; [done | eauto].
Qed.

Lemma tieGroupStart_app_r count l1 l2 :
  (∀ iv, iv ∈ l1 → VotingService.voteCount iv ≠ count) →
  tieGroupStart count (l1 ++ l2) = length l1 + tieGroupStart count l2.
Proof.
  induction l1 as [|a l1 IH]; intros Hnot; [done|].
  simpl. rewrite decide_False by (apply Hnot; left).
  f_equal. apply IH. intros iv Hin. apply Hnot. by right.
Qed.

Lemma tieGroupStart_lt count l :
  (∃ iv, iv ∈ l ∧ VotingService.voteCount iv = count) →
  tieGroupStart count l < length l.
Proof.
  induction l as [|a l IH]; intros (iv & Hin & Hc).
  - by apply elem_of_nil in Hin.
  - simpl. case_decide; [lia|].
    apply elem_of_cons in Hin as [-> | Hin]; [done|].
    apply Nat.succ_lt_mono with (n := tieGroupStart count l) (m := length l).
    apply IH. eauto.
Qed.

(** in a descending slice the tie group of a count that occurs starts
    after exactly the entries with more votes *)
Lemma tieGroupStart_moreVotes count l :
  StronglySorted descending l →
  (∃ iv, iv ∈ l ∧ VotingService.voteCount iv = count) →
  tieGroupStart count l = moreVotes count l.
Proof.
  unfold moreVotes.
  induction l as [|a l IH]; intros Hsorted (iv & Hin & Hc).
  - by apply elem_of_nil in Hin.
  - apply StronglySorted_inv in Hsorted as [Hsorted Hall].
    simpl. rewrite filter_cons. case_decide as Ha.
    + rewrite decide_False by lia.
      symmetry. apply length_zero_iff_nil, elem_of_nil_inv. intros x Hx.
      apply list_elem_of_filter in Hx as [Hlt Hx].
      rewrite Forall_forall in Hall. specialize (Hall x Hx).
      unfold descending in Hall. lia.
    + apply elem_of_cons in Hin as [-> | Hin]; [done|].
      rewrite Forall_forall in Hall. pose proof (Hall iv Hin) as Hle.
      unfold descending in Hle.
      rewrite decide_True by lia. simpl. f_equal. apply IH; eauto.
Qed.

(** one turn of the loop keeps the state right *)
Lemma rankState_step (done rest : list VotingService.itemVote)
    (x : VotingService.itemVote) (currentRank lastVoteCount : Z) :
  StronglySorted descending (done ++ x :: rest) →
  rankState done currentRank lastVoteCount →
  let changed := bool_decide (VotingService.voteCount x ≠ lastVoteCount) in
  rankState (done ++ [x])
    (if changed then int32 (Z.of_nat (length done) + 1) else currentRank)
    (if changed then VotingService.voteCount x else lastVoteCount).
Proof.
  intros Hsorted Hstate changed. subst changed.
  unfold rankState in *. rewrite last_snoc.
  destruct (last done) as [y|] eqn:Hlast.
  - destruct Hstate as [-> ->].
    apply last_Some in Hlast as [done' ->].
    case_bool_decide as Hne.
    + split; [done|]. rewrite tieGroupStart_app_r.
      * simpl. rewrite decide_True by done. by rewrite Nat.add_0_r.
      * intros z Hz Hzc.
        apply StronglySorted_app in Hsorted as (Hle & Hdone & _).
        assert (descending y x) as Hyx.
        { apply Hle; [apply elem_of_app; right; left | left]. }
        assert (descending z y) as Hzy.
        { apply elem_of_app in Hz as [Hz | Hz].
          - apply StronglySorted_app in Hdone as (Hle' & _ & _).
            apply Hle'; [done | left].
          - apply list_elem_of_singleton in Hz as ->. unfold descending. lia. }
        assert (descending z x) as Hzx by (apply Hle; [done | left]).
        unfold descending in *. lia.
    + assert (VotingService.voteCount x = VotingService.voteCount y) as Heq
        by (by destruct (decide (VotingService.voteCount x = VotingService.voteCount y))).
      split; [done|]. rewrite Heq.
      rewrite (tieGroupStart_app_l _ (done' ++ [y]) [x]); [done|].
      exists y. split; [apply elem_of_app; right; left | done].
  - destruct Hstate as [-> ->].
    apply last_None in Hlast as ->. simpl.
    rewrite decide_True by done.
    case_bool_decide; done.
Qed.

Lemma rankLoop_spec (rest : list VotingService.itemVote) :
  ∀ (done : list VotingService.itemVote) (currentRank lastVoteCount : Z)
    (rankMap : gmap string Z),
    StronglySorted descending (done ++ rest) →
    NoDup (VotingService.itemID <$> (done ++ rest)) →
    rankState done currentRank lastVoteCount →
    (∀ iv, iv ∈ done →
       rankMap !! VotingService.itemID iv
       = Some (int32 (Z.of_nat (tieGroupStart (VotingService.voteCount iv) (done ++ rest)) + 1))) →
    ∀ iv, iv ∈ done ++ rest →
      VotingService.rankLoop (length done) rest currentRank lastVoteCount rankMap
        !! VotingService.itemID iv
      = Some (int32 (Z.of_nat (tieGroupStart (VotingService.voteCount iv) (done ++ rest)) + 1)).
Proof.
  induction rest as [|x rest IH]; intros done cr lastc m Hsorted Hnodup Hstate Hmap iv Hin.
  - simpl. rewrite app_nil_r in *. by apply Hmap.
  - simpl.
    pose proof (rankState_step done rest x cr lastc Hsorted Hstate) as Hstep.
    simpl in Hstep.
    replace (done ++ x :: rest) with ((done ++ [x]) ++ rest) in *
      by (by rewrite <- app_assoc).
    replace (S (length done)) with (length (done ++ [x]))
      by (rewrite length_app; simpl; lia).
    apply IH; try done.
    intros iv' Hin'.
    assert (Hx : tieGroupStart (VotingService.voteCount x) ((done ++ [x]) ++ rest)
                 = tieGroupStart (VotingService.voteCount x) (done ++ [x])).
    { apply tieGroupStart_app_l. exists x. split; [apply elem_of_app; right; left | done]. }
    destruct (decide (VotingService.itemID iv' = VotingService.itemID x)) as [Hid|Hid].
    + assert (iv' = x) as ->.
      { apply elem_of_app in Hin' as [Hd | Hx'];
          [| by apply list_elem_of_singleton in Hx'].
        exfalso. rewrite <- app_assoc, fmap_app in Hnodup.
        apply NoDup_app in Hnodup as (_ & Hdisj & _).
        apply (Hdisj (VotingService.itemID iv')).
        - apply list_elem_of_fmap. eauto.
        - rewrite Hid. simpl. left. }
      rewrite lookup_insert_eq. f_equal. rewrite Hx.
      unfold rankState in Hstep. rewrite last_snoc in Hstep. by destruct Hstep as [_ ->].
    + rewrite lookup_insert_ne by done.
      apply elem_of_app in Hin' as [Hd | Hx'].
      * rewrite <- app_assoc. simpl. rewrite <- app_assoc in Hmap. by apply Hmap.
      * apply list_elem_of_singleton in Hx' as ->. done.
Qed.

(** the rank map built for a descending slice with distinct item ids *)
Lemma rankMap_spec (sorted : list VotingService.itemVote) (iv : VotingService.itemVote) :
  StronglySorted descending sorted →
  NoDup (VotingService.itemID <$> sorted) →
  iv ∈ sorted →
  VotingService.rankLoop 0 sorted 1 (-1) ∅ !! VotingService.itemID iv
  = Some (int32 (Z.of_nat (tieGroupStart (VotingService.voteCount iv) sorted) + 1)).
Proof.
  intros Hsorted Hnodup Hin.
  apply (rankLoop_spec sorted [] 1 (-1) ∅); try done.
  intros iv' Hin'. by apply elem_of_nil in Hin'.
Qed.

End Ranking.

Section Summary.
Context {RT : GoRuntime}.

Lemma sum_permutation (l1 l2 : list Z) :
  l1 ≡ₚ l2 → foldr Z.add 0%Z l1 = foldr Z.add 0%Z l2.
Proof. induction 1; simpl; lia. Qed.

Lemma total_foldl (its : list RetrospectiveItem.t) (acc : Z) :
  foldl (λ total item, int32 (total + RetrospectiveItem.VoteCount item)) (int32 acc) its
  = int32 (acc + foldr Z.add 0%Z (RetrospectiveItem.VoteCount <$> its)).
Proof.
  revert acc. induction its as [|item its IH]; intros acc.
  - simpl. apply (f_equal int32). lia.
  - rewrite fmap_cons. cbn [foldl foldr].
    rewrite int32_add_l, IH. apply (f_equal int32). lia.
Qed.

Lemma byVoteCountDesc_asym a b :
  VotingService.byVoteCountDesc a b = true → VotingService.byVoteCountDesc b a = false.
Proof. unfold VotingService.byVoteCountDesc. rewrite Z.ltb_lt, Z.ltb_ge. lia. Qed.

Lemma byVoteCountDesc_trans a b c :
  VotingService.byVoteCountDesc b a = false →
  VotingService.byVoteCountDesc c b = false →
  VotingService.byVoteCountDesc c a = false.
Proof. unfold VotingService.byVoteCountDesc. rewrite !Z.ltb_ge. lia. Qed.

Lemma sortSlice_descending (l : list VotingService.itemVote) :
  StronglySorted descending (sortSlice VotingService.byVoteCountDesc l).
Proof.
  pose proof (sortSlice_sorted _ VotingService.byVoteCountDesc l
                byVoteCountDesc_asym byVoteCountDesc_trans) as Hs.
  induction Hs as [|a l' Hl' IH Hall]; constructor; [exact IH|].
  eapply Forall_impl; [exact Hall|].
  intros b. unfold notBefore, descending, VotingService.byVoteCountDesc.
  rewrite Z.ltb_ge. lia.
Qed.

(** the items that [ListByRetrospective] returns for a whole board *)
Lemma ListByRetrospective_run retroID w :
  ∃ its,
    InMemoryItemStore.ListByRetrospective retroID "" false w
      = (Ok its, setMapRanges (S (mapRanges w)) w) ∧
    its ≡ₚ itemsOf retroID w ∧
    (items_wf w → NoDup (RetrospectiveItem.ItemID <$> its)).
Proof.
  unfold InMemoryItemStore.ListByRetrospective, mbind, M_bind, rangeMap. simpl.
  eexists. split; [reflexivity|].
  assert (Hfilter : ∀ l : list RetrospectiveItem.t,
            filter (λ item, RetrospectiveItem.RetrospectiveID item = retroID ∧
                            ("" = "" ∨ RetrospectiveItem.ColumnID item = "")) l
            = filter (λ item, RetrospectiveItem.RetrospectiveID item = retroID) l).
  { intros l. apply list_filter_iff. intros x. tauto. }
  rewrite Hfilter. split.
  - unfold itemsOf. by rewrite range_values_perm.
  - intros Hwf.
    eapply sublist_NoDup; [|apply fmap_sublist, sublist_filter].
    rewrite range_values_perm.
    replace (RetrospectiveItem.ItemID <$> (map_to_list (items w)).*2)
      with ((map_to_list (items w)).*1); [apply NoDup_fst_map_to_list|].
    rewrite <- list_fmap_compose. apply Forall_fmap_ext.
    apply map_Forall_to_list in Hwf.
    eapply Forall_impl; [exact Hwf|]. by intros [k item].
Qed.

Lemma GetVoteSummary_run ctx req w :
  pb.GetVoteSummaryRequest.RetrospectiveId req ≠ "" →
  ∃ its (voted : gmap string bool),
    let rankMap :=
      VotingService.rankLoop 0
        (sortSlice VotingService.byVoteCountDesc (toItemVote <$> its)) 1 (-1) ∅ in
    (VotingService.GetVoteSummary ctx req w).1 =
      Ok (pb.GetVoteSummaryResponse.mk
            ((λ item, pb.VoteSummary.mk
                        (RetrospectiveItem.ItemID item)
                        (RetrospectiveItem.VoteCount item)
                        (default 0%Z (rankMap !! RetrospectiveItem.ItemID item))
                        (default false (voted !! RetrospectiveItem.ItemID item)))
               <$> its)
            (foldl (λ total item, int32 (total + RetrospectiveItem.VoteCount item))
                   0%Z its)) ∧
    its ≡ₚ itemsOf (pb.GetVoteSummaryRequest.RetrospectiveId req) w ∧
    (items_wf w → NoDup (RetrospectiveItem.ItemID <$> its)).
Proof.
  intros Hr. unfold VotingService.GetVoteSummary.
  rewrite bool_decide_eq_false_2 by done.
  unfold mbind at 1. unfold M_bind at 1. unfold onErr.
  destruct (ListByRetrospective_run (pb.GetVoteSummaryRequest.RetrospectiveId req) w)
    as (its & -> & Hperm & Hnodup).
  exists its. unfold mbind, M_bind, ignoreErr.
  destruct (ListByUser_run (pb.GetVoteSummaryRequest.RetrospectiveId req)
              (getUserIDFromContext ctx) (setMapRanges (S (mapRanges w)) w))
    as (l & -> & _).
  simpl. eexists. split; [reflexivity|]. by split.
Qed.

End Summary.

Section SummaryRanks.
Context {RT : GoRuntime}.

Lemma moreVotes_toItemVote (count : Z) (its : list RetrospectiveItem.t) :
  moreVotes count (toItemVote <$> its)
  = length (filter (λ item, (count < RetrospectiveItem.VoteCount item)%Z) its).
Proof.
  unfold moreVotes. induction its as [|item its IH]; [done|].
  rewrite fmap_cons, !filter_cons. simpl.
  destruct (decide (count < RetrospectiveItem.VoteCount item)%Z); simpl; by rewrite IH.
Qed.

Lemma moreVotes_sorted (count : Z) (retroID : string) (w : World)
    (its : list RetrospectiveItem.t) (sorted : list VotingService.itemVote) :
  its ≡ₚ itemsOf retroID w →
  sorted ≡ₚ toItemVote <$> its →
  moreVotes count sorted = itemsWithMoreVotes retroID count w.
Proof.
  intros Hits Hsorted. unfold itemsWithMoreVotes.
  rewrite <- Hits, <- moreVotes_toItemVote. unfold moreVotes. by rewrite Hsorted.
Qed.

End SummaryRanks.

Lemma summaryRows_eq (retroID : string) (w : World)
    (its : list RetrospectiveItem.t) (summaries : list pb.VoteSummary.t)
    (sorted : list VotingService.itemVote) :
  Forall2 (λ item s,
             pb.VoteSummary.ItemId s = RetrospectiveItem.ItemID item ∧
             pb.VoteSummary.VoteCount s = RetrospectiveItem.VoteCount item ∧
             pb.VoteSummary.Rank s
             = (Z.of_nat (tieGroupStart (RetrospectiveItem.VoteCount item) sorted) + 1)%Z ∧
             pb.VoteSummary.Rank s
             = (Z.of_nat (itemsWithMoreVotes retroID
                            (RetrospectiveItem.VoteCount item) w) + 1)%Z)
          its summaries →
  summaryRow <$> summaries
  = (λ item, (RetrospectiveItem.ItemID item, RetrospectiveItem.VoteCount item,
              (Z.of_nat (itemsWithMoreVotes retroID
                           (RetrospectiveItem.VoteCount item) w) + 1)%Z)) <$> its.
Proof.
  induction 1 as [|item s its summaries (Hid & Hcount & _ & Hrank) _ IH]; [done|].
  rewrite !fmap_cons, IH. unfold summaryRow. by rewrite Hid, Hcount, Hrank.
Qed.

(** C3: GetVoteSummary sorts the items of the retrospective by vote count,
    descending, and gives every item the 1-based position at which the tie
    group of its vote count starts in the sorted slice, so that items with
    equal vote counts share a rank and the rank is one more than the number
    of items with more votes; totalVotes is the sum of the vote counts of the
    items.  (The items are filed under their own ids, and their number and
    the sum of their counts fit an int32.)  On the board with the counts
    5, 5, 3 and 1 the ranks are 1, 1, 3 and 4 and totalVotes is 14. *)
Theorem C3_vote_summary_ranks `{!GoRuntime} (ctx : context.Context)
    (req : pb.GetVoteSummaryRequest.t) (w : World) :
  let retroID := pb.GetVoteSummaryRequest.RetrospectiveId req in
  retroID ≠ "" →
  items_wf w →
  (Z.of_nat (length (itemsOf retroID w)) < 2147483648)%Z →
  (-2147483648 ≤ totalVoteCount retroID w < 2147483648)%Z →
  voteSummarySpec retroID w (VotingService.GetVoteSummary ctx req w).1 ∧
  ∃ resp,
    (VotingService.GetVoteSummary ctx (pb.GetVoteSummaryRequest.mk "R") rankedWorld).1
      = Ok resp ∧
    summaryRow <$> pb.GetVoteSummaryResponse.Summaries resp
      ≡ₚ [("A", 5, 1); ("B", 5, 1); ("C", 3, 3); ("D", 1, 4)]%Z ∧
    pb.GetVoteSummaryResponse.TotalVotes resp = 14%Z.
Proof.
  assert (Hgeneral : ∀ (req : pb.GetVoteSummaryRequest.t) (w : World),
            pb.GetVoteSummaryRequest.RetrospectiveId req ≠ "" →
            items_wf w →
            (Z.of_nat (length (itemsOf (pb.GetVoteSummaryRequest.RetrospectiveId req) w))
             < 2147483648)%Z →
            (-2147483648 ≤ totalVoteCount (pb.GetVoteSummaryRequest.RetrospectiveId req) w
             < 2147483648)%Z →
            voteSummarySpec (pb.GetVoteSummaryRequest.RetrospectiveId req) w
              (VotingService.GetVoteSummary ctx req w).1).
  { clear req w. intros req w. unfold voteSummarySpec.
    intros Hr Hwf Hlen Htotal.
    destruct (GetVoteSummary_run ctx req w Hr) as (its & voted & Hrun & Hperm & Hnodup).
    specialize (Hnodup Hwf).
    set (sorted := sortSlice VotingService.byVoteCountDesc (toItemVote <$> its)) in *.
    assert (Hsp : sorted ≡ₚ toItemVote <$> its) by apply sortSlice_perm.
    assert (Hss : StronglySorted descending sorted) by apply sortSlice_descending.
    assert (Hids : NoDup (VotingService.itemID <$> sorted)).
    { rewrite Hsp, <- list_fmap_compose. exact Hnodup. }
    assert (Hlen' : length sorted = length (itemsOf (pb.GetVoteSummaryRequest.RetrospectiveId req) w)).
    { by rewrite Hsp, length_fmap, Hperm. }
    assert (Hrank : ∀ item, item ∈ its →
              default 0%Z (VotingService.rankLoop 0 sorted 1 (-1) ∅
                             !! RetrospectiveItem.ItemID item)
              = (Z.of_nat (tieGroupStart (RetrospectiveItem.VoteCount item) sorted) + 1)%Z).
    { intros item Hin.
      assert (toItemVote item ∈ sorted) as Hin'.
      { rewrite Hsp. apply list_elem_of_fmap. eauto. }
      pose proof (rankMap_spec sorted (toItemVote item) Hss Hids Hin') as Hlookup.
      simpl in Hlookup. rewrite Hlookup. simpl.
      assert (tieGroupStart (RetrospectiveItem.VoteCount item) sorted < length sorted)
        by (apply tieGroupStart_lt; eauto).
      apply int32_id. lia. }
    assert (Hmore : ∀ item, item ∈ its →
              tieGroupStart (RetrospectiveItem.VoteCount item) sorted
              = itemsWithMoreVotes (pb.GetVoteSummaryRequest.RetrospectiveId req)
                  (RetrospectiveItem.VoteCount item) w).
    { intros item Hin.
      rewrite tieGroupStart_moreVotes; [by eapply moreVotes_sorted | done |].
      exists (toItemVote item). split; [|done].
      rewrite Hsp. apply list_elem_of_fmap. eauto. }
    assert (Hall : Forall2 (λ item s,
                 pb.VoteSummary.ItemId s = RetrospectiveItem.ItemID item ∧
                 pb.VoteSummary.VoteCount s = RetrospectiveItem.VoteCount item ∧
                 pb.VoteSummary.Rank s
                 = (Z.of_nat (tieGroupStart (RetrospectiveItem.VoteCount item) sorted) + 1)%Z ∧
                 pb.VoteSummary.Rank s
                 = (Z.of_nat (itemsWithMoreVotes (pb.GetVoteSummaryRequest.RetrospectiveId req)
                                (RetrospectiveItem.VoteCount item) w) + 1)%Z)
              its
              ((λ item, pb.VoteSummary.mk
                          (RetrospectiveItem.ItemID item)
                          (RetrospectiveItem.VoteCount item)
                          (default 0%Z (VotingService.rankLoop 0 sorted 1 (-1) ∅
                                          !! RetrospectiveItem.ItemID item))
                          (default false (voted !! RetrospectiveItem.ItemID item)))
                 <$> its)).
    { apply Forall2_fmap_r, Forall_Forall2_diag, Forall_forall.
      intros item Hin. simpl. rewrite (Hrank item Hin).
      repeat split; try done. by rewrite (Hmore item Hin). }
    eexists _, its, sorted.
    split; [exact Hrun|]. split; [exact Hperm|]. split; [exact Hsp|].
    split; [exact Hss|]. split; [exact Hall|]. simpl. split.
    - intros s1 s2 Hs1 Hs2 Heq.
      apply list_elem_of_fmap in Hs1 as (item1 & -> & Hin1).
      apply list_elem_of_fmap in Hs2 as (item2 & -> & Hin2).
      simpl in *. rewrite (Hrank item1 Hin1), (Hrank item2 Hin2).
      by rewrite (Hmore item1 Hin1), (Hmore item2 Hin2), Heq.
    - pose proof (total_foldl its 0) as Hfold.
      rewrite (int32_id 0) in Hfold by lia. rewrite Hfold. simpl.
      assert (foldr Z.add 0%Z (RetrospectiveItem.VoteCount <$> its)
              = totalVoteCount (pb.GetVoteSummaryRequest.RetrospectiveId req) w) as ->.
      { unfold totalVoteCount. apply sum_permutation. by rewrite Hperm. }
      by apply int32_id.
  }
  cbv zeta. intros Hr Hwf Hlen Htotal. split; [by apply Hgeneral|].
  destruct (Hgeneral (pb.GetVoteSummaryRequest.mk "R") rankedWorld)
    as (resp & its & sorted & Hrun & Hperm & _ & _ & Hall & _ & Htot).
  - done.
  - apply (bool_decide_unpack (items_wf rankedWorld)). vm_compute. exact I.
  - vm_compute. reflexivity.
  - vm_compute. split; [discriminate | reflexivity].
  - exists resp. split; [exact Hrun|]. split; [|exact Htot].
    rewrite (summaryRows_eq _ _ _ _ _ Hall), Hperm.
    vm_compute. solve_Permutation.
Qed.

Lemma C3_vote_summary_ranks_witness :
  voteSummarySpec "R" rankedWorld
    (VotingService.GetVoteSummary (H := simRuntime 1000) context.Background
       (pb.GetVoteSummaryRequest.mk "R") rankedWorld).1.
Proof.
  apply (C3_vote_summary_ranks (H := simRuntime 1000) context.Background
           (pb.GetVoteSummaryRequest.mk "R") rankedWorld).
  - discriminate.
  - apply (bool_decide_unpack (items_wf rankedWorld)). vm_compute. exact I.
  - vm_compute. reflexivity.
  - vm_compute. split; [discriminate | reflexivity].
Defined.

(** ** The event broadcaster *)

Section Hub.

Lemma hub_wf_NoDup retroID w : hub_wf w → NoDup (subscribersOf retroID w).
Proof.
  intros Hwf. unfold subscribersOf.
  destruct (subscribers w !! retroID) as [subs|] eqn:Hsubs; simpl; [|constructor].
  by destruct (Hwf retroID subs Hsubs) as (? & _).
Qed.

Lemma hub_wf_open retroID w ch :
  hub_wf w → ch ∈ subscribersOf retroID w →
  ∃ c, channels w !! ch = Some c ∧ chanClosed c = false.
Proof.
  intros Hwf. unfold subscribersOf.
  destruct (subscribers w !! retroID) as [subs|] eqn:Hsubs; simpl;
    [|by intros ?%elem_of_nil].
  destruct (Hwf retroID subs Hsubs) as (_ & Hopen & _).
  rewrite Forall_forall in Hopen. intros Hin. specialize (Hopen ch Hin).
  destruct (channels w !! ch) as [c|]; [|done].
  exists c. split; [done|]. by injection Hopen.
Qed.

Lemma hub_wf_disjoint retroID other w ch :
  hub_wf w → other ≠ retroID →
  ch ∈ subscribersOf retroID w → ch ∉ subscribersOf other w.
Proof.
  intros Hwf Hne. unfold subscribersOf.
  destruct (subscribers w !! retroID) as [subs|] eqn:Hsubs; simpl;
    [|by intros ?%elem_of_nil].
  destruct (subscribers w !! other) as [subs'|] eqn:Hsubs'; simpl;
    [|intros _; apply not_elem_of_nil].
  destruct (Hwf retroID subs Hsubs) as (_ & _ & Hdisj).
  destruct (Hdisj other subs' Hsubs') as [? | Hall]; [done|].
  rewrite Forall_forall in Hall. apply Hall.
Qed.

(** sending to a list of distinct open channels offers the event to each
    of them and touches no other channel *)
Lemma sendAll_spec (subs : list nat) (event : pb.RetrospectiveEvent.t) :
  ∀ w,
    NoDup subs →
    (∀ ch, ch ∈ subs → ∃ c, channels w !! ch = Some c ∧ chanClosed c = false) →
    ∃ chans,
      EventBroadcaster.sendAll subs event w = (Ok (), setChannels chans w) ∧
      length chans = length (channels w) ∧
      (∀ ch, ch ∈ subs → chans !! ch = offered event <$> channels w !! ch) ∧
      (∀ ch, ch ∉ subs → chans !! ch = channels w !! ch).
Proof.
  induction subs as [|q subs IH]; intros w Hnodup Hopen.
  - exists (channels w). simpl. split; [by destruct w|]. split; [done|].
    split; [by intros ch ?%elem_of_nil | done].
  - apply NoDup_cons in Hnodup as [Hq Hnodup].
    destruct (Hopen q) as (c & Hc & Hcl); [left|].
    simpl. unfold mbind, M_bind. unfold EventBroadcaster.trySend at 1.
    rewrite Hc, Hcl.
    set (w1 := if bool_decide (length (chanBuf c) < chanCap c)
               then setChannels (<[q := mkChan (chanBuf c ++ [event]) (chanCap c) false]>
                                   (channels w)) w
               else w).
    assert (Hw1 : (if bool_decide (length (chanBuf c) < chanCap c)
                   then (Ok (), setChannels
                                  (<[q := mkChan (chanBuf c ++ [event]) (chanCap c) false]>
                                     (channels w)) w)
                   else (Ok (), w)) = (Ok (), w1)).
    { subst w1. by case_bool_decide. }
    rewrite Hw1.
    assert (Hlen1 : length (channels w1) = length (channels w)).
    { subst w1. case_bool_decide; [|done]. simpl. by rewrite length_insert. }
    assert (Hq1 : channels w1 !! q = Some (offered event c)).
    { subst w1. unfold offered. case_bool_decide.
      - rewrite decide_True by done. simpl. apply list_lookup_insert_eq.
        by eapply lookup_lt_Some.
      - by rewrite decide_False. }
    assert (Hother : ∀ ch, ch ≠ q → channels w1 !! ch = channels w !! ch).
    { intros ch Hne. subst w1. case_bool_decide; [|done].
      simpl. by apply list_lookup_insert_ne. }
    destruct (IH w1 Hnodup) as (chans & Hrun & Hlen & Hin & Hout).
    { intros ch Hin. rewrite Hother by (intros ->; done). apply Hopen. by right. }
    exists chans. split.
    { rewrite Hrun. f_equal. subst w1. by case_bool_decide. }
    split; [congruence|]. split.
    + intros ch [-> | Hch]%elem_of_cons.
      * rewrite (Hout q Hq), Hq1, Hc. done.
      * rewrite (Hin ch Hch), Hother by (intros ->; done). done.
    + intros ch Hch. apply not_elem_of_cons in Hch as [Hne Hch].
      by rewrite (Hout ch Hch), Hother.
Qed.

End Hub.

Section Unsubscribing.

Lemma Broadcast_spec retroID event w :
  hub_wf w →
  ∃ chans,
    EventBroadcaster.Broadcast retroID event w = (Ok (), setChannels chans w) ∧
    length chans = length (channels w) ∧
    (∀ ch, ch ∈ subscribersOf retroID w →
           chans !! ch = offered event <$> channels w !! ch) ∧
    (∀ ch, ch ∉ subscribersOf retroID w → chans !! ch = channels w !! ch).
Proof.
  intros Hwf. unfold EventBroadcaster.Broadcast.
  apply sendAll_spec.
  - by apply hub_wf_NoDup.
  - intros ch Hin. by eapply hub_wf_open.
Qed.

Lemma Unsubscribe_absent retroID ch w :
  ch ∉ subscribersOf retroID w →
  EventBroadcaster.Unsubscribe retroID ch w = (Ok (), w).
Proof.
  intros Hnot. unfold EventBroadcaster.Unsubscribe. fold (subscribersOf retroID w).
  destruct (list_find (λ sub, sub = ch) (subscribersOf retroID w)) as [[i x]|] eqn:Hfind;
    [|done].
  apply list_find_Some in Hfind as (Hi & -> & _).
  exfalso. apply Hnot. by eapply list_elem_of_lookup_2.
Qed.

Lemma Unsubscribe_present retroID ch w :
  hub_wf w →
  ch ∈ subscribersOf retroID w →
  ∃ i c,
    subscribersOf retroID w !! i = Some ch ∧
    channels w !! ch = Some c ∧ chanClosed c = false ∧
    EventBroadcaster.Unsubscribe retroID ch w
      = (Ok (), unsubscribedWorld retroID ch i c w) ∧
    (ch ∉ subscribersOf retroID (unsubscribedWorld retroID ch i c w)) ∧
    (∀ q, q ≠ ch → (q ∈ subscribersOf retroID (unsubscribedWorld retroID ch i c w)
                    ↔ q ∈ subscribersOf retroID w)).
Proof.
  intros Hwf Hin.
  destruct (hub_wf_open retroID w ch Hwf Hin) as (c & Hc & Hcl).
  pose proof (hub_wf_NoDup retroID w Hwf) as Hnodup.
  unfold EventBroadcaster.Unsubscribe. fold (subscribersOf retroID w).
  destruct (list_find (λ sub, sub = ch) (subscribersOf retroID w)) as [[i x]|] eqn:Hfind.
  - apply list_find_Some in Hfind as (Hi & -> & _).
    exists i, c. split; [done|]. split; [done|]. split; [done|].
    split.
    { unfold mbind, M_bind, modify, EventBroadcaster.close. simpl. by rewrite Hc, Hcl. }
    assert (Hsubs : subscribersOf retroID (unsubscribedWorld retroID ch i c w)
                    = take i (subscribersOf retroID w) ++ drop (S i) (subscribersOf retroID w)).
    { unfold subscribersOf at 1. simpl. by rewrite lookup_insert_eq. }
    rewrite Hsubs.
    pose proof (take_drop_middle _ _ _ Hi) as Hmid.
    rewrite <- Hmid in Hnodup.
    apply NoDup_app in Hnodup as (_ & Hdisj & Hnd).
    apply NoDup_cons in Hnd as [Hnot _].
    split.
    + intros [Hl | Hr]%elem_of_app; [|done].
      apply (Hdisj ch Hl). left.
    + intros q Hq. rewrite <- Hmid at 3.
      rewrite !elem_of_app, elem_of_cons. tauto.
  - apply list_find_None in Hfind. rewrite Forall_forall in Hfind.
    by destruct (Hfind ch Hin).
Qed.

End Unsubscribing.

Section HubInvariant.

(** [hub_wf] in terms of the queues registered under each retrospective *)
Lemma hub_wf_intro w :
  (∀ retroID, NoDup (subscribersOf retroID w)) →
  (∀ retroID ch, ch ∈ subscribersOf retroID w →
                 chanClosed <$> channels w !! ch = Some false) →
  (∀ retroID other ch, other ≠ retroID →
                       ch ∈ subscribersOf retroID w → ch ∉ subscribersOf other w) →
  hub_wf w.
Proof.
  intros Hnodup Hopen Hdisj retroID subs Hsubs.
  assert (subscribersOf retroID w = subs) as Heq
    by (unfold subscribersOf; by rewrite Hsubs).
  split; [rewrite <- Heq; apply Hnodup|]. split.
  - apply Forall_forall. intros ch Hin. apply (Hopen retroID). by rewrite Heq.
  - intros other subs' Hsubs'.
    destruct (decide (other = retroID)) as [|Hne]; [by left|right].
    apply Forall_forall. intros ch Hin.
    assert (subscribersOf other w = subs') as <-
      by (unfold subscribersOf; by rewrite Hsubs').
    apply (Hdisj retroID); [done | by rewrite Heq].
Qed.

Lemma hub_wf_newWorld : hub_wf newWorld.
Proof. unfold hub_wf. apply map_Forall_empty. Qed.

Lemma hub_wf_open_lookup retroID w ch :
  hub_wf w → ch ∈ subscribersOf retroID w →
  chanClosed <$> channels w !! ch = Some false.
Proof.
  intros Hwf Hin. destruct (hub_wf_open retroID w ch Hwf Hin) as (c & -> & Hcl).
  simpl. by rewrite Hcl.
Qed.

(** [Subscribe] hands out a channel that no registry entry mentions yet *)
Lemma subscribers_allocated retroID w ch :
  hub_wf w → ch ∈ subscribersOf retroID w → ch < length (channels w).
Proof.
  intros Hwf Hin. destruct (hub_wf_open retroID w ch Hwf Hin) as (c & Hc & _).
  by eapply lookup_lt_Some.
Qed.

Lemma Subscribe_hub_wf retroID w :
  hub_wf w → hub_wf (EventBroadcaster.Subscribe retroID w).2.
Proof.
  intros Hwf. unfold EventBroadcaster.Subscribe. simpl.
  fold (subscribersOf retroID w).
  set (ch := length (channels w)).
  set (w' := setSubscribers _ _).
  assert (Hsame : subscribersOf retroID w' = subscribersOf retroID w ++ [ch]).
  { unfold subscribersOf at 1. subst w'. simpl. by rewrite lookup_insert_eq. }
  assert (Hother : ∀ other, other ≠ retroID →
                            subscribersOf other w' = subscribersOf other w).
  { intros other Hne. unfold subscribersOf. subst w'. simpl.
    by rewrite lookup_insert_ne. }
  assert (Hfresh : ∀ other, ch ∉ subscribersOf other w).
  { intros other Hin. apply (subscribers_allocated other w ch Hwf) in Hin.
    subst ch. lia. }
  assert (Hchans : ∀ q, q < length (channels w) →
                        channels w' !! q = channels w !! q).
  { intros q Hq. subst w'. simpl. by apply lookup_app_l. }
  apply hub_wf_intro.
  - intros r. destruct (decide (r = retroID)) as [->|Hne].
    + rewrite Hsame. apply NoDup_app. split; [by apply hub_wf_NoDup|].
      split; [|apply NoDup_singleton].
      intros q Hq ->%list_elem_of_singleton. by apply (Hfresh retroID).
    + rewrite Hother by done. by apply hub_wf_NoDup.
  - intros r q Hq.
    assert (q ∈ subscribersOf r w ∨ (r = retroID ∧ q = ch)) as [Hold | [Er Eq]].
    { destruct (decide (r = retroID)) as [->|Hne].
      - rewrite Hsame in Hq. apply elem_of_app in Hq as [?|?%list_elem_of_singleton]; auto.
      - rewrite Hother in Hq by done. auto. }
    + rewrite Hchans by (by eapply subscribers_allocated).
      by eapply hub_wf_open_lookup.
    + rewrite Eq. subst w' ch. simpl. rewrite lookup_app_r by done.
      by rewrite Nat.sub_diag.
  - intros r other q Hne Hq Hq'.
    assert (∀ s, q ∈ subscribersOf s w' → q ∈ subscribersOf s w ∨ (s = retroID ∧ q = ch))
      as Hcase.
    { intros s Hs. destruct (decide (s = retroID)) as [->|Hs'].
      - rewrite Hsame in Hs. apply elem_of_app in Hs as [?|?%list_elem_of_singleton]; auto.
      - rewrite Hother in Hs by done. auto. }
    destruct (Hcase r Hq) as [Hr | [Er Eq]], (Hcase other Hq') as [Ho | [Eo Eq']].
    + by apply (hub_wf_disjoint r other w q Hwf Hne).
    + rewrite Eq' in Hr. by apply (Hfresh r).
    + rewrite Eq in Ho. by apply (Hfresh other).
    + congruence.
Qed.

Lemma Unsubscribe_hub_wf retroID ch w :
  hub_wf w → hub_wf (EventBroadcaster.Unsubscribe retroID ch w).2.
Proof.
  intros Hwf.
  destruct (decide (ch ∈ subscribersOf retroID w)) as [Hin|Hnot];
    [|by rewrite Unsubscribe_absent].
  destruct (Unsubscribe_present retroID ch w Hwf Hin)
    as (i & c & Hi & Hc & Hcl & -> & Hgone & Hrest).
  simpl. set (w' := unsubscribedWorld retroID ch i c w) in *.
  assert (Hother : ∀ other, other ≠ retroID →
                            subscribersOf other w' = subscribersOf other w).
  { intros other Hne. unfold subscribersOf. subst w'. simpl.
    by rewrite lookup_insert_ne. }
  assert (Hsub : ∀ r q, q ∈ subscribersOf r w' → q ∈ subscribersOf r w ∧ q ≠ ch).
  { intros r q Hq. destruct (decide (r = retroID)) as [->|Hne].
    - assert (q ≠ ch) as Hqc by (intros ->; done).
      split; [by apply Hrest | done].
    - rewrite Hother in Hq by done. split; [done|]. intros ->.
      by apply (hub_wf_disjoint retroID r w ch Hwf Hne). }
  apply hub_wf_intro.
  - intros r. destruct (decide (r = retroID)) as [->|Hne].
    + unfold subscribersOf at 1. subst w'. simpl. rewrite lookup_insert_eq. simpl.
      pose proof (hub_wf_NoDup retroID w Hwf) as Hnd.
      rewrite <- (take_drop_middle _ _ _ Hi) in Hnd.
      apply NoDup_app in Hnd as (Hl & Hdisj & Hr).
      apply NoDup_cons in Hr as [_ Hr].
      apply NoDup_app. split; [done|]. split; [|done].
      intros q Hq Hq'. apply (Hdisj q Hq). by right.
    + rewrite Hother by done. by apply hub_wf_NoDup.
  - intros r q Hq. apply Hsub in Hq as [Hq Hne].
    subst w'. simpl. rewrite list_lookup_insert_ne by done.
    by eapply hub_wf_open_lookup.
  - intros r other q Hne Hq Hq'.
    apply Hsub in Hq as [Hq _]. apply Hsub in Hq' as [Hq' _].
    by apply (hub_wf_disjoint r other w q Hwf Hne).
Qed.

Lemma Broadcast_hub_wf retroID event w :
  hub_wf w → hub_wf (EventBroadcaster.Broadcast retroID event w).2.
Proof.
  intros Hwf.
  destruct (Broadcast_spec retroID event w Hwf) as (chans & -> & Hlen & Hin & Hout).
  simpl. apply hub_wf_intro.
  - intros r. by apply (hub_wf_NoDup r w).
  - intros r q Hq. change (q ∈ subscribersOf r w) in Hq. simpl.
    destruct (hub_wf_open r w q Hwf Hq) as (c & Hc & Hcl).
    destruct (decide (q ∈ subscribersOf retroID w)) as [Hsub|Hsub].
    + rewrite (Hin q Hsub), Hc. simpl. unfold offered. by case_decide; simpl; rewrite ?Hcl.
    + rewrite (Hout q Hsub), Hc. simpl. by rewrite Hcl.
  - intros r other q Hne Hq. by apply (hub_wf_disjoint r other w q Hwf Hne).
Qed.

End HubInvariant.

(** C9: on a registry built by Subscribe and Unsubscribe, Broadcast(R, e)
    returns without failing, appends e to the queue of every subscriber of R
    whose queue has room, leaves the queue of a subscriber of R that is full
    as it is (the event is dropped for that subscriber only), and touches
    no queue registered under another retrospective; after Unsubscribe has
    removed a subscriber of R, a further Broadcast(R, e') adds nothing to
    the removed queue and is offered to each remaining subscriber of R. *)
Theorem C9_broadcast_fan_out (retroID : string)
    (event event' : pb.RetrospectiveEvent.t) (gone : nat) (w : World) :
  hub_wf w →
  let b := EventBroadcaster.Broadcast retroID event w in
  b.1 = Ok () ∧
  subscribers b.2 = subscribers w ∧
  (∀ ch c, ch ∈ subscribersOf retroID w → channels w !! ch = Some c →
           length (chanBuf c) < chanCap c →
           channels b.2 !! ch = Some (mkChan (chanBuf c ++ [event]) (chanCap c) false)) ∧
  (∀ ch c, ch ∈ subscribersOf retroID w → channels w !! ch = Some c →
           chanCap c ≤ length (chanBuf c) →
           channels b.2 !! ch = Some c) ∧
  (∀ other ch, other ≠ retroID → ch ∈ subscribersOf other w →
               channels b.2 !! ch = channels w !! ch) ∧
  (gone ∈ subscribersOf retroID w →
   let u := EventBroadcaster.Unsubscribe retroID gone w in
   let b' := EventBroadcaster.Broadcast retroID event' u.2 in
   u.1 = Ok () ∧
   b'.1 = Ok () ∧
   (gone ∉ subscribersOf retroID u.2) ∧
   channels b'.2 !! gone = channels u.2 !! gone ∧
   chanBuf <$> channels b'.2 !! gone = chanBuf <$> channels w !! gone ∧
   (∀ ch c, ch ∈ subscribersOf retroID w → ch ≠ gone → channels w !! ch = Some c →
            channels b'.2 !! ch = Some (offered event' c))).
Proof.
  intros Hwf b.
  destruct (Broadcast_spec retroID event w Hwf) as (chans & Hrun & _ & Hin & Hout).
  subst b. rewrite Hrun. simpl.
  split; [done|]. split; [done|]. split; [|split; [|split]].
  - intros ch c Hch Hc Hroom. rewrite (Hin ch Hch), Hc. simpl.
    unfold offered. by rewrite decide_True.
  - intros ch c Hch Hc Hfull. rewrite (Hin ch Hch), Hc. simpl.
    unfold offered. rewrite decide_False; [done | lia].
  - intros other ch Hne Hch. apply Hout.
    by apply (hub_wf_disjoint other retroID w ch Hwf).
  - intros Hgone.
    destruct (Unsubscribe_present retroID gone w Hwf Hgone)
      as (i & c & Hi & Hc & Hcl & Hu & Hnot & Hrest).
    pose proof (Unsubscribe_hub_wf retroID gone w Hwf) as Hwf'.
    rewrite Hu in Hwf' |- *. simpl in Hwf' |- *.
    destruct (Broadcast_spec retroID event' _ Hwf') as (chans' & Hrun' & _ & Hin' & Hout').
    rewrite Hrun'. simpl.
    split; [done|]. split; [done|]. split; [done|]. split; [by apply Hout'|]. split.
    + rewrite (Hout' gone Hnot). simpl.
      rewrite list_lookup_insert_eq by (by eapply lookup_lt_Some). by rewrite Hc.
    + intros ch c' Hch Hne Hc'.
      assert (ch ∈ subscribersOf retroID (unsubscribedWorld retroID gone i c w)) as Hch'
        by (by apply Hrest).
      rewrite (Hin' ch Hch'). simpl.
      rewrite list_lookup_insert_ne by done. by rewrite Hc'.
Qed.

Lemma C9_broadcast_fan_out_witness :
  let b := EventBroadcaster.Broadcast "R" (sampleEvent 1) fanOutWorld in
  let u := EventBroadcaster.Unsubscribe "R" 1 b.2 in
  let b' := EventBroadcaster.Broadcast "R" (sampleEvent 2) u.2 in
  chanBuf <$> channels b.2 = [[sampleEvent 1]; [sampleEvent 1]; [sampleEvent 1]; []] ∧
  chanBuf <$> channels b'.2
  = [[sampleEvent 1; sampleEvent 2]; [sampleEvent 1]; [sampleEvent 1; sampleEvent 2]; []] ∧
  b.1 = Ok ().
Proof.
  intros b u b'.
  split; [reflexivity|]. split; [reflexivity|].
  assert (hub_wf fanOutWorld) as Hwf.
  { apply (bool_decide_unpack (hub_wf fanOutWorld)). vm_compute. exact I. }
  by destruct (C9_broadcast_fan_out "R" (sampleEvent 1) (sampleEvent 2) 1 fanOutWorld Hwf)
    as (Hok & _).
Defined.

(** C10: Unsubscribe of a handle that is not registered under the
    retrospective changes nothing (no registry entry, no channel), in every
    state; on a registry built by Subscribe and Unsubscribe, Unsubscribe of
    a registered handle succeeds, removes the handle from the subscribers of
    the retrospective (keeping the others and the other retrospectives),
    closes the channel, which was open, leaves all the other channels as
    they are, and a second Unsubscribe with the same handle changes nothing
    and closes nothing. *)
Theorem C10_unsubscribe_idempotent (retroID : string) (ch : nat) (w : World) :
  (ch ∉ subscribersOf retroID w →
   EventBroadcaster.Unsubscribe retroID ch w = (Ok (), w)) ∧
  (hub_wf w →
   ch ∈ subscribersOf retroID w →
   let u := EventBroadcaster.Unsubscribe retroID ch w in
   u.1 = Ok () ∧
   (ch ∉ subscribersOf retroID u.2) ∧
   (∀ q, q ≠ ch → (q ∈ subscribersOf retroID u.2 ↔ q ∈ subscribersOf retroID w)) ∧
   (∀ other, other ≠ retroID → subscribers u.2 !! other = subscribers w !! other) ∧
   chanClosed <$> channels w !! ch = Some false ∧
   chanClosed <$> channels u.2 !! ch = Some true ∧
   chanBuf <$> channels u.2 !! ch = chanBuf <$> channels w !! ch ∧
   (∀ q, q ≠ ch → channels u.2 !! q = channels w !! q) ∧
   EventBroadcaster.Unsubscribe retroID ch u.2 = (Ok (), u.2)).
Proof.
  split; [apply Unsubscribe_absent|].
  intros Hwf Hin.
  destruct (Unsubscribe_present retroID ch w Hwf Hin)
    as (i & c & Hi & Hc & Hcl & Hu & Hnot & Hrest).
  rewrite Hu. simpl.
  assert (Hlt : ch < length (channels w)) by (by eapply lookup_lt_Some).
  split; [done|]. split; [done|]. split; [done|]. split.
  { intros other Hne. by rewrite lookup_insert_ne. }
  split; [by rewrite Hc; simpl; rewrite Hcl|].
  split; [by rewrite list_lookup_insert_eq|].
  split; [by rewrite list_lookup_insert_eq, Hc|].
  split; [intros q Hq; by rewrite list_lookup_insert_ne|].
  by apply Unsubscribe_absent.
Qed.

Lemma C10_unsubscribe_idempotent_witness :
  let u := EventBroadcaster.Unsubscribe "R" 1 fanOutWorld in
  subscribersOf "R" u.2 = [0; 2] ∧
  chanClosed <$> channels u.2 = [false; true; false; false] ∧
  EventBroadcaster.Unsubscribe "R" 1 u.2 = (Ok (), u.2).
Proof.
  intros u. split; [reflexivity|]. split; [reflexivity|].
  assert (hub_wf fanOutWorld) as Hwf.
  { apply (bool_decide_unpack (hub_wf fanOutWorld)). vm_compute. exact I. }
  destruct (C10_unsubscribe_idempotent "R" 1 fanOutWorld) as (_ & Hpresent).
  apply (Hpresent Hwf). vm_compute. right. left.
Defined.

(** C5 (what the code does instead): the status transitions and CastVote
    never reach the broadcaster; [BroadcastStatusChanged] and
    [BroadcastVoteCast] have no call site.  The registry and every
    subscriber queue are the same after StartVoting, StartDiscussion,
    Complete and CastVote as before, whatever the outcome; in particular,
    with a subscriber of ["R"] listening, a successful StartVoting and a
    successful CastVote leave its queue empty. *)
Theorem C5_no_event_is_emitted `{!GoRuntime} (ctx : context.Context) (w : World)
    (sv : pb.StartVotingRequest.t) (sd : pb.StartDiscussionRequest.t)
    (co : pb.CompleteRetrospectiveRequest.t) (cv : pb.CastVoteRequest.t) :
  hubOf (RetrospectiveService.StartVoting ctx sv w).2 = hubOf w ∧
  hubOf (RetrospectiveService.StartDiscussion ctx sd w).2 = hubOf w ∧
  hubOf (RetrospectiveService.Complete ctx co w).2 = hubOf w ∧
  hubOf (VotingService.CastVote ctx cv w).2 = hubOf w ∧
  (let r := RetrospectiveService.StartVoting ctx (pb.StartVotingRequest.mk "R")
              (watchedWorld RetrospectiveStatusDraft) in
   r.1 = Ok () ∧ subscribersOf "R" r.2 = [0] ∧
   chanBuf <$> channels r.2 !! 0 = Some []) ∧
  (let r := VotingService.CastVote ctx (pb.CastVoteRequest.mk "R" "A")
              (watchedWorld RetrospectiveStatusVoting) in
   r.1 = Ok () ∧ subscribersOf "R" r.2 = [0] ∧
   chanBuf <$> channels r.2 !! 0 = Some []).
Proof.
  split; [apply StartVoting_hub|].
  split; [apply StartDiscussion_hub|].
  split; [apply Complete_hub|].
  split; [apply CastVote_hub|].
  split.
  - pose proof (StartVoting_hub ctx (pb.StartVotingRequest.mk "R")
                  (watchedWorld RetrospectiveStatusDraft)) as Hhub.
    apply (f_equal fst) in Hhub as Hs. apply (f_equal snd) in Hhub as Hc.
    simpl in Hs, Hc.
    destruct (StartVoting_ok ctx "R" (sampleRetro RetrospectiveStatusDraft time.Zero)
                (watchedWorld RetrospectiveStatusDraft) eq_refl) as (w' & Hrun & _);
      [by left|].
    cbv zeta. unfold subscribersOf. rewrite Hs, Hc, Hrun. done.
  - pose proof (CastVote_hub ctx (pb.CastVoteRequest.mk "R" "A")
                  (watchedWorld RetrospectiveStatusVoting)) as Hhub.
    apply (f_equal fst) in Hhub as Hs. apply (f_equal snd) in Hhub as Hc.
    simpl in Hs, Hc.
    cbv zeta. unfold subscribersOf. rewrite Hs, Hc. split; [|done].
    rewrite CastVote_run. reflexivity.
Qed.

(** ** Presence *)

Section Presence.
Context {RT : GoRuntime}.

Lemma hub_wf_same_hub w w' : hubOf w' = hubOf w → hub_wf w → hub_wf w'.
Proof.
  intros Hhub. apply (f_equal fst) in Hhub as Hs. apply (f_equal snd) in Hhub as Hc.
  simpl in Hs, Hc. unfold hub_wf. by rewrite Hs, Hc.
Qed.

Lemma subscribersOf_same_hub retroID w w' :
  hubOf w' = hubOf w → subscribersOf retroID w' = subscribersOf retroID w.
Proof.
  intros Hhub. apply (f_equal fst) in Hhub. simpl in Hhub.
  unfold subscribersOf. by rewrite Hhub.
Qed.

Lemma onlineCount_le_size retroID w :
  onlineCount retroID w ≤ size (participants w).
Proof.
  unfold onlineCount. etrans; [apply length_filter|].
  by rewrite length_fmap, length_map_to_list.
Qed.

Lemma JoinRetrospective_run ctx req retro w :
  let retroID := pb.JoinRetrospectiveRequest.RetrospectiveId req in
  let userID := getUserIDFromContext ctx in
  let p := joinedParticipant ctx req retro w in
  retroID ≠ "" →
  retros w !! retroID = Some retro →
  hub_wf w →
  ∃ w' present chans,
    let count := int32 (Z.of_nat (onlineCount retroID w')) in
    RealtimeService.JoinRetrospective ctx req w
      = (Ok (pb.JoinRetrospectiveResponse.mk
               (convertPresenceInfo present) (convertVstoreParticipantToPb p)), w') ∧
    length present = onlineCount retroID w' ∧
    participants w' = <[InMemoryParticipantStore.key retroID userID := p]> (participants w) ∧
    subscribers w' = subscribers w ∧
    channels w' = chans ∧
    (∀ ch, ch ∈ subscribersOf retroID w →
           chans !! ch = offered (joinedEvent ctx req retro w count) <$> channels w !! ch) ∧
    (∀ ch, ch ∉ subscribersOf retroID w → chans !! ch = channels w !! ch) ∧
    Retrospective.ParticipantCount <$> retros w' !! retroID = Some count.
Proof.
  intros retroID userID p Hr Hretro Hwf.
  unfold RealtimeService.JoinRetrospective.
  rewrite bool_decide_eq_false_2 by done.
  unfold mbind, M_bind, onErr, ignoreErr, InMemoryRetrospectiveStore.Get,
    InMemoryParticipantStore.Join, InMemoryParticipantStore.ListByRetrospective,
    InMemoryRetrospectiveStore.assign, InMemoryRetrospectiveStore.Update,
    mbind, M_bind, rangeMap, time_Now, modify.
  fold retroID userID. rewrite Hretro.
  cbn -[EventBroadcaster.Broadcast].
  match goal with
  | |- context [EventBroadcaster.Broadcast retroID ?ev ?w2] =>
      destruct (Broadcast_spec retroID ev w2) as (chans & Hrun & _ & Hin & Hout);
        [by apply (hub_wf_same_hub w) | rewrite Hrun]
  end.
  cbn. eexists _, _, chans.
  split; [reflexivity|]. unfold onlineCount. cbn.
  rewrite !range_filter_length.
  split; [reflexivity|]. split; [reflexivity|]. split; [reflexivity|].
  split; [reflexivity|]. split; [|split].
  - intros ch Hch. rewrite (Hin ch Hch). cbn.
    unfold joinedEvent. by rewrite range_filter_length.
  - intros ch Hch. by rewrite (Hout ch Hch).
  - match goal with
    | |- _ <$> <[?k := Retrospective.withUpdated ?u ?r]> (<[_ := _]> ?m) !! _ = _ =>
        destruct (lookup_assign_update retroID k r m u) as (r' & -> & _ & _ & Hpc)
    end.
    cbn. rewrite Hpc. cbn. by rewrite ?range_filter_length.
Qed.

End Presence.

(** C7 as stated fails: a Join of a participant who is already present
    replaces the stored joinedAt (here 5) by the time of the new Join. *)
Lemma C7_join_overwrites_joinedAt :
  let j := RealtimeService.JoinRetrospective (H := simRuntime 1000) context.Background
             (pb.JoinRetrospectiveRequest.mk "R" "" "") presentWorld in
  (∃ resp, j.1 = Ok resp) ∧
  Participant.JoinedAt <$> participantAt "R" "mock-user-id" presentWorld
    = Some (time.At 5) ∧
  Participant.JoinedAt <$> participantAt "R" "mock-user-id" j.2
    = Some (time.At 1000) ∧
  Participant.JoinedAt <$> participantAt "R" "mock-user-id" j.2
    ≠ Participant.JoinedAt <$> participantAt "R" "mock-user-id" presentWorld.
Proof.
  intros j. split; [eexists; reflexivity|].
  split; [reflexivity|]. split; [reflexivity|]. discriminate.
Qed.

(** C7 (amended): JoinRetrospective stores under (retroId, userId) a
    presence record with isOnline = true whose joinedAt and lastActive are
    the current time, whether or not a record was stored there before (the
    other records are kept); the role of the record is FACILITATOR exactly
    when the user is the facilitator of the retrospective, and MEMBER
    otherwise; the participant count in the response, in the stored
    retrospective and in the ParticipantJoined event offered to every
    subscriber of the retrospective is the number of participants of the
    retrospective that are online after the Join. *)
Theorem C7_join_presence `{!GoRuntime} (ctx : context.Context)
    (req : pb.JoinRetrospectiveRequest.t) (retro : Retrospective.t) (w : World) :
  let retroID := pb.JoinRetrospectiveRequest.RetrospectiveId req in
  let userID := getUserIDFromContext ctx in
  let j := RealtimeService.JoinRetrospective ctx req w in
  retroID ≠ "" →
  retros w !! retroID = Some retro →
  hub_wf w →
  (Z.of_nat (size (participants w)) < MaxInt32)%Z →
  ∃ resp p,
    j.1 = Ok resp ∧
    participantAt retroID userID j.2 = Some p ∧
    (∀ k, k ≠ InMemoryParticipantStore.key retroID userID →
          participants j.2 !! k = participants w !! k) ∧
    Participant.RetrospectiveID p = retroID ∧
    Participant.UserID p = userID ∧
    Participant.IsOnline p = true ∧
    Participant.JoinedAt p = time.At (wallClock (clockReads w)) ∧
    Participant.LastActive p = time.At (wallClock (S (clockReads w))) ∧
    (Participant.Role p = ParticipantRoleFacilitator ↔
     Retrospective.FacilitatorID retro = userID) ∧
    (Participant.Role p = ParticipantRoleMember ↔
     Retrospective.FacilitatorID retro ≠ userID) ∧
    pb.JoinRetrospectiveResponse.CurrentParticipant resp = convertVstoreParticipantToPb p ∧
    pb.PresenceInfo.ParticipantCount (pb.JoinRetrospectiveResponse.Presence resp)
      = Z.of_nat (onlineCount retroID j.2) ∧
    length (pb.PresenceInfo.Participants (pb.JoinRetrospectiveResponse.Presence resp))
      = onlineCount retroID j.2 ∧
    Retrospective.ParticipantCount <$> retros j.2 !! retroID
      = Some (Z.of_nat (onlineCount retroID j.2)) ∧
    (∀ ch c, ch ∈ subscribersOf retroID w → channels w !! ch = Some c →
             channels j.2 !! ch
             = Some (offered
                       (pb.RetrospectiveEvent.mk retroID
                          (time.At (wallClock (S (S (clockReads w)))))
                          (pb.ParticipantJoined (convertVstoreParticipantToPb p)
                             (Z.of_nat (onlineCount retroID j.2)))) c)) ∧
    (∀ ch, ch ∉ subscribersOf retroID w → channels j.2 !! ch = channels w !! ch).
Proof.
  intros retroID userID j Hr Hretro Hwf Hsize.
  destruct (JoinRetrospective_run ctx req retro w Hr Hretro Hwf)
    as (w' & present & chans & Hrun & Hlen & Hparts & Hsubs & Hchans & Hin & Hout & Hpc).
  fold retroID userID in Hrun, Hlen, Hparts, Hin, Hout, Hpc.
  subst j. rewrite Hrun. simpl.
  assert (Hbound : int32 (Z.of_nat (onlineCount retroID w'))
                   = Z.of_nat (onlineCount retroID w')).
  { apply int32_id.
    pose proof (onlineCount_le_size retroID w') as Hle.
    rewrite Hparts, map_size_insert in Hle. unfold MaxInt32 in Hsize.
    destruct (participants w !! _); simpl in Hle; lia. }
  rewrite Hbound in Hin, Hpc.
  eexists. exists (joinedParticipant ctx req retro w).
  split; [reflexivity|]. split.
  { unfold participantAt. by rewrite Hparts, lookup_insert_eq. }
  split.
  { intros k Hk. by rewrite Hparts, lookup_insert_ne. }
  split; [done|]. split; [done|]. split; [done|]. split; [done|]. split; [done|].
  split.
  { simpl. fold userID. case_bool_decide; split; done. }
  split.
  { simpl. fold userID. case_bool_decide; split; done. }
  split; [done|]. split.
  { unfold convertPresenceInfo. simpl. by rewrite Hlen. }
  split.
  { unfold convertPresenceInfo. simpl. by rewrite length_fmap. }
  split; [done|]. split.
  - intros ch c Hch Hc. rewrite Hchans, (Hin ch Hch), Hc. done.
  - intros ch Hch. by rewrite Hchans, (Hout ch Hch).
Qed.

Lemma C7_join_presence_witness :
  let j := RealtimeService.JoinRetrospective (H := simRuntime 1000) context.Background
             (pb.JoinRetrospectiveRequest.mk "R" "" "") presentWorld in
  ∃ resp p,
    j.1 = Ok resp ∧
    participantAt "R" "mock-user-id" j.2 = Some p ∧
    Participant.IsOnline p = true ∧
    Participant.JoinedAt p = time.At 1000 ∧
    pb.PresenceInfo.ParticipantCount (pb.JoinRetrospectiveResponse.Presence resp)
      = Z.of_nat (onlineCount "R" j.2).
Proof.
  intros j.
  destruct (C7_join_presence (H := simRuntime 1000) context.Background
              (pb.JoinRetrospectiveRequest.mk "R" "" "")
              (sampleRetro RetrospectiveStatusActive time.Zero) presentWorld)
    as (resp & p & Hok & Hp & _ & _ & _ & Honline & Hjoined & _ & _ & _ & _ & Hcount & _).
  - discriminate.
  - reflexivity.
  - apply (bool_decide_unpack (hub_wf presentWorld)). vm_compute. exact I.
  - vm_compute. reflexivity.
  - exists resp, p. repeat split; assumption.
Defined.

(** ** Operations that leave the retrospectives alone *)

Section FrameRetros.
Context {RT : GoRuntime}.

Lemma ItemStore_Get_retros id : preserves (same retros) (InMemoryItemStore.Get id).
Proof. unfold InMemoryItemStore.Get. preserves_cases. Qed.

Lemma ItemStore_ListByRetrospective_retros r c s :
  preserves (same retros) (InMemoryItemStore.ListByRetrospective r c s).
Proof. unfold InMemoryItemStore.ListByRetrospective. repeat preserves_step. Qed.

Lemma ItemStore_IncrementVoteCount_retros id :
  preserves (same retros) (InMemoryItemStore.IncrementVoteCount id).
Proof. unfold InMemoryItemStore.IncrementVoteCount. preserves_cases. Qed.

Lemma ItemStore_DecrementVoteCount_retros id :
  preserves (same retros) (InMemoryItemStore.DecrementVoteCount id).
Proof. unfold InMemoryItemStore.DecrementVoteCount. preserves_cases. Qed.

Lemma VoteStore_Create_retros v : preserves (same retros) (InMemoryVoteStore.Create v).
Proof. unfold InMemoryVoteStore.Create. repeat preserves_step. Qed.

Lemma VoteStore_Delete_retros id : preserves (same retros) (InMemoryVoteStore.Delete id).
Proof. unfold InMemoryVoteStore.Delete. repeat preserves_step. Qed.

Lemma VoteStore_GetByUserAndItem_retros r i u :
  preserves (same retros) (InMemoryVoteStore.GetByUserAndItem r i u).
Proof. unfold InMemoryVoteStore.GetByUserAndItem. repeat preserves_step. Qed.

Lemma VoteStore_CountByUser_retros r u :
  preserves (same retros) (InMemoryVoteStore.CountByUser r u).
Proof. unfold InMemoryVoteStore.CountByUser. repeat preserves_step. Qed.

Lemma VoteStore_ListByUser_retros r u :
  preserves (same retros) (InMemoryVoteStore.ListByUser r u).
Proof. unfold InMemoryVoteStore.ListByUser. repeat preserves_step. Qed.

Lemma RetroStore_Get_retros id :
  preserves (same retros) (InMemoryRetrospectiveStore.Get id).
Proof. unfold InMemoryRetrospectiveStore.Get. preserves_cases. Qed.

Lemma ParticipantStore_Join_retros p :
  preserves (same retros) (InMemoryParticipantStore.Join p).
Proof. unfold InMemoryParticipantStore.Join. repeat preserves_step. Qed.

Lemma ParticipantStore_Leave_retros r u :
  preserves (same retros) (InMemoryParticipantStore.Leave r u).
Proof. unfold InMemoryParticipantStore.Leave. preserves_cases. Qed.

Lemma ParticipantStore_Heartbeat_retros r u :
  preserves (same retros) (InMemoryParticipantStore.Heartbeat r u).
Proof. unfold InMemoryParticipantStore.Heartbeat. preserves_cases. Qed.

Lemma ParticipantStore_ListByRetrospective_retros r :
  preserves (same retros) (InMemoryParticipantStore.ListByRetrospective r).
Proof. unfold InMemoryParticipantStore.ListByRetrospective. repeat preserves_step. Qed.

Lemma trySend_retros ch event :
  preserves (same retros) (EventBroadcaster.trySend ch event).
Proof. unfold EventBroadcaster.trySend. preserves_cases. Qed.

Lemma sendAll_retros subs event :
  preserves (same retros) (EventBroadcaster.sendAll subs event).
Proof.
  induction subs as [|ch subs IH]; simpl.
  - apply preserves_ret. apply _.
  - apply preserves_bind; [apply _ | apply trySend_retros | intros _; apply IH].
Qed.

Lemma Broadcast_retros retroID event :
  preserves (same retros) (EventBroadcaster.Broadcast retroID event).
Proof. intros w. unfold EventBroadcaster.Broadcast. apply sendAll_retros. Qed.

End FrameRetros.

Create HintDb frame_retros.
#[global] Hint Resolve ItemStore_Get_retros ItemStore_ListByRetrospective_retros
  ItemStore_IncrementVoteCount_retros ItemStore_DecrementVoteCount_retros
  VoteStore_Create_retros VoteStore_Delete_retros VoteStore_GetByUserAndItem_retros
  VoteStore_CountByUser_retros VoteStore_ListByUser_retros RetroStore_Get_retros
  ParticipantStore_Join_retros ParticipantStore_Leave_retros
  ParticipantStore_Heartbeat_retros ParticipantStore_ListByRetrospective_retros
  Broadcast_retros : frame_retros.

Section FrameServicesRetros.
Context {RT : GoRuntime}.

Lemma CastVote_retros ctx req : preserves (same retros) (VotingService.CastVote ctx req).
Proof.
  unfold VotingService.CastVote.
  repeat (preserves_step || solve [eauto with frame_retros]).
Qed.

Lemma RemoveVote_retros ctx req :
  preserves (same retros) (VotingService.RemoveVote ctx req).
Proof.
  unfold VotingService.RemoveVote.
  repeat (preserves_step || solve [eauto with frame_retros]).
Qed.

Lemma GetVoteSummary_retros ctx req :
  preserves (same retros) (VotingService.GetVoteSummary ctx req).
Proof.
  unfold VotingService.GetVoteSummary.
  repeat (preserves_step || solve [eauto with frame_retros]).
Qed.

Lemma GetUserVotes_retros ctx req :
  preserves (same retros) (VotingService.GetUserVotes ctx req).
Proof.
  unfold VotingService.GetUserVotes.
  repeat (preserves_step || solve [eauto with frame_retros]).
Qed.

Lemma Heartbeat_retros ctx req :
  preserves (same retros) (RealtimeService.Heartbeat ctx req).
Proof.
  unfold RealtimeService.Heartbeat.
  repeat (preserves_step || solve [eauto with frame_retros]).
Qed.

End FrameServicesRetros.

(** * Further properties of the services *)

(** ** The item service *)

Section ItemService.
Context {RT : GoRuntime}.

Lemma itemsInColumn_length retroID columnID n w :
  length (filter (λ item, RetrospectiveItem.RetrospectiveID item = retroID ∧
                          (columnID = "" ∨ RetrospectiveItem.ColumnID item = columnID))
                 (rangeOrder n (items w)).*2)
  = length (itemsInColumn retroID columnID w).
Proof. unfold itemsInColumn. apply range_filter_length. Qed.

Lemma item_Create_run ctx req retro w :
  pb.CreateItemRequest.RetrospectiveId req ≠ "" →
  pb.CreateItemRequest.ColumnId req ≠ "" →
  pb.CreateItemRequest.Content req ≠ "" →
  retros w !! pb.CreateItemRequest.RetrospectiveId req = Some retro →
  columnValid (Retrospective.TemplateColumns retro) (pb.CreateItemRequest.ColumnId req) = true →
  let item := createdItem ctx req w in
  let retro' := Retrospective.withItemCount (int32 (Retrospective.ItemCount retro + 1)) retro in
  RetrospectiveItemService.Create ctx req w =
    (Ok (pb.CreateItemResponse.mk (convertVstoreItemToPb item)),
     mkWorld
       (<[Retrospective.RetrospectiveID retro :=
            Retrospective.withUpdated (time.At (wallClock (S (S (S (clockReads w)))))) retro']>
          (<[pb.CreateItemRequest.RetrospectiveId req := retro']> (retros w)))
       (<[RetrospectiveItem.ItemID item := item]> (items w))
       (votes w) (participants w) (subscribers w) (channels w)
       (S (S (S (S (clockReads w))))) (S (mapRanges w))).
Proof.
  intros Hr Hc Hn Hget Hcol. cbv zeta.
  unfold RetrospectiveItemService.Create.
  rewrite !bool_decide_eq_false_2 by done.
  unfold mbind, M_bind, onErr, ignoreErr, InMemoryRetrospectiveStore.Get.
  rewrite Hget, Hcol. simpl.
  rewrite lookup_insert_eq. simpl.
  rewrite itemsInColumn_length. reflexivity.
Qed.

Lemma item_Delete_run ctx req item w :
  pb.DeleteItemRequest.ItemId req ≠ "" →
  items w !! pb.DeleteItemRequest.ItemId req = Some item →
  (pb.DeleteItemRequest.RetrospectiveId req = "" ∨
   RetrospectiveItem.RetrospectiveID item = pb.DeleteItemRequest.RetrospectiveId req) →
  RetrospectiveItemService.Delete ctx req w =
    (Ok (),
     match retros w !! RetrospectiveItem.RetrospectiveID item with
     | Some retro =>
         let retro' := Retrospective.withItemCount
                         (int32 (Retrospective.ItemCount retro - 1)) retro in
         mkWorld
           (<[Retrospective.RetrospectiveID retro :=
                Retrospective.withUpdated (time.At (wallClock (clockReads w))) retro']>
              (<[RetrospectiveItem.RetrospectiveID item := retro']> (retros w)))
           (delete (pb.DeleteItemRequest.ItemId req) (items w))
           (votes w) (participants w) (subscribers w) (channels w)
           (S (clockReads w)) (mapRanges w)
     | None =>
         mkWorld (retros w) (delete (pb.DeleteItemRequest.ItemId req) (items w))
           (votes w) (participants w) (subscribers w) (channels w)
           (clockReads w) (mapRanges w)
     end).
Proof.
  intros Hid Hget Hbelongs.
  unfold RetrospectiveItemService.Delete.
  rewrite bool_decide_eq_false_2 by done.
  unfold mbind, M_bind, onErr, ignoreErr, InMemoryItemStore.Get.
  rewrite Hget. simpl.
  rewrite bool_decide_eq_false_2 by (intros [? ?]; destruct Hbelongs; done).
  unfold InMemoryRetrospectiveStore.Get. simpl.
  destruct (retros w !! RetrospectiveItem.RetrospectiveID item) as [retro|]; reflexivity.
Qed.

Lemma item_MoveToColumn_run ctx req item retro w :
  pb.MoveItemToColumnRequest.ItemId req ≠ "" →
  pb.MoveItemToColumnRequest.TargetColumnId req ≠ "" →
  items w !! pb.MoveItemToColumnRequest.ItemId req = Some item →
  (pb.MoveItemToColumnRequest.RetrospectiveId req = "" ∨
   RetrospectiveItem.RetrospectiveID item = pb.MoveItemToColumnRequest.RetrospectiveId req) →
  retros w !! RetrospectiveItem.RetrospectiveID item = Some retro →
  columnValid (Retrospective.TemplateColumns retro)
              (pb.MoveItemToColumnRequest.TargetColumnId req) = true →
  let item' := RetrospectiveItem.withPosition (pb.MoveItemToColumnRequest.Position req)
                 (RetrospectiveItem.withColumnID
                    (pb.MoveItemToColumnRequest.TargetColumnId req) item) in
  RetrospectiveItemService.MoveToColumn ctx req w =
    (Ok (),
     mkWorld (retros w)
       (<[RetrospectiveItem.ItemID item :=
            RetrospectiveItem.withUpdated (time.At (wallClock (clockReads w))) item']>
          (<[pb.MoveItemToColumnRequest.ItemId req := item']> (items w)))
       (votes w) (participants w) (subscribers w) (channels w)
       (S (clockReads w)) (mapRanges w)).
Proof.
  intros Hid Hcol Hget Hbelongs Hretro Hvalid. cbv zeta.
  unfold RetrospectiveItemService.MoveToColumn.
  rewrite !bool_decide_eq_false_2 by done.
  unfold mbind, M_bind, onErr, InMemoryItemStore.Get.
  rewrite Hget. simpl.
  rewrite bool_decide_eq_false_2 by (intros [? ?]; destruct Hbelongs; done).
  unfold InMemoryRetrospectiveStore.Get. rewrite Hretro. simpl.
  rewrite Hvalid. reflexivity.
Qed.

Lemma item_Update_run ctx item existing w :
  pb.RetrospectiveItem.ItemId item ≠ "" →
  items w !! pb.RetrospectiveItem.ItemId item = Some existing →
  let existing' :=
    if decide (pb.RetrospectiveItem.Content item = "") then existing
    else RetrospectiveItem.withContent (pb.RetrospectiveItem.Content item) existing in
  RetrospectiveItemService.Update ctx (pb.UpdateItemRequest.mk (Some item)) w =
    (Ok (),
     mkWorld (retros w)
       (<[RetrospectiveItem.ItemID existing :=
            RetrospectiveItem.withUpdated (time.At (wallClock (clockReads w))) existing']>
          (<[pb.RetrospectiveItem.ItemId item := existing']> (items w)))
       (votes w) (participants w) (subscribers w) (channels w)
       (S (clockReads w)) (mapRanges w)).
Proof.
  intros Hid Hget. cbv zeta.
  unfold RetrospectiveItemService.Update. simpl.
  rewrite bool_decide_eq_false_2 by done.
  unfold mbind, M_bind, onErr, InMemoryItemStore.Get.
  rewrite Hget. simpl.
  case_bool_decide; destruct (decide _); try done; reflexivity.
Qed.

End ItemService.

(** X1 (RetrospectiveItemService.Create): a request that names a stored
    retrospective, one of its columns and a content is accepted; the new
    card gets the id ITEM-<now>, no votes, the number of cards already in
    that column as its position, and the caller as its author (the name
    ["Anonymous"] exactly for an anonymous card, the author id in every
    case); it is stored under its id, every other card is untouched, the
    item count of the retrospective grows by one and no vote is touched. *)
Theorem item_Create_puts_card `{!GoRuntime} (ctx : context.Context)
    (req : pb.CreateItemRequest.t) (retro : Retrospective.t) (w : World) :
  let retroID := pb.CreateItemRequest.RetrospectiveId req in
  let columnID := pb.CreateItemRequest.ColumnId req in
  let r := RetrospectiveItemService.Create ctx req w in
  retroID ≠ "" →
  columnID ≠ "" →
  pb.CreateItemRequest.Content req ≠ "" →
  retros w !! retroID = Some retro →
  columnValid (Retrospective.TemplateColumns retro) columnID = true →
  ∃ card stored,
    r.1 = Ok (pb.CreateItemResponse.mk card) ∧
    card = convertVstoreItemToPb stored ∧
    pb.RetrospectiveItem.ItemId card = "ITEM-" +:+ pretty (wallClock (clockReads w)) ∧
    pb.RetrospectiveItem.RetrospectiveId card = retroID ∧
    pb.RetrospectiveItem.ColumnId card = columnID ∧
    pb.RetrospectiveItem.Content card = pb.CreateItemRequest.Content req ∧
    pb.RetrospectiveItem.VoteCount card = 0%Z ∧
    pb.RetrospectiveItem.Position card
      = int32 (Z.of_nat (length (itemsInColumn retroID columnID w))) ∧
    pb.RetrospectiveItem.CreatedBy card = getUserIDFromContext ctx ∧
    (pb.RetrospectiveItem.CreatedByName card = "Anonymous"
     ↔ pb.CreateItemRequest.IsAnonymous req = true) ∧
    items r.2 !! pb.RetrospectiveItem.ItemId card = Some stored ∧
    (∀ k, k ≠ pb.RetrospectiveItem.ItemId card → items r.2 !! k = items w !! k) ∧
    Retrospective.ItemCount <$> retros r.2 !! retroID
      = Some (int32 (Retrospective.ItemCount retro + 1)) ∧
    votes r.2 = votes w.
Proof.
  intros retroID columnID r Hr Hc Hn Hget Hcol.
  subst r. rewrite (item_Create_run ctx req retro w Hr Hc Hn Hget Hcol). simpl.
  exists (convertVstoreItemToPb (createdItem ctx req w)), (createdItem ctx req w).
  repeat split; try reflexivity.
  - simpl. destruct (pb.CreateItemRequest.IsAnonymous req); [done|].
    unfold getUserNameFromContext. discriminate.
  - simpl. destruct (pb.CreateItemRequest.IsAnonymous req); done.
  - apply lookup_insert_eq.
  - intros k Hk. simpl in Hk. by rewrite lookup_insert_ne.
  - destruct (lookup_assign_update retroID
                (Retrospective.RetrospectiveID retro)
                (Retrospective.withItemCount (int32 (Retrospective.ItemCount retro + 1)) retro)
                (retros w) (time.At (wallClock (S (S (S (clockReads w)))))))
      as (r' & Hr' & _).
    destruct (decide (Retrospective.RetrospectiveID retro = retroID)) as [Heq|Hne].
    + rewrite Heq. rewrite lookup_insert_eq. reflexivity.
    + rewrite lookup_insert_ne by done. rewrite lookup_insert_eq. reflexivity.
Qed.

Lemma item_Create_puts_card_witness :
  let r := RetrospectiveItemService.Create (H := simRuntime 1000) context.Background
             (pb.CreateItemRequest.mk "RETRO-1000" "to_improve" "slow builds" true)
             boardWorld in
  ∃ card,
    r.1 = Ok (pb.CreateItemResponse.mk card) ∧
    pb.RetrospectiveItem.ItemId card = "ITEM-1003" ∧
    pb.RetrospectiveItem.CreatedByName card = "Anonymous" ∧
    pb.RetrospectiveItem.CreatedBy card = "mock-user-id" ∧
    Retrospective.ItemCount <$> retros r.2 !! "RETRO-1000" = Some 1%Z.
Proof.
  intros r.
  destruct (item_Create_puts_card (H := simRuntime 1000) context.Background
              (pb.CreateItemRequest.mk "RETRO-1000" "to_improve" "slow builds" true)
              (createdRetro (H := simRuntime 1000) context.Background sampleCreate newWorld)
              boardWorld)
    as (card & stored & Hok & _ & Hid & _ & _ & _ & _ & _ & Hby & Hname & _ & _ & Hcount & _);
    [done..|].
  exists card. split; [exact Hok|]. split; [exact Hid|].
  split; [by apply Hname|]. split; [exact Hby | exact Hcount].
Defined.

(** X2 (RetrospectiveItemService.Delete): deleting a stored card (under
    its own or no retrospective id) succeeds, removes that card and no
    other, and lowers the item count of its retrospective by one, with no
    floor at zero; the votes cast on the card stay in the vote store, so
    every user's number of used votes is what it was before. *)
Theorem item_Delete_keeps_votes `{!GoRuntime} (ctx : context.Context)
    (req : pb.DeleteItemRequest.t) (item : RetrospectiveItem.t) (w : World) :
  let itemID := pb.DeleteItemRequest.ItemId req in
  let retroID := RetrospectiveItem.RetrospectiveID item in
  let r := RetrospectiveItemService.Delete ctx req w in
  itemID ≠ "" →
  items w !! itemID = Some item →
  (pb.DeleteItemRequest.RetrospectiveId req = "" ∨
   pb.DeleteItemRequest.RetrospectiveId req = retroID) →
  r.1 = Ok () ∧
  items r.2 = delete itemID (items w) ∧
  (∀ retro, retros w !! retroID = Some retro →
     Retrospective.ItemCount <$> retros r.2 !! retroID
     = Some (int32 (Retrospective.ItemCount retro - 1))) ∧
  (retros w !! retroID = None → retros r.2 = retros w) ∧
  votes r.2 = votes w ∧
  (∀ retroID' userID, votesOfUser retroID' userID r.2 = votesOfUser retroID' userID w).
Proof.
  intros itemID retroID r Hid Hget Hbelongs. subst r.
  rewrite (item_Delete_run ctx req item w Hid Hget) by (destruct Hbelongs; auto).
  fold retroID. destruct (retros w !! retroID) as [retro|] eqn:Hretro; simpl.
  - repeat split; try done.
    intros retro0 [= <-].
    destruct (decide (Retrospective.RetrospectiveID retro = retroID)) as [Heq|Hne].
    + rewrite Heq. rewrite lookup_insert_eq. reflexivity.
    + rewrite lookup_insert_ne by done. rewrite lookup_insert_eq. reflexivity.
  - repeat split; done.
Qed.

Lemma item_Delete_keeps_votes_witness :
  let r := RetrospectiveItemService.Delete (H := simRuntime 1000) context.Background
             (pb.DeleteItemRequest.mk "A" "R") votedOnceWorld in
  r.1 = Ok () ∧
  items r.2 !! "A" = None ∧
  votesOfUser "R" "mock-user-id" r.2 = 1 ∧
  Retrospective.ItemCount <$> retros r.2 !! "R" = Some (-1)%Z.
Proof.
  intros r.
  destruct (item_Delete_keeps_votes (H := simRuntime 1000) context.Background
              (pb.DeleteItemRequest.mk "A" "R")
              (RetrospectiveItem.withUpdated (time.At 1002)
                 (RetrospectiveItem.withVoteCount 1 (sampleItem "A" 0)))
              votedOnceWorld)
    as (Hok & Hitems & Hcount & _ & _ & Hvotes); [done | reflexivity | by right |].
  split; [exact Hok|]. split; [|split].
  - fold r in Hitems. rewrite Hitems. apply lookup_delete_eq.
  - fold r in Hvotes. rewrite Hvotes. reflexivity.
  - apply (Hcount (sampleRetro RetrospectiveStatusVoting time.Zero)). reflexivity.
Defined.

(** X3 (RetrospectiveItemService.Create, Delete): a card that is created
    under an id not yet in use and then deleted leaves the board as it was
    and the item count of the retrospective at its old value (for a count
    in the int32 range below its maximum). *)
Theorem item_Create_Delete_round_trip `{!GoRuntime} (ctx : context.Context)
    (req : pb.CreateItemRequest.t) (retro : Retrospective.t) (w : World) :
  let retroID := pb.CreateItemRequest.RetrospectiveId req in
  let itemID := "ITEM-" +:+ pretty (wallClock (clockReads w)) in
  let c := RetrospectiveItemService.Create ctx req w in
  let d := RetrospectiveItemService.Delete ctx (pb.DeleteItemRequest.mk itemID retroID) c.2 in
  retroID ≠ "" →
  pb.CreateItemRequest.ColumnId req ≠ "" →
  pb.CreateItemRequest.Content req ≠ "" →
  retros w !! retroID = Some retro →
  columnValid (Retrospective.TemplateColumns retro) (pb.CreateItemRequest.ColumnId req)
    = true →
  items w !! itemID = None →
  (-2147483648 ≤ Retrospective.ItemCount retro < MaxInt32)%Z →
  (∃ resp, c.1 = Ok resp) ∧
  d.1 = Ok () ∧
  items d.2 = items w ∧
  Retrospective.ItemCount <$> retros d.2 !! retroID = Some (Retrospective.ItemCount retro) ∧
  votes d.2 = votes w.
Proof.
  intros retroID itemID c d Hr Hc Hn Hget Hcol Hfresh Hrange.
  subst d c. rewrite (item_Create_run ctx req retro w Hr Hc Hn Hget Hcol). simpl.
  split; [eexists; reflexivity|].
  set (w1 := mkWorld _ _ _ _ _ _ _ _).
  assert (items w1 !! itemID = Some (createdItem ctx req w)) as Hitem
    by apply lookup_insert_eq.
  destruct (item_Delete_keeps_votes ctx (pb.DeleteItemRequest.mk itemID retroID)
              (createdItem ctx req w) w1)
    as (Hok & Hitems & Hcount & _ & Hvotes & _); [done | exact Hitem | by right |].
  simpl in Hok, Hitems, Hcount, Hvotes.
  split; [exact Hok|]. split; [|split].
  - rewrite Hitems. subst w1. simpl. fold itemID.
    rewrite delete_insert_eq. by apply delete_id.
  - assert (∃ retro1, retros w1 !! retroID = Some retro1 ∧
              Retrospective.ItemCount retro1 = int32 (Retrospective.ItemCount retro + 1))
      as (retro1 & Hget1 & Hcount1).
    { subst w1. simpl.
      destruct (decide (Retrospective.RetrospectiveID retro = retroID)) as [Heq|Hne].
      - rewrite Heq, lookup_insert_eq. eexists. split; [reflexivity|]. reflexivity.
      - rewrite lookup_insert_ne by done. rewrite lookup_insert_eq.
        eexists. split; [reflexivity|]. reflexivity. }
    etrans; [exact (Hcount retro1 Hget1)|]. rewrite Hcount1. f_equal.
    unfold MaxInt32 in Hrange.
    rewrite (int32_id (Retrospective.ItemCount retro + 1)) by lia.
    rewrite int32_id by lia. lia.
  - exact Hvotes.
Qed.

Lemma item_Create_Delete_round_trip_witness :
  let c := RetrospectiveItemService.Create (H := simRuntime 1000) context.Background
             (pb.CreateItemRequest.mk "RETRO-1000" "went_well" "pairing" false) boardWorld in
  let d := RetrospectiveItemService.Delete (H := simRuntime 1000) context.Background
             (pb.DeleteItemRequest.mk "ITEM-1003" "RETRO-1000") c.2 in
  items c.2 ≠ items boardWorld ∧
  items d.2 = items boardWorld ∧
  Retrospective.ItemCount <$> retros d.2 !! "RETRO-1000" = Some 0%Z.
Proof.
  intros c d.
  destruct (item_Create_Delete_round_trip (H := simRuntime 1000) context.Background
              (pb.CreateItemRequest.mk "RETRO-1000" "went_well" "pairing" false)
              (createdRetro (H := simRuntime 1000) context.Background sampleCreate newWorld)
              boardWorld)
    as (_ & _ & Hitems & Hcount & _); [done..|].
  split; [|split; [exact Hitems | exact Hcount]].
  intros Heq. apply (f_equal (λ m, m !! "ITEM-1003")) in Heq. vm_compute in Heq. discriminate.
Defined.

Lemma cardCore_edit (m : gmap string RetrospectiveItem.t) (id : string)
    (item item' : RetrospectiveItem.t) (u : time.Time) (k : string) :
  map_Forall (λ k item, RetrospectiveItem.ItemID item = k) m →
  m !! id = Some item →
  cardCore item' = cardCore item →
  cardCore <$> (<[RetrospectiveItem.ItemID item := RetrospectiveItem.withUpdated u item']>
                  (<[id := item']> m)) !! k
  = cardCore <$> m !! k.
Proof.
  intros Hwf Hget Hcore.
  rewrite (Hwf id item Hget), insert_insert_eq.
  destruct (decide (k = id)) as [->|Hne].
  - rewrite lookup_insert_eq, Hget. simpl. f_equal. exact Hcore.
  - by rewrite lookup_insert_ne.
Qed.

(** X4 (RetrospectiveItemService.Update, MoveToColumn): whatever the
    request and whether it is accepted or not, editing or moving a card
    leaves the id, the retrospective, the author and the vote count of
    every card as they were, adds and removes no card, and touches neither
    the votes nor the retrospectives. *)
Theorem item_edits_keep_votes `{!GoRuntime} (ctx : context.Context)
    (update : pb.UpdateItemRequest.t) (move : pb.MoveItemToColumnRequest.t) (w : World) :
  items_wf w →
  let u := RetrospectiveItemService.Update ctx update w in
  let m := RetrospectiveItemService.MoveToColumn ctx move w in
  (∀ k, cardCore <$> items u.2 !! k = cardCore <$> items w !! k) ∧
  votes u.2 = votes w ∧ retros u.2 = retros w ∧
  (∀ k, cardCore <$> items m.2 !! k = cardCore <$> items w !! k) ∧
  votes m.2 = votes w ∧ retros m.2 = retros w.
Proof.
  intros Hwf u m. subst u m. split; [|split; [|split; [|split; [|split]]]].
  - intros k. unfold RetrospectiveItemService.Update.
    destruct (pb.UpdateItemRequest.Item update) as [item|]; [|done].
    case_bool_decide; [done|].
    unfold mbind, M_bind, onErr, InMemoryItemStore.Get.
    destruct (items w !! pb.RetrospectiveItem.ItemId item) as [existing|] eqn:Hget; [|done].
    simpl. case_bool_decide; simpl.
    + rewrite <- (cardCore_edit (items w) _ existing
                   (RetrospectiveItem.withContent (pb.RetrospectiveItem.Content item) existing)
                   (time.At (wallClock (clockReads w))) k Hwf Hget eq_refl).
      reflexivity.
    + by rewrite <- (cardCore_edit (items w) _ existing existing
                      (time.At (wallClock (clockReads w))) k Hwf Hget eq_refl).
  - unfold RetrospectiveItemService.Update.
    destruct (pb.UpdateItemRequest.Item update) as [item|]; [|done].
    case_bool_decide; [done|].
    unfold mbind, M_bind, onErr, InMemoryItemStore.Get.
    by destruct (items w !! pb.RetrospectiveItem.ItemId item).
  - unfold RetrospectiveItemService.Update.
    destruct (pb.UpdateItemRequest.Item update) as [item|]; [|done].
    case_bool_decide; [done|].
    unfold mbind, M_bind, onErr, InMemoryItemStore.Get.
    by destruct (items w !! pb.RetrospectiveItem.ItemId item).
  - intros k. unfold RetrospectiveItemService.MoveToColumn.
    case_bool_decide; [done|]. case_bool_decide; [done|].
    unfold mbind, M_bind, onErr, InMemoryItemStore.Get.
    destruct (items w !! pb.MoveItemToColumnRequest.ItemId move) as [item|] eqn:Hget; [|done].
    simpl. case_bool_decide; [done|].
    unfold InMemoryRetrospectiveStore.Get.
    destruct (retros w !! RetrospectiveItem.RetrospectiveID item) as [retro|]; [|done].
    simpl. destruct (columnValid _ _); [|done]. simpl.
    by rewrite <- (cardCore_edit (items w) _ item
                    (RetrospectiveItem.withPosition (pb.MoveItemToColumnRequest.Position move)
                       (RetrospectiveItem.withColumnID
                          (pb.MoveItemToColumnRequest.TargetColumnId move) item))
                    (time.At (wallClock (clockReads w))) k Hwf Hget eq_refl).
  - unfold RetrospectiveItemService.MoveToColumn.
    case_bool_decide; [done|]. case_bool_decide; [done|].
    unfold mbind, M_bind, onErr, InMemoryItemStore.Get.
    destruct (items w !! pb.MoveItemToColumnRequest.ItemId move) as [item|]; [|done].
    simpl. case_bool_decide; [done|].
    unfold InMemoryRetrospectiveStore.Get.
    destruct (retros w !! RetrospectiveItem.RetrospectiveID item) as [retro|]; [|done].
    simpl. by destruct (columnValid _ _).
  - unfold RetrospectiveItemService.MoveToColumn.
    case_bool_decide; [done|]. case_bool_decide; [done|].
    unfold mbind, M_bind, onErr, InMemoryItemStore.Get.
    destruct (items w !! pb.MoveItemToColumnRequest.ItemId move) as [item|]; [|done].
    simpl. case_bool_decide; [done|].
    unfold InMemoryRetrospectiveStore.Get.
    destruct (retros w !! RetrospectiveItem.RetrospectiveID item) as [retro|]; [|done].
    simpl. by destruct (columnValid _ _).
Qed.

Lemma item_edits_keep_votes_witness :
  let u := RetrospectiveItemService.Update (H := simRuntime 1000) context.Background
             (pb.UpdateItemRequest.mk
                (Some (pb.RetrospectiveItem.mk "A" "" "" "reworded" "" "" 99
                         time.Zero time.Zero false 0 false))) votedOnceWorld in
  u.1 = Ok () ∧
  RetrospectiveItem.Content <$> items u.2 !! "A" = Some "reworded" ∧
  cardCore <$> items u.2 !! "A" = Some ("A", "R", "mock-user-id", 1%Z).
Proof.
  intros u. split; [reflexivity|]. split; [reflexivity|].
  destruct (item_edits_keep_votes (H := simRuntime 1000) context.Background
              (pb.UpdateItemRequest.mk
                 (Some (pb.RetrospectiveItem.mk "A" "" "" "reworded" "" "" 99
                          time.Zero time.Zero false 0 false)))
              (pb.MoveItemToColumnRequest.mk "" "" "" 0) votedOnceWorld)
    as (Hcore & _).
  - apply (bool_decide_unpack (items_wf votedOnceWorld)). vm_compute. exact I.
  - fold u in Hcore. rewrite Hcore. reflexivity.
Defined.

(** X5 (RetrospectiveItemService.MoveToColumn): on a board whose cards are
    filed under their ids, a request with a card id and a target column
    moves a stored card exactly when it names no retrospective or the one of
    the card, that retrospective is stored and the target is a column of
    its template; the card then has the target column and the requested
    position (any int32, other cards are not renumbered) and its content
    is kept.  Every other request is refused and changes nothing: with
    InvalidArgument when the card id or the target is empty, when the
    request names another retrospective than the one of the card, or when
    the target is not a column of the template; with NotFound when the card
    or its retrospective is not stored. *)
Theorem item_MoveToColumn_effect `{!GoRuntime} (ctx : context.Context)
    (req : pb.MoveItemToColumnRequest.t) (w : World) :
  let itemID := pb.MoveItemToColumnRequest.ItemId req in
  let target := pb.MoveItemToColumnRequest.TargetColumnId req in
  let retroID := pb.MoveItemToColumnRequest.RetrospectiveId req in
  let r := RetrospectiveItemService.MoveToColumn ctx req w in
  let invalid msg := (Err (errStatus codes.InvalidArgument msg), w) in
  items_wf w →
  (itemID = "" → r = invalid "invalid argument: item_id is required") ∧
  (itemID ≠ "" → target = "" →
   r = invalid "invalid argument: target_column_id is required") ∧
  (itemID ≠ "" → target ≠ "" → items w !! itemID = None →
   r = (Err (errStatus codes.NotFound "not found"), w)) ∧
  (∀ item, itemID ≠ "" → target ≠ "" → items w !! itemID = Some item →
     (retroID ≠ "" → RetrospectiveItem.RetrospectiveID item ≠ retroID →
      r = invalid "invalid argument: item does not belong to this retrospective") ∧
     (retroID = "" ∨ RetrospectiveItem.RetrospectiveID item = retroID →
      (retros w !! RetrospectiveItem.RetrospectiveID item = None →
       r = (Err (errStatus codes.NotFound "not found"), w)) ∧
      (∀ retro, retros w !! RetrospectiveItem.RetrospectiveID item = Some retro →
         (target ∈ TemplateColumn.ColumnID <$> Retrospective.TemplateColumns retro →
          r.1 = Ok () ∧
          ∃ moved, items r.2 !! itemID = Some moved ∧
            RetrospectiveItem.ColumnID moved = target ∧
            RetrospectiveItem.Position moved = pb.MoveItemToColumnRequest.Position req ∧
            RetrospectiveItem.Content moved = RetrospectiveItem.Content item ∧
            (∀ k, k ≠ itemID → items r.2 !! k = items w !! k)) ∧
         (target ∉ TemplateColumn.ColumnID <$> Retrospective.TemplateColumns retro →
          r = invalid "invalid argument: invalid target_column_id")))).
Proof.
  intros itemID target retroID r invalid Hwf. subst r invalid.
  split; [|split; [|split]].
  - intros Hid. unfold RetrospectiveItemService.MoveToColumn. fold itemID.
    by rewrite (bool_decide_eq_true_2 _ Hid).
  - intros Hid Htarget. unfold RetrospectiveItemService.MoveToColumn. fold itemID target.
    by rewrite (bool_decide_eq_false_2 _ Hid), (bool_decide_eq_true_2 _ Htarget).
  - intros Hid Htarget Hnone. unfold RetrospectiveItemService.MoveToColumn.
    fold itemID target.
    rewrite (bool_decide_eq_false_2 _ Hid), (bool_decide_eq_false_2 _ Htarget).
    unfold mbind, M_bind, onErr, InMemoryItemStore.Get. fold itemID. by rewrite Hnone.
  - intros item Hid Htarget Hget.
    assert (∀ B (k : RetrospectiveItem.t → M B),
              (onErr ToGRPCError (InMemoryItemStore.Get itemID) ≫= k) w = k item w)
      as Hitem.
    { intros B k. unfold mbind, M_bind, onErr, InMemoryItemStore.Get. by rewrite Hget. }
    split.
    + intros Hr Hother. unfold RetrospectiveItemService.MoveToColumn.
      fold itemID target retroID.
      rewrite (bool_decide_eq_false_2 _ Hid), (bool_decide_eq_false_2 _ Htarget), Hitem.
      by rewrite bool_decide_eq_true_2.
    + intros Hbelongs.
      assert (¬ (retroID ≠ "" ∧ RetrospectiveItem.RetrospectiveID item ≠ retroID))
        as Hown by (intros [? ?]; destruct Hbelongs; done).
      split.
      * intros Hnone. unfold RetrospectiveItemService.MoveToColumn.
        fold itemID target retroID.
        rewrite (bool_decide_eq_false_2 _ Hid), (bool_decide_eq_false_2 _ Htarget), Hitem.
        rewrite (bool_decide_eq_false_2 _ Hown).
        unfold mbind, M_bind, onErr, InMemoryRetrospectiveStore.Get. by rewrite Hnone.
      * intros retro Hretro.
        assert (columnValid (Retrospective.TemplateColumns retro) target = true
                ↔ target ∈ TemplateColumn.ColumnID <$> Retrospective.TemplateColumns retro)
          as Hvalid.
        { unfold columnValid. rewrite existsb_exists, list_elem_of_fmap.
          split.
          - intros (col & Hin & Hcol). apply bool_decide_eq_true in Hcol.
            exists col. split; [done|]. by apply list_elem_of_In.
          - intros (col & Hcol & Hin). exists col. split; [by apply list_elem_of_In|].
            by apply bool_decide_eq_true. }
        split.
        -- intros Hin. apply Hvalid in Hin.
           rewrite (item_MoveToColumn_run ctx req item retro w Hid Htarget Hget)
             by (try done; destruct Hbelongs; auto).
           simpl. split; [done|].
           rewrite (Hwf itemID item Hget), insert_insert_eq.
           eexists. split; [apply lookup_insert_eq|]. repeat split.
           intros k Hk. by rewrite lookup_insert_ne.
        -- intros Hnotin.
           assert (columnValid (Retrospective.TemplateColumns retro) target = false)
             as Hfalse.
           { apply not_true_is_false. intros E. apply Hnotin, Hvalid, E. }
           unfold RetrospectiveItemService.MoveToColumn. fold itemID target retroID.
           rewrite (bool_decide_eq_false_2 _ Hid), (bool_decide_eq_false_2 _ Htarget), Hitem.
           rewrite (bool_decide_eq_false_2 _ Hown).
           unfold mbind, M_bind, onErr, InMemoryRetrospectiveStore.Get. rewrite Hretro.
           simpl. by rewrite Hfalse.
Qed.

Lemma item_MoveToColumn_effect_witness :
  let moved := RetrospectiveItemService.MoveToColumn (H := simRuntime 1000)
                 context.Background
                 (pb.MoveItemToColumnRequest.mk "A" "" "to_improve" 7) cardsWorld in
  let refused := RetrospectiveItemService.MoveToColumn (H := simRuntime 1000)
                   context.Background
                   (pb.MoveItemToColumnRequest.mk "A" "" "glad" 0) cardsWorld in
  let foreign := RetrospectiveItemService.MoveToColumn (H := simRuntime 1000)
                   context.Background
                   (pb.MoveItemToColumnRequest.mk "A" "S" "to_improve" 0) cardsWorld in
  moved.1 = Ok () ∧
  RetrospectiveItem.ColumnID <$> items moved.2 !! "A" = Some "to_improve" ∧
  refused.2 = cardsWorld ∧
  foreign = (Err (errStatus codes.InvalidArgument
                    "invalid argument: item does not belong to this retrospective"),
             cardsWorld).
Proof.
  intros moved refused foreign.
  assert (items_wf cardsWorld) as Hwf
    by (apply (bool_decide_unpack (items_wf cardsWorld)); vm_compute; exact I).
  destruct (item_MoveToColumn_effect (H := simRuntime 1000) context.Background
              (pb.MoveItemToColumnRequest.mk "A" "" "to_improve" 7) cardsWorld Hwf)
    as (_ & _ & _ & Hmove).
  destruct (Hmove (sampleItem "A" 0) ltac:(discriminate) ltac:(discriminate) eq_refl)
    as [_ Hmove'].
  destruct (Hmove' ltac:(by left)) as [_ Hmove''].
  destruct (Hmove'' boardRetro eq_refl) as [Hmoved _].
  destruct (item_MoveToColumn_effect (H := simRuntime 1000) context.Background
              (pb.MoveItemToColumnRequest.mk "A" "" "glad" 0) cardsWorld Hwf)
    as (_ & _ & _ & Hglad).
  destruct (Hglad (sampleItem "A" 0) ltac:(discriminate) ltac:(discriminate) eq_refl)
    as [_ Hglad'].
  destruct (Hglad' ltac:(by left)) as [_ Hglad''].
  destruct (Hglad'' boardRetro eq_refl) as [_ Hrefuse].
  destruct (item_MoveToColumn_effect (H := simRuntime 1000) context.Background
              (pb.MoveItemToColumnRequest.mk "A" "S" "to_improve" 0) cardsWorld Hwf)
    as (_ & _ & _ & Hforeign).
  destruct (Hforeign (sampleItem "A" 0) ltac:(discriminate) ltac:(discriminate) eq_refl)
    as [Hother _].
  destruct Hmoved as (Hok & moved' & Hlookup & Hcol & _);
    [simpl; rewrite !elem_of_cons; auto|].
  split; [exact Hok|]. split; [|split].
  - etrans; [exact (f_equal (fmap RetrospectiveItem.ColumnID) Hlookup)|].
    cbn [fmap option_fmap option_map]. f_equal. exact Hcol.
  - unfold refused. rewrite Hrefuse; [reflexivity|]. simpl.
    rewrite !elem_of_cons, elem_of_nil. intros [?|[?|[?|[]]]]; discriminate.
  - apply Hother; discriminate.
Defined.

(** ** The bubble sort of [ListByRetrospective] *)

Section BubbleSort.

Lemma bubbleInner_perm k l : InMemoryItemStore.bubbleInner k l ≡ₚ l.
Proof.
  revert l. induction k as [|k IH]; intros l; [by destruct l|].
  destruct l as [|a [|b rest]]; simpl; [done..|].
  case_match.
  - rewrite IH. apply perm_swap.
  - by rewrite IH.
Qed.

(** [k] steps touch the first [k + 1] entries only *)
Lemma bubbleInner_app k l1 l2 :
  length l1 = S k →
  InMemoryItemStore.bubbleInner k (l1 ++ l2) = InMemoryItemStore.bubbleInner k l1 ++ l2.
Proof.
  revert l1. induction k as [|k IH]; intros l1 Hlen.
  - by destruct l1 as [|a [|b rest]], l2.
  - destruct l1 as [|a [|b rest]]; simpl in Hlen; [lia..|].
    simpl. case_match; simpl; f_equal.
    + apply (IH (a :: rest)). simpl. lia.
    + apply (IH (b :: rest)). simpl. lia.
Qed.

(** a full pass moves a card with the fewest votes to the end *)
Lemma bubbleInner_last k l :
  length l = S k →
  ∃ l' m, InMemoryItemStore.bubbleInner k l = l' ++ [m] ∧
          ∀ x, x ∈ l → mostVotedFirst x m.
Proof.
  revert l. induction k as [|k IH]; intros l Hlen.
  - destruct l as [|a [|b rest]]; simpl in Hlen; try lia.
    exists [], a. split; [done|]. intros x Hx. apply list_elem_of_singleton in Hx as ->.
    unfold mostVotedFirst. lia.
  - destruct l as [|a [|b rest]]; simpl in Hlen; [lia..|].
    simpl. case_match eqn:Hlt.
    + destruct (IH (a :: rest)) as (l' & m & Heq & Hmin); [simpl; lia|].
      exists (b :: l'), m. split; [by rewrite Heq|].
      intros x Hx. apply elem_of_cons in Hx as [->|Hx]; [apply Hmin; left|].
      apply elem_of_cons in Hx as [->|Hx]; [|apply Hmin; by right].
      apply Z.ltb_lt in Hlt. specialize (Hmin a (list_elem_of_here _ _)).
      unfold mostVotedFirst in *. lia.
    + destruct (IH (b :: rest)) as (l' & m & Heq & Hmin); [simpl; lia|].
      exists (a :: l'), m. split; [by rewrite Heq|].
      intros x Hx. apply elem_of_cons in Hx as [->|Hx]; [|by apply Hmin].
      apply Z.ltb_ge in Hlt. specialize (Hmin b (list_elem_of_here _ _)).
      unfold mostVotedFirst in *. lia.
Qed.

Lemma bubbleOuter_sorted passes :
  ∀ i front tail,
    length front = S passes →
    length tail = i →
    StronglySorted mostVotedFirst tail →
    (∀ x y, x ∈ front → y ∈ tail → mostVotedFirst x y) →
    InMemoryItemStore.bubbleOuter passes i (front ++ tail) ≡ₚ front ++ tail ∧
    StronglySorted mostVotedFirst (InMemoryItemStore.bubbleOuter passes i (front ++ tail)).
Proof.
  induction passes as [|passes IH]; intros i front tail Hfront Htail Hsorted Hge.
  - simpl. split; [done|].
    destruct front as [|x [|? ?]]; simpl in Hfront; try lia.
    simpl. constructor; [done|].
    apply Forall_forall. intros y Hy. apply Hge; [left | done].
  - simpl. rewrite length_app, Hfront, Htail.
    replace (S (S passes) + i - i - 1) with (S passes) by lia.
    rewrite bubbleInner_app by done.
    destruct (bubbleInner_last (S passes) front Hfront) as (l' & m & Heq & Hmin).
    pose proof (bubbleInner_perm (S passes) front) as Hperm.
    rewrite Heq in Hperm |- *. rewrite <- (assoc_L (++)). simpl.
    assert (length l' = S passes) as Hlen'.
    { apply Permutation_length in Hperm. rewrite length_app, Hfront in Hperm.
      simpl in Hperm. lia. }
    destruct (IH (S i) l' (m :: tail)) as [Hp Hs]; [done | simpl; lia | | |].
    + constructor; [done|]. apply Forall_forall. intros y Hy.
      apply Hge; [|done]. rewrite <- Hperm. apply elem_of_app. right. left.
    + intros x y Hx Hy. apply elem_of_cons in Hy as [->|Hy].
      * apply Hmin. rewrite <- Hperm. apply elem_of_app. by left.
      * apply Hge; [|done]. rewrite <- Hperm. apply elem_of_app. by left.
    + split; [|done]. rewrite Hp, <- Hperm. by rewrite <- (assoc_L (++)).
Qed.

Lemma bubbleSort_sorted l :
  let sorted := InMemoryItemStore.bubbleOuter (length l - 1) 0 l in
  sorted ≡ₚ l ∧ StronglySorted mostVotedFirst sorted.
Proof.
  destruct l as [|x l]; [split; [done | constructor]|].
  cbv zeta. replace (length (x :: l) - 1) with (length l) by (simpl; lia).
  pose proof (bubbleOuter_sorted (length l) 0 (x :: l) []) as H.
  rewrite (right_id_L [] (++)) in H. apply H; [done | done | constructor|].
  intros ? y _ Hy. by apply elem_of_nil in Hy.
Qed.

End BubbleSort.

(** X6 (RetrospectiveItemService.List, InMemoryItemStore.ListByRetrospective):
    for a retrospective id the listing succeeds, returns exactly the cards
    of the retrospective in the requested column (all its cards for no
    column), each once, changes no store, and, when sorting by votes is
    requested, its hand-written bubble sort leaves no card before one with
    more votes. *)
Theorem item_List_sorted `{!GoRuntime} (ctx : context.Context)
    (req : pb.ListItemsRequest.t) (w : World) :
  let retroID := pb.ListItemsRequest.RetrospectiveId req in
  let r := RetrospectiveItemService.List ctx req w in
  retroID ≠ "" →
  ∃ cards,
    r.1 = Ok (pb.ListItemsResponse.mk (convertVstoreItemToPb <$> cards)) ∧
    cards ≡ₚ itemsInColumn retroID (pb.ListItemsRequest.ColumnId req) w ∧
    (pb.ListItemsRequest.SortByVotes req = true → StronglySorted mostVotedFirst cards) ∧
    items r.2 = items w ∧ votes r.2 = votes w ∧ retros r.2 = retros w.
Proof.
  intros retroID r Hid. subst r.
  unfold RetrospectiveItemService.List.
  rewrite bool_decide_eq_false_2 by done.
  unfold InMemoryItemStore.ListByRetrospective, mbind, M_bind, onErr, rangeMap. simpl.
  set (results := filter _ _).
  assert (results ≡ₚ itemsInColumn retroID (pb.ListItemsRequest.ColumnId req) w) as Hperm.
  { subst results. unfold itemsInColumn. by rewrite range_values_perm. }
  destruct (pb.ListItemsRequest.SortByVotes req).
  - destruct (bubbleSort_sorted results) as [Hp Hs].
    eexists. split; [reflexivity|]. split; [by rewrite Hp|]. by split.
  - exists results. split; [reflexivity|]. split; [done|]. by split.
Qed.

Lemma item_List_sorted_witness :
  let r := RetrospectiveItemService.List (H := simRuntime 1000) context.Background
             (pb.ListItemsRequest.mk "R" "" true) rankedWorld in
  ∃ cards,
    r.1 = Ok (pb.ListItemsResponse.mk cards) ∧
    pb.RetrospectiveItem.VoteCount <$> cards = [5; 5; 3; 1]%Z.
Proof.
  intros r.
  destruct (item_List_sorted (H := simRuntime 1000) context.Background
              (pb.ListItemsRequest.mk "R" "" true) rankedWorld) as (cards & Hok & _);
    [discriminate|].
  eexists. split; [reflexivity|]. vm_compute. reflexivity.
Defined.

(** ** The retrospective service *)

Section RetrospectiveServiceRuns.
Context {RT : GoRuntime}.

Lemma retro_Create_run ctx req w :
  pb.CreateRetrospectiveRequest.TeamId req ≠ "" →
  pb.CreateRetrospectiveRequest.SprintName req ≠ "" →
  let retro := createdRetro ctx req w in
  RetrospectiveService.Create ctx req w =
    (Ok (pb.CreateRetrospectiveResponse.mk
           (Retrospective.RetrospectiveID retro) (convertVstoreRetroToPb retro)),
     mkWorld (<[Retrospective.RetrospectiveID retro := retro]> (retros w))
       (items w) (votes w) (participants w) (subscribers w) (channels w)
       (S (S (S (clockReads w)))) (mapRanges w)).
Proof.
  intros Hteam Hsprint. cbv zeta.
  unfold RetrospectiveService.Create.
  rewrite !bool_decide_eq_false_2 by done.
  unfold mbind, M_bind, onErr, createdRetro. simpl.
  case_bool_decide; simpl; rewrite lookup_insert_eq; reflexivity.
Qed.

Lemma getDefaultTemplateColumns_nonempty templateType :
  getDefaultTemplateColumns templateType ≠ [].
Proof. by destruct templateType. Qed.

End RetrospectiveServiceRuns.

(** X7 (RetrospectiveService.Create): a request without a team id or a
    sprint name is refused with InvalidArgument and changes nothing; every
    other request is accepted, and the retrospective it stores under the
    id RETRO-<now> is in the DRAFT phase with all counts 0, was created by
    the caller, has the vote limit of the request if that is positive and
    the limit 5 otherwise (with no voting rules in the request: 5, one vote
    per item, not anonymous), at least one column, and as facilitator the
    one the request names and the creator if it names none; no other
    retrospective, card or vote is touched. *)
Theorem retro_Create_defaults `{!GoRuntime} (ctx : context.Context)
    (req : pb.CreateRetrospectiveRequest.t) (w : World) :
  let r := RetrospectiveService.Create ctx req w in
  let retroID := "RETRO-" +:+ pretty (wallClock (clockReads w)) in
  ((pb.CreateRetrospectiveRequest.TeamId req = "" ∨
    pb.CreateRetrospectiveRequest.SprintName req = "") →
   ∃ msg, r = (Err (errStatus codes.InvalidArgument msg), w)) ∧
  (pb.CreateRetrospectiveRequest.TeamId req ≠ "" →
   pb.CreateRetrospectiveRequest.SprintName req ≠ "" →
   ∃ resp retro,
     r.1 = Ok resp ∧
     pb.CreateRetrospectiveResponse.RetrospectiveId resp = retroID ∧
     retros r.2 !! retroID = Some retro ∧
     Retrospective.RetrospectiveID retro = retroID ∧
     Retrospective.Status retro = RetrospectiveStatusDraft ∧
     Retrospective.ItemCount retro = 0%Z ∧
     Retrospective.ParticipantCount retro = 0%Z ∧
     (0 < VotingConfig.MaxVotesPerUser (Retrospective.VotingConfig retro))%Z ∧
     (∀ config, pb.CreateRetrospectiveRequest.VotingConfig req = Some config →
        (0 < pb.VotingConfig.MaxVotesPerUser config)%Z →
        VotingConfig.MaxVotesPerUser (Retrospective.VotingConfig retro)
        = pb.VotingConfig.MaxVotesPerUser config) ∧
     Retrospective.TemplateColumns retro ≠ [] ∧
     Retrospective.FacilitatorID retro ≠ "" ∧
     (pb.CreateRetrospectiveRequest.FacilitatorId req ≠ "" →
      Retrospective.FacilitatorID retro = pb.CreateRetrospectiveRequest.FacilitatorId req) ∧
     (∀ k, k ≠ retroID → retros r.2 !! k = retros w !! k) ∧
     items r.2 = items w ∧ votes r.2 = votes w ∧
     Retrospective.ActionItemCount retro = 0%Z ∧
     Retrospective.CreatedBy retro = getUserIDFromContext ctx ∧
     (pb.CreateRetrospectiveRequest.FacilitatorId req = "" →
      Retrospective.FacilitatorID retro = getUserIDFromContext ctx) ∧
     (pb.CreateRetrospectiveRequest.VotingConfig req = None →
      Retrospective.VotingConfig retro = VotingConfig.mk 5 false false) ∧
     (∀ config, pb.CreateRetrospectiveRequest.VotingConfig req = Some config →
        VotingConfig.MaxVotesPerUser (Retrospective.VotingConfig retro)
        = (if decide (0 < pb.VotingConfig.MaxVotesPerUser config)%Z
           then pb.VotingConfig.MaxVotesPerUser config else 5%Z) ∧
        VotingConfig.AllowMultipleVotesPerItem (Retrospective.VotingConfig retro)
        = pb.VotingConfig.AllowMultipleVotesPerItem config ∧
        VotingConfig.AnonymousVoting (Retrospective.VotingConfig retro)
        = pb.VotingConfig.AnonymousVoting config)).
Proof.
  intros r retroID. subst r. split.
  - intros Hmissing. unfold RetrospectiveService.Create.
    case_bool_decide; [by eexists|].
    case_bool_decide; [by eexists|]. by destruct Hmissing.
  - intros Hteam Hsprint.
    rewrite (retro_Create_run ctx req w Hteam Hsprint). simpl.
    exists (pb.CreateRetrospectiveResponse.mk retroID
              (convertVstoreRetroToPb (createdRetro ctx req w))), (createdRetro ctx req w).
    split; [done|]. split; [done|]. split; [apply lookup_insert_eq|].
    split; [done|]. split; [done|]. split; [done|]. split; [done|].
    split; [|split; [|split; [|split; [|split; [|split]]]]].
    + simpl. destruct (pb.CreateRetrospectiveRequest.VotingConfig req); simpl; [|lia].
      case_bool_decide; lia.
    + intros config Hconfig Hpos. simpl. rewrite Hconfig. simpl.
      by rewrite bool_decide_eq_true_2.
    + simpl. destruct (pb.CreateRetrospectiveRequest.CustomTemplate req) as [template|];
        [|apply getDefaultTemplateColumns_nonempty].
      case_bool_decide as Hlen; [|apply getDefaultTemplateColumns_nonempty].
      unfold convertPbColumnsToVstore.
      destruct (pb.RetrospectiveTemplate.Columns template); [simpl in Hlen; lia | done].
    + simpl. case_bool_decide; [|done]. unfold getUserIDFromContext. discriminate.
    + intros Hf. simpl. by rewrite bool_decide_eq_false_2.
    + intros k Hk. by rewrite lookup_insert_ne.
    + split; [done|]. split; [done|]. split; [done|]. split; [done|].
      split; [|split].
      * intros Hf. simpl. by rewrite bool_decide_eq_true_2.
      * intros Hnone. simpl. by rewrite Hnone.
      * intros config Hconfig. simpl. rewrite Hconfig. simpl.
        split; [|done]. by case_bool_decide; case_decide.
Qed.

Lemma retro_Create_defaults_witness :
  let r := RetrospectiveService.Create (H := simRuntime 1000) context.Background
             (pb.CreateRetrospectiveRequest.mk "team" "Sprint 2" "" TemplateTypeFourLs
                (Some (pb.RetrospectiveTemplate.mk TemplateTypeCustom []))
                (Some (pb.VotingConfig.mk 0 true false)) "") newWorld in
  ∃ resp retro,
    r.1 = Ok resp ∧
    pb.CreateRetrospectiveResponse.RetrospectiveId resp = "RETRO-1000" ∧
    retros r.2 !! "RETRO-1000" = Some retro ∧
    VotingConfig.MaxVotesPerUser (Retrospective.VotingConfig retro) = 5%Z ∧
    TemplateColumn.ColumnID <$> Retrospective.TemplateColumns retro
    = ["liked"; "learned"; "lacked"; "longed_for"] ∧
    Retrospective.FacilitatorID retro = "mock-user-id".
Proof.
  intros r.
  destruct (retro_Create_defaults (H := simRuntime 1000) context.Background
              (pb.CreateRetrospectiveRequest.mk "team" "Sprint 2" "" TemplateTypeFourLs
                 (Some (pb.RetrospectiveTemplate.mk TemplateTypeCustom []))
                 (Some (pb.VotingConfig.mk 0 true false)) "") newWorld)
    as [_ Haccepted].
  destruct Haccepted as (resp & retro & Hok & Hid & Hget & _); [discriminate..|].
  exists resp, retro. split; [exact Hok|]. split; [exact Hid|]. split; [exact Hget|].
  assert (Some retro = Some (createdRetro (H := simRuntime 1000) context.Background
              (pb.CreateRetrospectiveRequest.mk "team" "Sprint 2" "" TemplateTypeFourLs
                 (Some (pb.RetrospectiveTemplate.mk TemplateTypeCustom []))
                 (Some (pb.VotingConfig.mk 0 true false)) "") newWorld)) as [= ->]
    by (rewrite <- Hget; reflexivity).
  repeat split.
Defined.

(** X8 (RetrospectiveService.Delete): for any non-empty id, stored or
    not, Delete succeeds; it removes that retrospective and nothing else:
    its cards, the votes cast in it and its presence records stay in
    their stores; a repeated Delete changes nothing, and a transition
    requested afterwards is answered with NotFound. *)
Theorem retro_Delete_no_cascade `{!GoRuntime} (ctx : context.Context)
    (retroID : string) (w : World) :
  let r := RetrospectiveService.Delete ctx (pb.DeleteRetrospectiveRequest.mk retroID) w in
  retroID ≠ "" →
  r.1 = Ok () ∧
  retros r.2 = delete retroID (retros w) ∧
  items r.2 = items w ∧ votes r.2 = votes w ∧ participants r.2 = participants w ∧
  hubOf r.2 = hubOf w ∧
  RetrospectiveService.Delete ctx (pb.DeleteRetrospectiveRequest.mk retroID) r.2
    = (Ok (), r.2) ∧
  RetrospectiveService.StartVoting ctx (pb.StartVotingRequest.mk retroID) r.2
    = (Err (errStatus codes.NotFound "not found"), r.2).
Proof.
  intros r Hid. subst r.
  unfold RetrospectiveService.Delete. simpl.
  rewrite !bool_decide_eq_false_2 by done.
  unfold onErr, InMemoryRetrospectiveStore.Delete, modify. simpl.
  repeat split.
  - unfold setRetros. simpl. by rewrite delete_delete_eq.
  - unfold RetrospectiveService.StartVoting, mbind, M_bind, onErr,
      InMemoryRetrospectiveStore.Get. simpl.
    by rewrite lookup_delete_eq.
Qed.

Lemma retro_Delete_no_cascade_witness :
  let r := RetrospectiveService.Delete context.Background
             (pb.DeleteRetrospectiveRequest.mk "R") votedOnceWorld in
  r.1 = Ok () ∧
  retros r.2 !! "R" = None ∧
  (∃ item, items r.2 !! "A" = Some item) ∧
  votesOfUser "R" "mock-user-id" r.2 = 1.
Proof.
  intros r.
  destruct (retro_Delete_no_cascade (H := simRuntime 1000) context.Background "R"
              votedOnceWorld) as (Hok & Hretros & Hitems & Hvotes & _); [discriminate|].
  split; [exact Hok|]. fold r in Hretros, Hitems, Hvotes. split; [|split].
  - rewrite Hretros. apply lookup_delete_eq.
  - rewrite Hitems. eexists. reflexivity.
  - unfold votesOfUser. rewrite Hvotes. reflexivity.
Defined.

(** X9 (RetrospectiveService.List, InMemoryRetrospectiveStore.List): a
    listing never fails and changes no store; it returns retrospectives
    that pass the team and status filters, each at most once, as many as
    the page size allows (the requested size if positive, else 20), and
    reports more results exactly when more pass the filters than fit; the
    next cursor it returns is always empty, whatever cursor was sent. *)
Theorem retro_List_page `{!GoRuntime} (ctx : context.Context)
    (req : pb.ListRetrospectivesRequest.t) (w : World) :
  let r := RetrospectiveService.List ctx req w in
  ∃ page,
    r.1 = Ok (pb.ListRetrospectivesResponse.mk
                (convertVstoreRetroToPb <$> page)
                (pb.PagingMetadata.mk ""
                   (bool_decide (pageSizeOf req < Z.of_nat (length (matching req w)))%Z))) ∧
    page ⊆+ matching req w ∧
    length page = Z.to_nat (pageSizeOf req) `min` length (matching req w) ∧
    (0 < pageSizeOf req)%Z ∧
    retros r.2 = retros w ∧ items r.2 = items w ∧ votes r.2 = votes w.
Proof.
  intros r. subst r.
  unfold RetrospectiveService.List, mbind, M_bind, onErr,
    InMemoryRetrospectiveStore.List, mbind, M_bind, rangeMap. simpl.
  set (teamID := match pb.ListRetrospectivesRequest.Filters req with
                 | Some filters => pb.ListRetrospectivesFilters.TeamId filters
                 | None => "" end).
  set (statuses := match pb.ListRetrospectivesRequest.Filters req with
                   | Some filters => pb.ListRetrospectivesFilters.Statuses filters
                   | None => [] end).
  set (results := filter _ _).
  set (size := match pb.ListRetrospectivesRequest.PagingOptions req with
               | Some options =>
                   if bool_decide (0 < pb.PagingOptions.PageSize options)%Z
                   then pb.PagingOptions.PageSize options else 20%Z
               | None => 20%Z end).
  assert (size = pageSizeOf req) as Hsize.
  { subst size. unfold pageSizeOf.
    destruct (pb.ListRetrospectivesRequest.PagingOptions req); [|done].
    by case_bool_decide; case_decide. }
  assert (0 < size)%Z as Hpos.
  { rewrite Hsize. unfold pageSizeOf.
    destruct (pb.ListRetrospectivesRequest.PagingOptions req); [|lia].
    case_decide; lia. }
  assert (results ≡ₚ matching req w) as Hperm.
  { subst results. unfold matching, listFilters.
    rewrite range_values_perm.
    by destruct (pb.ListRetrospectivesRequest.Filters req). }
  rewrite (bool_decide_eq_false_2 (size ≤ 0)%Z) by lia.
  exists (take (Z.to_nat size) results).
  rewrite <- Hsize, <- (Permutation_length Hperm).
  split; [|split; [|split; [|split]]]; [| | |done|done].
  - case_bool_decide as Hmore; [done|].
    rewrite take_ge by lia. reflexivity.
  - rewrite <- Hperm. apply sublist_submseteq, sublist_take.
  - rewrite length_take. lia.
Qed.

Lemma retro_List_page_witness :
  let r := RetrospectiveService.List (H := simRuntime 1000) context.Background
             (pb.ListRetrospectivesRequest.mk
                (Some (pb.ListRetrospectivesFilters.mk "team" [RetrospectiveStatusDraft]))
                (Some (pb.PagingOptions.mk "next" 2))) threeRetros in
  ∃ resp,
    r.1 = Ok resp ∧
    length (pb.ListRetrospectivesResponse.Retrospectives resp) = 2 ∧
    pb.ListRetrospectivesResponse.PagingMetadata resp = pb.PagingMetadata.mk "" true.
Proof.
  intros r.
  destruct (retro_List_page (H := simRuntime 1000) context.Background
              (pb.ListRetrospectivesRequest.mk
                 (Some (pb.ListRetrospectivesFilters.mk "team" [RetrospectiveStatusDraft]))
                 (Some (pb.PagingOptions.mk "next" 2))) threeRetros)
    as (page & Hok & _ & Hlen & _).
  eexists. split; [exact Hok|]. split.
  - simpl. rewrite length_fmap, Hlen. vm_compute. reflexivity.
  - vm_compute. reflexivity.
Defined.

(** ** Calls that fail have no effect *)

Section Atomic.
Context {RT : GoRuntime}.

Lemma neverFails_ret {A : Type} (a : A) : neverFails (mret a).
Proof. intros w e. done. Qed.

Lemma neverFails_bind {A B : Type} (m : M A) (f : A → M B) :
  neverFails m → (∀ a, neverFails (f a)) → neverFails (m ≫= f).
Proof.
  intros Hm Hf w e. unfold mbind, M_bind.
  specialize (Hm w). destruct (m w) as [[a|e'|msg] w1]; simpl in *; [apply Hf | | done].
  by destruct (Hm e').
Qed.

Lemma neverFails_ignoreErr {A : Type} (m : M A) : neverFails (ignoreErr m).
Proof. intros w e. unfold ignoreErr. by destruct (m w) as [[a|e'|msg] w1]. Qed.

Lemma neverFails_onErr {A : Type} (f : error → error) (m : M A) :
  neverFails m → neverFails (onErr f m).
Proof.
  intros Hm w e. unfold onErr. specialize (Hm w).
  destruct (m w) as [[a|e'|msg] w1]; simpl in *; [done | | done]. by destruct (Hm e').
Qed.

Lemma neverFails_modify (f : World → World) : neverFails (modify f).
Proof. intros w e. done. Qed.

Lemma neverFails_gets {A : Type} (f : World → A) : neverFails (gets f).
Proof. intros w e. done. Qed.

Lemma neverFails_time_Now : neverFails time_Now.
Proof. intros w e. done. Qed.

Lemma neverFails_rangeMap {V : Type} (sel : World → gmap string V) :
  neverFails (rangeMap sel).
Proof. intros w e. done. Qed.

Lemma neverFails_trySend ch event : neverFails (EventBroadcaster.trySend ch event).
Proof.
  intros w e. unfold EventBroadcaster.trySend.
  destruct (channels w !! ch) as [c|]; [|done].
  destruct (chanClosed c); [done|]. by case_bool_decide.
Qed.

Lemma neverFails_sendAll subs event : neverFails (EventBroadcaster.sendAll subs event).
Proof.
  induction subs as [|ch subs IH]; simpl; [apply neverFails_ret|].
  apply neverFails_bind; [apply neverFails_trySend | intros _; apply IH].
Qed.

Lemma neverFails_Broadcast retroID event :
  neverFails (EventBroadcaster.Broadcast retroID event).
Proof. intros w e. apply neverFails_sendAll. Qed.

Lemma atomic_pure {A : Type} (m : M A) : preserves (same storesOf) m → atomic m.
Proof. intros Hm w e _. apply Hm. Qed.

Lemma atomic_neverFails {A : Type} (m : M A) : neverFails m → atomic m.
Proof. intros Hm w e He. by destruct (Hm w e). Qed.

(** checks first: a step that leaves the stores alone, then the rest *)
Lemma atomic_bind_pure {A B : Type} (m : M A) (f : A → M B) :
  preserves (same storesOf) m → (∀ a, atomic (f a)) → atomic (m ≫= f).
Proof.
  intros Hm Hf w e. unfold mbind, M_bind.
  specialize (Hm w). unfold same in Hm.
  destruct (m w) as [[a|e'|msg] w1]; simpl in *; [|done..].
  intros He. by rewrite (Hf a w1 e He).
Qed.

(** effects last: once the stores are written, nothing fails *)
Lemma atomic_bind_neverFails {A B : Type} (m : M A) (f : A → M B) :
  atomic m → (∀ a, neverFails (f a)) → atomic (m ≫= f).
Proof.
  intros Hm Hf w e. unfold mbind, M_bind.
  specialize (Hm w).
  destruct (m w) as [[a|e'|msg] w1]; simpl in *; [|intros _; by apply (Hm e')|done].
  intros He. by destruct (Hf a w1 e).
Qed.

Lemma atomic_onErr {A : Type} (f : error → error) (m : M A) :
  atomic m → atomic (onErr f m).
Proof.
  intros Hm w e. unfold onErr. specialize (Hm w).
  destruct (m w) as [[a|e'|msg] w1]; simpl in *; [done | | done].
  intros _. by apply (Hm e').
Qed.

End Atomic.

Section AtomicStores.
Context {RT : GoRuntime}.

Lemma RetroStore_Get_stores id :
  preserves (same storesOf) (InMemoryRetrospectiveStore.Get id).
Proof. unfold InMemoryRetrospectiveStore.Get. preserves_cases. Qed.

Lemma RetroStore_List_stores t s c n :
  preserves (same storesOf) (InMemoryRetrospectiveStore.List t s c n).
Proof. unfold InMemoryRetrospectiveStore.List. repeat preserves_step. Qed.

Lemma ItemStore_Get_stores id : preserves (same storesOf) (InMemoryItemStore.Get id).
Proof. unfold InMemoryItemStore.Get. preserves_cases. Qed.

Lemma ItemStore_ListByRetrospective_stores r c s :
  preserves (same storesOf) (InMemoryItemStore.ListByRetrospective r c s).
Proof. unfold InMemoryItemStore.ListByRetrospective. repeat preserves_step. Qed.

Lemma VoteStore_GetByUserAndItem_stores r i u :
  preserves (same storesOf) (InMemoryVoteStore.GetByUserAndItem r i u).
Proof. unfold InMemoryVoteStore.GetByUserAndItem. repeat preserves_step. Qed.

Lemma VoteStore_CountByUser_stores r u :
  preserves (same storesOf) (InMemoryVoteStore.CountByUser r u).
Proof. unfold InMemoryVoteStore.CountByUser. repeat preserves_step. Qed.

Lemma VoteStore_ListByUser_stores r u :
  preserves (same storesOf) (InMemoryVoteStore.ListByUser r u).
Proof. unfold InMemoryVoteStore.ListByUser. repeat preserves_step. Qed.

Lemma ParticipantStore_ListByRetrospective_stores r :
  preserves (same storesOf) (InMemoryParticipantStore.ListByRetrospective r).
Proof. unfold InMemoryParticipantStore.ListByRetrospective. repeat preserves_step. Qed.

Lemma getContainers_stores ids :
  preserves (same storesOf) (RetrospectiveService.getContainers ids).
Proof.
  induction ids as [|id ids IH]; simpl; [repeat preserves_step|].
  repeat (preserves_step || exact IH || apply RetroStore_Get_stores).
Qed.

Lemma neverFails_ParticipantStore_Leave r u :
  neverFails (InMemoryParticipantStore.Leave r u).
Proof.
  intros w e. unfold InMemoryParticipantStore.Leave.
  by destruct (participants w !! _).
Qed.

Lemma neverFails_ParticipantStore_Heartbeat r u :
  neverFails (InMemoryParticipantStore.Heartbeat r u).
Proof.
  intros w e. unfold InMemoryParticipantStore.Heartbeat.
  by destruct (participants w !! _).
Qed.

End AtomicStores.

Create HintDb frame_stores.
#[global] Hint Resolve RetroStore_Get_stores RetroStore_List_stores ItemStore_Get_stores
  ItemStore_ListByRetrospective_stores VoteStore_GetByUserAndItem_stores
  VoteStore_CountByUser_stores VoteStore_ListByUser_stores
  ParticipantStore_ListByRetrospective_stores getContainers_stores : frame_stores.

(** an operation that only reads the stores *)
Ltac reads_only := repeat (preserves_step || solve [eauto with frame_stores]).

(** one step through an operation that reports no error *)
Ltac neverFails_step :=
  lazymatch goal with
  | |- neverFails (mret _) => apply neverFails_ret
  | |- neverFails (_ ≫= _) => apply neverFails_bind; [|intros ?]
  | |- neverFails (ignoreErr _) => apply neverFails_ignoreErr
  | |- neverFails (onErr _ _) => apply neverFails_onErr
  | |- neverFails (modify _) => apply neverFails_modify
  | |- neverFails (gets _) => apply neverFails_gets
  | |- neverFails time_Now => apply neverFails_time_Now
  | |- neverFails (rangeMap _) => apply neverFails_rangeMap
  | |- neverFails (EventBroadcaster.Broadcast _ _) => apply neverFails_Broadcast
  | |- neverFails (InMemoryParticipantStore.Leave _ _) =>
      apply neverFails_ParticipantStore_Leave
  | |- neverFails (InMemoryParticipantStore.Heartbeat _ _) =>
      apply neverFails_ParticipantStore_Heartbeat
  | |- neverFails (if ?b then _ else _) => destruct b
  | |- neverFails (match ?x with _ => _ end) => destruct x
  | |- neverFails (let _ := _ in _) => cbv zeta
  | |- neverFails _ =>
      progress unfold InMemoryRetrospectiveStore.Create, InMemoryRetrospectiveStore.Update,
        InMemoryRetrospectiveStore.Delete, InMemoryRetrospectiveStore.assign,
        InMemoryItemStore.Create, InMemoryItemStore.Update, InMemoryItemStore.Delete,
        InMemoryItemStore.assign, InMemoryVoteStore.Create, InMemoryVoteStore.Delete,
        InMemoryParticipantStore.Join
  end.

(** one step through an operation whose checks come before its effects *)
Ltac atomic_step :=
  lazymatch goal with
  | |- atomic (if ?b then _ else _) => destruct b
  | |- atomic (match ?x with _ => _ end) => destruct x
  | |- atomic (let _ := _ in _) => cbv zeta
  | |- atomic (_ ≫= _) =>
      first [ apply atomic_bind_pure; [solve [reads_only] | intros ?]
            | apply atomic_bind_neverFails;
              [apply atomic_neverFails; solve [repeat neverFails_step]
              | intros ?; solve [repeat neverFails_step]] ]
  | |- atomic _ =>
      first [ apply atomic_pure; solve [reads_only]
            | apply atomic_neverFails; solve [repeat neverFails_step] ]
  end.

Section AtomicServices.
Context {RT : GoRuntime}.

Lemma atomic_retro_Create ctx req : atomic (RetrospectiveService.Create ctx req).
Proof. unfold RetrospectiveService.Create. repeat atomic_step. Qed.

Lemma atomic_retro_GetMulti ctx req : atomic (RetrospectiveService.GetMulti ctx req).
Proof. unfold RetrospectiveService.GetMulti. repeat atomic_step. Qed.

Lemma atomic_retro_List ctx req : atomic (RetrospectiveService.List ctx req).
Proof. unfold RetrospectiveService.List. repeat atomic_step. Qed.

Lemma atomic_retro_Update ctx req : atomic (RetrospectiveService.Update ctx req).
Proof. unfold RetrospectiveService.Update. repeat atomic_step. Qed.

Lemma atomic_retro_Delete ctx req : atomic (RetrospectiveService.Delete ctx req).
Proof. unfold RetrospectiveService.Delete. repeat atomic_step. Qed.

Lemma atomic_StartVoting ctx req : atomic (RetrospectiveService.StartVoting ctx req).
Proof. unfold RetrospectiveService.StartVoting. repeat atomic_step. Qed.

Lemma atomic_StartDiscussion ctx req : atomic (RetrospectiveService.StartDiscussion ctx req).
Proof. unfold RetrospectiveService.StartDiscussion. repeat atomic_step. Qed.

Lemma atomic_Complete ctx req : atomic (RetrospectiveService.Complete ctx req).
Proof. unfold RetrospectiveService.Complete. repeat atomic_step. Qed.

Lemma atomic_item_Create ctx req : atomic (RetrospectiveItemService.Create ctx req).
Proof. unfold RetrospectiveItemService.Create. repeat atomic_step. Qed.

Lemma atomic_item_Update ctx req : atomic (RetrospectiveItemService.Update ctx req).
Proof. unfold RetrospectiveItemService.Update. repeat atomic_step. Qed.

Lemma atomic_item_Delete ctx req : atomic (RetrospectiveItemService.Delete ctx req).
Proof. unfold RetrospectiveItemService.Delete. repeat atomic_step. Qed.

Lemma atomic_item_List ctx req : atomic (RetrospectiveItemService.List ctx req).
Proof. unfold RetrospectiveItemService.List. repeat atomic_step. Qed.

Lemma atomic_item_MoveToColumn ctx req :
  atomic (RetrospectiveItemService.MoveToColumn ctx req).
Proof. unfold RetrospectiveItemService.MoveToColumn. repeat atomic_step. Qed.

Lemma atomic_CastVote ctx req : atomic (VotingService.CastVote ctx req).
Proof.
  intros w e. rewrite CastVote_run. unfold castVoteOutcome.
  repeat case_decide; try done; repeat case_match; try done.
Qed.

Lemma atomic_RemoveVote ctx req : atomic (VotingService.RemoveVote ctx req).
Proof. unfold VotingService.RemoveVote. repeat atomic_step. Qed.

Lemma atomic_GetVoteSummary ctx req : atomic (VotingService.GetVoteSummary ctx req).
Proof. unfold VotingService.GetVoteSummary. repeat atomic_step. Qed.

Lemma atomic_GetUserVotes ctx req : atomic (VotingService.GetUserVotes ctx req).
Proof. unfold VotingService.GetUserVotes. repeat atomic_step. Qed.

Lemma atomic_Join ctx req : atomic (RealtimeService.JoinRetrospective ctx req).
Proof. unfold RealtimeService.JoinRetrospective. repeat atomic_step. Qed.

Lemma atomic_Leave ctx req : atomic (RealtimeService.LeaveRetrospective ctx req).
Proof. unfold RealtimeService.LeaveRetrospective. repeat atomic_step. Qed.

Lemma atomic_GetParticipants ctx req : atomic (RealtimeService.GetParticipants ctx req).
Proof. unfold RealtimeService.GetParticipants. repeat atomic_step. Qed.

Lemma atomic_Heartbeat ctx req : atomic (RealtimeService.Heartbeat ctx req).
Proof. unfold RealtimeService.Heartbeat. repeat atomic_step. Qed.

End AtomicServices.

Lemma void_Err {A : Type} (r : result A * World) (e : error) :
  (void r).1 = Err e → r.1 = Err e.
Proof. destruct r as [[a|e'|msg] w]; unfold void; simpl; intros H; by simplify_eq. Qed.

(** X10 (every call of the retrospective, item, voting and realtime
    services): a call that returns an error has changed no store and no
    subscriber queue: the checks of every operation come before its first
    write, and no write is followed by a step that can fail. *)
Theorem failed_calls_change_nothing `{!GoRuntime} (op : Op) (w : World) (e : error) :
  (run op w).1 = Err e →
  storesOf (run op w).2 = storesOf w.
Proof.
  destruct op; unfold run; intros He; apply void_Err in He; cbn [void snd].
  - by apply (atomic_retro_Create ctx req w e).
  - by apply (atomic_retro_GetMulti ctx req w e).
  - by apply (atomic_retro_List ctx req w e).
  - by apply (atomic_retro_Update ctx req w e).
  - by apply (atomic_retro_Delete ctx req w e).
  - by apply (atomic_StartVoting ctx req w e).
  - by apply (atomic_StartDiscussion ctx req w e).
  - by apply (atomic_Complete ctx req w e).
  - by apply (atomic_item_Create ctx req w e).
  - by apply (atomic_item_Update ctx req w e).
  - by apply (atomic_item_Delete ctx req w e).
  - by apply (atomic_item_List ctx req w e).
  - by apply (atomic_item_MoveToColumn ctx req w e).
  - by apply (atomic_CastVote ctx req w e).
  - by apply (atomic_RemoveVote ctx req w e).
  - by apply (atomic_GetVoteSummary ctx req w e).
  - by apply (atomic_GetUserVotes ctx req w e).
  - by apply (atomic_Join ctx req w e).
  - by apply (atomic_Leave ctx req w e).
  - by apply (atomic_GetParticipants ctx req w e).
  - by apply (atomic_Heartbeat ctx req w e).
  - done.
  - unfold EventBroadcaster.Unsubscribe in He.
    destruct (list_find _ _) as [[i ?]|]; [|done].
    unfold mbind, M_bind, EventBroadcaster.close in He. simpl in He.
    by repeat case_match.
Qed.

Lemma failed_calls_change_nothing_witness :
  let r := run (H := simRuntime 1000)
             (OpItemCreate context.Background
                (pb.CreateItemRequest.mk "R" "glad" "more pairing" false)) cardsWorld in
  r.1 = Err (errStatus codes.InvalidArgument "invalid argument: invalid column_id") ∧
  storesOf r.2 = storesOf cardsWorld.
Proof.
  intros r. split; [reflexivity|].
  apply (failed_calls_change_nothing (H := simRuntime 1000) _ cardsWorld
           (errStatus codes.InvalidArgument "invalid argument: invalid column_id")).
  reflexivity.
Defined.

(** ** The states that the server can reach *)

Section SoundParts.

Lemma retros_part_same w w' :
  retros w' = retros w →
  retros_wf w ∧ map_Forall (λ _ retro, retroOk retro) (retros w) →
  retros_wf w' ∧ map_Forall (λ _ retro, retroOk retro) (retros w').
Proof. intros Heq. unfold retros_wf. by rewrite Heq. Qed.

Lemma retros_part_insert w w' k retro :
  retros w' = <[k := retro]> (retros w) →
  Retrospective.RetrospectiveID retro = k →
  retroOk retro →
  retros_wf w ∧ map_Forall (λ _ retro, retroOk retro) (retros w) →
  retros_wf w' ∧ map_Forall (λ _ retro, retroOk retro) (retros w').
Proof.
  intros Heq Hid Hok [Hwf Hall]. unfold retros_wf. rewrite Heq.
  split; by apply map_Forall_insert_2.
Qed.

Lemma retros_part_delete w w' k :
  retros w' = delete k (retros w) →
  retros_wf w ∧ map_Forall (λ _ retro, retroOk retro) (retros w) →
  retros_wf w' ∧ map_Forall (λ _ retro, retroOk retro) (retros w').
Proof.
  intros Heq [Hwf Hall]. unfold retros_wf. rewrite Heq.
  split; by apply map_Forall_delete.
Qed.

(** a field assignment through the pointer read from the slot [id],
    followed by [Update] *)
Lemma retros_part_edit w w' id k retro0 retro1 updated :
  retros w' = <[k := Retrospective.withUpdated updated retro1]>
                (<[id := retro1]> (retros w)) →
  retros w !! id = Some retro0 →
  k = Retrospective.RetrospectiveID retro0 →
  Retrospective.RetrospectiveID retro1 = Retrospective.RetrospectiveID retro0 →
  (retroOk retro0 → retroOk retro1) →
  retros_wf w ∧ map_Forall (λ _ retro, retroOk retro) (retros w) →
  retros_wf w' ∧ map_Forall (λ _ retro, retroOk retro) (retros w').
Proof.
  intros Heq Hget Hk Hid Hok [Hwf Hall].
  assert (k = id) as -> by (rewrite Hk; by apply (Hwf id retro0)).
  rewrite insert_insert_eq in Heq.
  eapply retros_part_insert; [exact Heq | | | by split].
  - simpl. rewrite Hid. by apply (Hwf id retro0).
  - apply Hok, (Hall id retro0 Hget).
Qed.

Lemma items_wf_same w w' : items w' = items w → items_wf w → items_wf w'.
Proof. intros Heq. unfold items_wf. by rewrite Heq. Qed.

Lemma items_wf_insert w w' k item :
  items w' = <[k := item]> (items w) →
  RetrospectiveItem.ItemID item = k → items_wf w → items_wf w'.
Proof. intros Heq Hid Hwf. unfold items_wf. rewrite Heq. by apply map_Forall_insert_2. Qed.

Lemma items_wf_delete w w' k :
  items w' = delete k (items w) → items_wf w → items_wf w'.
Proof. intros Heq Hwf. unfold items_wf. rewrite Heq. by apply map_Forall_delete. Qed.

Lemma items_wf_edit w w' id k item0 item1 updated :
  items w' = <[k := RetrospectiveItem.withUpdated updated item1]>
               (<[id := item1]> (items w)) →
  items w !! id = Some item0 →
  k = RetrospectiveItem.ItemID item0 →
  RetrospectiveItem.ItemID item1 = RetrospectiveItem.ItemID item0 →
  items_wf w → items_wf w'.
Proof.
  intros Heq Hget Hk Hid Hwf.
  assert (k = id) as -> by (rewrite Hk; by apply (Hwf id item0)).
  rewrite insert_insert_eq in Heq.
  eapply items_wf_insert; [exact Heq | | done].
  simpl. rewrite Hid. by apply (Hwf id item0).
Qed.

Lemma votes_wf_same w w' : votes w' = votes w → votes_wf w → votes_wf w'.
Proof. intros Heq. unfold votes_wf. by rewrite Heq. Qed.

Lemma participants_wf_same w w' :
  participants w' = participants w → participants_wf w → participants_wf w'.
Proof. intros Heq. unfold participants_wf. by rewrite Heq. Qed.

Lemma participants_wf_insert w w' k p :
  participants w' = <[k := p]> (participants w) →
  InMemoryParticipantStore.key (Participant.RetrospectiveID p) (Participant.UserID p) = k →
  participants_wf w → participants_wf w'.
Proof.
  intros Heq Hid Hwf. unfold participants_wf. rewrite Heq. by apply map_Forall_insert_2.
Qed.

Lemma sound_stores w w' : storesOf w' = storesOf w → sound w → sound w'.
Proof.
  intros Heq (Hr & Hi & Hv & Hp & Hh).
  unfold storesOf in Heq. simplify_eq.
  split; [by eapply retros_part_same|]. split; [by eapply items_wf_same|].
  split; [by eapply votes_wf_same|]. split; [by eapply participants_wf_same|].
  eapply hub_wf_same_hub; [|exact Hh]. unfold hubOf. congruence.
Qed.

Lemma sound_newWorld : sound newWorld.
Proof.
  split; [split; apply map_Forall_empty|].
  split; [apply map_Forall_empty|]. split; [apply map_Forall_empty|].
  split; [apply map_Forall_empty | apply hub_wf_newWorld].
Qed.

End SoundParts.

(** the parts of [sound] that an operation has not written *)
Ltac frame_parts Hs :=
  let Hr := fresh "Hr" in let Hi := fresh "Hi" in let Hv := fresh "Hv" in
  let Hp := fresh "Hp" in let Hh := fresh "Hh" in
  destruct Hs as (Hr & Hi & Hv & Hp & Hh);
  split; [try (eapply retros_part_same; [reflexivity | exact Hr]) |
  split; [try (eapply items_wf_same; [reflexivity | exact Hi]) |
  split; [try (eapply votes_wf_same; [reflexivity | exact Hv]) |
  split; [try (eapply participants_wf_same; [reflexivity | exact Hp]) |
          try (eapply hub_wf_same_hub; [reflexivity | exact Hh])]]]].

Section SoundServices.
Context {RT : GoRuntime}.

Lemma retroOk_status (status : RetrospectiveStatus) (retro : Retrospective.t) :
  status ∈ [RetrospectiveStatusDraft; RetrospectiveStatusVoting;
            RetrospectiveStatusDiscussing; RetrospectiveStatusCompleted] →
  retroOk retro → retroOk (Retrospective.withStatus status retro).
Proof. intros Hin (_ & Hmax & Hcols). by split. Qed.

Lemma retro_Update_sound ctx req w :
  sound w → sound (RetrospectiveService.Update ctx req w).2.
Proof.
  intros Hs. unfold RetrospectiveService.Update.
  destruct (pb.UpdateRetrospectiveRequest.Retrospective req) as [retrospective|]; [|done].
  case_bool_decide; [done|].
  unfold mbind, M_bind, onErr, InMemoryRetrospectiveStore.Get.
  destruct (retros w !! pb.Retrospective.RetrospectiveId retrospective)
    as [retro|] eqn:Hget; [|done].
  simpl. frame_parts Hs.
  eapply retros_part_edit; [reflexivity | exact Hget | | | | done].
  - by repeat case_bool_decide.
  - by repeat case_bool_decide.
  - by repeat case_bool_decide.
Qed.

Lemma StartVoting_sound ctx req w :
  sound w → sound (RetrospectiveService.StartVoting ctx req w).2.
Proof.
  intros Hs. unfold RetrospectiveService.StartVoting.
  unfold mbind, M_bind, onErr, InMemoryRetrospectiveStore.Get.
  destruct (retros w !! pb.StartVotingRequest.RetrospectiveId req)
    as [retro|] eqn:Hget; [|done].
  case_bool_decide; [done|].
  simpl. frame_parts Hs.
  eapply retros_part_edit; [reflexivity | exact Hget | done | done | | done].
  apply retroOk_status. rewrite !elem_of_cons. auto.
Qed.

Lemma StartDiscussion_sound ctx req w :
  sound w → sound (RetrospectiveService.StartDiscussion ctx req w).2.
Proof.
  intros Hs. unfold RetrospectiveService.StartDiscussion.
  unfold mbind, M_bind, onErr, InMemoryRetrospectiveStore.Get.
  destruct (retros w !! pb.StartDiscussionRequest.RetrospectiveId req)
    as [retro|] eqn:Hget; [|done].
  case_bool_decide; [done|].
  simpl. frame_parts Hs.
  eapply retros_part_edit; [reflexivity | exact Hget | done | done | | done].
  apply retroOk_status. rewrite !elem_of_cons. auto.
Qed.

Lemma Complete_sound ctx req w :
  sound w → sound (RetrospectiveService.Complete ctx req w).2.
Proof.
  intros Hs. unfold RetrospectiveService.Complete.
  unfold mbind, M_bind, onErr, InMemoryRetrospectiveStore.Get.
  destruct (retros w !! pb.CompleteRetrospectiveRequest.RetrospectiveId req)
    as [retro|] eqn:Hget; [|done].
  simpl. frame_parts Hs.
  eapply retros_part_edit; [reflexivity | exact Hget | done | done | | done].
  intros Hok. apply (retroOk_status RetrospectiveStatusCompleted) in Hok;
    [exact Hok | rewrite !elem_of_cons; auto].
Qed.

End SoundServices.

Section SoundMore.
Context {RT : GoRuntime}.

Lemma createdRetro_ok ctx req w : retroOk (createdRetro ctx req w).
Proof.
  split; [|split]; simpl.
  - rewrite !elem_of_cons. auto.
  - destruct (pb.CreateRetrospectiveRequest.VotingConfig req); simpl; [|lia].
    case_bool_decide; lia.
  - destruct (pb.CreateRetrospectiveRequest.CustomTemplate req) as [template|];
      [|apply getDefaultTemplateColumns_nonempty].
    case_bool_decide as Hlen; [|apply getDefaultTemplateColumns_nonempty].
    unfold convertPbColumnsToVstore.
    destruct (pb.RetrospectiveTemplate.Columns template); [simpl in Hlen; lia | done].
Qed.

Lemma retro_Create_sound ctx req w :
  sound w → sound (RetrospectiveService.Create ctx req w).2.
Proof.
  intros Hs.
  destruct (decide (pb.CreateRetrospectiveRequest.TeamId req = "")) as [Ht|Ht].
  { unfold RetrospectiveService.Create. by rewrite bool_decide_eq_true_2. }
  destruct (decide (pb.CreateRetrospectiveRequest.SprintName req = "")) as [Hn|Hn].
  { unfold RetrospectiveService.Create.
    rewrite bool_decide_eq_false_2 by done. by rewrite bool_decide_eq_true_2. }
  rewrite (retro_Create_run ctx req w Ht Hn). simpl. frame_parts Hs.
  eapply retros_part_insert; [reflexivity | done | apply createdRetro_ok | done].
Qed.

Lemma retro_Delete_sound ctx req w :
  sound w → sound (RetrospectiveService.Delete ctx req w).2.
Proof.
  intros Hs. unfold RetrospectiveService.Delete.
  case_bool_decide; [done|]. simpl. frame_parts Hs.
  eapply retros_part_delete; [reflexivity | done].
Qed.

Lemma retroOk_withItemCount n retro :
  retroOk retro → retroOk (Retrospective.withItemCount n retro).
Proof. done. Qed.

Lemma retroOk_withParticipantCount n retro :
  retroOk retro → retroOk (Retrospective.withParticipantCount n retro).
Proof. done. Qed.

Lemma item_Create_sound ctx req w :
  sound w → sound (RetrospectiveItemService.Create ctx req w).2.
Proof.
  intros Hs. unfold RetrospectiveItemService.Create.
  case_bool_decide; [done|]. case_bool_decide; [done|]. case_bool_decide; [done|].
  unfold mbind, M_bind, onErr, ignoreErr, InMemoryRetrospectiveStore.Get.
  destruct (retros w !! pb.CreateItemRequest.RetrospectiveId req)
    as [retro|] eqn:Hget; [|done].
  simpl. destruct (columnValid _ _); [|done]. simpl. frame_parts Hs.
  - eapply retros_part_edit; [reflexivity | exact Hget | done | done | | done].
    apply retroOk_withItemCount.
  - eapply items_wf_insert; [reflexivity | done | done].
Qed.

Lemma item_Update_sound ctx req w :
  sound w → sound (RetrospectiveItemService.Update ctx req w).2.
Proof.
  intros Hs. unfold RetrospectiveItemService.Update.
  destruct (pb.UpdateItemRequest.Item req) as [item|]; [|done].
  case_bool_decide; [done|].
  unfold mbind, M_bind, onErr, InMemoryItemStore.Get.
  destruct (items w !! pb.RetrospectiveItem.ItemId item) as [existing|] eqn:Hget; [|done].
  simpl. frame_parts Hs.
  eapply items_wf_edit; [reflexivity | exact Hget | | | done]; by case_bool_decide.
Qed.

Lemma item_Delete_sound ctx req w :
  sound w → sound (RetrospectiveItemService.Delete ctx req w).2.
Proof.
  intros Hs. unfold RetrospectiveItemService.Delete.
  case_bool_decide; [done|].
  unfold mbind, M_bind, onErr, ignoreErr, InMemoryItemStore.Get.
  destruct (items w !! pb.DeleteItemRequest.ItemId req) as [item|] eqn:Hget; [|done].
  simpl. case_bool_decide; [done|].
  unfold InMemoryRetrospectiveStore.Get. simpl.
  destruct (retros w !! RetrospectiveItem.RetrospectiveID item) as [retro|] eqn:Hretro;
    simpl; frame_parts Hs.
  - eapply retros_part_edit; [reflexivity | exact Hretro | done | done | | done].
    apply retroOk_withItemCount.
  - eapply items_wf_delete; [reflexivity | done].
  - eapply items_wf_delete; [reflexivity | done].
Qed.

Lemma item_MoveToColumn_sound ctx req w :
  sound w → sound (RetrospectiveItemService.MoveToColumn ctx req w).2.
Proof.
  intros Hs. unfold RetrospectiveItemService.MoveToColumn.
  case_bool_decide; [done|]. case_bool_decide; [done|].
  unfold mbind, M_bind, onErr, InMemoryItemStore.Get.
  destruct (items w !! pb.MoveItemToColumnRequest.ItemId req) as [item|] eqn:Hget; [|done].
  simpl. case_bool_decide; [done|].
  unfold InMemoryRetrospectiveStore.Get.
  destruct (retros w !! RetrospectiveItem.RetrospectiveID item) as [retro|]; [|done].
  simpl. destruct (columnValid _ _); [|done]. simpl. frame_parts Hs.
  eapply items_wf_edit; [reflexivity | exact Hget | done | done | done].
Qed.

Lemma CastVote_sound ctx req w :
  sound w → sound (VotingService.CastVote ctx req w).2.
Proof.
  intros Hs. rewrite CastVote_run. unfold castVoteOutcome.
  repeat (case_decide; [done|]).
  destruct (retros w !! pb.CastVoteRequest.RetrospectiveId req) as [retro|]; [|done].
  case_decide; [done|].
  destruct (items w !! pb.CastVoteRequest.ItemId req) as [item|] eqn:Hget; [|done].
  case_decide; [done|].
  case_decide; [by eapply sound_stores|].
  case_decide; [by eapply sound_stores|].
  simpl. frame_parts Hs.
  - eapply items_wf_insert; [reflexivity | | done]. simpl. by apply (Hi _ item).
  - unfold votes_wf. simpl. by apply map_Forall_insert_2.
Qed.

Lemma RemoveVote_sound ctx req w :
  sound w → sound (VotingService.RemoveVote ctx req w).2.
Proof.
  intros Hs.
  destruct (decide (pb.RemoveVoteRequest.RetrospectiveId req = "")) as [Hr|Hr].
  { unfold VotingService.RemoveVote. by rewrite bool_decide_eq_true_2. }
  destruct (decide (pb.RemoveVoteRequest.ItemId req = "")) as [Hi|Hi].
  { unfold VotingService.RemoveVote.
    rewrite bool_decide_eq_false_2 by done. by rewrite bool_decide_eq_true_2. }
  destruct (RemoveVote_cases ctx req w Hr Hi) as [[_ ->]|(k & vote & Hk & _ & ->)];
    [by eapply sound_stores|].
  simpl. unfold removeVoteWorld.
  destruct (items w !! pb.RemoveVoteRequest.ItemId req) as [item|] eqn:Hget;
    frame_parts Hs.
  - eapply items_wf_insert; [reflexivity | | done].
    simpl. case_match; simpl; by apply (Hi0 _ item).
  - unfold votes_wf. simpl. by apply map_Forall_delete.
  - unfold votes_wf. simpl. by apply map_Forall_delete.
Qed.

End SoundMore.

Section SoundPresence.
Context {RT : GoRuntime}.

Lemma Join_sound ctx req w :
  sound w →
  sound (RealtimeService.JoinRetrospective ctx req w).2 ∧
  ∀ msg, (RealtimeService.JoinRetrospective ctx req w).1 ≠ Panic msg.
Proof.
  intros Hs. unfold RealtimeService.JoinRetrospective.
  case_bool_decide; [done|].
  unfold mbind, M_bind, onErr, ignoreErr, InMemoryRetrospectiveStore.Get,
    InMemoryParticipantStore.Join, InMemoryParticipantStore.ListByRetrospective,
    InMemoryRetrospectiveStore.assign, InMemoryRetrospectiveStore.Update,
    mbind, M_bind, rangeMap, time_Now, modify.
  destruct (retros w !! pb.JoinRetrospectiveRequest.RetrospectiveId req)
    as [retro|] eqn:Hget; [|done].
  cbn -[EventBroadcaster.Broadcast].
  match goal with
  | |- context [EventBroadcaster.Broadcast ?r ?ev ?w2] =>
      destruct (Broadcast_spec r ev w2) as (chans & Hrun & Hlen & Hin & Hout);
        [eapply hub_wf_same_hub; [|apply Hs]; reflexivity|];
      pose proof (Broadcast_hub_wf r ev w2) as Hhub;
      rewrite Hrun in Hhub |- *
  end.
  cbn in Hhub |- *. split; [|done].
  frame_parts Hs.
  - eapply retros_part_edit; [reflexivity | exact Hget | done | done | | done].
    apply retroOk_withParticipantCount.
  - eapply participants_wf_insert; [reflexivity | done | done].
  - eapply hub_wf_same_hub; [|apply Hhub; eapply hub_wf_same_hub; [|exact Hh]];
      reflexivity.
Qed.

Lemma Leave_sound ctx req w :
  sound w →
  sound (RealtimeService.LeaveRetrospective ctx req w).2 ∧
  ∀ msg, (RealtimeService.LeaveRetrospective ctx req w).1 ≠ Panic msg.
Proof.
  intros Hs. unfold RealtimeService.LeaveRetrospective.
  case_bool_decide; [done|].
  unfold mbind, M_bind, onErr, ignoreErr, InMemoryRetrospectiveStore.Get,
    InMemoryParticipantStore.Leave, InMemoryParticipantStore.ListByRetrospective,
    InMemoryRetrospectiveStore.assign, InMemoryRetrospectiveStore.Update,
    mbind, M_bind, rangeMap, time_Now, modify.
  destruct (participants w !! _) as [p|] eqn:Hp0; cbn -[EventBroadcaster.Broadcast].
  all: match goal with
       | |- context [EventBroadcaster.Broadcast ?r ?ev ?w2] =>
           destruct (Broadcast_spec r ev w2) as (chans & Hrun & Hlen & Hin & Hout);
             [eapply hub_wf_same_hub; [|apply Hs]; reflexivity|];
           pose proof (Broadcast_hub_wf r ev w2) as Hhub;
           rewrite Hrun in Hhub |- *
       end; cbn in Hhub |- *.
  all: destruct (retros w !! pb.LeaveRetrospectiveRequest.RetrospectiveId req)
         as [retro|] eqn:Hget; cbn; (split; [|done]); frame_parts Hs.
  all: try (eapply retros_part_edit; [reflexivity | exact Hget | done | done | | done];
            apply retroOk_withParticipantCount).
  all: try (eapply participants_wf_insert; [reflexivity | | done];
            simpl; by apply (Hp _ p)).
  all: eapply hub_wf_same_hub; [|apply Hhub; eapply hub_wf_same_hub; [|exact Hh]];
         reflexivity.
Qed.

Lemma Heartbeat_sound ctx req w :
  sound w → sound (RealtimeService.Heartbeat ctx req w).2.
Proof.
  intros Hs. unfold RealtimeService.Heartbeat.
  case_bool_decide; [done|].
  unfold onErr, InMemoryParticipantStore.Heartbeat.
  destruct (participants w !! _) as [p|] eqn:Hp0; [|done].
  simpl. frame_parts Hs.
  eapply participants_wf_insert; [reflexivity | | done].
  simpl. by apply (Hp _ p).
Qed.

Lemma Subscribe_sound retroID w :
  sound w → sound (EventBroadcaster.Subscribe retroID w).2.
Proof.
  intros Hs. pose proof (Subscribe_hub_wf retroID w) as Hhub.
  frame_parts Hs. by apply Hhub.
Qed.

Lemma Unsubscribe_sound retroID ch w :
  sound w →
  sound (EventBroadcaster.Unsubscribe retroID ch w).2 ∧
  ∀ msg, (EventBroadcaster.Unsubscribe retroID ch w).1 ≠ Panic msg.
Proof.
  intros Hs. pose proof (Unsubscribe_hub_wf retroID ch w) as Hhub.
  destruct (decide (ch ∈ subscribersOf retroID w)) as [Hin|Hout].
  - destruct (Unsubscribe_present retroID ch w) as (i & c & _ & _ & _ & Hrun & _);
      [apply Hs | done |].
    rewrite Hrun in Hhub |- *. simpl in Hhub |- *. split; [|done].
    frame_parts Hs. by apply Hhub.
  - rewrite (Unsubscribe_absent retroID ch w Hout). by split.
Qed.

End SoundPresence.

Section NeverPanics.
Context {RT : GoRuntime}.

Lemma neverPanics_ret {A : Type} (a : A) : neverPanics (mret a).
Proof. intros w msg. done. Qed.

Lemma neverPanics_failWith {A : Type} (e : error) : neverPanics (failWith (A := A) e).
Proof. intros w msg. done. Qed.

Lemma neverPanics_bind {A B : Type} (m : M A) (f : A → M B) :
  neverPanics m → (∀ a, neverPanics (f a)) → neverPanics (m ≫= f).
Proof.
  intros Hm Hf w msg. unfold mbind, M_bind.
  specialize (Hm w). destruct (m w) as [[a|e'|msg'] w1]; simpl in *; [apply Hf | done |].
  by destruct (Hm msg').
Qed.

Lemma neverPanics_ignoreErr {A : Type} (m : M A) :
  neverPanics m → neverPanics (ignoreErr m).
Proof.
  intros Hm w msg. unfold ignoreErr. specialize (Hm w).
  destruct (m w) as [[a|e'|msg'] w1]; simpl in *; [done..|]. by destruct (Hm msg').
Qed.

Lemma neverPanics_onErr {A : Type} (f : error → error) (m : M A) :
  neverPanics m → neverPanics (onErr f m).
Proof.
  intros Hm w msg. unfold onErr. specialize (Hm w).
  destruct (m w) as [[a|e'|msg'] w1]; simpl in *; [done..|]. by destruct (Hm msg').
Qed.

Lemma neverPanics_catch {A : Type} (m : M A) (h : error → M A) :
  neverPanics m → (∀ e, neverPanics (h e)) → neverPanics (catch m h).
Proof.
  intros Hm Hh w msg. unfold catch. specialize (Hm w).
  destruct (m w) as [[a|e'|msg'] w1]; simpl in *; [done | apply Hh |].
  by destruct (Hm msg').
Qed.

Lemma neverPanics_modify (f : World → World) : neverPanics (modify f).
Proof. intros w msg. done. Qed.

Lemma neverPanics_gets {A : Type} (f : World → A) : neverPanics (gets f).
Proof. intros w msg. done. Qed.

Lemma neverPanics_time_Now : neverPanics time_Now.
Proof. intros w msg. done. Qed.

Lemma neverPanics_rangeMap {V : Type} (sel : World → gmap string V) :
  neverPanics (rangeMap sel).
Proof. intros w msg. done. Qed.

Lemma neverPanics_RetroStore_Get id : neverPanics (InMemoryRetrospectiveStore.Get id).
Proof. intros w msg. unfold InMemoryRetrospectiveStore.Get. by case_match. Qed.

Lemma neverPanics_ItemStore_Get id : neverPanics (InMemoryItemStore.Get id).
Proof. intros w msg. unfold InMemoryItemStore.Get. by case_match. Qed.

Lemma neverPanics_IncrementVoteCount id :
  neverPanics (InMemoryItemStore.IncrementVoteCount id).
Proof. intros w msg. unfold InMemoryItemStore.IncrementVoteCount. by case_match. Qed.

Lemma neverPanics_DecrementVoteCount id :
  neverPanics (InMemoryItemStore.DecrementVoteCount id).
Proof. intros w msg. unfold InMemoryItemStore.DecrementVoteCount. by case_match. Qed.

Lemma neverPanics_ParticipantStore_Heartbeat r u :
  neverPanics (InMemoryParticipantStore.Heartbeat r u).
Proof. intros w msg. unfold InMemoryParticipantStore.Heartbeat. by case_match. Qed.

Lemma neverPanics_getContainers ids :
  neverPanics (RetrospectiveService.getContainers ids).
Proof.
  induction ids as [|id ids IH]; simpl; [apply neverPanics_ret|].
  apply neverPanics_bind;
    [apply neverPanics_ignoreErr, neverPanics_RetroStore_Get | intros ?].
  apply neverPanics_bind; [exact IH | intros ?; apply neverPanics_ret].
Qed.

End NeverPanics.

(** one step through an operation that cannot panic *)
Ltac neverPanics_step :=
  lazymatch goal with
  | |- neverPanics (mret _) => apply neverPanics_ret
  | |- neverPanics (failWith _) => apply neverPanics_failWith
  | |- neverPanics (_ ≫= _) => apply neverPanics_bind; [|intros ?]
  | |- neverPanics (ignoreErr _) => apply neverPanics_ignoreErr
  | |- neverPanics (onErr _ _) => apply neverPanics_onErr
  | |- neverPanics (catch _ _) => apply neverPanics_catch; [|intros ?]
  | |- neverPanics (modify _) => apply neverPanics_modify
  | |- neverPanics (gets _) => apply neverPanics_gets
  | |- neverPanics time_Now => apply neverPanics_time_Now
  | |- neverPanics (rangeMap _) => apply neverPanics_rangeMap
  | |- neverPanics (InMemoryRetrospectiveStore.Get _) => apply neverPanics_RetroStore_Get
  | |- neverPanics (InMemoryItemStore.Get _) => apply neverPanics_ItemStore_Get
  | |- neverPanics (InMemoryItemStore.IncrementVoteCount _) =>
      apply neverPanics_IncrementVoteCount
  | |- neverPanics (InMemoryItemStore.DecrementVoteCount _) =>
      apply neverPanics_DecrementVoteCount
  | |- neverPanics (InMemoryParticipantStore.Heartbeat _ _) =>
      apply neverPanics_ParticipantStore_Heartbeat
  | |- neverPanics (RetrospectiveService.getContainers _) =>
      apply neverPanics_getContainers
  | |- neverPanics (if ?b then _ else _) => destruct b
  | |- neverPanics (match ?x with _ => _ end) => destruct x
  | |- neverPanics (let _ := _ in _) => cbv zeta
  | |- neverPanics _ =>
      progress unfold InMemoryRetrospectiveStore.Create, InMemoryRetrospectiveStore.Update,
        InMemoryRetrospectiveStore.Delete, InMemoryRetrospectiveStore.assign,
        InMemoryRetrospectiveStore.List,
        InMemoryItemStore.Create, InMemoryItemStore.Update, InMemoryItemStore.Delete,
        InMemoryItemStore.assign, InMemoryItemStore.ListByRetrospective,
        InMemoryVoteStore.Create, InMemoryVoteStore.Delete,
        InMemoryVoteStore.GetByUserAndItem, InMemoryVoteStore.CountByUser,
        InMemoryVoteStore.ListByUser, InMemoryParticipantStore.ListByRetrospective
  end.

Section Reachable.
Context {RT : GoRuntime}.

Lemma void_snd {A : Type} (r : result A * World) : (void r).2 = r.2.
Proof. done. Qed.

Lemma void_Panic {A : Type} (r : result A * World) (msg : string) :
  (void r).1 = Panic msg → r.1 = Panic msg.
Proof. destruct r as [[a|e'|msg'] w]; unfold void; simpl; intros H; by simplify_eq. Qed.

Lemma run_sound op w :
  sound w → sound (run op w).2 ∧ ∀ msg, (run op w).1 ≠ Panic msg.
Proof.
  intros Hs.
  assert (∀ A (m : M A), neverPanics m → ∀ msg, (void (m w)).1 ≠ Panic msg) as Hnp.
  { intros A m Hm msg Hp. apply void_Panic in Hp. by apply (Hm w msg). }
  assert (∀ A (m : M A), preserves (same storesOf) m → sound (m w).2) as Hro.
  { intros A m Hm. eapply sound_stores; [apply Hm | done]. }
  destruct op; unfold run; rewrite void_snd.
  - split; [by apply retro_Create_sound|]. apply Hnp.
    unfold RetrospectiveService.Create. repeat neverPanics_step.
  - split; [apply Hro|apply Hnp];
      unfold RetrospectiveService.GetMulti; [reads_only | repeat neverPanics_step].
  - split; [apply Hro|apply Hnp];
      unfold RetrospectiveService.List; [reads_only | repeat neverPanics_step].
  - split; [by apply retro_Update_sound|]. apply Hnp.
    unfold RetrospectiveService.Update. repeat neverPanics_step.
  - split; [by apply retro_Delete_sound|]. apply Hnp.
    unfold RetrospectiveService.Delete. repeat neverPanics_step.
  - split; [by apply StartVoting_sound|]. apply Hnp.
    unfold RetrospectiveService.StartVoting. repeat neverPanics_step.
  - split; [by apply StartDiscussion_sound|]. apply Hnp.
    unfold RetrospectiveService.StartDiscussion. repeat neverPanics_step.
  - split; [by apply Complete_sound|]. apply Hnp.
    unfold RetrospectiveService.Complete. repeat neverPanics_step.
  - split; [by apply item_Create_sound|]. apply Hnp.
    unfold RetrospectiveItemService.Create. repeat neverPanics_step.
  - split; [by apply item_Update_sound|]. apply Hnp.
    unfold RetrospectiveItemService.Update. repeat neverPanics_step.
  - split; [by apply item_Delete_sound|]. apply Hnp.
    unfold RetrospectiveItemService.Delete. repeat neverPanics_step.
  - split; [apply Hro|apply Hnp];
      unfold RetrospectiveItemService.List; [reads_only | repeat neverPanics_step].
  - split; [by apply item_MoveToColumn_sound|]. apply Hnp.
    unfold RetrospectiveItemService.MoveToColumn. repeat neverPanics_step.
  - split; [by apply CastVote_sound|]. apply Hnp.
    unfold VotingService.CastVote. repeat neverPanics_step.
  - split; [by apply RemoveVote_sound|]. apply Hnp.
    unfold VotingService.RemoveVote. repeat neverPanics_step.
  - split; [apply Hro|apply Hnp];
      unfold VotingService.GetVoteSummary; [reads_only | repeat neverPanics_step].
  - split; [apply Hro|apply Hnp];
      unfold VotingService.GetUserVotes; [reads_only | repeat neverPanics_step].
  - destruct (Join_sound ctx req w Hs) as [Hsound Hnopanic].
    split; [done|]. intros msg Hp. apply void_Panic in Hp. by apply (Hnopanic msg).
  - destruct (Leave_sound ctx req w Hs) as [Hsound Hnopanic].
    split; [done|]. intros msg Hp. apply void_Panic in Hp. by apply (Hnopanic msg).
  - split; [apply Hro|apply Hnp];
      unfold RealtimeService.GetParticipants; [reads_only | repeat neverPanics_step].
  - split; [by apply Heartbeat_sound|]. apply Hnp.
    unfold RealtimeService.Heartbeat. repeat neverPanics_step.
  - split; [by apply Subscribe_sound|]. done.
  - destruct (Unsubscribe_sound retroID ch w Hs) as [Hsound Hnopanic].
    split; [done|]. intros msg Hp. apply void_Panic in Hp. by apply (Hnopanic msg).
Qed.

Lemma runAll_sound ops w : sound w → sound (runAll ops w).
Proof.
  revert w. induction ops as [|op ops IH]; intros w Hs; [done|].
  simpl. apply IH. by apply run_sound.
Qed.

End Reachable.

(** X11 (the calls of the retrospective, item, voting and realtime
    services and of the broadcaster, from NewInMemory...Store and
    NewEventBroadcaster on): in every state that a freshly started server
    reaches by any sequence of these calls, every retrospective, card, vote
    and presence record
    is filed under its own id, the subscriber registry holds each open
    queue once, and every retrospective is in the DRAFT, VOTING, DISCUSSING
    or COMPLETED phase (no operation ever assigns ACTIVE), has a positive
    vote limit and at least one column; in such a state no call panics: no
    channel is closed twice and nothing is sent on a closed channel. *)
Theorem reachable_states_sound `{!GoRuntime} (ops : list Op) :
  let w := runAll ops newWorld in
  retros_wf w ∧ items_wf w ∧ votes_wf w ∧ participants_wf w ∧ hub_wf w ∧
  (∀ id retro, retros w !! id = Some retro →
     Retrospective.Status retro ≠ RetrospectiveStatusActive ∧
     Retrospective.Status retro ≠ RetrospectiveStatusUnspecified ∧
     (0 < VotingConfig.MaxVotesPerUser (Retrospective.VotingConfig retro))%Z ∧
     Retrospective.TemplateColumns retro ≠ []) ∧
  (∀ op msg, (run op w).1 ≠ Panic msg).
Proof.
  intros w.
  pose proof (runAll_sound ops newWorld sound_newWorld) as Hs. fold w in Hs.
  pose proof Hs as ((Hr & Hok) & Hi & Hv & Hp & Hh).
  do 5 (split; [done|]). split.
  - intros id retro Hget. destruct (Hok id retro Hget) as (Hst & Hmax & Hcols).
    rewrite !elem_of_cons, elem_of_nil in Hst.
    split; [|split; [|by split]]; intros Heq; rewrite Heq in Hst;
      by destruct Hst as [?|[?|[?|[?|[]]]]].
  - intros op msg. by apply run_sound.
Qed.

(** ** The voting service: limits and vote counts *)

Section VotingInvariants.
Context {RT : GoRuntime}.

Lemma countVotes_le_size (P : Vote.t → Prop) `{!∀ v, Decision (P v)}
    (m : gmap string Vote.t) :
  countVotes P m ≤ size m.
Proof.
  unfold countVotes. etrans; [apply length_filter|].
  by rewrite length_fmap, length_map_to_list.
Qed.

Lemma countVotes_delete_le (P : Vote.t → Prop) `{!∀ v, Decision (P v)}
    (m : gmap string Vote.t) (k : string) :
  countVotes P (delete k m) ≤ countVotes P m.
Proof.
  destruct (m !! k) as [v|] eqn:Hk.
  - rewrite (countVotes_delete P m k v Hk). lia.
  - by rewrite delete_id.
Qed.

Lemma CastVote_limits ctx req w :
  limits_ok w →
  (Z.of_nat (size (votes w)) < 2147483648)%Z →
  limits_ok (VotingService.CastVote ctx req w).2.
Proof.
  intros Hlim Hsize.
  assert (∀ w', retros w' = retros w → votes w' = votes w → limits_ok w') as Hsame.
  { intros w' Hr Hv id retro userID. unfold votesOfUser. rewrite Hr, Hv. apply Hlim. }
  rewrite CastVote_run. unfold castVoteOutcome.
  repeat (case_decide; [by apply Hsame|]).
  destruct (retros w !! pb.CastVoteRequest.RetrospectiveId req) as [retro|] eqn:Hget;
    [|by apply Hsame].
  case_decide; [by apply Hsame|].
  destruct (items w !! pb.CastVoteRequest.ItemId req) as [item|]; [|by apply Hsame].
  case_decide; [by apply Hsame|].
  case_decide; [by apply Hsame|].
  case_decide as Hcheck; [by apply Hsame|].
  intros id retro' userID Hid. simpl in Hid |- *.
  unfold votesOfUser. simpl. rewrite countVotes_insert.
  pose proof (countVotes_delete_le (InMemoryVoteStore.byUser id userID) (votes w)
                ("VOTE-" +:+ pretty (wallClock (clockReads w)))) as Hle.
  specialize (Hlim id retro' userID Hid). unfold votesOfUser in Hlim.
  case_decide as Hmine; [|lia].
  destruct Hmine as [Hr Hu]. simpl in Hr, Hu. subst id userID.
  rewrite Hget in Hid. injection Hid as <-.
  pose proof (countVotes_le_size
                (InMemoryVoteStore.byUser (pb.CastVoteRequest.RetrospectiveId req)
                   (getUserIDFromContext ctx)) (votes w)) as Hbound.
  unfold votesOfUser in Hcheck. rewrite int32_id in Hcheck by lia. lia.
Qed.

Lemma RemoveVote_limits ctx req w :
  limits_ok w → limits_ok (VotingService.RemoveVote ctx req w).2.
Proof.
  intros Hlim.
  assert (∀ w', retros w' = retros w → votes w' = votes w → limits_ok w') as Hsame.
  { intros w' Hr Hv id retro userID. unfold votesOfUser. rewrite Hr, Hv. apply Hlim. }
  destruct (decide (pb.RemoveVoteRequest.RetrospectiveId req = "")) as [Hr|Hr].
  { unfold VotingService.RemoveVote. rewrite bool_decide_eq_true_2 by done.
    by apply Hsame. }
  destruct (decide (pb.RemoveVoteRequest.ItemId req = "")) as [Hi|Hi].
  { unfold VotingService.RemoveVote.
    rewrite bool_decide_eq_false_2 by done. rewrite bool_decide_eq_true_2 by done.
    by apply Hsame. }
  destruct (RemoveVote_cases ctx req w Hr Hi) as [[_ ->]|(k & vote & Hk & _ & ->)];
    [by apply Hsame|].
  intros id retro userID Hid. simpl in Hid |- *.
  rewrite retros_removeVoteWorld in Hid.
  specialize (Hlim id retro userID Hid).
  assert (votes (removeVoteWorld (pb.RemoveVoteRequest.ItemId req) vote w)
          = delete (Vote.VoteID vote) (votes w)) as Hvotes
    by (unfold removeVoteWorld; by case_match).
  unfold votesOfUser in *. rewrite Hvotes.
  pose proof (countVotes_delete_le (InMemoryVoteStore.byUser id userID) (votes w)
                (Vote.VoteID vote)). lia.
Qed.

End VotingInvariants.

(** X12 (VotingService.CastVote, RemoveVote): the vote limit is an
    invariant of voting: in a state in which no user holds more votes in a
    retrospective than its limit (and fewer than 2^31 votes are stored, so
    that the int32 conversion of the count is exact), this is still so
    after any CastVote and after any RemoveVote, accepted or not. *)
Theorem voting_respects_limits `{!GoRuntime} (ctx : context.Context)
    (cast : pb.CastVoteRequest.t) (remove : pb.RemoveVoteRequest.t) (w : World) :
  limits_ok w →
  (Z.of_nat (size (votes w)) < 2147483648)%Z →
  limits_ok (VotingService.CastVote ctx cast w).2 ∧
  limits_ok (VotingService.RemoveVote ctx remove w).2.
Proof.
  intros Hlim Hsize. split; [by apply CastVote_limits | by apply RemoveVote_limits].
Qed.

Lemma limits_ok_votingWorld : limits_ok votingWorld.
Proof.
  intros id retro userID Hid.
  assert (votesOfUser id userID votingWorld = 0) as -> by reflexivity.
  assert (map_Forall (λ _ r, (0 ≤ VotingConfig.MaxVotesPerUser
                                    (Retrospective.VotingConfig r))%Z)
            (retros votingWorld)) as Hall
    by (refine (bool_decide_unpack _ _); vm_compute; exact I).
  exact (Hall id retro Hid).
Qed.

Lemma voting_respects_limits_witness :
  limits_ok
    (VotingService.CastVote (H := simRuntime 1000) context.Background
       (pb.CastVoteRequest.mk "R" "A") votingWorld).2 ∧
  limits_ok
    (VotingService.RemoveVote (H := simRuntime 1000) context.Background
       (pb.RemoveVoteRequest.mk "R" "A") votingWorld).2.
Proof.
  apply (voting_respects_limits (H := simRuntime 1000)).
  - exact limits_ok_votingWorld.
  - vm_compute. reflexivity.
Defined.

Section VotingTally.
Context {RT : GoRuntime}.

Lemma tally_ok_same w w' :
  items w' = items w → votes w' = votes w → tally_ok w → tally_ok w'.
Proof. unfold tally_ok, votesOnItem. by intros -> ->. Qed.

Lemma CastVote_tally ctx req w :
  tally_ok w →
  (Z.of_nat (size (votes w)) < 2147483647)%Z →
  votes w !! ("VOTE-" +:+ pretty (wallClock (clockReads w))) = None →
  tally_ok (VotingService.CastVote ctx req w).2.
Proof.
  intros Htally Hsize Hfresh.
  rewrite CastVote_run. unfold castVoteOutcome.
  repeat (case_decide; [by apply (tally_ok_same w)|]).
  destruct (retros w !! pb.CastVoteRequest.RetrospectiveId req) as [retro|] eqn:Hget;
    [|by apply (tally_ok_same w)].
  case_decide; [by apply (tally_ok_same w)|].
  destruct (items w !! pb.CastVoteRequest.ItemId req) as [item|] eqn:Hitem;
    [|by apply (tally_ok_same w)].
  repeat (case_decide; [by apply (tally_ok_same w)|]).
  intros k item' Hk. unfold castVoteWorld in Hk |- *. simpl in Hk.
  unfold votesOnItem. simpl. rewrite countVotes_insert_fresh by done. simpl.
  pose proof (countVotes_le_size
                (λ vote, Vote.ItemID vote = pb.CastVoteRequest.ItemId req) (votes w)) as Hle.
  apply lookup_insert_Some in Hk as [[<- <-]|[Hne Hk]].
  - simpl. rewrite decide_True by done.
    rewrite (Htally _ _ Hitem). unfold votesOnItem.
    rewrite int32_id by lia. lia.
  - rewrite decide_False by done. exact (Htally _ _ Hk).
Qed.

Lemma RemoveVote_tally ctx req w :
  votes_wf w →
  tally_ok w →
  (Z.of_nat (size (votes w)) < 2147483648)%Z →
  tally_ok (VotingService.RemoveVote ctx req w).2.
Proof.
  intros Hwf Htally Hsize.
  destruct (decide (pb.RemoveVoteRequest.RetrospectiveId req = "")) as [Hr|Hr].
  { unfold VotingService.RemoveVote. rewrite bool_decide_eq_true_2 by done.
    by apply (tally_ok_same w). }
  destruct (decide (pb.RemoveVoteRequest.ItemId req = "")) as [Hi|Hi].
  { unfold VotingService.RemoveVote.
    rewrite bool_decide_eq_false_2 by done. rewrite bool_decide_eq_true_2 by done.
    by apply (tally_ok_same w). }
  destruct (RemoveVote_cases ctx req w Hr Hi)
    as [[_ ->]|(k & vote & Hk & (_ & Hitem & _) & ->)];
    [by apply (tally_ok_same w)|].
  pose proof (Hwf k vote Hk) as Hid. simpl in Hid. simpl.
  unfold removeVoteWorld. rewrite Hid.
  assert (∀ k', votesOnItem k' w =
            (if decide (pb.RemoveVoteRequest.ItemId req = k') then 1 else 0)
            + countVotes (λ v, Vote.ItemID v = k') (delete k (votes w))) as Hcount.
  { intros k'. unfold votesOnItem.
    rewrite (countVotes_delete _ (votes w) k vote Hk). rewrite Hitem.
    by repeat case_decide. }
  pose proof (countVotes_le_size
                (λ v, Vote.ItemID v = pb.RemoveVoteRequest.ItemId req) (votes w)) as Hle.
  destruct (items w !! pb.RemoveVoteRequest.ItemId req) as [item|] eqn:Hget.
  - intros k' item' Hk'. unfold votesOnItem. simpl in Hk' |- *.
    apply lookup_insert_Some in Hk' as [[<- <-]|[Hne Hk']].
    + pose proof (Htally _ _ Hget) as Hitem'. simpl in Hitem'.
      rewrite Hcount, decide_True in Hitem' by done.
      unfold votesOnItem in Hle.
      pose proof (Hcount (pb.RemoveVoteRequest.ItemId req)) as Hc.
      rewrite decide_True in Hc by done. unfold votesOnItem in Hc.
      destruct (Z.ltb_spec 0 (RetrospectiveItem.VoteCount item)); [|lia].
      simpl. rewrite int32_id by lia. lia.
    + pose proof (Htally _ _ Hk') as Hitem'. simpl in Hitem'.
      rewrite Hcount, decide_False in Hitem' by done. exact Hitem'.
  - intros k' item' Hk'. unfold votesOnItem. simpl in Hk' |- *.
    pose proof (Htally _ _ Hk') as Hitem'. simpl in Hitem'.
    rewrite Hcount, decide_False in Hitem'; [done|].
    intros <-. by rewrite Hget in Hk'.
Qed.

End VotingTally.

(** X13 (VotingService.CastVote): the vote counts stay exact under
    CastVote: in a state in which the vote count of every card is the
    number of votes stored for it, this is still so after any CastVote,
    accepted or not, provided that the clock reading that names the new vote
    is not already the id of a stored vote (and fewer than 2^31 - 1 votes are
    stored). *)
Theorem CastVote_keeps_tally `{!GoRuntime} (ctx : context.Context)
    (req : pb.CastVoteRequest.t) (w : World) :
  tally_ok w →
  (Z.of_nat (size (votes w)) < 2147483647)%Z →
  votes w !! ("VOTE-" +:+ pretty (wallClock (clockReads w))) = None →
  tally_ok (VotingService.CastVote ctx req w).2.
Proof. apply CastVote_tally. Qed.

Lemma CastVote_keeps_tally_witness :
  tally_ok
    (VotingService.CastVote (H := simRuntime 1000) context.Background
       (pb.CastVoteRequest.mk "R" "B") votedOnceWorld).2.
Proof.
  apply (CastVote_keeps_tally (H := simRuntime 1000)).
  - refine (bool_decide_unpack _ _). vm_compute. exact I.
  - vm_compute. reflexivity.
  - vm_compute. reflexivity.
Defined.

(** X14 (VotingService.RemoveVote): the vote counts stay exact under
    RemoveVote: in a state in which every vote is filed under its own id
    and the vote count of every card is the number of votes stored for it
    (fewer than 2^31 of them), this is still so after any RemoveVote,
    accepted or not. *)
Theorem RemoveVote_keeps_tally `{!GoRuntime} (ctx : context.Context)
    (req : pb.RemoveVoteRequest.t) (w : World) :
  votes_wf w →
  tally_ok w →
  (Z.of_nat (size (votes w)) < 2147483648)%Z →
  tally_ok (VotingService.RemoveVote ctx req w).2.
Proof. apply RemoveVote_tally. Qed.

Lemma RemoveVote_keeps_tally_witness :
  tally_ok
    (VotingService.RemoveVote (H := simRuntime 1000) context.Background
       (pb.RemoveVoteRequest.mk "R" "A") votedOnceWorld).2.
Proof.
  apply (RemoveVote_keeps_tally (H := simRuntime 1000)).
  - refine (bool_decide_unpack _ _). vm_compute. exact I.
  - refine (bool_decide_unpack _ _). vm_compute. exact I.
  - vm_compute. reflexivity.
Defined.

Section Presence.
Context {RT : GoRuntime}.

Lemma online_insert (retroID k : string) (p : Participant.t)
    (m : gmap string Participant.t) :
  length (filter (InMemoryParticipantStore.onlineIn retroID) (map_to_list (<[k := p]> m)).*2)
  + match m !! k with
    | Some p0 => if decide (InMemoryParticipantStore.onlineIn retroID p0) then 1 else 0
    | None => 0
    end
  = length (filter (InMemoryParticipantStore.onlineIn retroID) (map_to_list m).*2)
    + (if decide (InMemoryParticipantStore.onlineIn retroID p) then 1 else 0).
Proof.
  destruct (m !! k) as [p0|] eqn:Hk.
  - rewrite <- (map_to_list_delete m k p0 Hk).
    rewrite <- (insert_delete_eq m k p).
    rewrite (map_to_list_insert (delete k m) k p) by apply lookup_delete_eq.
    simpl. rewrite !filter_cons.
    destruct (decide (InMemoryParticipantStore.onlineIn retroID p)),
      (decide (InMemoryParticipantStore.onlineIn retroID p0)); simpl;
      rewrite ?Nat.add_0_r, ?Nat.add_1_r; reflexivity.
  - rewrite (map_to_list_insert m k p Hk). simpl. rewrite filter_cons.
    destruct (decide (InMemoryParticipantStore.onlineIn retroID p)); simpl;
      rewrite ?Nat.add_0_r, ?Nat.add_1_r; reflexivity.
Qed.

Lemma LeaveRetrospective_run ctx req w :
  let retroID := pb.LeaveRetrospectiveRequest.RetrospectiveId req in
  let userID := getUserIDFromContext ctx in
  retroID ≠ "" →
  hub_wf w →
  ∃ w' t,
    let count := int32 (Z.of_nat (onlineCount retroID w')) in
    RealtimeService.LeaveRetrospective ctx req w = (Ok (), w') ∧
    participants w' = leftParticipants retroID userID w ∧
    subscribers w' = subscribers w ∧
    length (channels w') = length (channels w) ∧
    (∀ ch, ch ∈ subscribersOf retroID w →
       channels w' !! ch
       = offered (leftEvent retroID userID t count)
           <$> channels w !! ch) ∧
    (∀ ch, ch ∉ subscribersOf retroID w → channels w' !! ch = channels w !! ch) ∧
    (∀ retro, retros w !! retroID = Some retro →
       Retrospective.ParticipantCount <$> retros w' !! retroID = Some count) ∧
    (retros w !! retroID = None → retros w' = retros w) ∧
    items w' = items w ∧ votes w' = votes w.
Proof.
  intros retroID userID Hr Hwf.
  unfold RealtimeService.LeaveRetrospective.
  rewrite bool_decide_eq_false_2 by done.
  unfold mbind, M_bind, onErr, ignoreErr, InMemoryRetrospectiveStore.Get,
    InMemoryParticipantStore.Leave, InMemoryParticipantStore.ListByRetrospective,
    InMemoryRetrospectiveStore.assign, InMemoryRetrospectiveStore.Update,
    mbind, M_bind, rangeMap, time_Now, modify.
  fold retroID userID. unfold leftParticipants.
  destruct (participants w !! _) as [p|] eqn:Hp0; cbn -[EventBroadcaster.Broadcast].
  all: match goal with
       | |- context [EventBroadcaster.Broadcast ?r ?ev ?w2] =>
           destruct (Broadcast_spec r ev w2) as (chans & Hrun & Hlen & Hin & Hout);
             [by apply (hub_wf_same_hub w) | rewrite Hrun]
       end; cbn.
  all: destruct (retros w !! retroID) as [retro|] eqn:Hget; cbn.
  all: eexists _, _; (split; [reflexivity|]); unfold participantAt; rewrite Hp0; cbn.
  all: unfold onlineCount; cbn; rewrite ?range_filter_length in *.
  all: split; [reflexivity|]; split; [reflexivity|]; split; [exact Hlen|].
  all: split; [intros ch Hch; by rewrite (Hin ch Hch)|].
  all: split; [intros ch Hch; by rewrite (Hout ch Hch)|].
  all: split; [|by split].
  all: intros retro' Hretro'; try discriminate.
  all: match goal with
       | |- _ <$> <[?k := Retrospective.withUpdated ?u ?r]> (<[_ := _]> ?m) !! _ = _ =>
           destruct (lookup_assign_update retroID k r m u) as (r' & -> & _ & _ & Hpc)
       end; simpl; by rewrite Hpc.
Qed.

Lemma LeaveRetrospective_online ctx req w :
  let retroID := pb.LeaveRetrospectiveRequest.RetrospectiveId req in
  let userID := getUserIDFromContext ctx in
  retroID ≠ "" →
  hub_wf w →
  onlineCount retroID (RealtimeService.LeaveRetrospective ctx req w).2
  + onlineAs retroID userID w = onlineCount retroID w.
Proof.
  intros retroID userID Hr Hwf.
  destruct (LeaveRetrospective_run ctx req w Hr Hwf) as (w' & t & Hrun & Hp & _).
  rewrite Hrun. simpl. fold retroID userID in Hp.
  unfold onlineCount, onlineAs. rewrite Hp. unfold leftParticipants.
  destruct (participantAt retroID userID w) as [p|] eqn:Hat; [|lia].
  pose proof (online_insert retroID (InMemoryParticipantStore.key retroID userID)
                (Participant.withLastActive (time.At (wallClock (clockReads w)))
                   (Participant.withIsOnline false p)) (participants w)) as Hins.
  unfold participantAt in Hat. rewrite Hat in Hins.
  rewrite Hins. rewrite decide_False; [lia|]. by intros [_ ?].
Qed.

Lemma LeaveRetrospective_wf ctx req w :
  pb.LeaveRetrospectiveRequest.RetrospectiveId req ≠ "" →
  hub_wf w →
  participants_wf w →
  participants_wf (RealtimeService.LeaveRetrospective ctx req w).2.
Proof.
  intros Hr Hwf Hpwf.
  destruct (LeaveRetrospective_run ctx req w Hr Hwf) as (w' & t & Hrun & Hp & _).
  rewrite Hrun. simpl. unfold leftParticipants in Hp.
  destruct (participantAt _ _ w) as [p|] eqn:Hat.
  - eapply participants_wf_insert; [exact Hp | | done]. simpl. by apply (Hpwf _ p).
  - by apply (participants_wf_same w).
Qed.

Lemma GetParticipants_run ctx req w :
  pb.GetParticipantsRequest.RetrospectiveId req ≠ "" →
  ∃ present,
    RealtimeService.GetParticipants ctx req w
      = (Ok (pb.GetParticipantsResponse.mk (convertPresenceInfo present)),
         setMapRanges (S (mapRanges w)) w) ∧
    present ≡ₚ filter (InMemoryParticipantStore.onlineIn
                         (pb.GetParticipantsRequest.RetrospectiveId req))
                 (map_to_list (participants w)).*2.
Proof.
  intros Hr. unfold RealtimeService.GetParticipants.
  rewrite bool_decide_eq_false_2 by done.
  unfold mbind, M_bind, onErr, InMemoryParticipantStore.ListByRetrospective,
    mbind, M_bind, rangeMap. cbn.
  eexists. split; [reflexivity|]. by rewrite range_values_perm.
Qed.

Lemma Heartbeat_run ctx req p w :
  let retroID := pb.HeartbeatRequest.RetrospectiveId req in
  let userID := getUserIDFromContext ctx in
  retroID ≠ "" →
  participantAt retroID userID w = Some p →
  RealtimeService.Heartbeat ctx req w
  = (Ok (),
     setParticipants
       (<[InMemoryParticipantStore.key retroID userID :=
            Participant.withIsOnline true
              (Participant.withLastActive (time.At (wallClock (clockReads w))) p)]>
          (participants w))
       (setClockReads (S (clockReads w)) w)).
Proof.
  intros retroID userID Hr Hat. unfold RealtimeService.Heartbeat.
  rewrite bool_decide_eq_false_2 by done.
  unfold onErr, InMemoryParticipantStore.Heartbeat. fold retroID userID.
  unfold participantAt in Hat. rewrite Hat. reflexivity.
Qed.

End Presence.

(** X15 (RealtimeService.LeaveRetrospective): leaving a retrospective
    never fails when an id is given, whether or not the retrospective exists
    and whether or not the user had joined. The record of the user, if there
    is one, goes offline (no record is created), the number of online
    participants drops by one exactly when the user was online, that number
    is stored as the participant count of the retrospective if it exists (no
    retrospective is created), and every subscriber of the retrospective is
    offered a ParticipantLeft event with that number, even when the user had
    never joined. *)
Theorem LeaveRetrospective_effect `{!GoRuntime} (ctx : context.Context)
    (req : pb.LeaveRetrospectiveRequest.t) (w : World) :
  let retroID := pb.LeaveRetrospectiveRequest.RetrospectiveId req in
  let userID := getUserIDFromContext ctx in
  retroID ≠ "" →
  hub_wf w →
  ∃ w' t,
    let count := int32 (Z.of_nat (onlineCount retroID w')) in
    RealtimeService.LeaveRetrospective ctx req w = (Ok (), w') ∧
    participants w' = leftParticipants retroID userID w ∧
    onlineCount retroID w' + onlineAs retroID userID w = onlineCount retroID w ∧
    (∀ retro, retros w !! retroID = Some retro →
       Retrospective.ParticipantCount <$> retros w' !! retroID = Some count) ∧
    (retros w !! retroID = None → retros w' = retros w) ∧
    (∀ ch, ch ∈ subscribersOf retroID w →
       channels w' !! ch = offered (leftEvent retroID userID t count) <$> channels w !! ch) ∧
    (∀ ch, ch ∉ subscribersOf retroID w → channels w' !! ch = channels w !! ch).
Proof.
  intros retroID userID Hr Hwf.
  pose proof (LeaveRetrospective_online ctx req w Hr Hwf) as Hcount.
  destruct (LeaveRetrospective_run ctx req w Hr Hwf)
    as (w' & t & Hrun & Hp & _ & _ & Hin & Hout & Hpc & Hnone & _).
  rewrite Hrun in Hcount. exists w', t. by repeat split.
Qed.

Lemma LeaveRetrospective_effect_witness :
  ∃ w' t,
    RealtimeService.LeaveRetrospective (H := simRuntime 1000) context.Background
      (pb.LeaveRetrospectiveRequest.mk "R") (watchedWorld RetrospectiveStatusActive)
    = (Ok (), w') ∧
    participants w' = participants (watchedWorld RetrospectiveStatusActive) ∧
    Retrospective.ParticipantCount <$> retros w' !! "R" = Some 0%Z ∧
    chanBuf <$> channels w' !! 0 = Some [leftEvent "R" "mock-user-id" t 0].
Proof.
  destruct (LeaveRetrospective_effect (H := simRuntime 1000) context.Background
              (pb.LeaveRetrospectiveRequest.mk "R")
              (watchedWorld RetrospectiveStatusActive))
    as (w' & t & Hrun & Hp & Hcount & Hpc & _ & Hin & _).
  - done.
  - refine (bool_decide_unpack _ _). vm_compute. exact I.
  - exists w', t. split; [exact Hrun|].
    assert (onlineCount "R" w' = 0) as Hzero.
    { assert (onlineCount "R" (watchedWorld RetrospectiveStatusActive) = 0) as H0
        by (vm_compute; reflexivity).
      simpl in Hcount. rewrite H0 in Hcount. lia. }
    simpl in Hpc, Hin. rewrite Hzero in Hpc, Hin.
    split; [exact Hp|]. split; [by eapply Hpc|].
    rewrite (Hin 0); [reflexivity|]. vm_compute. apply list_elem_of_here.
Defined.

(** X16 (RealtimeService.LeaveRetrospective, GetParticipants): after a user
    has left a retrospective, GetParticipants for it answers without error
    with a list that does not contain the user, and the participant count it
    reports is the one stored with the retrospective, provided every
    presence record is filed under the key of its retrospective and user. *)
Theorem Leave_then_GetParticipants `{!GoRuntime} (ctx : context.Context)
    (req : pb.LeaveRetrospectiveRequest.t) (w : World) :
  let retroID := pb.LeaveRetrospectiveRequest.RetrospectiveId req in
  let userID := getUserIDFromContext ctx in
  retroID ≠ "" →
  hub_wf w →
  participants_wf w →
  let w1 := (RealtimeService.LeaveRetrospective ctx req w).2 in
  ∃ resp w2,
    RealtimeService.GetParticipants ctx (pb.GetParticipantsRequest.mk retroID) w1
      = (Ok resp, w2) ∧
    Forall (λ p, pb.Participant.UserId p ≠ userID)
      (pb.PresenceInfo.Participants (pb.GetParticipantsResponse.Presence resp)) ∧
    (∀ retro, retros w1 !! retroID = Some retro →
       Retrospective.ParticipantCount retro
       = pb.PresenceInfo.ParticipantCount (pb.GetParticipantsResponse.Presence resp)).
Proof.
  intros retroID userID Hr Hwf Hpwf w1.
  pose proof (LeaveRetrospective_wf ctx req w Hr Hwf Hpwf) as Hpwf1. fold w1 in Hpwf1.
  destruct (LeaveRetrospective_run ctx req w Hr Hwf)
    as (w' & t & Hrun & Hp & _ & _ & _ & _ & Hpc & Hnone & _).
  assert (w1 = w') as Hw1 by (unfold w1; by rewrite Hrun). clearbody w1. subst w'.
  destruct (GetParticipants_run ctx (pb.GetParticipantsRequest.mk retroID) w1 Hr)
    as (present & Hget & Hperm). simpl in Hperm.
  eexists _, _. split; [exact Hget|]. simpl. split.
  - apply Forall_fmap, Forall_forall. intros p Hin. simpl.
    rewrite Hperm in Hin. apply list_elem_of_filter in Hin as [[Hretro Hon] Hin].
    apply list_elem_of_fmap in Hin as ([k p'] & -> & Hin).
    apply elem_of_map_to_list in Hin. simpl in *.
    intros Huser. pose proof (Hpwf1 k p' Hin) as Hk. simpl in Hk.
    rewrite Hretro, Huser in Hk. subst k.
    rewrite Hp in Hin. unfold leftParticipants, participantAt in Hin.
    fold retroID userID in Hin.
    destruct (participants w !! InMemoryParticipantStore.key retroID userID)
      as [p0|] eqn:Hat.
    + rewrite lookup_insert_eq in Hin. injection Hin as <-. done.
    + by rewrite Hat in Hin.
  - intros retro Hretro.
    assert (length present = onlineCount retroID w1) as ->
      by (unfold onlineCount; by rewrite Hperm).
    destruct (retros w !! retroID) as [retro0|] eqn:Hget0.
    + specialize (Hpc retro0 Hget0). fold retroID in Hpc.
      rewrite Hretro in Hpc. simpl in Hpc. by injection Hpc.
    + (* a retrospective that did not exist is not created *)
      rewrite (Hnone Hget0) in Hretro. by rewrite Hget0 in Hretro.
Qed.

Lemma Leave_then_GetParticipants_witness :
  ∃ resp w2,
    RealtimeService.GetParticipants (H := simRuntime 1000) context.Background
      (pb.GetParticipantsRequest.mk "R")
      (RealtimeService.LeaveRetrospective (H := simRuntime 1000) context.Background
         (pb.LeaveRetrospectiveRequest.mk "R") presentWorld).2
      = (Ok resp, w2) ∧
    Forall (λ p, pb.Participant.UserId p ≠ "mock-user-id")
      (pb.PresenceInfo.Participants (pb.GetParticipantsResponse.Presence resp)).
Proof.
  destruct (Leave_then_GetParticipants (H := simRuntime 1000) context.Background
              (pb.LeaveRetrospectiveRequest.mk "R") presentWorld)
    as (resp & w2 & Hrun & Hall & _).
  - done.
  - refine (bool_decide_unpack _ _). vm_compute. exact I.
  - refine (bool_decide_unpack _ _). vm_compute. exact I.
  - by exists resp, w2.
Defined.

(** X17 (RealtimeService.Heartbeat, InMemoryParticipantStore.Heartbeat): a
    heartbeat of a participant who has left brings the participant back
    online: the number of online participants of the retrospective goes up
    by one, yet no event is published and the participant count stored with
    the retrospective is not updated. *)
Theorem Heartbeat_revives `{!GoRuntime} (ctx : context.Context)
    (req : pb.HeartbeatRequest.t) (p : Participant.t) (w : World) :
  let retroID := pb.HeartbeatRequest.RetrospectiveId req in
  let userID := getUserIDFromContext ctx in
  retroID ≠ "" →
  participantAt retroID userID w = Some p →
  Participant.RetrospectiveID p = retroID →
  Participant.IsOnline p = false →
  let w' := (RealtimeService.Heartbeat ctx req w).2 in
  (RealtimeService.Heartbeat ctx req w).1 = Ok () ∧
  Participant.IsOnline <$> participantAt retroID userID w' = Some true ∧
  onlineCount retroID w' = S (onlineCount retroID w) ∧
  retros w' = retros w ∧
  hubOf w' = hubOf w.
Proof.
  intros retroID userID Hr Hat Hretro Hoff w'. subst w'.
  rewrite (Heartbeat_run ctx req p w Hr Hat). fold retroID userID. simpl.
  split; [done|]. split.
  { unfold participantAt. simpl. by rewrite lookup_insert_eq. }
  split; [|done].
  unfold onlineCount. simpl.
  pose proof (online_insert retroID (InMemoryParticipantStore.key retroID userID)
                (Participant.withIsOnline true
                   (Participant.withLastActive (time.At (wallClock (clockReads w))) p))
                (participants w)) as Hins.
  unfold participantAt in Hat. rewrite Hat in Hins.
  rewrite decide_False in Hins by (intros [_ Hon]; congruence).
  rewrite decide_True in Hins by (split; [exact Hretro | reflexivity]).
  lia.
Qed.

Lemma Heartbeat_revives_witness :
  let w' := (RealtimeService.Heartbeat (H := simRuntime 1000) context.Background
               (pb.HeartbeatRequest.mk "R") leftWorld).2 in
  onlineCount "R" w' = 1 ∧
  Retrospective.ParticipantCount <$> retros w' !! "R" = Some 0%Z.
Proof.
  destruct (Heartbeat_revives (H := simRuntime 1000) context.Background
              (pb.HeartbeatRequest.mk "R")
              (Participant.mk "R:mock-user-id" "R" "mock-user-id" "Mock User" ""
                 ParticipantRoleFacilitator false (time.At 5) (time.At 9))
              leftWorld)
    as (_ & _ & Hcount & Hretros & _); [done | reflexivity | done | done |].
  intros w'. split.
  - etrans; [exact Hcount|]. vm_compute. reflexivity.
  - etrans; [exact (f_equal (λ m, Retrospective.ParticipantCount <$> m !! "R") Hretros)|].
    vm_compute. reflexivity.
Defined.

(** ** Voting after the end of the voting phase *)

Section AfterVoting.
Context {RT : GoRuntime}.

Lemma CastVote_wrong_phase ctx req retro w :
  pb.CastVoteRequest.RetrospectiveId req ≠ "" →
  pb.CastVoteRequest.ItemId req ≠ "" →
  retros w !! pb.CastVoteRequest.RetrospectiveId req = Some retro →
  Retrospective.Status retro ≠ RetrospectiveStatusVoting →
  Retrospective.Status retro ≠ RetrospectiveStatusActive →
  VotingService.CastVote ctx req w
  = (Err (ToGRPCError (Errorf ErrInvalidStatus "voting is not currently allowed")), w).
Proof.
  intros Hr Hi Hget Hv Ha. rewrite CastVote_run. unfold castVoteOutcome.
  rewrite !decide_False by done. rewrite Hget. by rewrite decide_True.
Qed.

Lemma RemoveVote_result_votes ctx req w w' :
  votes w' = votes w →
  (VotingService.RemoveVote ctx req w').1 = (VotingService.RemoveVote ctx req w).1.
Proof.
  intros Hvotes.
  destruct (decide (pb.RemoveVoteRequest.RetrospectiveId req = "")) as [Hr|Hr].
  { unfold VotingService.RemoveVote. by rewrite !bool_decide_eq_true_2 by done. }
  destruct (decide (pb.RemoveVoteRequest.ItemId req = "")) as [Hi|Hi].
  { unfold VotingService.RemoveVote.
    rewrite !(bool_decide_eq_false_2 (_ = "")) by done.
    by rewrite !bool_decide_eq_true_2 by done. }
  destruct (RemoveVote_cases ctx req w Hr Hi) as [[Hz ->]|(k & vote & Hk & HP & ->)];
    destruct (RemoveVote_cases ctx req w' Hr Hi)
      as [[Hz' ->]|(k' & vote' & Hk' & HP' & ->)]; try done.
  - exfalso. unfold votesOfUserOnItem in Hz. rewrite <- Hvotes in Hz.
    by eapply (proj1 (countVotes_zero _ _) Hz k' vote').
  - exfalso. unfold votesOfUserOnItem in Hz'. rewrite Hvotes in Hz'.
    by eapply (proj1 (countVotes_zero _ _) Hz' k vote).
Qed.

End AfterVoting.

(** X18 (RetrospectiveService.Complete, VotingService.CastVote,
    RemoveVote): a successful Complete leaves the retrospective stored as
    COMPLETED, and in every state in which a retrospective is stored as
    COMPLETED a CastVote for it changes nothing and is refused: with
    FailedPrecondition (voting is not currently allowed) when the request
    has a retrospective id and an item id, whatever the item, and with
    InvalidArgument when one of the two is empty.  RemoveVote, which does
    not look at the retrospective, is not affected: it answers after
    Complete as it would have before, so a vote can still be withdrawn. *)
Theorem voting_after_Complete `{!GoRuntime} (ctx : context.Context)
    (co : pb.CompleteRetrospectiveRequest.t) (cast : pb.CastVoteRequest.t)
    (remove : pb.RemoveVoteRequest.t) (w : World) :
  let id := pb.CompleteRetrospectiveRequest.RetrospectiveId co in
  let w1 := (RetrospectiveService.Complete ctx co w).2 in
  (RetrospectiveService.Complete ctx co w).1 = Ok () →
  pb.CastVoteRequest.RetrospectiveId cast = id →
  statusAt id w1 = Some RetrospectiveStatusCompleted ∧
  (∀ w', statusAt id w' = Some RetrospectiveStatusCompleted →
     (id = "" →
      VotingService.CastVote ctx cast w'
      = (Err (errStatus codes.InvalidArgument
                "invalid argument: retrospective_id is required"), w')) ∧
     (id ≠ "" → pb.CastVoteRequest.ItemId cast = "" →
      VotingService.CastVote ctx cast w'
      = (Err (errStatus codes.InvalidArgument
                "invalid argument: item_id is required"), w')) ∧
     (id ≠ "" → pb.CastVoteRequest.ItemId cast ≠ "" →
      VotingService.CastVote ctx cast w'
      = (Err (errStatus codes.FailedPrecondition
                "invalid status transition: voting is not currently allowed"), w'))) ∧
  (VotingService.RemoveVote ctx remove w1).1 = (VotingService.RemoveVote ctx remove w).1.
Proof.
  intros id w1 Hok Hid. destruct co as [id0]. simpl in id. subst id.
  destruct (retros w !! id0) as [retro|] eqn:Hget.
  - destruct (Complete_ok ctx id0 retro w Hget) as (w' & Hrun & Hst & _).
    subst w1. rewrite Hrun. simpl. split; [exact Hst|]. split.
    + intros w2 Hst2. unfold statusAt in Hst2.
      destruct (retros w2 !! id0) as [retro2|] eqn:Hget2; [|done].
      simpl in Hst2. injection Hst2 as Hst2.
      split; [|split].
      * intros Hempty. rewrite CastVote_run. unfold castVoteOutcome.
        rewrite decide_True by (by rewrite Hid). done.
      * intros Hr Hi. rewrite CastVote_run. unfold castVoteOutcome.
        rewrite decide_False by (by rewrite Hid). by rewrite decide_True.
      * intros Hr Hi.
        rewrite (CastVote_wrong_phase ctx cast retro2 w2); try done.
        -- by rewrite Hid.
        -- by rewrite Hid.
        -- by rewrite Hst2.
        -- by rewrite Hst2.
    + apply RemoveVote_result_votes.
      assert (votes (RetrospectiveService.Complete ctx
                       (pb.CompleteRetrospectiveRequest.mk id0) w).2 = votes w) as Hv.
      { unfold RetrospectiveService.Complete, mbind, M_bind, onErr,
          InMemoryRetrospectiveStore.Get. simpl. by rewrite Hget. }
      by rewrite Hrun in Hv.
  - exfalso. unfold RetrospectiveService.Complete, mbind, M_bind, onErr,
      InMemoryRetrospectiveStore.Get in Hok. simpl in Hok. by rewrite Hget in Hok.
Qed.

Lemma voting_after_Complete_witness :
  let w1 := (RetrospectiveService.Complete (H := simRuntime 1000) context.Background
               (pb.CompleteRetrospectiveRequest.mk "R") votedOnceWorld).2 in
  VotingService.CastVote (H := simRuntime 1000) context.Background
    (pb.CastVoteRequest.mk "R" "B") w1
    = (Err (errStatus codes.FailedPrecondition
              "invalid status transition: voting is not currently allowed"), w1) ∧
  (VotingService.RemoveVote (H := simRuntime 1000) context.Background
     (pb.RemoveVoteRequest.mk "R" "A") w1).1 = Ok ().
Proof.
  destruct (voting_after_Complete (H := simRuntime 1000) context.Background
              (pb.CompleteRetrospectiveRequest.mk "R") (pb.CastVoteRequest.mk "R" "B")
              (pb.RemoveVoteRequest.mk "R" "A") votedOnceWorld)
    as (Hst & Hcast & Hremove); [vm_compute; reflexivity | done |].
  intros w1. split.
  - destruct (Hcast w1 Hst) as (_ & _ & Hrefused). apply Hrefused; discriminate.
  - etrans; [exact Hremove|]. vm_compute. reflexivity.
Defined.

(** ** The broadcaster: a subscription from its start to its end *)

Lemma Subscribe_Unsubscribe_run retroID w :
  hub_wf w →
  let ch := length (channels w) in
  let w1 := (EventBroadcaster.Subscribe retroID w).2 in
  (EventBroadcaster.Subscribe retroID w).1 = Ok ch ∧
  subscribersOf retroID w1 = subscribersOf retroID w ++ [ch] ∧
  ∃ w2,
    EventBroadcaster.Unsubscribe retroID ch w1 = (Ok (), w2) ∧
    subscribers w2 = <[retroID := subscribersOf retroID w]> (subscribers w) ∧
    channels w2 = channels w ++ [mkChan [] EventBroadcaster.queueCapacity true].
Proof.
  intros Hwf ch w1.
  assert (Hsame : subscribersOf retroID w1 = subscribersOf retroID w ++ [ch]).
  { unfold subscribersOf at 1. subst w1. unfold EventBroadcaster.Subscribe. simpl.
    by rewrite lookup_insert_eq. }
  split; [done|]. split; [done|].
  assert (Hwf1 : hub_wf w1) by (by apply Subscribe_hub_wf).
  assert (Hin : ch ∈ subscribersOf retroID w1).
  { rewrite Hsame. apply elem_of_app. right. apply list_elem_of_here. }
  destruct (Unsubscribe_present retroID ch w1 Hwf1 Hin)
    as (i & c & Hi & Hc & Hcl & Hrun & _).
  assert (i = length (subscribersOf retroID w)) as ->.
  { eapply NoDup_lookup; [by apply (hub_wf_NoDup retroID w1) | exact Hi |].
    rewrite Hsame. by rewrite lookup_app_r, Nat.sub_diag by done. }
  assert (c = mkChan [] EventBroadcaster.queueCapacity false) as ->.
  { subst w1. unfold EventBroadcaster.Subscribe in Hc. simpl in Hc.
    fold ch in Hc. rewrite lookup_app_r in Hc by (subst ch; lia).
    subst ch. rewrite Nat.sub_diag in Hc. simpl in Hc. by injection Hc. }
  eexists. split; [exact Hrun|]. unfold unsubscribedWorld. simpl. split.
  - rewrite Hsame. rewrite take_app_length.
    rewrite drop_app_ge by lia.
    replace (S (length (subscribersOf retroID w)) - length (subscribersOf retroID w))
      with 1 by lia.
    simpl. rewrite app_nil_r.
    subst w1. unfold EventBroadcaster.Subscribe. simpl. by rewrite insert_insert_eq.
  - subst w1 ch. unfold EventBroadcaster.Subscribe. simpl.
    rewrite insert_app_r_alt by done. by rewrite Nat.sub_diag.
Qed.

(** X19 (EventBroadcaster.Subscribe, Unsubscribe): a subscription leaves no
    trace in the registry: Subscribe hands out a new, empty, open queue that
    was registered nowhere and registers it last under the retrospective,
    and the Unsubscribe that ends the subscription succeeds, gives every
    retrospective the subscribers it had before and closes the queue; the
    queues of the others are untouched. *)
Theorem Subscribe_then_Unsubscribe (retroID : string) (w : World) :
  hub_wf w →
  ∃ ch w1 w2,
    EventBroadcaster.Subscribe retroID w = (Ok ch, w1) ∧
    (∀ r, ch ∉ subscribersOf r w) ∧
    subscribersOf retroID w1 = subscribersOf retroID w ++ [ch] ∧
    channels w1 !! ch = Some (mkChan [] 100 false) ∧
    EventBroadcaster.Unsubscribe retroID ch w1 = (Ok (), w2) ∧
    (∀ r, subscribersOf r w2 = subscribersOf r w) ∧
    channels w2 !! ch = Some (mkChan [] 100 true) ∧
    (∀ q, q ≠ ch → channels w2 !! q = channels w !! q).
Proof.
  intros Hwf.
  destruct (Subscribe_Unsubscribe_run retroID w Hwf)
    as (Hch & Hsame & w2 & Hrun & Hsubs & Hchans).
  exists (length (channels w)), (EventBroadcaster.Subscribe retroID w).2, w2.
  split; [reflexivity|].
  split.
  { intros r Hin. apply (subscribers_allocated r w _ Hwf) in Hin. lia. }
  split; [done|]. split.
  { unfold EventBroadcaster.Subscribe. simpl.
    by rewrite lookup_app_r, Nat.sub_diag by done. }
  split; [done|]. split.
  { intros r. unfold subscribersOf at 1. rewrite Hsubs.
    destruct (decide (r = retroID)) as [->|Hne].
    - by rewrite lookup_insert_eq.
    - by rewrite lookup_insert_ne. }
  rewrite Hchans. split.
  - by rewrite lookup_app_r, Nat.sub_diag by done.
  - intros q Hq. destruct (decide (q < length (channels w))) as [Hlt|Hge].
    + by rewrite lookup_app_l.
    + rewrite lookup_app_r by lia.
      rewrite (lookup_ge_None_2 (channels w)) by lia.
      apply lookup_ge_None_2. simpl. lia.
Qed.

Lemma Subscribe_then_Unsubscribe_witness :
  ∃ ch w1 w2,
    EventBroadcaster.Subscribe "R" fanOutWorld = (Ok ch, w1) ∧
    EventBroadcaster.Unsubscribe "R" ch w1 = (Ok (), w2) ∧
    subscribersOf "R" w2 = [0; 1; 2] ∧ subscribersOf "S" w2 = [3].
Proof.
  destruct (Subscribe_then_Unsubscribe "R" fanOutWorld)
    as (ch & w1 & w2 & Hsub & _ & _ & _ & Hunsub & Hsame & _).
  - refine (bool_decide_unpack _ _). vm_compute. exact I.
  - exists ch, w1, w2. split; [done|]. split; [done|].
    by rewrite !Hsame.
Defined.

Lemma broadcastAll_spec retroID events :
  ∀ w ch c,
    hub_wf w →
    ch ∈ subscribersOf retroID w →
    channels w !! ch = Some c →
    length (chanBuf c) ≤ chanCap c →
    hub_wf (broadcastAll retroID events w) ∧
    subscribers (broadcastAll retroID events w) = subscribers w ∧
    channels (broadcastAll retroID events w) !! ch
    = Some (mkChan (take (chanCap c) (chanBuf c ++ events)) (chanCap c) (chanClosed c)).
Proof.
  induction events as [|event events IH]; intros w ch c Hwf Hin Hc Hlen.
  - simpl. split; [done|]. split; [done|].
    rewrite app_nil_r, take_ge by done. rewrite Hc. by destruct c.
  - simpl.
    pose proof (Broadcast_hub_wf retroID event w Hwf) as Hwf'.
    destruct (Broadcast_spec retroID event w Hwf) as (chans & Hrun & _ & Hchans & _).
    destruct (hub_wf_open retroID w ch Hwf Hin) as (c' & Hc' & Hopen).
    rewrite Hc in Hc'. injection Hc' as <-.
    rewrite Hrun in Hwf' |- *. simpl in Hwf' |- *.
    specialize (Hchans ch Hin). rewrite Hc in Hchans. simpl in Hchans.
    destruct (IH (setChannels chans w) ch (offered event c) Hwf') as (Hw & Hs & Hq).
    + done.
    + done.
    + unfold offered. case_decide; simpl; [rewrite length_app; simpl; lia | done].
    + split; [done|]. split; [done|]. rewrite Hq. f_equal.
      unfold offered. case_decide as Hroom; simpl.
      * rewrite Hopen. by rewrite <- app_assoc.
      * assert (length (chanBuf c) = chanCap c) as Hfull by lia.
        rewrite <- Hfull.
        by rewrite (take_app_length (chanBuf c) events),
          (take_app_length (chanBuf c) (event :: events)).
Qed.

(** X20 (EventBroadcaster.Broadcast): a subscriber that does not read its
    queue keeps the oldest events and loses the newest: after any sequence
    of events has been published to a retrospective, the queue of a
    subscriber holds what it held before followed by the events in the
    order of publication, cut at the capacity of the queue (100 for a queue
    made by Subscribe); the queue stays open and registered. *)
Theorem Broadcast_queue_overflow (retroID : string)
    (events : list pb.RetrospectiveEvent.t) (ch : nat) (c : Chan) (w : World) :
  hub_wf w →
  ch ∈ subscribersOf retroID w →
  channels w !! ch = Some c →
  length (chanBuf c) ≤ chanCap c →
  let w' := broadcastAll retroID events w in
  chanBuf <$> channels w' !! ch = Some (take (chanCap c) (chanBuf c ++ events)) ∧
  chanClosed <$> channels w' !! ch = Some false ∧
  ch ∈ subscribersOf retroID w'.
Proof.
  intros Hwf Hin Hc Hlen w'.
  destruct (broadcastAll_spec retroID events w ch c Hwf Hin Hc Hlen) as (_ & Hs & Hq).
  destruct (hub_wf_open retroID w ch Hwf Hin) as (c' & Hc' & Hopen).
  rewrite Hc in Hc'. injection Hc' as <-.
  subst w'. rewrite Hq. simpl. split; [done|]. split; [by rewrite Hopen|].
  unfold subscribersOf. by rewrite Hs.
Qed.

Lemma Broadcast_queue_overflow_witness :
  let w := (EventBroadcaster.Subscribe "R" newWorld).2 in
  let w' := broadcastAll "R" (sampleEvent <$> seqZ 0 150) w in
  chanBuf <$> channels w' !! 0 = Some (sampleEvent <$> seqZ 0 100).
Proof.
  intros w w'.
  destruct (Broadcast_queue_overflow "R" (sampleEvent <$> seqZ 0 150) 0
              (mkChan [] 100 false) w) as (Hbuf & _).
  - refine (bool_decide_unpack _ _). vm_compute. exact I.
  - vm_compute. apply list_elem_of_here.
  - reflexivity.
  - simpl. lia.
  - etrans; [exact Hbuf|]. vm_compute. reflexivity.
Defined.

(** ** The votes are counted right in every state the server reaches *)

Section LedgerParts.
Context {RT : GoRuntime}.

Lemma issued_mono prefix lo hi lo' hi' id :
  lo' ≤ lo → hi ≤ hi' → issued prefix lo hi id → issued prefix lo' hi' id.
Proof. intros Hlo Hhi (n & Hn & ->). exists n. split; [lia | done]. Qed.

Lemma items_evolve_same w w' :
  items w' = items w → items_evolve w w'.
Proof. intros Heq k item Hk. left. exists item. by rewrite <- Heq. Qed.

Lemma items_evolve_delete w w' k :
  items w' = delete k (items w) → items_evolve w w'.
Proof.
  intros Heq k' item Hk. rewrite Heq in Hk. apply lookup_delete_Some in Hk as [_ Hk].
  left. by exists item.
Qed.

Lemma items_evolve_insert w w' k item0 item1 :
  items w' = <[k := item1]> (items w) →
  items w !! k = Some item0 →
  RetrospectiveItem.VoteCount item1 = RetrospectiveItem.VoteCount item0 →
  items_evolve w w'.
Proof.
  intros Heq Hget Hcount k' item Hk. rewrite Heq in Hk.
  apply lookup_insert_Some in Hk as [[<- <-]|[_ Hk]]; left; eauto.
Qed.

Lemma items_evolve_edit w w' id k item0 item1 updated :
  items w' = <[k := RetrospectiveItem.withUpdated updated item1]>
               (<[id := item1]> (items w)) →
  items w !! id = Some item0 →
  k = RetrospectiveItem.ItemID item0 →
  RetrospectiveItem.VoteCount item1 = RetrospectiveItem.VoteCount item0 →
  items_wf w → items_evolve w w'.
Proof.
  intros Heq Hget Hk Hcount Hwf.
  assert (k = id) as -> by (rewrite Hk; by apply (Hwf id item0)).
  rewrite insert_insert_eq in Heq.
  by eapply items_evolve_insert.
Qed.

Lemma items_evolve_new w w' k item :
  items w' = <[k := item]> (items w) →
  RetrospectiveItem.VoteCount item = 0%Z →
  issued "ITEM-" (clockReads w) (clockReads w') k →
  items_evolve w w'.
Proof.
  intros Heq Hcount Hnew k' item' Hk. rewrite Heq in Hk.
  apply lookup_insert_Some in Hk as [[<- <-]|[_ Hk]]; [by right | left; eauto].
Qed.

Lemma retros_evolve_same w w' :
  retros w' = retros w → retros_evolve w w'.
Proof. intros Heq k retro Hk. left. exists retro. by rewrite <- Heq. Qed.

Lemma retros_evolve_delete w w' k :
  retros w' = delete k (retros w) → retros_evolve w w'.
Proof.
  intros Heq k' retro Hk. rewrite Heq in Hk. apply lookup_delete_Some in Hk as [_ Hk].
  left. by exists retro.
Qed.

Lemma retros_evolve_edit w w' id k retro0 retro1 updated :
  retros w' = <[k := Retrospective.withUpdated updated retro1]>
                (<[id := retro1]> (retros w)) →
  retros w !! id = Some retro0 →
  k = Retrospective.RetrospectiveID retro0 →
  Retrospective.VotingConfig retro1 = Retrospective.VotingConfig retro0 →
  retros_wf w → retros_evolve w w'.
Proof.
  intros Heq Hget Hk Hconfig Hwf.
  assert (k = id) as -> by (rewrite Hk; by apply (Hwf id retro0)).
  rewrite insert_insert_eq in Heq.
  intros k' retro' Hk'. rewrite Heq in Hk'.
  apply lookup_insert_Some in Hk' as [[<- <-]|[_ Hk']]; left; eauto.
Qed.

Lemma retros_evolve_new w w' k retro :
  retros w' = <[k := retro]> (retros w) →
  (0 ≤ VotingConfig.MaxVotesPerUser (Retrospective.VotingConfig retro))%Z →
  issued "RETRO-" (clockReads w) (clockReads w') k →
  retros_evolve w w'.
Proof.
  intros Heq Hmax Hnew k' retro' Hk. rewrite Heq in Hk.
  apply lookup_insert_Some in Hk as [[<- <-]|[_ Hk]]; [by right | left; eauto].
Qed.

Lemma evolves_books w w' : booksOf w' = booksOf w → evolves w w'.
Proof.
  unfold booksOf. intros Heq. simplify_eq.
  split; [done|]. split; [lia|].
  split; [by apply items_evolve_same | by apply retros_evolve_same].
Qed.

Lemma evolves_refl w : evolves w w.
Proof. by apply evolves_books. Qed.

End LedgerParts.

(** the parts of [evolves] that an operation has not written *)
Ltac evolve_parts :=
  split; [reflexivity|]; split; [simpl; lia|];
  split; [try (apply items_evolve_same; reflexivity)
         | try (apply retros_evolve_same; reflexivity)].

Section Evolving.
Context {RT : GoRuntime}.

Lemma RetroStore_Get_books id : preserves (same booksOf) (InMemoryRetrospectiveStore.Get id).
Proof. unfold InMemoryRetrospectiveStore.Get. preserves_cases. Qed.

Lemma RetroStore_List_books t s c n :
  preserves (same booksOf) (InMemoryRetrospectiveStore.List t s c n).
Proof. unfold InMemoryRetrospectiveStore.List. repeat preserves_step. Qed.

Lemma ItemStore_ListByRetrospective_books r c s :
  preserves (same booksOf) (InMemoryItemStore.ListByRetrospective r c s).
Proof. unfold InMemoryItemStore.ListByRetrospective. repeat preserves_step. Qed.

Lemma VoteStore_ListByUser_books r u :
  preserves (same booksOf) (InMemoryVoteStore.ListByUser r u).
Proof. unfold InMemoryVoteStore.ListByUser. repeat preserves_step. Qed.

Lemma ParticipantStore_ListByRetrospective_books r :
  preserves (same booksOf) (InMemoryParticipantStore.ListByRetrospective r).
Proof. unfold InMemoryParticipantStore.ListByRetrospective. repeat preserves_step. Qed.

Lemma getContainers_books ids :
  preserves (same booksOf) (RetrospectiveService.getContainers ids).
Proof.
  induction ids as [|id ids IH]; simpl; [repeat preserves_step|].
  repeat (preserves_step || exact IH || apply RetroStore_Get_books).
Qed.

Lemma Subscribe_books retroID : preserves (same booksOf) (EventBroadcaster.Subscribe retroID).
Proof. intros w. reflexivity. Qed.

Lemma Unsubscribe_books retroID ch :
  preserves (same booksOf) (EventBroadcaster.Unsubscribe retroID ch).
Proof.
  intros w. unfold EventBroadcaster.Unsubscribe, EventBroadcaster.close, mbind, M_bind, modify.
  cbv beta delta [same]. simpl. repeat (case_match; simpl; try reflexivity).
Qed.



End Evolving.

Create HintDb frame_books.
#[global] Hint Resolve RetroStore_Get_books RetroStore_List_books
  ItemStore_ListByRetrospective_books VoteStore_ListByUser_books
  ParticipantStore_ListByRetrospective_books getContainers_books : frame_books.

(** an operation that leaves the boards, the votes and the clock alone *)
Ltac keeps_books := repeat (preserves_step || solve [eauto with frame_books]).

Section EvolvingServices.
Context {RT : GoRuntime}.

Lemma retro_Create_evolves ctx req w :
  evolves w (RetrospectiveService.Create ctx req w).2.
Proof.
  destruct (decide (pb.CreateRetrospectiveRequest.TeamId req = "")) as [Ht|Ht].
  { unfold RetrospectiveService.Create. rewrite bool_decide_eq_true_2 by done.
    apply evolves_refl. }
  destruct (decide (pb.CreateRetrospectiveRequest.SprintName req = "")) as [Hn|Hn].
  { unfold RetrospectiveService.Create.
    rewrite bool_decide_eq_false_2 by done. rewrite bool_decide_eq_true_2 by done.
    apply evolves_refl. }
  rewrite (retro_Create_run ctx req w Ht Hn). simpl. evolve_parts.
  eapply retros_evolve_new; [reflexivity | |].
  - destruct (createdRetro_ok ctx req w) as (_ & Hmax & _). lia.
  - exists (clockReads w). split; [simpl; lia | reflexivity].
Qed.

Lemma retro_Update_evolves ctx req w :
  sound w → evolves w (RetrospectiveService.Update ctx req w).2.
Proof.
  intros Hs. unfold RetrospectiveService.Update.
  destruct (pb.UpdateRetrospectiveRequest.Retrospective req) as [retrospective|];
    [|apply evolves_refl].
  case_bool_decide; [apply evolves_refl|].
  unfold mbind, M_bind, onErr, InMemoryRetrospectiveStore.Get.
  destruct (retros w !! pb.Retrospective.RetrospectiveId retrospective)
    as [retro|] eqn:Hget; [|apply evolves_refl].
  simpl. evolve_parts.
  eapply retros_evolve_edit; [reflexivity | exact Hget | | | apply Hs];
    by repeat case_bool_decide.
Qed.

Lemma retro_Delete_evolves ctx req w :
  evolves w (RetrospectiveService.Delete ctx req w).2.
Proof.
  unfold RetrospectiveService.Delete.
  case_bool_decide; [apply evolves_refl|]. simpl. evolve_parts.
  eapply retros_evolve_delete; reflexivity.
Qed.

Lemma StartVoting_evolves ctx req w :
  sound w → evolves w (RetrospectiveService.StartVoting ctx req w).2.
Proof.
  intros Hs. unfold RetrospectiveService.StartVoting.
  unfold mbind, M_bind, onErr, InMemoryRetrospectiveStore.Get.
  destruct (retros w !! pb.StartVotingRequest.RetrospectiveId req)
    as [retro|] eqn:Hget; [|apply evolves_refl].
  case_bool_decide; [apply evolves_refl|].
  simpl. evolve_parts.
  eapply retros_evolve_edit; [reflexivity | exact Hget | done | done | apply Hs].
Qed.

Lemma StartDiscussion_evolves ctx req w :
  sound w → evolves w (RetrospectiveService.StartDiscussion ctx req w).2.
Proof.
  intros Hs. unfold RetrospectiveService.StartDiscussion.
  unfold mbind, M_bind, onErr, InMemoryRetrospectiveStore.Get.
  destruct (retros w !! pb.StartDiscussionRequest.RetrospectiveId req)
    as [retro|] eqn:Hget; [|apply evolves_refl].
  case_bool_decide; [apply evolves_refl|].
  simpl. evolve_parts.
  eapply retros_evolve_edit; [reflexivity | exact Hget | done | done | apply Hs].
Qed.

Lemma Complete_evolves ctx req w :
  sound w → evolves w (RetrospectiveService.Complete ctx req w).2.
Proof.
  intros Hs. unfold RetrospectiveService.Complete.
  unfold mbind, M_bind, onErr, InMemoryRetrospectiveStore.Get.
  destruct (retros w !! pb.CompleteRetrospectiveRequest.RetrospectiveId req)
    as [retro|] eqn:Hget; [|apply evolves_refl].
  simpl. evolve_parts.
  eapply retros_evolve_edit; [reflexivity | exact Hget | done | done | apply Hs].
Qed.

Lemma item_Create_evolves ctx req w :
  sound w → evolves w (RetrospectiveItemService.Create ctx req w).2.
Proof.
  intros Hs. unfold RetrospectiveItemService.Create.
  case_bool_decide; [apply evolves_refl|]. case_bool_decide; [apply evolves_refl|].
  case_bool_decide; [apply evolves_refl|].
  unfold mbind, M_bind, onErr, ignoreErr, InMemoryRetrospectiveStore.Get.
  destruct (retros w !! pb.CreateItemRequest.RetrospectiveId req)
    as [retro|] eqn:Hget; [|apply evolves_refl].
  simpl. destruct (columnValid _ _); [|apply evolves_refl]. simpl. evolve_parts.
  - eapply items_evolve_new; [reflexivity | done |].
    exists (clockReads w). split; [simpl; lia | reflexivity].
  - eapply retros_evolve_edit; [reflexivity | exact Hget | done | done | apply Hs].
Qed.

Lemma item_Update_evolves ctx req w :
  sound w → evolves w (RetrospectiveItemService.Update ctx req w).2.
Proof.
  intros Hs. unfold RetrospectiveItemService.Update.
  destruct (pb.UpdateItemRequest.Item req) as [item|]; [|apply evolves_refl].
  case_bool_decide; [apply evolves_refl|].
  unfold mbind, M_bind, onErr, InMemoryItemStore.Get.
  destruct (items w !! pb.RetrospectiveItem.ItemId item) as [existing|] eqn:Hget;
    [|apply evolves_refl].
  simpl. evolve_parts.
  eapply items_evolve_edit; [reflexivity | exact Hget | | | apply Hs];
    by case_bool_decide.
Qed.

Lemma item_Delete_evolves ctx req w :
  sound w → evolves w (RetrospectiveItemService.Delete ctx req w).2.
Proof.
  intros Hs. unfold RetrospectiveItemService.Delete.
  case_bool_decide; [apply evolves_refl|].
  unfold mbind, M_bind, onErr, ignoreErr, InMemoryItemStore.Get.
  destruct (items w !! pb.DeleteItemRequest.ItemId req) as [item|] eqn:Hget;
    [|apply evolves_refl].
  simpl. case_bool_decide; [apply evolves_refl|].
  unfold InMemoryRetrospectiveStore.Get. simpl.
  destruct (retros w !! RetrospectiveItem.RetrospectiveID item) as [retro|] eqn:Hretro;
    simpl; evolve_parts.
  - eapply items_evolve_delete; reflexivity.
  - eapply retros_evolve_edit; [reflexivity | exact Hretro | done | done | apply Hs].
  - eapply items_evolve_delete; reflexivity.
Qed.

Lemma item_MoveToColumn_evolves ctx req w :
  sound w → evolves w (RetrospectiveItemService.MoveToColumn ctx req w).2.
Proof.
  intros Hs. unfold RetrospectiveItemService.MoveToColumn.
  case_bool_decide; [apply evolves_refl|]. case_bool_decide; [apply evolves_refl|].
  unfold mbind, M_bind, onErr, InMemoryItemStore.Get.
  destruct (items w !! pb.MoveItemToColumnRequest.ItemId req) as [item|] eqn:Hget;
    [|apply evolves_refl].
  simpl. case_bool_decide; [apply evolves_refl|].
  unfold InMemoryRetrospectiveStore.Get.
  destruct (retros w !! RetrospectiveItem.RetrospectiveID item) as [retro|];
    [|apply evolves_refl].
  simpl. destruct (columnValid _ _); [|apply evolves_refl]. simpl. evolve_parts.
  eapply items_evolve_edit; [reflexivity | exact Hget | done | done | apply Hs].
Qed.

Lemma Join_evolves ctx req w :
  sound w → evolves w (RealtimeService.JoinRetrospective ctx req w).2.
Proof.
  intros Hs. unfold RealtimeService.JoinRetrospective.
  case_bool_decide; [apply evolves_refl|].
  unfold mbind, M_bind, onErr, ignoreErr, InMemoryRetrospectiveStore.Get,
    InMemoryParticipantStore.Join, InMemoryParticipantStore.ListByRetrospective,
    InMemoryRetrospectiveStore.assign, InMemoryRetrospectiveStore.Update,
    mbind, M_bind, rangeMap, time_Now, modify.
  destruct (retros w !! pb.JoinRetrospectiveRequest.RetrospectiveId req)
    as [retro|] eqn:Hget; [|apply evolves_refl].
  cbn -[EventBroadcaster.Broadcast].
  match goal with
  | |- context [EventBroadcaster.Broadcast ?r ?ev ?w2] =>
      destruct (Broadcast_spec r ev w2) as (chans & Hrun & _);
        [eapply hub_wf_same_hub; [|apply Hs]; reflexivity | rewrite Hrun]
  end.
  cbn. evolve_parts.
  eapply retros_evolve_edit; [reflexivity | exact Hget | done | done | apply Hs].
Qed.

Lemma Leave_evolves ctx req w :
  sound w → evolves w (RealtimeService.LeaveRetrospective ctx req w).2.
Proof.
  intros Hs. unfold RealtimeService.LeaveRetrospective.
  case_bool_decide; [apply evolves_refl|].
  unfold mbind, M_bind, onErr, ignoreErr, InMemoryRetrospectiveStore.Get,
    InMemoryParticipantStore.Leave, InMemoryParticipantStore.ListByRetrospective,
    InMemoryRetrospectiveStore.assign, InMemoryRetrospectiveStore.Update,
    mbind, M_bind, rangeMap, time_Now, modify.
  destruct (participants w !! _) as [p|] eqn:Hp0; cbn -[EventBroadcaster.Broadcast].
  all: match goal with
       | |- context [EventBroadcaster.Broadcast ?r ?ev ?w2] =>
           destruct (Broadcast_spec r ev w2) as (chans & Hrun & _);
             [eapply hub_wf_same_hub; [|apply Hs]; reflexivity | rewrite Hrun]
       end; cbn.
  all: destruct (retros w !! pb.LeaveRetrospectiveRequest.RetrospectiveId req)
         as [retro|] eqn:Hget; cbn; evolve_parts.
  all: eapply retros_evolve_edit; [reflexivity | exact Hget | done | done | apply Hs].
Qed.

Lemma Heartbeat_evolves ctx req w :
  evolves w (RealtimeService.Heartbeat ctx req w).2.
Proof.
  unfold RealtimeService.Heartbeat.
  case_bool_decide; [apply evolves_refl|].
  unfold onErr, InMemoryParticipantStore.Heartbeat.
  destruct (participants w !! _) as [p|] eqn:Hp0; [|apply evolves_refl].
  simpl. evolve_parts.
Qed.

End EvolvingServices.

Section Ledger.
Context {RT : GoRuntime}.
Hypothesis clock_inj : ∀ n m, wallClock n = wallClock m → n = m.

Lemma issued_apart prefix lo mid hi id :
  issued prefix lo mid id → issued prefix mid hi id → False.
Proof.
  intros (n & Hn & ->) (m & Hm & Heq).
  apply (inj (String.app prefix)) in Heq. apply (inj pretty) in Heq.
  apply clock_inj in Heq. lia.
Qed.

Lemma ledger_votes_apart hi w k v :
  ledger w → clockReads w ≤ hi → votes w !! k = Some v →
  ∀ lo', clockReads w ≤ lo' →
    ¬ issued "VOTE-" lo' hi k ∧
    ¬ issued "RETRO-" lo' hi (Vote.RetrospectiveID v) ∧
    ¬ issued "ITEM-" lo' hi (Vote.ItemID v).
Proof.
  intros (_ & _ & Hv) Hhi Hk lo' Hlo. destruct (Hv k v Hk) as (H1 & H2 & H3).
  split; [|split]; intros Hnew.
  - eapply (issued_apart "VOTE-" 0 lo' hi); [|exact Hnew].
    eapply issued_mono; [| |exact H1]; lia.
  - eapply (issued_apart "RETRO-" 0 lo' hi); [|exact Hnew].
    eapply issued_mono; [| |exact H2]; lia.
  - eapply (issued_apart "ITEM-" 0 lo' hi); [|exact Hnew].
    eapply issued_mono; [| |exact H3]; lia.
Qed.

Lemma evolves_counted n w w' :
  evolves w w' → sound w' → counted n w → counted n w'.
Proof.
  intros (Hvotes & Hclock & Hitems & Hretros) Hs' (Hs & Hl & Htally & Hlim & Hsize).
  pose proof Hl as (Hlr & Hli & Hlv).
  split; [done|]. split; [|split; [|split]].
  - split; [|split].
    + intros k retro' Hk. destruct (Hretros k retro' Hk) as [(retro & Hget & _)|[_ Hnew]].
      * eapply issued_mono; [| |exact (Hlr k retro Hget)]; lia.
      * eapply issued_mono; [| |exact Hnew]; lia.
    + intros k item' Hk. destruct (Hitems k item' Hk) as [(item & Hget & _)|[_ Hnew]].
      * eapply issued_mono; [| |exact (Hli k item Hget)]; lia.
      * eapply issued_mono; [| |exact Hnew]; lia.
    + rewrite Hvotes. intros k v Hk. destruct (Hlv k v Hk) as (H1 & H2 & H3).
      split; [|split]; (eapply issued_mono; [| |eassumption]; lia).
  - intros k item' Hk. unfold votesOnItem. rewrite Hvotes.
    destruct (Hitems k item' Hk) as [(item & Hget & ->)|[-> Hnew]].
    + exact (Htally k item Hget).
    + assert (countVotes (λ vote, Vote.ItemID vote = k) (votes w) = 0) as ->; [|done].
      apply countVotes_zero. intros kv v Hkv Heq. simpl in Heq. subst k.
      destruct (ledger_votes_apart (clockReads w') w kv v Hl Hclock Hkv
                  (clockReads w) (le_n _)) as (_ & _ & Hno).
      by apply Hno.
  - intros id retro' userID Hk. unfold votesOfUser. rewrite Hvotes.
    destruct (Hretros id retro' Hk) as [(retro & Hget & ->)|[Hmax Hnew]].
    + exact (Hlim id retro userID Hget).
    + assert (countVotes (InMemoryVoteStore.byUser id userID) (votes w) = 0) as ->; [|done].
      apply countVotes_zero. intros kv v Hkv [Heq _]. subst id.
      destruct (ledger_votes_apart (clockReads w') w kv v Hl Hclock Hkv
                  (clockReads w) (le_n _)) as (_ & Hno & _).
      by apply Hno.
  - by rewrite Hvotes.
Qed.

Lemma ledger_books w w' : booksOf w' = booksOf w → ledger w → ledger w'.
Proof. unfold booksOf, ledger. intros Heq. simplify_eq. by rewrite H, H0, H1, H2. Qed.

Lemma counted_mono n n' w : n ≤ n' → counted n w → counted n' w.
Proof.
  intros Hn (Hs & Hl & Ht & Hlim & Hsize).
  split; [done|]. split; [done|]. split; [done|]. split; [done | lia].
Qed.

Lemma ledger_vote_fresh w :
  ledger w → votes w !! ("VOTE-" +:+ pretty (wallClock (clockReads w))) = None.
Proof.
  intros Hl. destruct (votes w !! _) as [v|] eqn:Hk; [exfalso|done].
  destruct (ledger_votes_apart (S (clockReads w)) w _ v Hl (Nat.le_succ_diag_r _) Hk
              (clockReads w) (le_n _)) as (Hno & _).
  apply Hno. exists (clockReads w). split; [lia | done].
Qed.

Lemma CastVote_ledger ctx req n w :
  ledger w → size (votes w) ≤ n →
  ledger (VotingService.CastVote ctx req w).2 ∧
  size (votes (VotingService.CastVote ctx req w).2) ≤ S n.
Proof.
  intros Hl Hsize.
  assert (∀ w', booksOf w' = booksOf w → ledger w' ∧ size (votes w') ≤ S n) as Hsame.
  { intros w' Heq. split; [by eapply ledger_books|].
    unfold booksOf in Heq. simplify_eq. rewrite H1. lia. }
  rewrite CastVote_run. unfold castVoteOutcome.
  repeat (case_decide; [by apply Hsame|]).
  destruct (retros w !! pb.CastVoteRequest.RetrospectiveId req) as [retro|] eqn:Hget;
    [|by apply Hsame].
  case_decide; [by apply Hsame|].
  destruct (items w !! pb.CastVoteRequest.ItemId req) as [item|] eqn:Hitem;
    [|by apply Hsame].
  repeat (case_decide; [by apply Hsame|]).
  destruct Hl as (Hlr & Hli & Hlv). simpl. split; [split; [|split]|].
  - intros k r Hk. eapply issued_mono; [| |exact (Hlr k r Hk)]; simpl; lia.
  - apply map_Forall_insert_2.
    + eapply issued_mono; [| |exact (Hli _ item Hitem)]; simpl; lia.
    + intros k i Hk. eapply issued_mono; [| |exact (Hli k i Hk)]; simpl; lia.
  - apply map_Forall_insert_2.
    + split; [|split]; simpl.
      * exists (clockReads w). split; [lia | done].
      * eapply issued_mono; [| |exact (Hlr _ retro Hget)]; lia.
      * eapply issued_mono; [| |exact (Hli _ item Hitem)]; lia.
    + intros k v Hk. destruct (Hlv k v Hk) as (Hv1 & Hv2 & Hv3).
      split; [|split]; (eapply issued_mono; [| |eassumption]; simpl; lia).
  - destruct (votes w !! ("VOTE-" +:+ pretty (wallClock (clockReads w)))) eqn:Hk.
    + rewrite map_size_insert_Some by done. lia.
    + rewrite map_size_insert_None by done. lia.
Qed.

Lemma RemoveVote_ledger ctx req n w :
  ledger w → size (votes w) ≤ n →
  ledger (VotingService.RemoveVote ctx req w).2 ∧
  size (votes (VotingService.RemoveVote ctx req w).2) ≤ n.
Proof.
  intros Hl Hsize.
  assert (∀ w', booksOf w' = booksOf w → ledger w' ∧ size (votes w') ≤ n) as Hsame.
  { intros w' Heq. split; [by eapply ledger_books|].
    unfold booksOf in Heq. simplify_eq. rewrite H1. lia. }
  destruct (decide (pb.RemoveVoteRequest.RetrospectiveId req = "")) as [Hr|Hr].
  { unfold VotingService.RemoveVote. rewrite bool_decide_eq_true_2 by done.
    by apply Hsame. }
  destruct (decide (pb.RemoveVoteRequest.ItemId req = "")) as [Hi|Hi].
  { unfold VotingService.RemoveVote.
    rewrite bool_decide_eq_false_2 by done. rewrite bool_decide_eq_true_2 by done.
    by apply Hsame. }
  destruct (RemoveVote_cases ctx req w Hr Hi) as [[_ ->]|(k & vote & Hk & _ & ->)];
    [by apply Hsame|].
  destruct Hl as (Hlr & Hli & Hlv). simpl. unfold removeVoteWorld.
  assert (size (delete (Vote.VoteID vote) (votes w)) ≤ n) as Hdel.
  { etrans; [|exact Hsize]. apply map_subseteq_size, delete_subseteq. }
  destruct (items w !! pb.RemoveVoteRequest.ItemId req) as [item|] eqn:Hitem;
    simpl; (split; [split; [|split]|done]).
  - intros k' r Hk'. eapply issued_mono; [| |exact (Hlr k' r Hk')]; simpl; lia.
  - apply map_Forall_insert_2.
    + eapply issued_mono; [| |exact (Hli _ item Hitem)]; simpl; lia.
    + intros k' i Hk'. eapply issued_mono; [| |exact (Hli k' i Hk')]; simpl; lia.
  - apply map_Forall_delete. intros k' v Hk'. destruct (Hlv k' v Hk') as (Hv1 & Hv2 & Hv3).
    split; [|split]; (eapply issued_mono; [| |eassumption]; simpl; lia).
  - done.
  - done.
  - by apply map_Forall_delete.
Qed.

Lemma run_counted op n w :
  counted n w → (Z.of_nat n < 2147483647)%Z → counted (S n) (run op w).2.
Proof.
  intros Hc Hn. pose proof Hc as (Hs & Hl & Htally & Hlim & Hsize).
  destruct (run_sound op w Hs) as [Hs' _].
  assert (evolves w (run op w).2 → counted (S n) (run op w).2) as Hev.
  { intros He. apply (counted_mono n); [lia|]. by eapply evolves_counted. }
  assert (∀ A (m : M A), preserves (same booksOf) m → evolves w (m w).2) as Hro.
  { intros A m Hm. apply evolves_books, Hm. }
  destruct op; unfold run in *; rewrite void_snd in *.
  - apply Hev, retro_Create_evolves.
  - apply Hev, Hro. unfold RetrospectiveService.GetMulti. keeps_books.
  - apply Hev, Hro. unfold RetrospectiveService.List. keeps_books.
  - by apply Hev, retro_Update_evolves.
  - apply Hev, retro_Delete_evolves.
  - by apply Hev, StartVoting_evolves.
  - by apply Hev, StartDiscussion_evolves.
  - by apply Hev, Complete_evolves.
  - by apply Hev, item_Create_evolves.
  - by apply Hev, item_Update_evolves.
  - by apply Hev, item_Delete_evolves.
  - apply Hev, Hro. unfold RetrospectiveItemService.List. keeps_books.
  - by apply Hev, item_MoveToColumn_evolves.
  - destruct (CastVote_ledger ctx req n w Hl Hsize) as [Hl' Hsize'].
    split; [done|]. split; [done|]. split; [|split; [|done]].
    + apply CastVote_tally; [done | lia | by apply ledger_vote_fresh].
    + apply CastVote_limits; [done | lia].
  - destruct (RemoveVote_ledger ctx req n w Hl Hsize) as [Hl' Hsize'].
    split; [done|]. split; [done|]. split; [|split; [|lia]].
    + apply RemoveVote_tally; [apply Hs | done | lia].
    + by apply RemoveVote_limits.
  - apply Hev, Hro. unfold VotingService.GetVoteSummary. keeps_books.
  - apply Hev, Hro. unfold VotingService.GetUserVotes. keeps_books.
  - by apply Hev, Join_evolves.
  - by apply Hev, Leave_evolves.
  - apply Hev, Hro. unfold RealtimeService.GetParticipants. keeps_books.
  - apply Hev, Heartbeat_evolves.
  - apply Hev, Hro, Subscribe_books.
  - apply Hev, Hro, Unsubscribe_books.
Qed.

Lemma runAll_counted ops :
  ∀ n w, counted n w → (Z.of_nat (n + length ops) ≤ 2147483647)%Z →
         counted (n + length ops) (runAll ops w).
Proof.
  induction ops as [|op ops IH]; intros n w Hc Hn; simpl in *.
  - by rewrite Nat.add_0_r.
  - replace (n + S (length ops)) with (S n + length ops) by lia.
    apply IH; [|lia]. apply run_counted; [done | lia].
Qed.

Lemma counted_newWorld : counted 0 newWorld.
Proof.
  split; [apply sound_newWorld|].
  split; [split; [|split]; apply map_Forall_empty|].
  split; [apply map_Forall_empty|]. split; [|done].
  intros id retro userID Hget. simpl in Hget. by apply lookup_empty_Some in Hget.
Qed.

Lemma reachable_counted ops :
  (Z.of_nat (length ops) < 2147483648)%Z →
  counted (length ops) (runAll ops newWorld).
Proof.
  intros Hn. apply (runAll_counted ops 0 newWorld counted_newWorld). simpl. lia.
Qed.

End Ledger.

(** X21 (the calls of the retrospective, item, voting and realtime
    services and of the broadcaster, from a fresh server on): the votes are
    counted right in every state that the server reaches: with a clock that
    never returns the same reading twice (the ids of retrospectives, cards
    and votes are made from its readings), after any sequence of fewer than
    2^31 of these calls the vote count of every card is the number of votes
    stored for it, and no user holds more votes in a retrospective than its
    limit. *)
Theorem reachable_states_count_votes `{!GoRuntime} (ops : list Op) :
  (∀ n m, wallClock n = wallClock m → n = m) →
  (Z.of_nat (length ops) < 2147483648)%Z →
  let w := runAll ops newWorld in
  (∀ id item, items w !! id = Some item →
     RetrospectiveItem.VoteCount item = Z.of_nat (votesOnItem id w)) ∧
  (∀ id retro userID, retros w !! id = Some retro →
     (Z.of_nat (votesOfUser id userID w)
      ≤ VotingConfig.MaxVotesPerUser (Retrospective.VotingConfig retro))%Z).
Proof.
  intros Hclock Hn w.
  destruct (reachable_counted Hclock ops Hn) as (_ & _ & Htally & Hlim & _).
  split; [exact Htally | exact Hlim].
Qed.

Lemma reachable_states_count_votes_witness :
  let w := runAll (H := simRuntime 1000) sampleSession newWorld in
  (∀ id item, items w !! id = Some item →
     RetrospectiveItem.VoteCount item = Z.of_nat (votesOnItem id w)) ∧
  (∀ id retro userID, retros w !! id = Some retro →
     (Z.of_nat (votesOfUser id userID w)
      ≤ VotingConfig.MaxVotesPerUser (Retrospective.VotingConfig retro))%Z).
Proof.
  apply (reachable_states_count_votes (H := simRuntime 1000)).
  - intros n m Heq. simpl in Heq. lia.
  - vm_compute. reflexivity.
Defined.

(** ** The template service *)

(** X22 (TemplateService.GetDefaultTemplate, getDefaultPbTemplateColumns,
    RetrospectiveService.Create, getDefaultTemplateColumns): the template
    that GetDefaultTemplate shows for a template type has that type, and
    the type WENT_WELL_TO_IMPROVE when the type asked for is unspecified.
    It is the one that Create installs for that type when the request
    brings no template of its own: the same type and the same columns in
    the same order with the same ids, names, descriptions, sort orders and
    colours (the icons are not compared), so that every column shown is a
    valid column of the created retrospective; the ids of the columns shown
    are distinct and their sort orders count from 1. *)
Theorem default_template_is_installed `{!GoRuntime} (ctx : context.Context)
    (templateType : TemplateType) (create : pb.CreateRetrospectiveRequest.t) (w : World) :
  pb.CreateRetrospectiveRequest.TeamId create ≠ "" →
  pb.CreateRetrospectiveRequest.SprintName create ≠ "" →
  pb.CreateRetrospectiveRequest.TemplateType create = templateType →
  pb.CreateRetrospectiveRequest.CustomTemplate create = None →
  ∃ template retro,
    TemplateService.GetDefaultTemplate ctx (pb.GetDefaultTemplateRequest.mk templateType) w
      = (Ok (pb.GetDefaultTemplateResponse.mk template), w) ∧
    pb.RetrospectiveTemplate.Type_ template ≠ TemplateTypeUnspecified ∧
    (templateType ≠ TemplateTypeUnspecified →
     pb.RetrospectiveTemplate.Type_ template = templateType) ∧
    (templateType = TemplateTypeUnspecified →
     pb.RetrospectiveTemplate.Type_ template = TemplateTypeWentWellToImprove) ∧
    NoDup (pb.TemplateColumn.ColumnId <$> pb.RetrospectiveTemplate.Columns template) ∧
    pb.TemplateColumn.SortOrder <$> pb.RetrospectiveTemplate.Columns template
      = Z.of_nat <$> seq 1 (length (pb.RetrospectiveTemplate.Columns template)) ∧
    retros (RetrospectiveService.Create ctx create w).2
      !! ("RETRO-" +:+ pretty (wallClock (clockReads w))) = Some retro ∧
    Retrospective.TemplateType retro = pb.RetrospectiveTemplate.Type_ template ∧
    columnFields <$> Retrospective.TemplateColumns retro
      = columnFields <$> convertPbColumnsToVstore (pb.RetrospectiveTemplate.Columns template) ∧
    Forall (λ col, columnValid (Retrospective.TemplateColumns retro)
                     (pb.TemplateColumn.ColumnId col) = true)
      (pb.RetrospectiveTemplate.Columns template).
Proof.
  intros Hteam Hsprint Htype Hcustom.
  rewrite (retro_Create_run ctx create w Hteam Hsprint). simpl.
  rewrite lookup_insert_eq.
  eexists _, (createdRetro ctx create w).
  split; [reflexivity|]. simpl.
  split; [by case_bool_decide|]. split; [by case_bool_decide|].
  split; [by case_bool_decide|].
  rewrite Hcustom, Htype.
  split; [destruct templateType; apply (bool_decide_unpack _); vm_compute; exact I|].
  split; [by destruct templateType|].
  split; [reflexivity|]. split; [reflexivity|].
  split; [by destruct templateType|].
  destruct templateType; apply (bool_decide_unpack _); vm_compute; exact I.
Qed.

Lemma default_template_is_installed_witness :
  ∃ template retro,
    TemplateService.GetDefaultTemplate context.Background
      (pb.GetDefaultTemplateRequest.mk TemplateTypeUnspecified) newWorld
      = (Ok (pb.GetDefaultTemplateResponse.mk template), newWorld) ∧
    pb.RetrospectiveTemplate.Type_ template = TemplateTypeWentWellToImprove ∧
    pb.TemplateColumn.ColumnId <$> pb.RetrospectiveTemplate.Columns template
      = ["went_well"; "to_improve"; "action_items"] ∧
    retros boardWorld !! "RETRO-1000" = Some retro ∧
    TemplateColumn.ColumnID <$> Retrospective.TemplateColumns retro
      = ["went_well"; "to_improve"; "action_items"].
Proof.
  destruct (default_template_is_installed (H := simRuntime 1000) context.Background
              TemplateTypeUnspecified sampleCreate newWorld)
    as (template & retro & Hget & _ & _ & Htype & _ & _ & Hretro & _ & Hcols & _);
    [done..|].
  exists template, retro. specialize (Htype eq_refl). injection Hget as <-.
  split; [reflexivity|]. split; [exact Htype|]. split; [reflexivity|].
  split; [exact Hretro|].
  apply (f_equal (fmap (λ f, f.1.1.1.1))) in Hcols.
  rewrite <- !list_fmap_compose in Hcols. exact Hcols.
Defined.

(** ** GetMulti *)

Lemma getContainers_run (ids : list string) (w : World) :
  RetrospectiveService.getContainers ids w
  = (Ok ((λ id, convertVstoreRetroToPb <$> retros w !! id) <$> ids), w).
Proof.
  induction ids as [|id ids IH]; [done|].
  simpl. unfold mbind, M_bind, ignoreErr, InMemoryRetrospectiveStore.Get.
  destruct (retros w !! id) as [retro|]; simpl; by rewrite IH.
Qed.

(** X23 (RetrospectiveService.GetMulti): GetMulti never fails and changes
    nothing: it answers with one container per requested id, in the order of
    the request (an id asked twice is answered twice), holding the
    retrospective stored under that id, and an empty container for an id
    under which nothing is stored. *)
Theorem GetMulti_containers (ctx : context.Context)
    (req : pb.GetMultiRetrospectivesRequest.t) (w : World) :
  ∃ containers,
    RetrospectiveService.GetMulti ctx req w
      = (Ok (pb.GetMultiRetrospectivesResponse.mk containers), w) ∧
    length containers = length (pb.GetMultiRetrospectivesRequest.RetrospectiveIds req) ∧
    ∀ i id, pb.GetMultiRetrospectivesRequest.RetrospectiveIds req !! i = Some id →
      containers !! i = Some (convertVstoreRetroToPb <$> retros w !! id).
Proof.
  exists ((λ id, convertVstoreRetroToPb <$> retros w !! id)
            <$> pb.GetMultiRetrospectivesRequest.RetrospectiveIds req).
  split; [|split].
  - unfold RetrospectiveService.GetMulti, mbind, M_bind.
    by rewrite getContainers_run.
  - by rewrite length_fmap.
  - intros i id Hi. by rewrite list_lookup_fmap, Hi.
Qed.

(** ** The action item service *)

Section ActionItems.
Context {RT : GoRuntime}.

Lemma lookup_assign_update_field {X : Type} (f : Retrospective.t → X)
    (id k : string) (r : Retrospective.t) (m : gmap string Retrospective.t)
    (u : time.Time) :
  f (Retrospective.withUpdated u r) = f r →
  f <$> <[k := Retrospective.withUpdated u r]> (<[id := r]> m) !! id = Some (f r).
Proof.
  intros Hf. destruct (decide (k = id)) as [->|Hne].
  - rewrite lookup_insert_eq. simpl. by rewrite Hf.
  - rewrite lookup_insert_ne by done. by rewrite lookup_insert_eq.
Qed.

Lemma action_Create_no_retro ctx req s :
  pb.CreateActionItemRequest.Description req ≠ "" →
  pb.CreateActionItemRequest.RetrospectiveId req ≠ "" →
  retros (world s) !! pb.CreateActionItemRequest.RetrospectiveId req = None →
  ActionItemService.Create ctx req s = (Err (errStatus codes.NotFound "not found"), s).
Proof.
  intros Hd Hr Hget. unfold ActionItemService.Create.
  rewrite (bool_decide_eq_false_2 _ Hd), (bool_decide_eq_true_2 _ Hr).
  unfold mbind, MS_bind, inWorld, onErr, InMemoryRetrospectiveStore.Get.
  rewrite Hget. simpl. by destruct s.
Qed.

Lemma action_Create_no_team ctx req s :
  pb.CreateActionItemRequest.Description req ≠ "" →
  (pb.CreateActionItemRequest.RetrospectiveId req ≠ "" →
   is_Some (retros (world s) !! pb.CreateActionItemRequest.RetrospectiveId req)) →
  teamFor req (contextRetro req s) = "" →
  ActionItemService.Create ctx req s
  = (Err (errStatus codes.InvalidArgument "invalid argument: team_id is required"), s).
Proof.
  intros Hd Hr Hteam. unfold ActionItemService.Create.
  rewrite (bool_decide_eq_false_2 _ Hd).
  unfold teamFor, contextRetro in Hteam.
  destruct (decide (pb.CreateActionItemRequest.RetrospectiveId req = "")) as [Hrid|Hrid].
  - rewrite (bool_decide_eq_false_2 (_ ≠ "")) by (by intros ?).
    unfold mbind, MS_bind. simpl.
    case_decide; simpl in Hteam; [|done].
    by rewrite bool_decide_eq_true_2.
  - rewrite (bool_decide_eq_true_2 _ Hrid).
    destruct (Hr Hrid) as [retro Hget]. rewrite Hget in Hteam.
    unfold mbind, MS_bind, inWorld, onErr, InMemoryRetrospectiveStore.Get.
    rewrite Hget. simpl.
    case_decide as Ht; simpl in Hteam; [|done].
    rewrite (bool_decide_eq_true_2 _ Ht). rewrite bool_decide_eq_true_2 by done.
    by destruct s.
Qed.

Lemma action_Create_run ctx req s :
  pb.CreateActionItemRequest.Description req ≠ "" →
  (pb.CreateActionItemRequest.RetrospectiveId req ≠ "" →
   is_Some (retros (world s) !! pb.CreateActionItemRequest.RetrospectiveId req)) →
  teamFor req (contextRetro req s) ≠ "" →
  ∃ w',
    ActionItemService.Create ctx req s
      = (Ok (pb.CreateActionItemResponse.mk
               (convertVstoreActionItemToPb (createdAction ctx req s))),
         mkServer w'
           (<[ActionItem.ActionItemID (createdAction ctx req s) := createdAction ctx req s]>
              (actionItems s))) ∧
    retros w' = countedRetros req s ∧
    items w' = items (world s) ∧ votes w' = votes (world s) ∧
    participants w' = participants (world s) ∧ hubOf w' = hubOf (world s) ∧
    clockReads (world s) ≤ clockReads w'.
Proof.
  intros Hd Hr Hteam. unfold ActionItemService.Create.
  rewrite (bool_decide_eq_false_2 _ Hd).
  unfold createdAction, countedRetros.
  unfold teamFor, contextRetro in *.
  destruct (decide (pb.CreateActionItemRequest.RetrospectiveId req = "")) as [Hrid|Hrid].
  - rewrite (bool_decide_eq_false_2 (_ ≠ "")) by (by intros ?).
    unfold mbind, MS_bind. simpl.
    case_decide as Ht; simpl in Hteam; [done|].
    rewrite bool_decide_eq_false_2 by done.
    unfold InMemoryActionItemStore.Create, onErrS, mbind, MS_bind, inWorld, time_Now,
      modifyActionItems. simpl.
    eexists. split;
      [destruct (pb.CreateActionItemRequest.DueDate req); simpl;
         case_bool_decide; repeat case_decide; try done; simpl; reflexivity
      |do 5 (split; [done|]); simpl; lia].
  - rewrite (bool_decide_eq_true_2 _ Hrid).
    destruct (Hr Hrid) as [retro Hget]. rewrite Hget in Hteam |- *.
    unfold mbind, MS_bind, inWorld, onErr, InMemoryRetrospectiveStore.Get.
    rewrite Hget. simpl.
    assert ((if bool_decide (pb.CreateActionItemRequest.TeamId req = "")
             then Retrospective.TeamID retro else pb.CreateActionItemRequest.TeamId req)
            = (if decide (pb.CreateActionItemRequest.TeamId req = "")
               then Retrospective.TeamID retro else pb.CreateActionItemRequest.TeamId req))
      as -> by (by case_bool_decide; case_decide).
    simpl in Hteam. rewrite (bool_decide_eq_false_2 _ Hteam).
    unfold InMemoryActionItemStore.Create, onErrS, mbind, MS_bind, inWorld, time_Now,
      modifyActionItems, InMemoryRetrospectiveStore.assign, InMemoryRetrospectiveStore.Update,
      ignoreErr, mbind, M_bind, modify, time_Now. simpl.
    eexists. split;
      [destruct (pb.CreateActionItemRequest.DueDate req); simpl;
         case_bool_decide; repeat case_decide; try done; simpl; reflexivity
      |do 5 (split; [done|]); simpl; lia].
Qed.

Lemma action_Update_run ctx item existing s :
  pb.ActionItem.ActionItemId item ≠ "" →
  actionItems s !! pb.ActionItem.ActionItemId item = Some existing →
  ActionItemService.Update ctx (pb.UpdateActionItemRequest.mk (Some item)) s
  = (Ok (), editedServer (pb.ActionItem.ActionItemId item) (editedAction item existing) s).
Proof.
  intros Hid Hget. unfold ActionItemService.Update. simpl.
  rewrite (bool_decide_eq_false_2 _ Hid).
  unfold mbind, MS_bind, onErrS, InMemoryActionItemStore.Get. rewrite Hget.
  reflexivity.
Qed.

Lemma action_Update_fails ctx req s :
  (∀ item, pb.UpdateActionItemRequest.ActionItem req = Some item →
     pb.ActionItem.ActionItemId item = "" ∨
     actionItems s !! pb.ActionItem.ActionItemId item = None) →
  ∃ e, ActionItemService.Update ctx req s = (Err e, s).
Proof.
  intros Hno. unfold ActionItemService.Update.
  destruct (pb.UpdateActionItemRequest.ActionItem req) as [item|]; [|by eexists].
  case_bool_decide as Hid; [by eexists|].
  destruct (Hno item eq_refl) as [?|Hget]; [done|].
  unfold mbind, MS_bind, onErrS, InMemoryActionItemStore.Get. rewrite Hget. by eexists.
Qed.

Lemma action_UpdateStatus_run ctx req existing s :
  pb.UpdateActionItemStatusRequest.ActionItemId req ≠ "" →
  actionItems s !! pb.UpdateActionItemStatusRequest.ActionItemId req = Some existing →
  ActionItemService.UpdateStatus ctx req s
  = (Ok (), editedServer (pb.UpdateActionItemStatusRequest.ActionItemId req)
              (statusSetAction req existing) s).
Proof.
  intros Hid Hget. unfold ActionItemService.UpdateStatus.
  rewrite (bool_decide_eq_false_2 _ Hid).
  unfold mbind, MS_bind, onErrS, InMemoryActionItemStore.Get. rewrite Hget.
  reflexivity.
Qed.

Lemma action_UpdateStatus_fails ctx req s :
  pb.UpdateActionItemStatusRequest.ActionItemId req = "" ∨
  actionItems s !! pb.UpdateActionItemStatusRequest.ActionItemId req = None →
  ∃ e, ActionItemService.UpdateStatus ctx req s = (Err e, s).
Proof.
  intros Hno. unfold ActionItemService.UpdateStatus.
  case_bool_decide as Hid; [by eexists|].
  destruct Hno as [?|Hget]; [done|].
  unfold mbind, MS_bind, onErrS, InMemoryActionItemStore.Get. rewrite Hget. by eexists.
Qed.

Lemma editedAction_core item existing :
  actionCore (editedAction item existing) = actionCore existing.
Proof.
  unfold editedAction.
  destruct (pb.ActionItem.DueDate item); by repeat case_bool_decide.
Qed.

Lemma statusSetAction_core req existing :
  actionCore (statusSetAction req existing) = actionCore existing.
Proof. unfold statusSetAction. by case_bool_decide. Qed.

Lemma actionCore_edit id edited existing s k :
  actions_wf s →
  actionItems s !! id = Some existing →
  actionCore edited = actionCore existing →
  actionCore <$> actionItems (editedServer id edited s) !! k
  = actionCore <$> actionItems s !! k.
Proof.
  intros Hwf Hget Hcore. unfold editedServer. simpl.
  assert (ActionItem.ActionItemID edited = id) as ->.
  { apply (f_equal (λ c, c.1.1.1.1.1.1)) in Hcore. simpl in Hcore.
    rewrite Hcore. by apply (Hwf id existing). }
  rewrite insert_insert_eq.
  destruct (decide (k = id)) as [->|Hne].
  - rewrite lookup_insert_eq, Hget. simpl. f_equal. exact Hcore.
  - by rewrite lookup_insert_ne.
Qed.

Lemma action_Delete_fails ctx req s :
  pb.DeleteActionItemRequest.ActionItemId req = "" ∨
  actionItems s !! pb.DeleteActionItemRequest.ActionItemId req = None →
  ∃ e, ActionItemService.Delete ctx req s = (Err e, s).
Proof.
  intros Hno. unfold ActionItemService.Delete.
  case_bool_decide as Hid; [by eexists|].
  destruct Hno as [?|Hget]; [done|].
  unfold mbind, MS_bind, onErrS, InMemoryActionItemStore.Get. rewrite Hget. by eexists.
Qed.

Lemma action_Delete_run ctx req item s :
  let id := pb.DeleteActionItemRequest.ActionItemId req in
  let retroID := ActionItem.RetrospectiveID item in
  id ≠ "" →
  actionItems s !! id = Some item →
  ∃ w',
    ActionItemService.Delete ctx req s = (Ok (), mkServer w' (delete id (actionItems s))) ∧
    (retroID = "" ∨ retros (world s) !! retroID = None → retros w' = retros (world s)) ∧
    (∀ retro, retroID ≠ "" → retros (world s) !! retroID = Some retro →
       let retro' := Retrospective.withActionItemCount
                       (int32 (Retrospective.ActionItemCount retro - 1)) retro in
       retros w' = <[Retrospective.RetrospectiveID retro :=
                       Retrospective.withUpdated (time.At (wallClock (clockReads (world s))))
                         retro']> (<[retroID := retro']> (retros (world s)))) ∧
    items w' = items (world s) ∧ votes w' = votes (world s) ∧
    participants w' = participants (world s) ∧ hubOf w' = hubOf (world s) ∧
    clockReads (world s) ≤ clockReads w'.
Proof.
  intros id retroID Hid Hget. unfold ActionItemService.Delete. fold id.
  rewrite (bool_decide_eq_false_2 _ Hid).
  unfold mbind, MS_bind, onErrS, InMemoryActionItemStore.Get. rewrite Hget.
  simpl. fold retroID.
  case_bool_decide as Hr.
  - unfold inWorld, ignoreErr, InMemoryRetrospectiveStore.Get. simpl.
    destruct (retros (world s) !! retroID) as [retro|] eqn:Hretro; simpl.
    + eexists. split; [reflexivity|]. simpl.
      split; [by intros [?|?]|]. split; [|do 4 (split; [done|]); simpl; lia].
      intros retro' _ [= <-]. reflexivity.
    + eexists. split; [reflexivity|]. simpl.
      split; [done|]. split; [|do 4 (split; [done|]); simpl; lia]. by intros retro' _ ?.
  - eexists. split; [reflexivity|]. simpl.
    split; [done|]. split; [|do 4 (split; [done|]); simpl; lia]. intros retro' Hne. by destruct Hr.
Qed.

End ActionItems.

(** X24 (ActionItemService.Create, InMemoryActionItemStore.Create): a
    request with a description that names no stored retrospective under a
    given id is answered with NotFound, and one for which neither the
    request nor the retrospective gives a team with InvalidArgument; neither
    changes anything.  Every other request is accepted: the action item is
    stored under ACTION-<now>, not started, with the priority of the request
    (MEDIUM if it gives none), the team of the request or else of the
    retrospective, the sprint name of the retrospective and the caller as
    its creator; the action item count of the retrospective grows by one,
    and no card and no vote is touched. *)
Theorem action_Create_effect `{!GoRuntime} (ctx : context.Context)
    (req : pb.CreateActionItemRequest.t) (s : Server) :
  let retroID := pb.CreateActionItemRequest.RetrospectiveId req in
  let retro := contextRetro req s in
  let r := ActionItemService.Create ctx req s in
  pb.CreateActionItemRequest.Description req ≠ "" →
  (retroID ≠ "" → retros (world s) !! retroID = None →
   r = (Err (errStatus codes.NotFound "not found"), s)) ∧
  ((retroID ≠ "" → is_Some (retros (world s) !! retroID)) →
   (teamFor req retro = "" →
    r = (Err (errStatus codes.InvalidArgument "invalid argument: team_id is required"), s)) ∧
   (teamFor req retro ≠ "" →
    ∃ stored,
      r.1 = Ok (pb.CreateActionItemResponse.mk (convertVstoreActionItemToPb stored)) ∧
      ActionItem.ActionItemID stored
        = "ACTION-" +:+ pretty (wallClock (clockReads (world s))) ∧
      actionItems r.2 = <[ActionItem.ActionItemID stored := stored]> (actionItems s) ∧
      ActionItem.RetrospectiveID stored = retroID ∧
      ActionItem.SourceItemID stored = pb.CreateActionItemRequest.SourceItemId req ∧
      ActionItem.TeamID stored = teamFor req retro ∧
      ActionItem.Description stored = pb.CreateActionItemRequest.Description req ∧
      ActionItem.Status stored = ActionItemStatusNotStarted ∧
      ActionItem.Priority stored ≠ ActionItemPriorityUnspecified ∧
      (pb.CreateActionItemRequest.Priority req ≠ ActionItemPriorityUnspecified →
       ActionItem.Priority stored = pb.CreateActionItemRequest.Priority req) ∧
      (pb.CreateActionItemRequest.Priority req = ActionItemPriorityUnspecified →
       ActionItem.Priority stored = ActionItemPriorityMedium) ∧
      ActionItem.SourceSprintName stored = from_option Retrospective.SprintName "" retro ∧
      ActionItem.AssigneeID stored = pb.CreateActionItemRequest.AssigneeId req ∧
      (ActionItem.AssigneeName stored = "Team Member"
       ↔ pb.CreateActionItemRequest.AssigneeId req ≠ "") ∧
      ActionItem.CreatedBy stored = getUserIDFromContext ctx ∧
      (∀ retro0, retro = Some retro0 →
         Retrospective.ActionItemCount <$> retros (world r.2) !! retroID
         = Some (int32 (Retrospective.ActionItemCount retro0 + 1))) ∧
      (retro = None → retros (world r.2) = retros (world s)) ∧
      items (world r.2) = items (world s) ∧ votes (world r.2) = votes (world s))).
Proof.
  intros retroID retro r Hd. split; [by apply action_Create_no_retro|].
  intros Hr. split; [by apply action_Create_no_team|].
  intros Hteam.
  destruct (action_Create_run ctx req s Hd Hr Hteam)
    as (w' & Hrun & Hretros & Hitems & Hvotes & _).
  exists (createdAction ctx req s). subst r. rewrite Hrun. simpl.
  do 8 (split; [done|]).
  split; [by case_decide|]. split; [intros ?; by rewrite decide_False|].
  split; [intros ?; by rewrite decide_True|].
  split; [done|]. split; [done|].
  split; [unfold getAssigneeName; by case_bool_decide|].
  split; [done|]. split; [|split; [|by split]].
  - intros retro0 Hretro0. rewrite Hretros. unfold countedRetros.
    fold retro. rewrite Hretro0.
    by apply (lookup_assign_update_field Retrospective.ActionItemCount).
  - intros Hnone. rewrite Hretros. unfold countedRetros. fold retro. by rewrite Hnone.
Qed.

Lemma action_Create_effect_witness :
  ∃ stored,
    (ActionItemService.Create (H := simRuntime 1000) context.Background
       (pb.CreateActionItemRequest.mk "R" "A" "" "write the runbook" "" 
          ActionItemPriorityUnspecified None) actionServer).1
      = Ok (pb.CreateActionItemResponse.mk (convertVstoreActionItemToPb stored)) ∧
    ActionItem.ActionItemID stored = "ACTION-1000" ∧
    ActionItem.TeamID stored = "team" ∧
    ActionItem.Priority stored = ActionItemPriorityMedium.
Proof.
  destruct (action_Create_effect (H := simRuntime 1000) context.Background
              (pb.CreateActionItemRequest.mk "R" "A" "" "write the runbook" ""
                 ActionItemPriorityUnspecified None) actionServer)
    as [_ Hok]; [done|].
  destruct Hok as [_ Hok]; [intros _; by eexists|].
  destruct Hok as (stored & Hrun & Hid & _ & _ & _ & Hteam & _ & _ & _ & _ & Hprio & _);
    [done|].
  exists stored. split; [exact Hrun|]. split; [exact Hid|]. split; [exact Hteam|].
  by apply Hprio.
Defined.

(** X25 (ActionItemService.Delete, InMemoryActionItemStore.Delete): the
    deletion of an action item that is not stored is answered with NotFound
    and changes nothing; the deletion of a stored one removes it and no
    other and lowers the action item count of its retrospective, if it names
    one that is stored, by one, with no floor at zero; no card and no vote
    is touched. *)
Theorem action_Delete_effect `{!GoRuntime} (ctx : context.Context)
    (req : pb.DeleteActionItemRequest.t) (s : Server) :
  let id := pb.DeleteActionItemRequest.ActionItemId req in
  let r := ActionItemService.Delete ctx req s in
  id ≠ "" →
  (actionItems s !! id = None → r = (Err (errStatus codes.NotFound "not found"), s)) ∧
  (∀ item, actionItems s !! id = Some item →
     let retroID := ActionItem.RetrospectiveID item in
     r.1 = Ok () ∧
     actionItems r.2 = delete id (actionItems s) ∧
     (∀ retro, retroID ≠ "" → retros (world s) !! retroID = Some retro →
        Retrospective.ActionItemCount <$> retros (world r.2) !! retroID
        = Some (int32 (Retrospective.ActionItemCount retro - 1))) ∧
     (retroID = "" ∨ retros (world s) !! retroID = None →
      retros (world r.2) = retros (world s)) ∧
     items (world r.2) = items (world s) ∧ votes (world r.2) = votes (world s)).
Proof.
  intros id r Hid. split.
  - intros Hget. subst r. unfold ActionItemService.Delete. fold id.
    rewrite (bool_decide_eq_false_2 _ Hid).
    unfold mbind, MS_bind, onErrS, InMemoryActionItemStore.Get. by rewrite Hget.
  - intros item Hget retroID.
    destruct (action_Delete_run ctx req item s Hid Hget)
      as (w' & Hrun & Hsame & Hedit & Hitems & Hvotes & _).
    subst r. rewrite Hrun. simpl. split; [done|]. split; [done|].
    split; [|by split].
    intros retro Hne Hretro. rewrite (Hedit retro Hne Hretro).
    by apply (lookup_assign_update_field Retrospective.ActionItemCount).
Qed.

Lemma action_Delete_effect_witness :
  let r := ActionItemService.Delete (H := simRuntime 1000) context.Background
             (pb.DeleteActionItemRequest.mk "ACTION-1") actionServer in
  r.1 = Ok () ∧ actionItems r.2 = ∅ ∧
  Retrospective.ActionItemCount <$> retros (world r.2) !! "R" = Some 0%Z.
Proof.
  destruct (action_Delete_effect (H := simRuntime 1000) context.Background
              (pb.DeleteActionItemRequest.mk "ACTION-1") actionServer) as [_ Hok]; [done|].
  destruct (Hok sampleAction eq_refl) as (Hrun & Hitems & Hcount & _).
  split; [exact Hrun|]. split; [etrans; [exact Hitems | vm_compute; reflexivity]|].
  exact (Hcount (Retrospective.withActionItemCount 1 boardRetro)
           ltac:(done) eq_refl).
Defined.

(** X26 (ActionItemService.Update, UpdateStatus): whatever the request and
    whether it is accepted or not, an update leaves the id, the
    retrospective, the source card, the team, the creator, the sprint name
    and the creation time of every action item as they were, adds and
    removes none, and touches no other store.  UpdateStatus of a stored
    action item sets the status of the request, whichever it is, and
    replaces the notes only by notes that are not empty; everything else but
    the time of the update stays. *)
Theorem action_updates_keep_identity `{!GoRuntime} (ctx : context.Context)
    (update : pb.UpdateActionItemRequest.t) (status : pb.UpdateActionItemStatusRequest.t)
    (s : Server) :
  actions_wf s →
  let u := ActionItemService.Update ctx update s in
  let t := ActionItemService.UpdateStatus ctx status s in
  let id := pb.UpdateActionItemStatusRequest.ActionItemId status in
  (∀ k, actionCore <$> actionItems u.2 !! k = actionCore <$> actionItems s !! k) ∧
  storesOf (world u.2) = storesOf (world s) ∧
  (∀ k, actionCore <$> actionItems t.2 !! k = actionCore <$> actionItems s !! k) ∧
  storesOf (world t.2) = storesOf (world s) ∧
  (∀ existing, id ≠ "" → actionItems s !! id = Some existing →
     t.1 = Ok () ∧
     ∃ stored,
       actionItems t.2 !! id = Some stored ∧
       ActionItem.Status stored = pb.UpdateActionItemStatusRequest.Status status ∧
       ActionItem.Notes stored
         = (if decide (pb.UpdateActionItemStatusRequest.Notes status = "")
            then ActionItem.Notes existing
            else pb.UpdateActionItemStatusRequest.Notes status) ∧
       ActionItem.Description stored = ActionItem.Description existing ∧
       ActionItem.AssigneeID stored = ActionItem.AssigneeID existing ∧
       ActionItem.Priority stored = ActionItem.Priority existing ∧
       ActionItem.DueDate stored = ActionItem.DueDate existing ∧
       (∀ k, k ≠ id → actionItems t.2 !! k = actionItems s !! k)).
Proof.
  intros Hwf u t id.
  assert ((∀ k, actionCore <$> actionItems u.2 !! k = actionCore <$> actionItems s !! k) ∧
          storesOf (world u.2) = storesOf (world s)) as [Hu1 Hu2].
  { subst u.
    destruct (pb.UpdateActionItemRequest.ActionItem update) as [item|] eqn:Hitem.
    - destruct (decide (pb.ActionItem.ActionItemId item = "")) as [Hid|Hid];
        [|destruct (actionItems s !! pb.ActionItem.ActionItemId item)
            as [existing|] eqn:Hget].
      + destruct (action_Update_fails ctx update s) as [e ->]; [|done].
        intros item' Hitem'. left. congruence.
      + destruct update as [item']. simpl in Hitem. subst item'.
        rewrite (action_Update_run ctx item existing s Hid Hget).
        split; [|done]. intros k.
        apply (actionCore_edit _ _ existing); [done | done | apply editedAction_core].
      + destruct (action_Update_fails ctx update s) as [e ->]; [|done].
        intros item' Hitem'. right. congruence.
    - destruct (action_Update_fails ctx update s) as [e ->]; [|done].
      intros item' Hitem'. congruence. }
  split; [done|]. split; [done|].
  destruct (decide (id = "")) as [Hid|Hid];
    [|destruct (actionItems s !! id) as [existing|] eqn:Hget].
  - destruct (action_UpdateStatus_fails ctx status s) as [e He]; [by left|].
    subst t. rewrite He. do 2 (split; [done|]). by intros existing ?.
  - subst t. rewrite (action_UpdateStatus_run ctx status existing s Hid Hget). fold id.
    split; [|split; [done|]].
    { intros k. apply (actionCore_edit _ _ existing); [done | done | apply statusSetAction_core]. }
    intros existing' _ [= <-]. split; [done|].
    exists (ActionItem.withUpdated (time.At (wallClock (clockReads (world s))))
              (statusSetAction status existing)).
    assert (ActionItem.ActionItemID (statusSetAction status existing) = id) as Hkey.
    { unfold statusSetAction. case_bool_decide; simpl; by apply (Hwf id existing). }
    unfold editedServer. simpl. rewrite Hkey, insert_insert_eq.
    split; [by rewrite lookup_insert_eq|].
    unfold statusSetAction. simpl.
    split; [by case_bool_decide|]. split; [by case_bool_decide; case_decide|].
    do 4 (split; [by case_bool_decide|]).
    intros k Hk. by rewrite lookup_insert_ne.
  - destruct (action_UpdateStatus_fails ctx status s) as [e He]; [by right|].
    subst t. rewrite He. do 2 (split; [done|]). intros existing _ ?. congruence.
Qed.

Lemma action_updates_keep_identity_witness :
  let t := ActionItemService.UpdateStatus (H := simRuntime 1000) context.Background
             (pb.UpdateActionItemStatusRequest.mk "ACTION-1" ActionItemStatusDone "")
             actionServer in
  t.1 = Ok () ∧
  ∃ stored, actionItems t.2 !! "ACTION-1" = Some stored ∧
            ActionItem.Status stored = ActionItemStatusDone ∧
            ActionItem.Notes stored = "".
Proof.
  destruct (action_updates_keep_identity (H := simRuntime 1000) context.Background
              (pb.UpdateActionItemRequest.mk None)
              (pb.UpdateActionItemStatusRequest.mk "ACTION-1" ActionItemStatusDone "")
              actionServer) as (_ & _ & _ & _ & Hset).
  - refine (bool_decide_unpack _ _). vm_compute. exact I.
  - destruct (Hset sampleAction) as (Hok & stored & Hget & Hstatus & Hnotes & _);
      [done | reflexivity |].
    split; [exact Hok|]. by exists stored.
Defined.

Section ActionLists.
Context {RT : GoRuntime}.

Lemma List_filter_decide {A : Type} (p : A → bool) (P : A → Prop) `{!∀ x, Decision (P x)}
    (l : list A) :
  (∀ x, p x = true ↔ P x) → List.filter p l = filter P l.
Proof.
  intros Hp. induction l as [|x l IH]; [done|].
  simpl. rewrite filter_cons, IH.
  destruct (p x) eqn:Hx; case_decide as HP; try done.
  - by apply Hp in Hx.
  - apply Hp in HP. congruence.
Qed.

Lemma existsb_elem_of {A : Type} `{!EqDecision A} (a : A) (l : list A) :
  existsb (λ x, bool_decide (a = x)) l = true ↔ a ∈ l.
Proof.
  rewrite existsb_exists. split.
  - intros (x & Hin & Hx). apply bool_decide_eq_true in Hx. subst x.
    by apply list_elem_of_In.
  - intros Hin. exists a. split; [by apply list_elem_of_In | by apply bool_decide_eq_true].
Qed.

Lemma keeps_matches filters item :
  ActionItemService.keeps (Some filters) item = true ↔ matchesFilters filters item.
Proof.
  unfold ActionItemService.keeps, matchesFilters.
  assert (∀ {A} (l : list A), 0 < length l ↔ l ≠ []) as Hlen.
  { intros A l. destruct l; simpl; split; (done || lia). }
  case_bool_decide as Ha.
  { split; [done|]. intros ([Hno|Heq] & _); by destruct Ha. }
  assert (pb.ListActionItemsFilters.AssigneeId filters = "" ∨
          ActionItem.AssigneeID item = pb.ListActionItemsFilters.AssigneeId filters) as Ha'.
  { destruct (decide (pb.ListActionItemsFilters.AssigneeId filters = "")); [by left|].
    right. destruct (decide (ActionItem.AssigneeID item
                             = pb.ListActionItemsFilters.AssigneeId filters)); [done|].
    by destruct Ha. }
  destruct (existsb _ (pb.ListActionItemsFilters.Statuses filters)) eqn:Hs; simpl.
  - apply existsb_elem_of in Hs. rewrite andb_false_r.
    destruct (existsb _ (pb.ListActionItemsFilters.Priorities filters)) eqn:Hp; simpl.
    + apply existsb_elem_of in Hp. rewrite andb_false_r.
      split; [|done]. intros _. split; [done|]. split; by right.
    + rewrite andb_true_r. case_bool_decide as Hl.
      * split; [done|]. intros (_ & _ & [Hnil|Hin]).
        -- by apply Hlen in Hl.
        -- apply existsb_elem_of in Hin. congruence.
      * split; [|done]. intros _. split; [done|]. split; [by right|]. left.
        destruct (pb.ListActionItemsFilters.Priorities filters); [done|].
        simpl in Hl. lia.
  - rewrite andb_true_r. case_bool_decide as Hl.
    + split; [done|]. intros (_ & [Hnil|Hin] & _).
      * by apply Hlen in Hl.
      * apply existsb_elem_of in Hin. congruence.
    + assert (pb.ListActionItemsFilters.Statuses filters = []) as Hnil.
      { destruct (pb.ListActionItemsFilters.Statuses filters); [done|]. simpl in Hl. lia. }
      destruct (existsb _ (pb.ListActionItemsFilters.Priorities filters)) eqn:Hp; simpl.
      * apply existsb_elem_of in Hp. rewrite andb_false_r.
        split; [|done]. intros _. split; [done|]. split; [by left | by right].
      * rewrite andb_true_r. case_bool_decide as Hl'.
        -- split; [done|]. intros (_ & _ & [Hnil'|Hin]).
           ++ by apply Hlen in Hl'.
           ++ apply existsb_elem_of in Hin. congruence.
        -- split; [|done]. intros _. split; [done|]. split; [by left|]. left.
           destruct (pb.ListActionItemsFilters.Priorities filters); [done|].
           simpl in Hl'. lia.
Qed.

Lemma action_values_perm (s : Server) :
  (rangeOrder (mapRanges (world s)) (actionItems s)).*2 ≡ₚ allActionItems s.
Proof. apply range_values_perm. Qed.

End ActionLists.

(** X27 (ActionItemService.List, ListByTeam, InMemoryActionItemStore.
    ListByRetrospective, ListByTeam): List without filters, or with filters
    that name neither a retrospective nor a team, is refused with
    InvalidArgument.  Otherwise it returns, each once, the action items of
    the retrospective of the filters (the team of the filters is ignored
    when a retrospective is named) or else all those of the team, completed
    ones included, that have the assignee, one of the statuses and one of
    the priorities the filters name.  ListByTeam returns those of the team,
    without the ones done or not to be done unless they are asked for.
    Neither reports more results, and neither changes a store. *)
Theorem action_lists `{!GoRuntime} (ctx : context.Context)
    (req : pb.ListActionItemsRequest.t) (byTeam : pb.ListActionItemsByTeamRequest.t)
    (s : Server) :
  let l := ActionItemService.List ctx req s in
  let t := ActionItemService.ListByTeam ctx byTeam s in
  let refused := Err (errStatus codes.InvalidArgument
    "invalid argument: either retrospective_id or team_id filter is required") in
  (pb.ListActionItemsRequest.Filters req = None → l = (refused, s)) ∧
  (∀ filters, pb.ListActionItemsRequest.Filters req = Some filters →
     (pb.ListActionItemsFilters.RetrospectiveId filters = "" →
      pb.ListActionItemsFilters.TeamId filters = "" → l = (refused, s)) ∧
     (pb.ListActionItemsFilters.RetrospectiveId filters ≠ "" ∨
      pb.ListActionItemsFilters.TeamId filters ≠ "" →
      ∃ found,
        l.1 = Ok (pb.ListActionItemsResponse.mk
                    (convertVstoreActionItemToPb <$> found)
                    (pb.ListActionItemsResponse_PagingMetadata.mk false)) ∧
        found ≡ₚ filter (λ item, matchesFilters filters item ∧ listedFirst filters item)
                   (allActionItems s) ∧
        actionItems l.2 = actionItems s ∧ storesOf (world l.2) = storesOf (world s))) ∧
  (pb.ListActionItemsByTeamRequest.TeamId byTeam = "" →
   t = (Err (errStatus codes.InvalidArgument "invalid argument: team_id is required"), s)) ∧
  (pb.ListActionItemsByTeamRequest.TeamId byTeam ≠ "" →
   ∃ found,
     t.1 = Ok (pb.ListActionItemsResponse.mk
                 (convertVstoreActionItemToPb <$> found)
                 (pb.ListActionItemsResponse_PagingMetadata.mk false)) ∧
     found ≡ₚ filter (openOfTeam (pb.ListActionItemsByTeamRequest.TeamId byTeam)
                        (pb.ListActionItemsByTeamRequest.IncludeCompleted byTeam))
                (allActionItems s) ∧
     actionItems t.2 = actionItems s ∧ storesOf (world t.2) = storesOf (world s)).
Proof.
  intros l t refused. split; [|split; [|split]].
  - intros Hnone. subst l. unfold ActionItemService.List. by rewrite Hnone.
  - intros filters Hsome. subst l. unfold ActionItemService.List. rewrite Hsome.
    split.
    + intros Hr Ht.
      rewrite (bool_decide_eq_false_2 (_ ≠ "")) by (by intros ?).
      by rewrite (bool_decide_eq_false_2 (_ ≠ "")) by (by intros ?).
    + intros Hgiven.
      assert (∀ l0 : list ActionItem.t,
                List.filter (ActionItemService.keeps (Some filters)) l0
                = filter (matchesFilters filters) l0) as Hkeeps.
      { intros l0. apply List_filter_decide. intros x. apply keeps_matches. }
      destruct (decide (pb.ListActionItemsFilters.RetrospectiveId filters = ""))
        as [Hr|Hr].
      * destruct Hgiven as [?|Ht]; [done|].
        rewrite (bool_decide_eq_false_2 (_ ≠ "")) by (by intros ?).
        rewrite (bool_decide_eq_true_2 _ Ht).
        unfold mbind, MS_bind, onErrS, InMemoryActionItemStore.ListByTeam,
          mbind, MS_bind, rangeActionItems. simpl.
        eexists. split; [reflexivity|]. split; [|done].
        rewrite Hkeeps, list_filter_filter, action_values_perm.
        apply reflexive_eq, list_filter_iff. intros x.
        unfold InMemoryActionItemStore.ofTeam, listedFirst. rewrite decide_True by done.
        destruct (decide (ActionItem.TeamID x = pb.ListActionItemsFilters.TeamId filters))
          as [Hteam|Hteam].
        -- split; intros [Hm _]; (split; [exact Hm|]); [done|].
           split; [by intros ?|]. by intros [? _].
        -- split; [intros [_ [Hno _]]; by destruct Hno | by intros [_ ?]].
      * rewrite (bool_decide_eq_true_2 _ Hr).
        unfold mbind, MS_bind, onErrS, InMemoryActionItemStore.ListByRetrospective,
          mbind, MS_bind, rangeActionItems. simpl.
        eexists. split; [reflexivity|]. split; [|done].
        rewrite Hkeeps, list_filter_filter, action_values_perm.
        apply reflexive_eq, list_filter_iff. intros x.
        unfold listedFirst. by rewrite decide_False.
  - intros Ht. subst t. unfold ActionItemService.ListByTeam.
    by rewrite (bool_decide_eq_true_2 _ Ht).
  - intros Ht. subst t. unfold ActionItemService.ListByTeam.
    rewrite (bool_decide_eq_false_2 _ Ht).
    unfold mbind, MS_bind, onErrS, InMemoryActionItemStore.ListByTeam,
      mbind, MS_bind, rangeActionItems. simpl.
    eexists. split; [reflexivity|]. split; [|done].
    rewrite action_values_perm.
    apply reflexive_eq, list_filter_iff. intros x.
    unfold InMemoryActionItemStore.ofTeam, openOfTeam.
    destruct (pb.ListActionItemsByTeamRequest.IncludeCompleted byTeam);
      destruct (decide (ActionItem.TeamID x = pb.ListActionItemsByTeamRequest.TeamId byTeam));
      destruct (decide (ActionItem.Status x = ActionItemStatusDone));
      destruct (decide (ActionItem.Status x = ActionItemStatusWontDo));
      intuition congruence.
Qed.

Lemma action_lists_witness :
  ∃ found,
    (ActionItemService.List (H := simRuntime 1000) context.Background
       (pb.ListActionItemsRequest.mk
          (Some (pb.ListActionItemsFilters.mk "R" "other team" "u1"
                   [ActionItemStatusInProgress] [])))
       actionServer).1
      = Ok (pb.ListActionItemsResponse.mk
              (convertVstoreActionItemToPb <$> found)
              (pb.ListActionItemsResponse_PagingMetadata.mk false)) ∧
    found ≡ₚ [sampleAction].
Proof.
  destruct (action_lists (H := simRuntime 1000) context.Background
              (pb.ListActionItemsRequest.mk
                 (Some (pb.ListActionItemsFilters.mk "R" "other team" "u1"
                          [ActionItemStatusInProgress] [])))
              (pb.ListActionItemsByTeamRequest.mk "team" false) actionServer)
    as (_ & Hlist & _).
  destruct (Hlist _ eq_refl) as [_ Hfound].
  destruct Hfound as (found & Hrun & Hperm & _); [by left|].
  exists found. split; [exact Hrun|].
  etrans; [exact Hperm|]. vm_compute. reflexivity.
Defined.

(** ** The details of a retrospective *)

(** X28 (RetrospectiveService.Get): Get without a retrospective id is
    refused with InvalidArgument and Get of an unknown one with NotFound.
    For a stored retrospective it returns the record together with the items
    of that retrospective, each once, when items are asked for and none
    otherwise, and with the action items of that retrospective, each once,
    when action items are asked for and none otherwise; the items and action
    items of other retrospectives are never in the answer, and no store is
    changed. *)
Theorem retro_Get_details `{!GoRuntime} (ctx : context.Context)
    (req : pb.GetRetrospectiveRequest.t) (s : Server) :
  let id := pb.GetRetrospectiveRequest.RetrospectiveId req in
  let r := RetrospectiveService.Get ctx req s in
  (id = "" →
   r = (Err (errStatus codes.InvalidArgument
               "invalid argument: retrospective_id is required"), s)) ∧
  (id ≠ "" → retros (world s) !! id = None →
   r = (Err (errStatus codes.NotFound "not found"), s)) ∧
  (∀ retro, id ≠ "" → retros (world s) !! id = Some retro →
   ∃ cards actions,
     r.1 = Ok (pb.GetRetrospectiveResponse.mk
                 (pb.RetrospectiveWithDetails.mk
                    (convertVstoreRetroToPb retro)
                    (convertVstoreItemToPb <$> cards)
                    (convertVstoreActionItemToPb <$> actions))) ∧
     cards ≡ₚ (if pb.GetRetrospectiveRequest.IncludeItems req
               then itemsOf id (world s) else []) ∧
     actions ≡ₚ (if pb.GetRetrospectiveRequest.IncludeActionItems req
                 then actionItemsOf id s else []) ∧
     actionItems r.2 = actionItems s ∧ storesOf (world r.2) = storesOf (world s)).
Proof.
  intros id r. subst r id. unfold RetrospectiveService.Get.
  split; [|split].
  - intros Hid. by rewrite (bool_decide_eq_true_2 _ Hid).
  - intros Hid Hnone. rewrite (bool_decide_eq_false_2 _ Hid).
    unfold mbind, MS_bind, inWorld, onErr, InMemoryRetrospectiveStore.Get.
    rewrite Hnone. simpl. by destruct s.
  - intros retro Hid Hsome. rewrite (bool_decide_eq_false_2 _ Hid).
    unfold mbind, MS_bind, inWorld, onErr, InMemoryRetrospectiveStore.Get.
    rewrite Hsome. simpl.
    destruct (ListByRetrospective_run (pb.GetRetrospectiveRequest.RetrospectiveId req)
                (world s)) as (its & Hrun & Hperm & _).
    unfold InMemoryItemStore.ListByRetrospective, mbind, M_bind, rangeMap in Hrun.
    simpl in Hrun. injection Hrun as Hits.
    destruct (pb.GetRetrospectiveRequest.IncludeItems req);
      destruct (pb.GetRetrospectiveRequest.IncludeActionItems req); simpl.
    + eexists its, _. rewrite Hits. split; [reflexivity|]. split; [exact Hperm|].
      split; [|done]. unfold actionItemsOf. by rewrite range_values_perm.
    + eexists its, []. rewrite Hits. split; [reflexivity|]. by split.
    + eexists [], _. split; [reflexivity|]. split; [done|].
      split; [|done]. unfold actionItemsOf. by rewrite range_values_perm.
    + eexists [], []. split; [reflexivity|]. by destruct s.
Qed.

Lemma retro_Get_details_witness :
  ∃ cards actions,
    (RetrospectiveService.Get (H := simRuntime 1000) context.Background
       (pb.GetRetrospectiveRequest.mk "R" true true) actionServer).1
      = Ok (pb.GetRetrospectiveResponse.mk
              (pb.RetrospectiveWithDetails.mk
                 (convertVstoreRetroToPb (Retrospective.withActionItemCount 1 boardRetro))
                 (convertVstoreItemToPb <$> cards)
                 (convertVstoreActionItemToPb <$> actions))) ∧
    cards ≡ₚ itemsOf "R" (world actionServer) ∧
    actions ≡ₚ [sampleAction].
Proof.
  destruct (retro_Get_details (H := simRuntime 1000) context.Background
              (pb.GetRetrospectiveRequest.mk "R" true true) actionServer)
    as (_ & _ & Hget).
  destruct (Hget (Retrospective.withActionItemCount 1 boardRetro)
              ltac:(done) ltac:(reflexivity))
    as (cards & actions & Hr & Hcards & Hactions & _).
  exists cards, actions. split; [exact Hr|]. split; [exact Hcards|].
  etrans; [exact Hactions|]. vm_compute. reflexivity.
Defined.

(** ** The action item counts *)

Section ActionCounts.
Context {RT : GoRuntime}.

Lemma count_insert_fresh {V : Type} (P : V → Prop) `{!∀ x, Decision (P x)}
    (m : gmap string V) (k : string) (v : V) :
  m !! k = None →
  length (filter P (map_to_list (<[k := v]> m)).*2)
  = (if decide (P v) then 1 else 0) + length (filter P (map_to_list m).*2).
Proof.
  intros Hk. rewrite (map_to_list_insert m k v Hk), fmap_cons, filter_cons. simpl.
  by case_decide.
Qed.

Lemma count_delete {V : Type} (P : V → Prop) `{!∀ x, Decision (P x)}
    (m : gmap string V) (k : string) (v : V) :
  m !! k = Some v →
  length (filter P (map_to_list m).*2)
  = (if decide (P v) then 1 else 0) + length (filter P (map_to_list (delete k m)).*2).
Proof.
  intros Hk. rewrite <- (count_insert_fresh P (delete k m) k v) by apply lookup_delete_eq.
  by rewrite insert_delete_id.
Qed.

Lemma count_replace {V : Type} (P : V → Prop) `{!∀ x, Decision (P x)}
    (m : gmap string V) (k : string) (v old : V) :
  m !! k = Some old → (P v ↔ P old) →
  length (filter P (map_to_list (<[k := v]> m)).*2)
  = length (filter P (map_to_list m).*2).
Proof.
  intros Hk HP. rewrite <- (insert_delete_eq m k v).
  rewrite count_insert_fresh by apply lookup_delete_eq.
  rewrite (count_delete P m k old Hk).
  destruct (decide (P v)), (decide (P old)); tauto || reflexivity.
Qed.

Lemma count_le_size {V : Type} (P : V → Prop) `{!∀ x, Decision (P x)}
    (m : gmap string V) :
  length (filter P (map_to_list m).*2) ≤ size m.
Proof.
  rewrite <- length_map_to_list, <- (length_fmap snd (map_to_list m)).
  apply length_filter.
Qed.

(** an update that keeps the core of the record keeps the books *)
Lemma editedServer_books id edited existing s :
  actionBooks s →
  actionItems s !! id = Some existing →
  actionCore edited = actionCore existing →
  actionBooks (editedServer id edited s).
Proof.
  intros (Hrw & Haw & Hempty & Hcount) Hget Hcore.
  pose proof (Haw id existing Hget) as Hid. simpl in Hid.
  unfold actionCore in Hcore. injection Hcore as Hkey Hretro _ _ _ _ _.
  rewrite Hid in Hkey.
  unfold editedServer, actionBooks. rewrite Hkey, insert_insert_eq. simpl.
  split; [exact Hrw|]. split; [|split; [exact Hempty|]].
  - apply map_Forall_insert_2; [exact Hkey | exact Haw].
  - intros k retro Hk. simpl in Hk. rewrite (Hcount k retro Hk).
    f_equal. unfold actionItemsOf. simpl. symmetry.
    apply (count_replace _ _ _ _ existing); [exact Hget|]. simpl. by rewrite Hretro.
Qed.

Lemma action_Update_books ctx req s :
  actionBooks s → actionBooks (ActionItemService.Update ctx req s).2.
Proof.
  intros Hbooks.
  destruct (pb.UpdateActionItemRequest.ActionItem req) as [item|] eqn:Hitem.
  - destruct (decide (pb.ActionItem.ActionItemId item = "")) as [Hid|Hid];
      [|destruct (actionItems s !! pb.ActionItem.ActionItemId item)
          as [existing|] eqn:Hget].
    + destruct (action_Update_fails ctx req s) as [e ->]; [|done].
      intros item' Hitem'. left. congruence.
    + destruct req as [item']. simpl in Hitem. subst item'.
      rewrite (action_Update_run ctx item existing s Hid Hget). simpl.
      apply (editedServer_books _ _ existing); [done | done | apply editedAction_core].
    + destruct (action_Update_fails ctx req s) as [e ->]; [|done].
      intros item' Hitem'. right. congruence.
  - destruct (action_Update_fails ctx req s) as [e ->]; [|done].
    intros item' Hitem'. congruence.
Qed.

Lemma action_UpdateStatus_books ctx req s :
  actionBooks s → actionBooks (ActionItemService.UpdateStatus ctx req s).2.
Proof.
  intros Hbooks.
  destruct (decide (pb.UpdateActionItemStatusRequest.ActionItemId req = "")) as [Hid|Hid];
    [|destruct (actionItems s !! pb.UpdateActionItemStatusRequest.ActionItemId req)
        as [existing|] eqn:Hget].
  - destruct (action_UpdateStatus_fails ctx req s) as [e ->]; [by left | done].
  - rewrite (action_UpdateStatus_run ctx req existing s Hid Hget). simpl.
    apply (editedServer_books _ _ existing); [done | done | apply statusSetAction_core].
  - destruct (action_UpdateStatus_fails ctx req s) as [e ->]; [by right | done].
Qed.

Lemma action_Create_books ctx req s :
  actionBooks s →
  (Z.of_nat (size (actionItems s)) < 2147483647)%Z →
  actionItems s !! ("ACTION-" +:+ pretty (wallClock (clockReads (world s)))) = None →
  actionBooks (ActionItemService.Create ctx req s).2.
Proof.
  intros Hbooks Hsize Hfresh.
  destruct (decide (pb.CreateActionItemRequest.Description req = "")) as [Hd|Hd].
  { unfold ActionItemService.Create. by rewrite (bool_decide_eq_true_2 _ Hd). }
  destruct (decide (teamFor req (contextRetro req s) = "")) as [Ht|Ht].
  { destruct (decide (pb.CreateActionItemRequest.RetrospectiveId req = "")) as [Hr|Hr];
      [|destruct (retros (world s) !! pb.CreateActionItemRequest.RetrospectiveId req)
          as [retro|] eqn:Hretro].
    - by rewrite action_Create_no_team.
    - rewrite action_Create_no_team; [done | done | by intros _; eexists | done].
    - by rewrite action_Create_no_retro. }
  destruct Hbooks as (Hrw & Haw & Hempty & Hcount).
  destruct (decide (pb.CreateActionItemRequest.RetrospectiveId req = "")) as [Hr|Hr];
    [|destruct (retros (world s) !! pb.CreateActionItemRequest.RetrospectiveId req)
        as [retro|] eqn:Hretro].
  - destruct (action_Create_run ctx req s Hd ltac:(done) Ht) as (w' & -> & Hretros & _).
    unfold countedRetros, contextRetro in Hretros.
    rewrite decide_True in Hretros by done.
    unfold actionBooks, retros_wf, actions_wf, actionCounts_ok. simpl. rewrite Hretros.
    split; [exact Hrw|]. split; [|split; [exact Hempty|]].
    + apply map_Forall_insert_2; [done | exact Haw].
    + intros k retro Hk. simpl. rewrite (Hcount k retro Hk). f_equal.
      unfold actionItemsOf. simpl. rewrite count_insert_fresh by exact Hfresh.
      rewrite decide_False; [done|]. simpl. intros <-. congruence.
  - destruct (action_Create_run ctx req s Hd ltac:(by intros _; eexists) Ht)
      as (w' & -> & Hretros & _).
    unfold countedRetros, contextRetro in Hretros.
    rewrite decide_False, Hretro in Hretros by done.
    pose proof (Hrw _ _ Hretro) as Hkey. simpl in Hkey, Hretros.
    rewrite Hkey, insert_insert_eq in Hretros.
    unfold actionBooks, retros_wf, actions_wf, actionCounts_ok. simpl. rewrite Hretros.
    split; [|split; [|split]].
    + apply map_Forall_insert_2; [exact Hkey | exact Hrw].
    + apply map_Forall_insert_2; [done | exact Haw].
    + by rewrite lookup_insert_ne.
    + intros k retro' Hk. simpl. unfold actionItemsOf. simpl.
      rewrite count_insert_fresh by exact Hfresh. simpl.
      destruct (decide (k = pb.CreateActionItemRequest.RetrospectiveId req)) as [->|Hne].
      * rewrite lookup_insert_eq in Hk. injection Hk as <-. simpl.
        rewrite decide_True by done.
        pose proof (Hcount _ _ Hretro) as Hc. simpl in Hc. unfold actionItemsOf in Hc.
        pose proof (count_le_size
                      (λ item, ActionItem.RetrospectiveID item
                               = pb.CreateActionItemRequest.RetrospectiveId req)
                      (actionItems s)).
        rewrite Hc, int32_id by lia. lia.
      * rewrite lookup_insert_ne in Hk by done.
        rewrite decide_False by (by intros ?).
        exact (Hcount k retro' Hk).
  - by rewrite action_Create_no_retro.
Qed.

Lemma action_Delete_books ctx req s :
  actionBooks s →
  (Z.of_nat (size (actionItems s)) < 2147483647)%Z →
  actionBooks (ActionItemService.Delete ctx req s).2.
Proof.
  intros Hbooks Hsize.
  destruct (decide (pb.DeleteActionItemRequest.ActionItemId req = "")) as [Hid|Hid];
    [|destruct (actionItems s !! pb.DeleteActionItemRequest.ActionItemId req)
        as [item|] eqn:Hget].
  - destruct (action_Delete_fails ctx req s) as [e ->]; [by left | done].
  - destruct Hbooks as (Hrw & Haw & Hempty & Hcount).
    destruct (action_Delete_run ctx req item s Hid Hget) as (w' & -> & Hsame & Hedit & _).
    unfold actionBooks, retros_wf, actions_wf, actionCounts_ok. simpl.
    destruct (decide (ActionItem.RetrospectiveID item = "")) as [Hr|Hr];
      [|destruct (retros (world s) !! ActionItem.RetrospectiveID item)
          as [retro|] eqn:Hretro].
    + rewrite Hsame by (by left).
      split; [exact Hrw|]. split; [by apply map_Forall_delete|]. split; [exact Hempty|].
      intros k retro Hk. simpl. rewrite (Hcount k retro Hk). f_equal.
      unfold actionItemsOf. simpl. rewrite (count_delete _ _ _ _ Hget).
      rewrite decide_False; [done|]. rewrite Hr. intros <-. congruence.
    + rewrite (Hedit retro Hr eq_refl).
      pose proof (Hrw _ _ Hretro) as Hkey. simpl in Hkey.
      rewrite Hkey, insert_insert_eq.
      split; [by apply map_Forall_insert_2|]. split; [by apply map_Forall_delete|].
      split; [by rewrite lookup_insert_ne|].
      intros k retro' Hk. simpl. unfold actionItemsOf. simpl.
      destruct (decide (k = ActionItem.RetrospectiveID item)) as [->|Hne].
      * rewrite lookup_insert_eq in Hk. injection Hk as <-. simpl.
        pose proof (Hcount _ _ Hretro) as Hc. simpl in Hc. unfold actionItemsOf in Hc.
        rewrite (count_delete _ _ _ _ Hget), decide_True in Hc by done.
        pose proof (count_le_size
                      (λ item0, ActionItem.RetrospectiveID item0
                                = ActionItem.RetrospectiveID item)
                      (delete (pb.DeleteActionItemRequest.ActionItemId req)
                         (actionItems s))) as Hle.
        pose proof (map_size_delete_Some _ _ (mk_is_Some _ _ Hget)) as Hsz.
        rewrite Hc, int32_id by lia. lia.
      * rewrite lookup_insert_ne in Hk by done.
        rewrite (Hcount k retro' Hk). f_equal.
        unfold actionItemsOf. rewrite (count_delete _ _ _ _ Hget).
        by rewrite decide_False by (by intros ?).
    + rewrite Hsame by (by right).
      split; [exact Hrw|]. split; [by apply map_Forall_delete|]. split; [exact Hempty|].
      intros k retro Hk. simpl. rewrite (Hcount k retro Hk). f_equal.
      unfold actionItemsOf. simpl. rewrite (count_delete _ _ _ _ Hget).
      rewrite decide_False; [done|]. intros Heq. rewrite Heq in Hretro. congruence.
  - destruct (action_Delete_fails ctx req s) as [e ->]; [by right | done].
Qed.

End ActionCounts.

(** X29 (ActionItemService.Create, Update, UpdateStatus, Delete): while
    fewer than 2^31 - 1 action items are stored, every call of the action
    item service, accepted or refused, keeps the books of the action items:
    each retrospective and each action item stays filed under its own id,
    and the action item count of each retrospective stays the number of the
    action items stored for it.  For Create this is shown when the id
    ACTION-<now> that it issues is not yet in use. *)
Theorem action_counts_kept `{!GoRuntime} (ctx : context.Context)
    (create : pb.CreateActionItemRequest.t) (update : pb.UpdateActionItemRequest.t)
    (status : pb.UpdateActionItemStatusRequest.t) (del : pb.DeleteActionItemRequest.t)
    (s : Server) :
  actionBooks s →
  (Z.of_nat (size (actionItems s)) < 2147483647)%Z →
  (actionItems s !! ("ACTION-" +:+ pretty (wallClock (clockReads (world s)))) = None →
   actionBooks (ActionItemService.Create ctx create s).2) ∧
  actionBooks (ActionItemService.Update ctx update s).2 ∧
  actionBooks (ActionItemService.UpdateStatus ctx status s).2 ∧
  actionBooks (ActionItemService.Delete ctx del s).2.
Proof.
  intros Hbooks Hsize. split; [|split; [|split]].
  - intros Hfresh. by apply action_Create_books.
  - by apply action_Update_books.
  - by apply action_UpdateStatus_books.
  - by apply action_Delete_books.
Qed.

Lemma action_counts_kept_witness :
  let created := (ActionItemService.Create (H := simRuntime 1000) context.Background
                    (pb.CreateActionItemRequest.mk "R" "A" "" "write the runbook" ""
                       ActionItemPriorityUnspecified None) actionServer).2 in
  let deleted := (ActionItemService.Delete (H := simRuntime 1000) context.Background
                    (pb.DeleteActionItemRequest.mk "ACTION-1") actionServer).2 in
  actionBooks created ∧ length (actionItemsOf "R" created) = 2 ∧
  actionBooks deleted ∧ length (actionItemsOf "R" deleted) = 0.
Proof.
  destruct (action_counts_kept (H := simRuntime 1000) context.Background
              (pb.CreateActionItemRequest.mk "R" "A" "" "write the runbook" ""
                 ActionItemPriorityUnspecified None)
              (pb.UpdateActionItemRequest.mk None)
              (pb.UpdateActionItemStatusRequest.mk "ACTION-1" ActionItemStatusDone "")
              (pb.DeleteActionItemRequest.mk "ACTION-1") actionServer)
    as (Hcreate & _ & _ & Hdelete).
  - refine (bool_decide_unpack _ _). vm_compute. exact I.
  - vm_compute. reflexivity.
  - split; [apply Hcreate; vm_compute; reflexivity|].
    split; [vm_compute; reflexivity|]. split; [exact Hdelete|].
    vm_compute. reflexivity.
Defined.

(** ** The update of a retrospective *)

(** X30 (RetrospectiveService.Update, InMemoryRetrospectiveStore.Update):
    an update without a retrospective or without its id is refused with
    InvalidArgument and one of an unknown retrospective with NotFound, and
    nothing changes.  An update of a stored retrospective replaces the
    sprint name, the description and the facilitator by those of the request
    that are not empty, so none of them can be cleared, and stamps the time;
    the status of the request is ignored, and the id, the team, the
    template, the status, the voting configuration, the counts and the other
    times stay as they were, as do all other retrospectives and all cards,
    votes, participants and subscriptions. *)
Theorem retro_Update_effect `{!GoRuntime} (ctx : context.Context)
    (req : pb.UpdateRetrospectiveRequest.t) (w : World) :
  retros_wf w →
  let r := RetrospectiveService.Update ctx req w in
  let refused := Err (errStatus codes.InvalidArgument
                        "invalid argument: retrospective is required") in
  (pb.UpdateRetrospectiveRequest.Retrospective req = None → r = (refused, w)) ∧
  (∀ given, pb.UpdateRetrospectiveRequest.Retrospective req = Some given →
     let id := pb.Retrospective.RetrospectiveId given in
     (id = "" → r = (refused, w)) ∧
     (id ≠ "" → retros w !! id = None →
      r = (Err (errStatus codes.NotFound "not found"), w)) ∧
     (∀ existing, id ≠ "" → retros w !! id = Some existing →
        r.1 = Ok () ∧
        ∃ stored,
          retros r.2 !! id = Some stored ∧
          Retrospective.SprintName stored
            = (if decide (pb.Retrospective.SprintName given = "")
               then Retrospective.SprintName existing
               else pb.Retrospective.SprintName given) ∧
          Retrospective.Description stored
            = (if decide (pb.Retrospective.Description given = "")
               then Retrospective.Description existing
               else pb.Retrospective.Description given) ∧
          Retrospective.FacilitatorID stored
            = (if decide (pb.Retrospective.FacilitatorId given = "")
               then Retrospective.FacilitatorID existing
               else pb.Retrospective.FacilitatorId given) ∧
          Retrospective.Updated stored = time.At (wallClock (clockReads w)) ∧
          retroCore stored = retroCore existing ∧
          (∀ k, k ≠ id → retros r.2 !! k = retros w !! k) ∧
          items r.2 = items w ∧ votes r.2 = votes w ∧
          participants r.2 = participants w ∧ hubOf r.2 = hubOf w)).
Proof.
  intros Hwf r refused. subst r. unfold RetrospectiveService.Update. split.
  - by intros ->.
  - intros given Hgiven. rewrite Hgiven.
    set (id := pb.Retrospective.RetrospectiveId given). split; [|split].
    + intros Hid. by rewrite (bool_decide_eq_true_2 _ Hid).
    + intros Hid Hnone. rewrite (bool_decide_eq_false_2 _ Hid).
      unfold mbind, M_bind, onErr, InMemoryRetrospectiveStore.Get.
      by rewrite Hnone.
    + intros existing Hid Hsome. rewrite (bool_decide_eq_false_2 _ Hid).
      unfold mbind, M_bind, onErr, InMemoryRetrospectiveStore.Get.
      rewrite Hsome.
      pose proof (Hwf id existing Hsome) as Hkey. simpl in Hkey.
      simpl. split; [done|].
      repeat case_bool_decide; simpl; rewrite Hkey, insert_insert_eq;
        (eexists; split; [apply lookup_insert_eq|]); simpl;
        repeat case_decide; try done;
        do 5 (split; [done|]); (split; [|done]);
        intros k Hk; by rewrite lookup_insert_ne.
Qed.

Lemma retro_Update_effect_witness :
  let r := RetrospectiveService.Update (H := simRuntime 1000) context.Background
             (pb.UpdateRetrospectiveRequest.mk
                (Some (pb.Retrospective.mk "R" "Sprint 2" "" RetrospectiveStatusCompleted "")))
             cardsWorld in
  r.1 = Ok () ∧
  ∃ stored, retros r.2 !! "R" = Some stored ∧
            Retrospective.SprintName stored = "Sprint 2" ∧
            Retrospective.Status stored = RetrospectiveStatusVoting ∧
            Retrospective.FacilitatorID stored = "mock-user-id".
Proof.
  destruct (retro_Update_effect (H := simRuntime 1000) context.Background
              (pb.UpdateRetrospectiveRequest.mk
                 (Some (pb.Retrospective.mk "R" "Sprint 2" ""
                          RetrospectiveStatusCompleted "")))
              cardsWorld) as [_ Hgiven].
  - refine (bool_decide_unpack _ _). vm_compute. exact I.
  - destruct (Hgiven _ eq_refl) as (_ & _ & Hok).
    destruct (Hok boardRetro ltac:(done) eq_refl)
      as (Hrun & stored & Hget & Hname & _ & Hfac & _ & Hcore & _).
    split; [exact Hrun|]. exists stored. split; [exact Hget|].
    split; [exact Hname|]. split; [|exact Hfac].
    by injection Hcore.
Defined.

(** * The status of a retrospective over the calls of the whole server *)

Section RetroSteps.







End RetroSteps.


Section ServiceSteps.
Context {RT : GoRuntime}.

















End ServiceSteps.

Section ServerSteps.
Context {RT : GoRuntime}.










End ServerSteps.



